(* ===== verification/_CoqProject ===== *)
-Q . S2P
Prelude.v
Eff.v
JsValue.v
Double.v
Format.v
Client.v
Form.v
Framework.v
Totals.v
RowCheck.v
DocCheck.v
Agreement.v
Requests.v
Lifecycle.v
Table.v
Cascade.v
Freeze.v
Order.v
Confluence.v
Engine.v
Host.v
Simulation.v
Abstraction.v
Language.v
