(* ===== verification/Prelude.v ===== *)
(** * Forecast Club form logic: a verification development

    ** The program

    [src/sales_forecast/sales_forecast/doctype/forecast_club/forecast_club.js]
    is the client script of the document type "Forecast Club" of a Frappe
    application.  It registers handlers for events of the form and of its
    child table "Forecast Club Item" (the [items] of the document), and
    defines four functions the handlers call:

    - [validate_week_and_batch_fields] runs before a save; it walks every
      row and the four weeks of each row, collects an error for each week
      that has a quantity and no batch count, shows the errors in one
      dialog and blocks the save by clearing [frappe.validated];
    - [validate_week_batch_relationship] runs when a week quantity or a
      batch count of a row changes and shows a warning that does not
      block;
    - [calculate_totals] runs when a batch count or the batch size of a
      row changes and recomputes [total_batch_qty] and [total_qty];
    - [fetch_sales_forecasts_if_dates_set] runs when a date or the
      company changes and calls the server once all three are set.

    The handlers [refresh] and [get_fetch_material_request_item] offer a
    button and call the server; the callbacks of the calls show alerts,
    redraw fields, reload or save the document.

    ** The files

    - [Prelude] (this file): the libraries the development uses, its
      hint databases and the lemmas on lists and strings shared by the
      other files.
    - [Eff]: the monad of the handlers, state and exceptions, in which a
      thrown exception keeps the mutations made before it; the loop
      [fold_each] for [forEach]; the rules of [guarantees] (frame
      conditions), [ensures] (a computation returns), [respects] (a
      computation cannot tell related states apart) and [relates] (two
      computations go the same way).
    - [JsValue] (Module [Js]): the values of a numeric field
      ([undefined], [null], [NaN], an integer) and the operators the
      script applies to them: [||], [!], [===], [>], [+], [*],
      conversion to a string.
    - [Double]: the Numbers of the source, IEEE 754 binary64 floats as
      the standard library specifies them ([SpecFloat] with [prec = 53]
      and [emax = 1024], round to nearest even): the double of an
      integer, [+] and [*] on doubles, and the proof that on integers
      below [2^53] in absolute value they are the integer sum and
      product ([add_exact], [mul_exact]) and that a double holds the safe
      integer it was made from ([to_Z_of_Z]).
    - [Format]: [$.format], the placeholder scanner behind [__], the
      translations [__] looks a text up in (the class [Messages], the
      framework's [frappe._messages]; [no_messages] when none is
      loaded), and [join]; the decimal numerals of the placeholders and of the
      messages, printed by [pretty] and read back by [array_index]; the
      lines of a text joined with [<br>], read back by [split_br].
    - [Client]: the state of the client as a record [world] (the
      document, the store [locals] of row objects, [frappe.validated],
      the log of what was shown, the custom buttons, the calls awaiting
      an answer, the saves the script requested, the tables sent to the
      server) and the operations of the framework the script calls, each
      a computation on that state.  The rows of [frm.doc.items] are names
      into the store, so a row read through [locals[cdt][cdn]] and the
      same row read through [frm.doc.items] are one object.  The class
      [Script] is the interface between a script and the framework: the
      handlers and closures the script registers.  The tactics [eff_run]
      (run a handler symbolically) and [frame] (prove a frame condition
      by the structure of the handler) are here.
    - [Form]: the script.  One definition per function of the source,
      under the source's name, statement by statement: Module
      [ForecastClub] for lines 4-127, Module [ForecastClubItem] for lines
      129-197.  A closure handed to the framework (a callback, the
      action of the button, the continuation of [frm.save()]) is a
      constructor of a data type of [Client] and a definition of [Form]
      that [run_callback], [run_action] and [run_continuation] select.
      The functions that show a text take the translations of the
      language of the user: [forecast_club_in L] is the script as the
      framework sees it when the translations [L] are loaded, and the
      instance [forecast_club] of [Script] is the script with none
      loaded, in the language of the source.
    - [Framework]: the events of a form session (the form is drawn, a
      field or a cell is edited, a button is pressed, the server answers,
      the document is saved) as a step function that runs the handlers
      of any [Script] the way the framework does.  The class [Blocking]
      says what a script must guarantee for the framework to promise
      that a save sends only valid tables to the server; [blocking_sessions]
      proves the promise from the class, by induction on the session.
      The events the script itself sets off (the answer to a call it
      sent, a save it requested) are the cascades; the class [Settling]
      says what a script must guarantee for them to run out, and the
      measure [pending] proves that they do.
    - [Totals], [RowCheck], [DocCheck]: for [calculate_totals],
      [validate_week_batch_relationship] and
      [validate_week_and_batch_fields], a reference definition of what
      the function computes, the theorem that the function, run on any
      state, returns exactly that (and throws exactly when a row or the
      table is missing), and the properties that follow: what is left
      alone, idempotence, the order and number of the errors, the texts.
    - [Agreement]: the warning and the error state the same rule with
      different tests; they agree on quantities that are not negative,
      differ on negative week quantities, and both let a negative batch
      count pass.
    - [Requests]: [refresh], the header handlers and the callbacks.
    - [Lifecycle]: the sessions of this form.  The script is [Blocking]
      for the validity of [DocCheck], so no invalid table is ever sent to
      the server; and the invariants particular to the form hold in every
      state a session reaches: the totals follow the edits, the button is
      never offered twice, every pending call is one of the form's.
    - [Table]: the well-formedness of the store, every name of
      [frm.doc.items] has its row object in [locals], and the lemmas
      that every event keeps it, which [Simulation] and [Freeze] use.
    - [Cascade]: the script is [Settling]: every cascade of calls,
      callbacks and saves ends, in any order of the answers, and each of
      the three calls of the form, once answered with success, runs to
      its alert.
    - [Freeze]: the option [freeze: true] the three calls pass (lines
      15, 39, 114).  The events of the user are [enabled] only while no
      call that freezes the page is awaited; the class [Freezing] says
      what a script must guarantee (a handler of the user sends at most
      one call and freezes the page with it, the handlers the framework
      runs on its own send none), and from it at most one call is
      awaited at any time and nothing but its answer changes the
      document while it is awaited.
    - [Order]: every event is a morphism of the equivalence of states up
      to the order of the log of what was shown, and the answers to two
      calls commute up to it; the lemmas [Confluence] rests on.
    - [Confluence]: the deliveries of the framework (an answer to a call
      that is awaited, a save that was requested) as a rewriting
      relation on states up to the order of the log.  Two deliveries
      commute, every delivery lowers the measure of [Cascade], so by
      Newman's lemma (of stdpp's [relations]) all complete orders of
      delivery end in the same state, the one the loop [settle]
      computes.
    - [Engine]: the contract the specification of the repository gives
      (a forecast line, [checkRowConsistency], [recomputeTotals],
      [validateDocument]) as pure functions on integers, and the
      theorems that the handlers implement it under the abstraction that
      reads each field of a row as a number.
    - [Host]: the caller of the engine the specification describes, which
      owns the lines and calls the engine when a quantity, a batch count
      or the batch size changes and when the document is submitted, as a
      machine on lines of integers; and the simulation: the form, run by
      the framework, refines this machine change by change and session
      by session.
    - [Simulation]: the converse for the whole form: every session, with
      all its events, is a run of the host by the changes the events
      stand for ([abstract]); a document the server sends replaces the
      lines; the events that are no change of a line, no save and no
      such answer leave the host as it is, and show no dialog.
    - [Abstraction]: the equivalence of rows that stand for the same
      line, with the reference definitions of the validation and of the
      totals as morphisms of it ([Proper] instances); every line is the
      line of a row.
    - [Language]: the form under any translations.  All files above
      but [Format] and [Form] study [forecast_club], the script in the
      language of the source.  [Language] relates it to
      [forecast_club_in L] for an arbitrary dictionary [L]: handler by
      handler the two go the same way ([relates], by the structure of
      the handlers) up to the texts shown, for every relation on states
      that the updates of the client keep (the class [Texts]).  From
      this the script is [Blocking] and [Settling] in every language,
      a session in any language is, but for its texts, a session in
      the language of the source, and the properties of sessions proved
      in the files above that cannot tell texts apart hold in every
      language.

    ** What the theorems show

    Each function of the source has a theorem of the form
    [f args w = ...] that gives its outcome and final state on every
    path, so nothing the function does is left out of what is proved
    about it.  On top of these: the blocking validation accepts exactly
    the tables without a violating week ([validate_blocks_iff],
    [save_accepts_iff]) and no sequence of events gets around it
    ([session_saved_valid]); the totals are a function of the batch
    counts and the batch size after every event of a session that does
    not write them from outside ([session_totals_ok]); the handlers
    refine the operations of the specification
    ([validate_document_refines], [calculate_totals_refines],
    [row_check_refines], [batch_change_refines]), and the form as a whole
    refines the host of the specification: it follows the host change by
    change ([change_refines], [session_refines]), every session of it,
    whatever its events, is a run of the host ([form_refines_host]),
    and the dialogs it shows are those of the diagnostics the engine
    returns along that run ([session_dialogs]).  What the script sets off
    comes to an end
    ([cascade_terminates], [cascade_settles]) and each of the three
    calls of the form reaches its end ([fetch_completes],
    [create_completes], [forecasts_complete]); the order in which the
    framework delivers the answers and the saves that are pending
    changes nothing but the order of what is shown
    ([deliveries_confluent], [answer_order]), and
    the loop [settle] computes the state they all end in
    ([settle_any_order]); with the page frozen during a call the form
    awaits one call at a time ([session_single_flight]) and the callback
    finds the document the call was sent with
    ([frozen_document_stable]); the row number of an error reads back
    from its text ([error_row_roundtrip]), the errors are exactly those
    of the weeks in violation ([doc_errors_exact]), no two of them are
    the same text ([one_error_per_violation]) and the dialog the
    validation shows has each on a line of its own
    ([dialog_lines_are_the_errors]); the integers [calculate_totals]
    stores are, for bounded inputs, the doubles that lines 191 and 194
    compute in binary64 arithmetic ([calculate_totals_in_doubles]), and
    beyond the bound they are not ([totals_rounded_beyond_safe]); the
    language of the user changes
    the texts and nothing else ([sessions_same_but_texts]): in every
    language no invalid table is saved
    ([saved_valid_in_every_language]), every cascade ends
    ([cascade_terminates_in_every_language]), the totals follow the
    edits, one call is awaited at a time and the form refines the host
    ([totals_ok_in_every_language], [single_flight_in_every_language],
    [refines_host_in_every_language], [dialogs_in_every_language]),
    while what a text says is up to the translation: the row number of
    an error reads back under the translations that name the row first
    ([row_reads_back_in]), and the script reads the translations of its
    own ten texts and of no other ([depends_on_its_texts]).  Where code,
    comments and specification differ the theorems state the
    difference: a negative week quantity is rejected at save time but
    not warned about at edit time ([negative_week_blocked_not_warned]),
    a negative batch count passes both tests although the comments ask
    for a batch greater than 0 ([negative_batch_accepted]), the
    refinement of the
    host holds for quantities that are not negative and fails on a
    negative one ([negative_submission_differs]), the warning carries a sentence
    the specification does not have, and the functions throw on a row or
    table that does not exist.

    ** Assumptions and bounds

    - Numbers are integers ([Z]) in the handlers.  The script computes
      with doubles; [Double] proves that on integers of magnitude at most
      [2^53 - 1] binary64 addition and multiplication are the integer
      ones, and [calculate_totals_in_doubles] gives the bound on the
      inputs (four counts in [0, c], a size in [0, s], with [4c], [s] and
      [4cs] safe integers) under which the totals [calculate_totals]
      stores are the doubles of the source.  Fractions, [Infinity], the
      sign of zero and numeric fields that hold strings are outside the
      model; the texts of the errors have no tag of their own because
      fields hold numbers.
    - A request keeps the method, the freeze option, the freeze message
      and the callback of [frm.call], not its argument [doc: frm.doc]:
      the three calls pass the document to the server as it stands,
      validated or not, and the tables the safety theorems speak of are
      those a save sends.
    - [frm.reload_doc()] (line 23) is recorded in the log when the
      callback asks for it.  The arrival of the reloaded document and
      the redraw that follows are not events of the model: a document of
      the server enters a session only with the answer to a call, so the
      theorems on sessions do not cover what happens once a reload has
      completed.
    - The translations are a finite map from source texts to texts; a
      text that has no translation, or an empty one, stands for itself,
      as in the framework.  The theorems of the files before [Language]
      are about the script with no translation loaded, where [__]
      returns its source text with the arguments substituted by
      [$.format]; those of them that are about what a text says
      ([dialog_lines_are_the_errors], [one_error_per_violation],
      [session_dialogs]) hold in that language only, and [Language]
      carries the others to every language.  The contexts of [__] (a third argument, which this
      script never passes) are not modelled.
    - A handler runs to completion before the next event (the event loop
      of the browser); the answers of the server arrive as events, in any
      order.  A save the script requests is an event of its own, which
      the model lets happen after other events: it allows more
      interleavings than a browser, and what is proved of all sessions
      holds of those of a browser.
    - The theorems of [Framework], [Lifecycle], [Cascade] and
      [Order] hold of all sequences of events, also of those in which the
      user acts while the page is frozen; the theorems of [Freeze] are
      about the sequences the frozen page allows ([possible]).  A redraw
      of the form is an event of the framework and can happen at any
      time.
    - [Confluence] takes the server as a function of the call that sends
      no document with its answer.  An answer that replaces the document
      does not commute with a save, which sends the table of the
      document ([document_order_matters]).
    - Every definition is executable.  The handlers need no fuel: the
      loops are structural over the rows and the scanner of [$.format] is
      structural over the text.  The one loop with fuel is [settle], the
      event loop that delivers the answers and the saves that are
      pending; [settle_quiescent] proves that the fuel [pending 1 w],
      twice the calls awaited plus the saves requested, is enough for it
      to end with nothing pending, because a callback of this script
      sends no call and requests at most one save.  The scenarios of the
      specification are evaluated by [vm_compute].
    - The refinement of the host is stated for tables in which no row
      name occurs twice and for values that are not negative; the
      specification gives the lines non-negative quantities.  In
      [form_refines_host] the user does not write the two totals, which
      would change a line without a change of the host, and a document
      the server sends has a well-typed table without negative
      quantities; it replaces the lines of the host, as the editor
      around the host may.

    ** What is not modelled

    The server methods behind the three calls (Python code outside
    [src/]), whose answers are inputs of the model; the rendering of
    dialogs, alerts and the grid, of which the model keeps the ordered
    log, and the overlay that covers a frozen page, of which the model
    keeps the events it disables; the persistence of a saved document,
    of which the model keeps the table that was sent.  Every line of
    code of [forecast_club.js] is modelled: the lines the definitions do
    not cover are the comments of the licence and two blank lines. *)

From stdpp Require Export base tactics option list strings gmap numbers pretty.

(** ** Hint databases

    [fc] collects the resolution hints of the development (the rules of
    the frame conditions), the rewrite database [fc_simpl] the equations
    that normalise JavaScript expressions, [fc_run] the equations that
    run the primitives of the framework. *)

Create HintDb fc discriminated.
Create Rewrite HintDb fc_simpl.
Create Rewrite HintDb fc_run.

(** ** Tactics *)

(** [by_compute] proves a decidable closed proposition by evaluating its
    decision procedure. *)
Ltac by_compute := apply (bool_decide_unpack _); vm_compute; exact I.

(** ** Lists: indexed maps and concatenations *)

Section indexed.
Context {A B : Type}.
Implicit Types (f : nat → A → B) (l : list A) (P : B → Prop).

Lemma Forall_imap P f l :
  Forall P (imap f l) ↔ ∀ i x, l !! i = Some x → P (f i x).
Proof.
  rewrite Forall_lookup. setoid_rewrite list_lookup_imap. split.
  - intros H i x Hx. apply (H i). by rewrite Hx.
  - intros H i y Hy. destruct (l !! i) as [x|] eqn:Hx; simplify_eq/=. eauto.
Qed.

End indexed.

Lemma fmap_concat {A B} (f : A → B) (ls : list (list A)) :
  f <$> concat ls = concat (map (map f) ls).
Proof. induction ls as [|l ls IH]; simpl; [done|]. by rewrite fmap_app, IH. Qed.

(** Two indexed maps over one list are related element by element. *)
Lemma Forall2_imap_same {A B C} (R : B → C → Prop) (f : nat → A → B) (g : nat → A → C)
    (l : list A) :
  (∀ i x, l !! i = Some x → R (f i x) (g i x)) → Forall2 R (imap f l) (imap g l).
Proof.
  revert f g. induction l as [|x l IH]; intros f g H; simpl; constructor.
  - by apply (H 0).
  - apply IH. intros i y Hy. by apply (H (S i)).
Qed.

(** An indexed map of related lists, by a function that does not tell
    related elements apart. *)
Lemma imap_Forall2_ext {A B} (R : relation A) (f : nat → A → B) (l l' : list A) :
  (∀ i x y, R x y → f i x = f i y) → Forall2 R l l' → imap f l = imap f l'.
Proof.
  intros Hf H. revert f Hf.
  induction H as [|x y l l' Hxy _ IH]; intros f Hf; simpl; [done|].
  f_equal; [by apply Hf|]. apply IH. intros i. apply Hf.
Qed.

(** Sublists, piece by piece, concatenate to a sublist. *)
Lemma sublist_concat {A} (ls ls' : list (list A)) :
  Forall2 sublist ls ls' → concat ls `sublist_of` concat ls'.
Proof. induction 1; simpl; [done|]. by apply sublist_app. Qed.

Lemma length_concat_le {A} (k : nat) (ls : list (list A)) :
  Forall (λ l, length l ≤ k) ls → length (concat ls) ≤ k * length ls.
Proof.
  induction 1 as [|l ls Hl _ IH]; simpl; [lia|]. rewrite length_app. lia.
Qed.

Lemma elem_of_concat {A} (x : A) (ls : list (list A)) :
  x ∈ concat ls ↔ ∃ l, x ∈ l ∧ l ∈ ls.
Proof.
  induction ls as [|l ls IH]; simpl.
  - rewrite elem_of_nil. split; [done|]. by intros (l & _ & ?%elem_of_nil).
  - rewrite elem_of_app, IH. setoid_rewrite elem_of_cons. split.
    + intros [?|(l' & ? & ?)]; eauto.
    + intros (l' & ? & [->|?]); eauto.
Qed.

(** A concatenation of lists of at most one element is a filter. *)
Lemma concat_fmap_if {A B} (p : A → bool) (g : A → B) (l : list A) :
  concat ((λ x, if p x then [g x] else []) <$> l) = g <$> filter (λ x, p x = true) l.
Proof.
  induction l as [|x l IH]; [done|]. rewrite fmap_cons, filter_cons. cbn [concat].
  rewrite IH. destruct (p x); by case_decide.
Qed.

Lemma length_concat_imap {A B} (f : nat → A → list B) (g : A → nat) l :
  (∀ i x, length (f i x) = g x) → length (concat (imap f l)) = sum_list (g <$> l).
Proof.
  revert f. induction l as [|x l IH]; intros f Hf; [done|].
  cbn [imap concat]. rewrite length_app, Hf, (IH (f ∘ S)); [done|]. intros; apply Hf.
Qed.

(** Lists without duplicates whose elements tell their position have a
    concatenation without duplicates. *)
Lemma NoDup_concat_imap {A B} (key : B → option nat) (f : nat → A → list B) l n :
  (∀ i x, NoDup (f i x)) → (∀ i x e, e ∈ f i x → key e = Some (n + i)) →
  NoDup (concat (imap f l)).
Proof.
  revert f n. induction l as [|x l IH]; intros f n Hf Hkey; simpl; [constructor|].
  apply NoDup_app. split_and!; [apply Hf| |].
  - intros e He (l' & He' & (i & Hi)%list_elem_of_lookup_1)%elem_of_concat.
    rewrite list_lookup_imap in Hi. destruct (l !! i) as [y|]; simplify_eq/=.
    apply Hkey in He, He'. rewrite He in He'. simplify_eq. lia.
  - apply (IH _ (S n)); [intros; apply Hf|].
    intros i y e He. rewrite (Hkey _ _ _ He). f_equal. lia.
Qed.

(** ** Strings *)

Lemma string_app_assoc (s1 s2 s3 : string) : (s1 +:+ s2) +:+ s3 = s1 +:+ (s2 +:+ s3).
Proof.
  induction s1 as [|c s1 IH]; [done|].
  change (String c ((s1 +:+ s2) +:+ s3) = String c (s1 +:+ (s2 +:+ s3))). by f_equal.
Qed.

Lemma string_app_nil_r (s : string) : s +:+ "" = s.
Proof.
  induction s as [|c s IH]; [done|].
  change (String c (s +:+ "") = String c s). by f_equal.
Qed.

Lemma string_app_inv_head (s a b : string) : s +:+ a = s +:+ b → a = b.
Proof. induction s as [|c s IH]; simpl; [done|]. intros [= H]. by apply IH. Qed.

(** Two texts of the same length that begin equal texts are equal. *)
Lemma string_app_inv_length (l l' r r' : string) :
  String.length l = String.length l' → l +:+ r = l' +:+ r' → l = l' ∧ r = r'.
Proof.
  revert l'. induction l as [|c l IH]; intros [|c' l'] Hlen; simpl in *; try done.
  intros [= -> H]. destruct (IH l') as [-> ->]; [lia|done|done].
Qed.
