(* ===== verification/Eff.v ===== *)
(** * Eff: state and exceptions, the effects of a JavaScript handler

    A handler of the form reads and mutates the client's state and may
    throw (a [TypeError] on a property read of [undefined]).  A thrown
    exception does not undo the mutations made before it, so a computation
    maps a state to an outcome that carries the final state on both paths.
    The monad is an instance of stdpp's [MRet] and [MBind]: handlers are
    written with [x ← c; k] and [c;; k].  Three program logics come with
    it, each with a rule per combinator: [guarantees] for what a
    computation leaves related to its start, [ensures] for what it
    returns, [respects] for the states it cannot tell apart; [relates]
    is the logic of two computations that go the same way. *)

From S2P Require Import Prelude.

Inductive outcome (St E A : Type) : Type :=
| Ok (a : A) (s : St)
| Throw (e : E) (s : St).

Arguments Ok {St E A} a s.
Arguments Throw {St E A} e s.

Definition eff (St E A : Type) : Type := St → outcome St E A.

(** The state a computation ends in, whether it returned or threw. *)
Definition final {St E A} (o : outcome St E A) : St :=
  match o with
  | Ok _ s => s
  | Throw _ s => s
  end.

Section eff.
Context {St E : Type}.

#[export] Instance eff_ret : MRet (eff St E) := λ A a s, Ok a s.

#[export] Instance eff_bind : MBind (eff St E) := λ A B f c s,
  match c s with
  | Ok a s' => f a s'
  | Throw e s' => Throw e s'
  end.

Definition get : eff St E St := λ s, Ok s s.

Definition gets {A} (f : St → A) : eff St E A := λ s, Ok (f s) s.

Definition modify (f : St → St) : eff St E unit := λ s, Ok tt (f s).

Definition throw {A} (e : E) : eff St E A := λ s, Throw e s.

(** [if (b) { c }] *)
Definition when (b : bool) (c : eff St E unit) : eff St E unit :=
  if b then c else mret tt.

(** [l.forEach((x, idx) => ...)] with a body that updates a local variable
    of the enclosing function: the variable is threaded through the loop
    as [acc], the index counts from [idx]. *)
Fixpoint fold_each {X B} (body : B → X → nat → eff St E B) (idx : nat) (acc : B)
    (l : list X) : eff St E B :=
  match l with
  | [] => mret acc
  | x :: l' => acc' ← body acc x idx; fold_each body (S idx) acc' l'
  end.

(** ** Frame conditions

    [guarantees R c]: whatever [c] does, and whether it returns or throws,
    the state it ends in is related by [R] to the state it started in.
    For a preorder [R] the property is closed under sequencing. *)
Definition guarantees {A} (R : relation St) (c : eff St E A) : Prop :=
  ∀ s, R s (final (c s)).

(** [ensures P c Q]: from a state satisfying [P], [c] returns (it does not
    throw), and its result and final state satisfy [Q]. *)
Definition ensures {A} (P : St → Prop) (c : eff St E A) (Q : A → St → Prop) : Prop :=
  ∀ s, P s → ∃ a s', c s = Ok a s' ∧ Q a s'.

(** Two outcomes of the same kind, with the same result, in related
    states. *)
Inductive outcome_rel {A} (R : relation St) : relation (outcome St E A) :=
| Ok_rel a s s' : R s s' → outcome_rel R (Ok a s) (Ok a s')
| Throw_rel e s s' : R s s' → outcome_rel R (Throw e s) (Throw e s').

(** [respects R c]: [c] cannot tell related states apart.  From related
    states it returns the same result or throws the same exception, in
    related states. *)
Definition respects {A} (R : relation St) (c : eff St E A) : Prop :=
  Proper (R ==> outcome_rel R) c.

(** Two outcomes of the same kind in related states: both returned, with
    results related by [Q], or both threw the same exception. *)
Inductive outcome_sim {A A'} (Q : A → A' → Prop) (R : relation St) :
    outcome St E A → outcome St E A' → Prop :=
| Ok_sim a a' s s' : Q a a' → R s s' → outcome_sim Q R (Ok a s) (Ok a' s')
| Throw_sim e s s' : R s s' → outcome_sim Q R (Throw e s) (Throw e s').

(** [relates Q R c c']: two computations that go the same way.  From
    related states both return, with results related by [Q], or both
    throw the same exception, and they end in related states. *)
Definition relates {A A'} (Q : A → A' → Prop) (R : relation St)
    (c : eff St E A) (c' : eff St E A') : Prop :=
  ∀ s s', R s s' → outcome_sim Q R (c s) (c' s').

(** ** Equations of the monad, pointwise *)

Lemma run_bind {A B} (c : eff St E A) (f : A → eff St E B) s :
  (c ≫= f) s = match c s with Ok a s' => f a s' | Throw e s' => Throw e s' end.
Proof. done. Qed.

Lemma bind_ret_l {A B} (a : A) (f : A → eff St E B) s : (mret a ≫= f) s = f a s.
Proof. done. Qed.

Lemma bind_ret_r {A} (c : eff St E A) s : (c ≫= mret) s = c s.
Proof. rewrite run_bind. by destruct (c s). Qed.

Lemma bind_assoc {A B C} (c : eff St E A) (f : A → eff St E B) (g : B → eff St E C) s :
  ((c ≫= f) ≫= g) s = (c ≫= λ a, f a ≫= g) s.
Proof. rewrite !run_bind. by destruct (c s). Qed.

Lemma bind_Ok {A B} (c : eff St E A) (f : A → eff St E B) s b s'' :
  (c ≫= f) s = Ok b s'' ↔ ∃ a s', c s = Ok a s' ∧ f a s' = Ok b s''.
Proof.
  rewrite run_bind. destruct (c s) as [a s'|e s']; split; intros H;
    try destruct H as (? & ? & ? & ?); simplify_eq; eauto 6.
Qed.

Lemma bind_Throw {A B} (c : eff St E A) (f : A → eff St E B) s e s'' :
  (c ≫= f) s = Throw e s'' ↔
  c s = Throw e s'' ∨ ∃ a s', c s = Ok a s' ∧ f a s' = Throw e s''.
Proof.
  rewrite run_bind. destruct (c s) as [a s'|e' s']; split; intros H;
    try destruct H as [?|(? & ? & ? & ?)]; simplify_eq; eauto 6.
Qed.

(** ** Loops *)

(** A loop whose body only reads the state and pushes what it finds at the
    end of a list computes the concatenation of the findings, in the order
    of the elements. *)
Lemma fold_each_push {X B} (body : list B → X → nat → eff St E (list B))
    (found : X → nat → list B) s l :
  (∀ acc x i, body acc x i s = Ok (acc ++ found x i) s) →
  ∀ idx acc,
    fold_each body idx acc l s =
    Ok (acc ++ concat (imap (λ i x, found x (idx + i)) l)) s.
Proof.
  intros Hbody. induction l as [|x l IH]; intros idx acc; simpl.
  - by rewrite app_nil_r.
  - rewrite run_bind, Hbody, IH, Nat.add_0_r, app_assoc. do 3 f_equal.
    apply imap_ext. intros i y _. simpl. f_equal. lia.
Qed.

(** ** Rules for [guarantees] *)

Section guarantees.
Context (R : relation St) `{!PreOrder R}.

Lemma guarantees_ret {A} (a : A) : guarantees R (mret a).
Proof. intros s. simpl. reflexivity. Qed.

Lemma guarantees_throw {A} (e : E) : guarantees R (throw (A:=A) e).
Proof. intros s. simpl. reflexivity. Qed.

Lemma guarantees_get : guarantees R get.
Proof. intros s. simpl. reflexivity. Qed.

Lemma guarantees_gets {A} (f : St → A) : guarantees R (gets f).
Proof. intros s. simpl. reflexivity. Qed.

Lemma guarantees_modify (f : St → St) : (∀ s, R s (f s)) → guarantees R (modify f).
Proof. intros Hf s. apply Hf. Qed.

Lemma guarantees_bind {A B} (c : eff St E A) (f : A → eff St E B) :
  guarantees R c → (∀ a, guarantees R (f a)) → guarantees R (c ≫= f).
Proof.
  intros Hc Hf s. rewrite run_bind. specialize (Hc s).
  destruct (c s) as [a s'|e s']; simpl in *; [|done].
  etrans; [done|apply Hf].
Qed.

Lemma guarantees_when b (c : eff St E unit) :
  guarantees R c → guarantees R (when b c).
Proof. destruct b; [done|]. intros _. apply guarantees_ret. Qed.

Lemma guarantees_fold_each {X B} (body : B → X → nat → eff St E B) l :
  (∀ acc x i, guarantees R (body acc x i)) →
  ∀ idx acc, guarantees R (fold_each body idx acc l).
Proof.
  intros Hbody. induction l as [|x l IH]; intros idx acc; simpl.
  - apply guarantees_ret.
  - apply guarantees_bind; [apply Hbody|intros; apply IH].
Qed.

End guarantees.

(** ** Rules for [respects] *)

Section respects.
Context (R : relation St).

Lemma respects_final {A} (c : eff St E A) s s' :
  respects R c → R s s' → R (final (c s)) (final (c s')).
Proof. intros Hc Hs. by destruct (Hc s s' Hs). Qed.

Lemma respects_ret {A} (a : A) : respects R (mret a).
Proof. intros s s' Hs. by constructor. Qed.

Lemma respects_throw {A} (e : E) : respects R (throw (A:=A) e).
Proof. intros s s' Hs. by constructor. Qed.

Lemma respects_gets {A} (f : St → A) :
  (∀ s s', R s s' → f s = f s') → respects R (gets f).
Proof. intros Hf s s' Hs. unfold gets. rewrite (Hf s s' Hs). by constructor. Qed.

Lemma respects_modify (f : St → St) : Proper (R ==> R) f → respects R (modify f).
Proof. intros Hf s s' Hs. constructor. by apply Hf. Qed.

Lemma respects_bind {A B} (c : eff St E A) (f : A → eff St E B) :
  respects R c → (∀ a, respects R (f a)) → respects R (c ≫= f).
Proof.
  intros Hc Hf s s' Hs. rewrite !run_bind.
  destruct (Hc s s' Hs) as [a t t' Ht|e t t' Ht]; [by apply Hf|by constructor].
Qed.

Lemma respects_when b (c : eff St E unit) : respects R c → respects R (when b c).
Proof. destruct b; [done|]. intros _. apply respects_ret. Qed.

Lemma respects_fold_each {X B} (body : B → X → nat → eff St E B) l :
  (∀ acc x i, respects R (body acc x i)) →
  ∀ idx acc, respects R (fold_each body idx acc l).
Proof.
  intros Hbody. induction l as [|x l IH]; intros idx acc; simpl.
  - apply respects_ret.
  - apply respects_bind; [apply Hbody|intros; apply IH].
Qed.

End respects.

(** ** Rules for [relates] *)

Section relates.
Context (R : relation St).

Lemma relates_final {A A'} (Q : A → A' → Prop) c c' s s' :
  relates Q R c c' → R s s' → R (final (c s)) (final (c' s')).
Proof. intros Hc Hs. by destruct (Hc s s' Hs). Qed.

Lemma relates_respects {A} (c : eff St E A) : relates eq R c c ↔ respects R c.
Proof.
  split; intros Hc s s' Hs; destruct (Hc s s' Hs); simplify_eq; by constructor.
Qed.

Lemma relates_mono {A A'} (Q Q' : A → A' → Prop) c c' :
  (∀ a a', Q a a' → Q' a a') → relates Q R c c' → relates Q' R c c'.
Proof. intros HQ Hc s s' Hs. destruct (Hc s s' Hs); constructor; auto. Qed.

Lemma relates_ret {A A'} (Q : A → A' → Prop) a a' :
  Q a a' → relates Q R (mret a) (mret a').
Proof. intros Ha s s' Hs. by constructor. Qed.

Lemma relates_throw {A A'} (Q : A → A' → Prop) (e : E) :
  relates Q R (throw e) (throw e).
Proof. intros s s' Hs. by constructor. Qed.

Lemma relates_gets {A A'} (Q : A → A' → Prop) (f : St → A) (f' : St → A') :
  (∀ s s', R s s' → Q (f s) (f' s')) → relates Q R (gets f) (gets f').
Proof. intros Hf s s' Hs. constructor; auto. Qed.

Lemma relates_modify (f f' : St → St) :
  (∀ s s', R s s' → R (f s) (f' s')) → relates eq R (modify f) (modify f').
Proof. intros Hf s s' Hs. constructor; auto. Qed.

Lemma relates_bind {A A' B B'} (Q : A → A' → Prop) (T : B → B' → Prop)
    c c' (f : A → eff St E B) (f' : A' → eff St E B') :
  relates Q R c c' → (∀ a a', Q a a' → relates T R (f a) (f' a')) →
  relates T R (c ≫= f) (c' ≫= f').
Proof.
  intros Hc Hf s s' Hs. rewrite !run_bind.
  destruct (Hc s s' Hs) as [a a' t t' Ha Ht|e t t' Ht]; [by apply Hf|by constructor].
Qed.

Lemma relates_when b (c c' : eff St E unit) :
  relates eq R c c' → relates eq R (when b c) (when b c').
Proof. destruct b; [done|]. intros _. by apply relates_ret. Qed.

Lemma relates_fold_each {X B B'} (Q : B → B' → Prop)
    (body : B → X → nat → eff St E B) (body' : B' → X → nat → eff St E B') l :
  (∀ acc acc' x i, Q acc acc' → relates Q R (body acc x i) (body' acc' x i)) →
  ∀ idx acc acc', Q acc acc' →
    relates Q R (fold_each body idx acc l) (fold_each body' idx acc' l).
Proof.
  intros Hbody. induction l as [|x l IH]; intros idx acc acc' Hacc; simpl.
  - by apply relates_ret.
  - eapply relates_bind; [by apply Hbody|intros; by apply IH].
Qed.

End relates.

(** ** Rules for [ensures] *)

Lemma ensures_bind {A B} (c : eff St E A) (f : A → eff St E B) P Q T :
  ensures P c Q → (∀ a, ensures (Q a) (f a) T) → ensures P (c ≫= f) T.
Proof.
  intros Hc Hf s Hs. destruct (Hc s Hs) as (a & s' & Hrun & Hq).
  destruct (Hf a s' Hq) as (b & s'' & Hrun' & Ht).
  exists b, s''. split; [|done]. apply bind_Ok. eauto.
Qed.

Lemma ensures_consequence {A} (c : eff St E A) (P P' : St → Prop) (Q Q' : A → St → Prop) :
  (∀ s, P' s → P s) → (∀ a s, Q a s → Q' a s) → ensures P c Q → ensures P' c Q'.
Proof.
  intros HP HQ Hc s Hs. destruct (Hc s (HP s Hs)) as (a & s' & ? & ?). eauto.
Qed.

End eff.

#[export] Hint Resolve guarantees_ret guarantees_throw guarantees_get
  guarantees_gets guarantees_modify guarantees_bind guarantees_when
  guarantees_fold_each : fc.
