(* ===== verification/JsValue.v ===== *)
(** * JsValue: the JavaScript values and operators the form logic uses

    The handlers of [forecast_club.js] read numeric fields of a child row
    and combine them with [||], [!], [===], [>], [&&], [+] and [*].  This
    file gives these operators their ECMAScript meaning on the values a
    numeric Frappe field can hold on the client: [undefined], [null], [NaN]
    and a number.  Numbers are the integers ([Z]); [safe_integer] is the
    range in which an IEEE double represents them exactly. *)

From S2P Require Import Prelude.

Module Js.

Local Open Scope Z_scope.

(** ** Values *)

Inductive value : Type :=
| VUndefined
| VNull
| VNaN
| VNum (n : Z).

#[global] Instance value_eq_dec : EqDecision value.
Proof. solve_decision. Defined.

#[global] Instance value_inhabited : Inhabited value := populate VUndefined.

(** ** Conversions *)

(** ToBoolean: [undefined], [null], [NaN] and [0] are falsy. *)
Definition to_boolean (v : value) : bool :=
  match v with
  | VNum n => negb (n =? 0)
  | _ => false
  end.

(** ToNumber: [undefined] is [NaN], [null] is [0]. *)
Definition to_number (v : value) : value :=
  match v with
  | VUndefined => VNaN
  | VNull => VNum 0
  | _ => v
  end.

(** ToString, as a template substitution prints a value. *)
Definition to_string (v : value) : string :=
  match v with
  | VUndefined => "undefined"
  | VNull => "null"
  | VNaN => "NaN"
  | VNum n => pretty n
  end.

(** ** Operators *)

(** [a || b] is [a] when [a] is truthy and [b] otherwise. *)
Definition or (a b : value) : value :=
  if to_boolean a then a else b.

(** [!a] *)
Definition not (a : value) : bool := negb (to_boolean a).

(** [a === b]: no conversion, and [NaN] equals nothing. *)
Definition strict_eq (a b : value) : bool :=
  match a, b with
  | VUndefined, VUndefined => true
  | VNull, VNull => true
  | VNum x, VNum y => x =? y
  | _, _ => false
  end.

(** [a > b]: both sides go through ToNumber; a comparison with [NaN] is
    false. *)
Definition gt (a b : value) : bool :=
  match to_number a, to_number b with
  | VNum x, VNum y => y <? x
  | _, _ => false
  end.

(** Arithmetic on two non-string operands. *)
Definition arith (op : Z → Z → Z) (a b : value) : value :=
  match to_number a, to_number b with
  | VNum x, VNum y => VNum (op x y)
  | _, _ => VNaN
  end.

(** [a + b] *)
Definition add : value → value → value := arith Z.add.

(** [a * b] *)
Definition mul : value → value → value := arith Z.mul.

(** ** Derived notions used in specifications *)

(** The integer a field stands for once [|| 0] has been applied to it. *)
Definition num_or_zero (v : value) : Z :=
  match v with
  | VNum n => n
  | _ => 0
  end.

(** A value is a number (neither missing nor [NaN]). *)
Definition is_num (v : value) : bool :=
  match v with
  | VNum _ => true
  | _ => false
  end.

(** The integers a double holds exactly: [|n| <= 2^53 - 1]. *)
Definition max_safe_integer : Z := 2 ^ 53 - 1.

Definition safe_integer (n : Z) : Prop :=
  - max_safe_integer ≤ n ≤ max_safe_integer.

#[global] Instance safe_integer_dec n : Decision (safe_integer n).
Proof. unfold safe_integer. apply _. Defined.

(** ** Facts *)

(** [v || 0] is always a number: the integer [num_or_zero v]. *)
Lemma or_zero v : or v (VNum 0) = VNum (num_or_zero v).
Proof.
  destruct v as [| | |n]; try done.
  unfold or; simpl. destruct (Z.eqb_spec n 0) as [->|]; done.
Qed.

Lemma to_boolean_or a b : to_boolean (or a b) = to_boolean a || to_boolean b.
Proof. unfold or. by destruct (to_boolean a) eqn:E; rewrite ?E. Qed.

Lemma to_boolean_num n : to_boolean (VNum n) = true ↔ n ≠ 0.
Proof. simpl. rewrite negb_true_iff, Z.eqb_neq. done. Qed.

(** [===] holds exactly between equal values other than [NaN]. *)
Lemma strict_eq_spec a b : strict_eq a b = true ↔ a = b ∧ a ≠ VNaN.
Proof.
  destruct a, b; simpl; rewrite ?Z.eqb_eq; split;
    try (intros [? ?]); try naive_solver.
Qed.

Lemma strict_eq_num x y : strict_eq (VNum x) (VNum y) = bool_decide (x = y).
Proof. simpl. by destruct (Z.eqb_spec x y); [rewrite bool_decide_eq_true_2|rewrite bool_decide_eq_false_2]. Qed.

Lemma gt_num x y : gt (VNum x) (VNum y) = bool_decide (y < x).
Proof.
  unfold gt; simpl.
  by destruct (Z.ltb_spec y x); [rewrite bool_decide_eq_true_2|rewrite bool_decide_eq_false_2; [|lia]].
Qed.

Lemma not_num n : not (VNum n) = bool_decide (n = 0).
Proof.
  unfold not; simpl. rewrite negb_involutive.
  by destruct (Z.eqb_spec n 0); [rewrite bool_decide_eq_true_2|rewrite bool_decide_eq_false_2].
Qed.

Lemma add_num x y : add (VNum x) (VNum y) = VNum (x + y).
Proof. done. Qed.

Lemma mul_num x y : mul (VNum x) (VNum y) = VNum (x * y).
Proof. done. Qed.

(** Arithmetic on numbers never produces [NaN] or a missing value. *)
Lemma arith_is_num op a b :
  is_num (arith op a b) = is_num (to_number a) && is_num (to_number b).
Proof. unfold arith. by destruct (to_number a), (to_number b). Qed.

(** Printing numbers is injective: two numbers print alike only if equal. *)
Lemma to_string_num_inj x y : to_string (VNum x) = to_string (VNum y) → x = y.
Proof. simpl. apply (inj pretty). Qed.

End Js.

#[export] Hint Rewrite Js.or_zero Js.strict_eq_num Js.gt_num Js.not_num
  Js.add_num Js.mul_num : fc_simpl.
