(* ===== verification/Double.v ===== *)
(** * Double: the numbers of the script are IEEE 754 doubles

    Every number of [forecast_club.js] is a JavaScript Number, a binary64
    float, and [+] and [*] of lines 191 and 194 round their result.  The
    model of [JsValue.v] computes on integers.  This file states what a
    double is with the specification of the standard library
    ([SpecFloat]: [prec = 53], [emax = 1024], round to nearest even) and
    proves that on integers below [2^53] in absolute value the sum and the
    product of the doubles are the doubles of the sum and of the product:
    there the arithmetic of the model is the arithmetic of the source. *)

From Stdlib Require Import ZArith Lia.
From Stdlib Require Import SpecFloat.
From S2P Require Import Prelude JsValue.

Module Double.

Local Open Scope Z_scope.

(** ** Definitions *)

(** The format binary64. *)
Definition prec : Z := 53.
Definition emax : Z := 1024.

(** The double nearest to an integer (ties to even, infinite from
    [2^1024] on). *)
Definition of_Z (n : Z) : spec_float := binary_normalize prec emax n 0 false.

(** [x + y] and [x * y] on doubles. *)
Definition add : spec_float → spec_float → spec_float := SFadd prec emax.
Definition mul : spec_float → spec_float → spec_float := SFmul prec emax.

(** The double an operand of [+] or [*] stands for: [ToNumber] of it. *)
Definition of_value (v : Js.value) : spec_float :=
  match Js.to_number v with
  | Js.VNum n => of_Z n
  | _ => S754_nan
  end.

(** The integer a double holds, when it holds one. *)
Definition to_Z (x : spec_float) : option Z :=
  match x with
  | S754_zero _ => Some 0
  | S754_finite s m e =>
      if e <=? 0 then
        if Zpos m mod 2 ^ (- e) =? 0
        then Some (cond_Zopp s (Zpos m / 2 ^ (- e))) else None
      else Some (cond_Zopp s (Zpos m * 2 ^ e))
  | _ => None
  end.

(** An operand whose number, if it has one, is a safe integer. *)
Definition safe_value (v : Js.value) : Prop :=
  match Js.to_number v with
  | Js.VNum n => Js.safe_integer n
  | _ => True
  end.

#[global] Instance safe_value_dec v : Decision (safe_value v).
Proof. unfold safe_value. destruct (Js.to_number v); apply _. Defined.

(** ** The double of an integer below [2^53]

    The number of binary digits of a positive integer. *)
Definition digits (n : Z) : Z := Z.log2 n + 1.

(** The mantissa and the exponent of the double of a positive integer below
    [2^53]: the integer shifted left until it has 53 digits. *)
Definition mant (n : Z) : positive := Z.to_pos (n * 2 ^ (prec - digits n)).
Definition expo (n : Z) : Z := digits n - prec.

Lemma digits2_pos_digits p : Zpos (digits2_pos p) = digits (Zpos p).
Proof.
  unfold digits. assert (digits2_pos p = Pos.size p) as ->
    by (induction p; simpl; congruence).
  destruct p; simpl; lia.
Qed.

Lemma digits_pos n : 0 < n → 0 < digits n.
Proof. intros. unfold digits. pose proof (Z.log2_nonneg n). lia. Qed.

Lemma digits_shift n k : 0 < n → 0 ≤ k → digits (n * 2 ^ k) = digits n + k.
Proof. intros. unfold digits. rewrite Z.log2_mul_pow2 by lia. lia. Qed.

Lemma digits_le n : 0 < n → n < 2 ^ prec → digits n ≤ prec.
Proof. intros ? ?%Z.log2_lt_pow2; unfold digits, prec in *; lia. Qed.

Lemma mant_spec n :
  0 < n → n < 2 ^ prec → Zpos (mant n) = n * 2 ^ (prec - digits n).
Proof.
  intros Hn Hlt. pose proof (digits_le n Hn Hlt). unfold mant.
  rewrite Z2Pos.id; [done|]. apply Z.mul_pos_pos; [done|].
  apply Z.pow_pos_nonneg; lia.
Qed.

Lemma mant_digits n :
  0 < n → n < 2 ^ prec → Zpos (digits2_pos (mant n)) = prec.
Proof.
  intros Hn Hlt. pose proof (digits_le n Hn Hlt).
  rewrite digits2_pos_digits, mant_spec, digits_shift by lia. lia.
Qed.

Lemma iter_pos_iter {A} (f : A → A) p x :
  SpecFloat.iter_pos f p x = Nat.iter (Pos.to_nat p) f x.
Proof.
  transitivity (Pos.iter f x p); [|apply Pos2Nat.inj_iter].
  revert x. induction p as [p IH|p IH|]; intros x; simpl; [|by rewrite !IH|done].
  by rewrite !IH, <-!Pos.iter_swap.
Qed.

Lemma shr_exact p z :
  0 < z →
  SpecFloat.iter_pos shr_1 p (Build_shr_record (z * 2 ^ Zpos p) false false) =
  Build_shr_record z false false.
Proof.
  intros Hz. rewrite iter_pos_iter.
  rewrite <-(positive_nat_Z p). generalize (Pos.to_nat p) as n.
  induction n as [|n IH]; [by rewrite Z.mul_1_r|].
  rewrite Nat.iter_succ_r, Nat2Z.inj_succ, Z.pow_succ_r by lia.
  assert (0 < z * 2 ^ Z.of_nat n) as Hpos
    by (apply Z.mul_pos_pos; [done|apply Z.pow_pos_nonneg; lia]).
  replace (z * (2 * 2 ^ Z.of_nat n)) with (2 * (z * 2 ^ Z.of_nat n)) by lia.
  destruct (z * 2 ^ Z.of_nat n) as [|q|q] eqn:Hq; [lia| |lia].
  exact IH.
Qed.

Lemma shift_shift n x y : 0 ≤ x → 0 ≤ y → n * 2 ^ x * 2 ^ y = n * 2 ^ (x + y).
Proof. intros. rewrite Z.pow_add_r by done. lia. Qed.

Lemma shl_align_value m e e' :
  e' ≤ e → Zpos (fst (shl_align m e e')) = Zpos m * 2 ^ (e - e').
Proof.
  intros He. unfold shl_align. destruct (e' - e) as [|d|d] eqn:Hd; simpl; [|lia|].
  - replace (e - e') with 0 by lia. lia.
  - replace (e - e') with (Zpos d) by lia.
    change (Pos.iter xO m d) with (shift_pos d m).
    rewrite shift_pos_correct, Z.pow_pos_fold. lia.
Qed.

Lemma emin_expo n : 0 < n → n < 2 ^ prec → emin prec emax ≤ expo n ≤ emax - prec.
Proof.
  intros Hn Hlt. pose proof (digits_pos n Hn). pose proof (digits_le n Hn Hlt).
  unfold expo, emin, prec, emax in *. lia.
Qed.

Lemma shr_fexp_exact (m M : positive) (j e ec : Z) :
  Zpos (digits2_pos M) = prec → 0 ≤ j → Zpos m = Zpos M * 2 ^ j →
  emin prec emax ≤ ec → e = ec - j →
  shr_fexp prec emax (Zpos m) e loc_Exact = (Build_shr_record (Zpos M) false false, ec).
Proof.
  intros HM Hj Hm Hec ->. unfold shr_fexp, fexp, Zdigits2.
  rewrite digits2_pos_digits, Hm, digits_shift, <-digits2_pos_digits, HM by lia.
  replace (Z.max _ _ - _) with j by lia. simpl.
  destruct j as [|p|p]; simpl; [|by rewrite shr_exact; [do 2 f_equal; lia|]|lia].
  do 2 f_equal; lia.
Qed.

Lemma aux_exact s (m M : positive) (j e ec : Z) :
  Zpos (digits2_pos M) = prec → 0 ≤ j → Zpos m = Zpos M * 2 ^ j →
  emin prec emax ≤ ec ≤ emax - prec → e = ec - j →
  binary_round_aux prec emax s (Zpos m) e loc_Exact = S754_finite s M ec.
Proof.
  intros HM Hj Hm Hec He. unfold binary_round_aux.
  rewrite (shr_fexp_exact m M j e ec) by (done || lia). simpl.
  rewrite (shr_fexp_exact M M 0 ec ec) by (done || lia). simpl.
  by rewrite (proj2 (Z.leb_le _ _)) by lia.
Qed.

(** Rounding an integer below [2^53], given with any number of trailing
    zeros, gives the integer itself. *)
Lemma round_exact s m k n :
  0 < n → n < 2 ^ prec → 0 ≤ k → Zpos m = n * 2 ^ k →
  binary_round prec emax s m (- k) = S754_finite s (mant n) (expo n).
Proof.
  intros Hn Hlt Hk Hm. pose proof (emin_expo n Hn Hlt) as Hec.
  pose proof (digits_le n Hn Hlt) as Hd. pose proof (mant_spec n Hn Hlt) as HM.
  unfold binary_round.
  replace (fexp _ _ _) with (expo n)
    by (unfold fexp; rewrite digits2_pos_digits, Hm, digits_shift by done;
        unfold expo, emin, prec, emax in *; lia).
  destruct (shl_align m (- k) (expo n)) as [mz ez] eqn:Hshl.
  unfold shl_align in Hshl. unfold expo in Hec, Hshl |- *.
  destruct (digits n - prec - - k) as [|d|d] eqn:Hsub; simplify_eq.
  - apply (aux_exact _ _ _ 0); [by apply mant_digits|done| |done|lia].
    rewrite Hm, HM, shift_shift by lia. f_equal; f_equal; lia.
  - apply (aux_exact _ _ _ (Zpos d)); [by apply mant_digits|done| |done|lia].
    rewrite Hm, HM, shift_shift by lia. f_equal; f_equal; lia.
  - apply (aux_exact _ _ _ 0); [by apply mant_digits|done| |done|lia].
    change (Pos.iter xO m d) with (shift_pos d m).
    rewrite shift_pos_correct, Z.pow_pos_fold, Hm, HM, Z.mul_1_r.
    rewrite Z.mul_comm, shift_shift by lia. f_equal; f_equal; lia.
Qed.

Lemma of_Z_finite n :
  n ≠ 0 → Z.abs n < 2 ^ prec →
  of_Z n = S754_finite (n <? 0) (mant (Z.abs n)) (expo (Z.abs n)).
Proof.
  intros Hn Hlt. unfold of_Z.
  destruct n as [|p|p]; [done|..]; simpl binary_normalize;
    change 0 with (- 0); apply round_exact; simpl; lia.
Qed.

Lemma normalize_exact n k :
  Z.abs n < 2 ^ prec → 0 ≤ k →
  binary_normalize prec emax (n * 2 ^ k) (- k) false = of_Z n.
Proof.
  intros Hlt Hk. destruct (decide (n = 0)) as [->|Hn]; [done|].
  rewrite of_Z_finite by done. pose proof (Z.pow_pos_nonneg 2 k).
  destruct (n * 2 ^ k) as [|m|m] eqn:Hm; [nia|..]; simpl binary_normalize.
  - rewrite (proj2 (Z.ltb_ge _ _)) by nia. apply round_exact; nia.
  - rewrite (proj2 (Z.ltb_lt _ _)) by nia. apply round_exact; nia.
Qed.

(** The sum of two doubles that hold integers is the double of the sum,
    when all three are below [2^53] in absolute value. *)
Lemma add_exact a b :
  Z.abs a < 2 ^ prec → Z.abs b < 2 ^ prec → Z.abs (a + b) < 2 ^ prec →
  add (of_Z a) (of_Z b) = of_Z (a + b).
Proof.
  intros Ha Hb Hab.
  destruct (decide (a = 0)) as [->|Ha0], (decide (b = 0)) as [->|Hb0];
    [done|by rewrite Z.add_0_l, (of_Z_finite b)|by rewrite Z.add_0_r, (of_Z_finite a)|].
  rewrite (of_Z_finite a), (of_Z_finite b) by done.
  unfold add, SFadd. cbv zeta.
  set (A := Z.abs a) in *. set (B := Z.abs b) in *.
  pose proof (Z.le_min_l (expo A) (expo B)). pose proof (Z.le_min_r (expo A) (expo B)).
  generalize dependent (Z.min (expo A) (expo B)). intros ez ??.
  assert (0 < A) by lia. assert (0 < B) by lia.
  pose proof (digits_le A). pose proof (digits_le B). unfold expo in *.
  rewrite !shl_align_value, !mant_spec by lia.
  rewrite !shift_shift by lia.
  replace (prec - digits A + (digits A - prec - ez)) with (- ez) by lia.
  replace (prec - digits B + (digits B - prec - ez)) with (- ez) by lia.
  rewrite <-(Z.opp_involutive ez) at 3.
  rewrite <-(normalize_exact (a + b) (- ez)) by lia.
  f_equal. unfold cond_Zopp.
  destruct (Z.ltb_spec a 0), (Z.ltb_spec b 0); lia.
Qed.

(** The product of two doubles that hold integers is the double of the
    product, when it is below [2^53] in absolute value; a product that is
    zero has the sign of its factors in a double, so the factors are then
    taken non-negative. *)
Lemma mul_exact a b :
  Z.abs a < 2 ^ prec → Z.abs b < 2 ^ prec → Z.abs (a * b) < 2 ^ prec →
  (a * b = 0 → 0 ≤ a ∧ 0 ≤ b) →
  mul (of_Z a) (of_Z b) = of_Z (a * b).
Proof.
  intros Ha Hb Hab Hz.
  destruct (decide (a = 0)) as [->|Ha0].
  { destruct (decide (b = 0)) as [->|Hb0]; [done|].
    rewrite (of_Z_finite b) by done. simpl. by rewrite (proj2 (Z.ltb_ge _ _)) by lia. }
  destruct (decide (b = 0)) as [->|Hb0].
  { rewrite Z.mul_0_r, (of_Z_finite a) by done. simpl.
    by rewrite (proj2 (Z.ltb_ge _ _)) by lia. }
  rewrite (of_Z_finite a), (of_Z_finite b), (of_Z_finite (a * b)) by lia.
  rewrite Z.abs_mul. set (A := Z.abs a) in *. set (B := Z.abs b) in *.
  assert (0 < A) by lia. assert (0 < B) by lia. rewrite Z.abs_mul in Hab.
  pose proof (digits_le A). pose proof (digits_le B). pose proof (digits_le (A * B)).
  pose proof (Z.log2_mul_below A B).
  replace (a * b <? 0) with (xorb (a <? 0) (b <? 0))
    by (destruct (Z.ltb_spec a 0), (Z.ltb_spec b 0), (Z.ltb_spec (a * b) 0); simpl; nia).
  unfold mul, SFmul.
  assert (0 < A * B) by nia. fold A B in Hab.
  apply (aux_exact _ _ _ (expo (A * B) - (expo A + expo B)));
    [by apply mant_digits|unfold expo, digits, prec in *; lia|
    |by apply emin_expo|lia].
  rewrite Pos2Z.inj_mul, !mant_spec by done.
  rewrite shift_shift by (unfold expo, digits, prec in *; lia).
  transitivity (A * B * 2 ^ ((prec - digits A) + (prec - digits B)));
    [rewrite Z.pow_add_r by lia; lia|].
  f_equal; f_equal; unfold expo; lia.
Qed.

(** ** On safe integers *)

Lemma safe_abs n : Js.safe_integer n → Z.abs n < 2 ^ prec.
Proof. unfold Js.safe_integer, Js.max_safe_integer, prec. lia. Qed.

(** A double holds the safe integer it was made from. *)
Lemma to_Z_of_Z n : Js.safe_integer n → to_Z (of_Z n) = Some n.
Proof.
  intros Hn%safe_abs. destruct (decide (n = 0)) as [->|Hn0]; [done|].
  rewrite of_Z_finite by done. set (N := Z.abs n) in *.
  assert (0 < N) by lia. pose proof (digits_le N). unfold to_Z, expo.
  rewrite mant_spec, (proj2 (Z.leb_le _ _)) by lia.
  replace (- (digits N - prec)) with (prec - digits N) by lia.
  assert (0 < 2 ^ (prec - digits N)) by (apply Z.pow_pos_nonneg; lia).
  rewrite Z.mod_mul, Z.div_mul by lia. simpl. f_equal. unfold cond_Zopp.
  destruct (Z.ltb_spec n 0); lia.
Qed.

(** Two safe integers with the same double are equal. *)
Lemma of_Z_inj a b :
  Js.safe_integer a → Js.safe_integer b → of_Z a = of_Z b → a = b.
Proof.
  intros Ha%to_Z_of_Z Hb%to_Z_of_Z Heq. rewrite Heq in Ha. congruence.
Qed.

(** [+] of the model is [+] of the doubles on operands whose numbers and
    whose sum are safe integers, [NaN] included. *)
Lemma add_double a b :
  safe_value a → safe_value b → safe_value (Js.add a b) →
  of_value (Js.add a b) = add (of_value a) (of_value b).
Proof.
  unfold safe_value, of_value, Js.add, Js.arith.
  destruct (Js.to_number a) as [| | |x], (Js.to_number b) as [| | |y];
    simpl; try done; try (by destruct (of_Z _)).
  intros. symmetry. by apply add_exact; apply safe_abs.
Qed.

(** [*] of the model is [*] of the doubles on operands whose numbers and
    whose product are safe integers and not negative. *)
Lemma mul_double a b :
  safe_value a → safe_value b → safe_value (Js.mul a b) →
  0 ≤ Js.num_or_zero (Js.to_number a) → 0 ≤ Js.num_or_zero (Js.to_number b) →
  of_value (Js.mul a b) = mul (of_value a) (of_value b).
Proof.
  unfold safe_value, of_value, Js.mul, Js.arith.
  destruct (Js.to_number a) as [| | |x], (Js.to_number b) as [| | |y];
    simpl; try done; try (by destruct (of_Z _)).
  intros. symmetry. by apply mul_exact; try apply safe_abs.
Qed.

(** Beyond the safe integers a sum is rounded: [2^53 + 1] is not a
    double, and adding 1 to [2^53] gives [2^53]. *)
Example add_rounds_beyond_safe :
  add (of_Z (2 ^ 53)) (of_Z 1) = of_Z (2 ^ 53) ∧
  to_Z (of_Z (2 ^ 53 + 1)) = Some (2 ^ 53).
Proof. split; by vm_compute. Qed.

(** A product that is zero has a sign in doubles: [0 * -5] is [-0], which
    is why [mul_exact] takes the factors of such a product non-negative. *)
Example mul_negative_zero : mul (of_Z 0) (of_Z (-5)) = S754_zero true.
Proof. by vm_compute. Qed.

End Double.
