(* ===== verification/Format.v ===== *)
(** * Format: the message templates of the form

    The form builds its messages with the framework's translation helper
    [__(text, args)], which looks [text] up in the loaded translations and
    then substitutes the placeholders [{0}], [{1}], ... by the arguments
    (the framework's [$.format]: every brace pair around word characters is
    replaced).
    This file models the substitution as a scanner over the template, and
    [Array.prototype.join].  The translations loaded for the language of
    the user are a dictionary ([Messages], the framework's
    [frappe._messages]); a text that has no translation stands for
    itself, and with no translation loaded ([no_messages], the language
    of the source) [__] substitutes in the source text itself.  The facts at the end are about the decimal
    numerals: the digits [pretty] prints are read back by [array_index]
    as the number printed, so the placeholder [{k}] selects the argument
    [k], and a numeral in front of other text is read whole; and about
    the lines of a text: texts without a tag that [join] puts together
    with [<br>] are read back by [split_br]. *)

From Stdlib Require Import Ascii.
From S2P Require Import Prelude.

Module Format.

Local Open Scope char_scope.

(** ** Character classes *)

Definition in_range (lo hi c : ascii) : bool :=
  bool_decide (nat_of_ascii lo ≤ nat_of_ascii c ≤ nat_of_ascii hi)%nat.

Definition is_digit (c : ascii) : bool := in_range "0" "9" c.

(** The class [\w] of a JavaScript regular expression. *)
Definition is_word_char (c : ascii) : bool :=
  is_digit c || in_range "a" "z" c || in_range "A" "Z" c || bool_decide (c = "_").

Definition is_hex_digit (c : ascii) : bool :=
  is_digit c || in_range "a" "f" c || in_range "A" "F" c.

Definition all_chars (p : ascii → bool) (s : string) : bool :=
  forallb p (String.list_ascii_of_string s).

Definition nonempty (s : string) : bool :=
  match s with
  | EmptyString => false
  | String _ _ => true
  end.

Local Open Scope string_scope.

(** ** Placeholder keys *)

(** The value of a string of decimal digits. *)
Fixpoint digits_value (acc : N) (s : string) : N :=
  match s with
  | EmptyString => acc
  | String c s' => digits_value (10 * acc + (N_of_ascii c - 48))%N s'
  end.

Definition digits (s : string) : bool :=
  if nonempty s then all_chars is_digit s else false.

(** A key that names an array index: decimal digits with no leading zero. *)
Definition array_index (key : string) : option N :=
  if digits key then
    if bool_decide (pretty (digits_value 0 key) = key)
    then Some (digits_value 0 key)
    else None
  else None.

(** The decimal digits a text starts with. *)
Fixpoint leading_digits (s : string) : string :=
  match s with
  | EmptyString => EmptyString
  | String c s' => if is_digit c then String c (leading_digits s') else EmptyString
  end.

(** [args[n]], [None] when the array has no such element. *)
Definition nth_arg (args : list string) (n : N) : option string :=
  if bool_decide (n < N.of_nat (length args))%N then args !! N.to_nat n else None.

(** The part of a key before and after its first [e] or [E]. *)
Fixpoint split_exponent (s : string) : string * option string :=
  match s with
  | EmptyString => (EmptyString, None)
  | String c s' =>
      if bool_decide (c = "e"%char ∨ c = "E"%char) then (EmptyString, Some s')
      else let '(m, e) := split_exponent s' in (String c m, e)
  end.

(** Whether ToNumber of a key made of word characters is a number and not
    [NaN]: a decimal literal with an optional exponent, a hexadecimal,
    octal or binary literal, or [Infinity]. *)
Definition numeric_word (key : string) : bool :=
  match key with
  | String "0" (String x rest) =>
      if bool_decide (x = "x"%char ∨ x = "X"%char)
      then nonempty rest && all_chars is_hex_digit rest
      else if bool_decide (x = "o"%char ∨ x = "O"%char)
      then nonempty rest && all_chars (in_range "0" "7") rest
      else if bool_decide (x = "b"%char ∨ x = "B"%char)
      then nonempty rest && all_chars (in_range "0" "1") rest
      else match split_exponent key with
           | (m, None) => digits m
           | (m, Some e) => digits m && digits e
           end
  | _ =>
      bool_decide (key = "Infinity") ||
      match split_exponent key with
      | (m, None) => digits m
      | (m, Some e) => digits m && digits e
      end
  end.

(** What the replacement callback returns for the match [{key}], [key]
    not empty: [args[key]] when the key is numeric and the argument is
    there, the match itself when the key is numeric and the argument is
    not, and [undefined] (printed as such) when the key is not numeric. *)
Definition replacement (args : list string) (key : string) : string :=
  match array_index key with
  | Some n => default ("{" +:+ key +:+ "}") (nth_arg args n)
  | None => if numeric_word key then "{" +:+ key +:+ "}" else "undefined"
  end.

(** ** The scanner

    [open] is the key read so far when the scanner is past a [{] that may
    still close; [unkeyed] counts the empty placeholders [{}] replaced so
    far. *)
Fixpoint scan (args : list string) (open : option string) (unkeyed : nat)
    (s : string) : string :=
  match s with
  | EmptyString =>
      match open with
      | None => EmptyString
      | Some key => "{" +:+ key
      end
  | String c s' =>
      match open with
      | None =>
          if bool_decide (c = "{"%char) then scan args (Some EmptyString) unkeyed s'
          else String c (scan args None unkeyed s')
      | Some key =>
          if bool_decide (c = "}"%char) then
            match key with
            | EmptyString =>
                default "{}" (args !! unkeyed) +:+ scan args None (S unkeyed) s'
            | _ => replacement args key +:+ scan args None unkeyed s'
            end
          else if is_word_char c then
            scan args (Some (key +:+ String c EmptyString)) unkeyed s'
          else if bool_decide (c = "{"%char) then
            "{" +:+ key +:+ scan args (Some EmptyString) unkeyed s'
          else "{" +:+ key +:+ String c (scan args None unkeyed s')
      end
  end.

(** [$.format(str, args)] *)
Definition format (str : string) (args : list string) : string :=
  scan args None 0 str.

(** The translations loaded for the language of the user, the object
    [frappe._messages]: the translation of a source text, if it has
    one. *)
Class Messages := messages : gmap string string.

(** [frappe._messages[txt] || txt]: the translation of a text, and the
    text itself when it has none or an empty one. *)
Definition message {lang : Messages} (txt : string) : string :=
  match messages !! txt with
  | Some t => if nonempty t then t else txt
  | None => txt
  end.

(** [__(txt, replace)]: the translation of [txt] with the arguments
    substituted; an empty [txt] is returned as it is. *)
Definition translate {lang : Messages} (txt : string) (replace : list string) : string :=
  if nonempty txt then format (message txt) replace else txt.

(** [__(txt)] with no arguments. *)
Definition translate0 {lang : Messages} (txt : string) : string :=
  if nonempty txt then message txt else txt.

(** No translation is loaded: the language of the user is the language of
    the source. *)
#[global] Instance no_messages : Messages := (∅ : gmap string string).

(** [array.join(sep)] on an array of strings. *)
Definition join (sep : string) (parts : list string) : string :=
  String.concat sep parts.

(** A text with no [<], and so with no tag in it. *)
Definition plain (s : string) : bool :=
  all_chars (λ c, negb (bool_decide (c = "<"%char))) s.

(** The lines of a text: its parts between the tags [<br>], as the
    dialog lays them out. *)
Fixpoint split_br (s : string) : list string :=
  match s with
  | "" => [""]
  | String "<" (String "b" (String "r" (String ">" s'))) => "" :: split_br s'
  | String c s' =>
      match split_br s' with
      | x :: xs => String c x :: xs
      | [] => [String c ""]
      end
  end.

(** What is left of a text behind a prefix. *)
Fixpoint strip_prefix (p s : string) : option string :=
  match p, s with
  | "", _ => Some s
  | String c p', String d s' => if bool_decide (c = d) then strip_prefix p' s' else None
  | String _ _, "" => None
  end.

(** A text with no opening brace. *)
Definition brace_free (s : string) : bool :=
  all_chars (λ c, negb (bool_decide (c = "{"%char))) s.

(** ** Facts *)

(** A text that has a translation, and one that has none. *)
Lemma message_translated {lang : Messages} txt t :
  messages !! txt = Some t → nonempty t = true → message txt = t.
Proof. unfold message. by intros -> ->. Qed.

Lemma message_untranslated {lang : Messages} txt :
  messages !! txt = None → message txt = txt.
Proof. unfold message. by intros ->. Qed.

(** With no translation loaded [__] is the identity on texts, and
    [$.format] on texts with arguments. *)
Lemma translate0_source txt : translate0 (lang:=no_messages) txt = txt.
Proof. unfold translate0. rewrite message_untranslated by done. by case_match. Qed.

Lemma translate_source txt args : translate (lang:=no_messages) txt args = format txt args.
Proof. unfold translate. rewrite message_untranslated by done. by destruct txt. Qed.

(** A text with no opening brace is left as it is. *)
Lemma scan_brace_free args n s :
  brace_free s = true → scan args None n s = s.
Proof.
  unfold brace_free, all_chars. induction s as [|c s IH]; simpl; [done|].
  intros [Hc Hs]%andb_true_iff. apply negb_true_iff in Hc. rewrite Hc.
  by rewrite IH.
Qed.

Lemma format_brace_free s args : brace_free s = true → format s args = s.
Proof. apply scan_brace_free. Qed.

(** A literal prefix is copied, and scanning goes on behind it. *)
Lemma scan_prefix args n p s :
  brace_free p = true → scan args None n (p +:+ s) = p +:+ scan args None n s.
Proof.
  unfold brace_free, all_chars. induction p as [|c p IH]; simpl; [done|].
  intros [Hc Hp]%andb_true_iff. apply negb_true_iff in Hc. rewrite Hc.
  by rewrite IH.
Qed.

Lemma strip_prefix_app p s : strip_prefix p (p +:+ s) = Some s.
Proof. induction p as [|c p IH]; simpl; [done|]. by rewrite bool_decide_eq_true_2. Qed.

(** ** Decimal numerals

    [pretty] prints a number the way JavaScript converts an array index
    to a property key; [array_index] reads it back. *)

Lemma digit_char d : (d < 10)%N →
  is_digit (pretty_N_char d) = true ∧ (N_of_ascii (pretty_N_char d) - 48)%N = d.
Proof.
  intros Hd.
  assert (d = 0 ∨ d = 1 ∨ d = 2 ∨ d = 3 ∨ d = 4 ∨ d = 5 ∨ d = 6 ∨ d = 7
          ∨ d = 8 ∨ d = 9)%N as Hcases by lia.
  by repeat destruct Hcases as [->|Hcases]; [..|subst d].
Qed.

Lemma pretty_N_go_app x s : pretty_N_go x s = pretty_N_go x "" +:+ s.
Proof.
  revert s. induction (N.lt_wf_0 x) as [x _ IH]; intros s.
  destruct (decide (0 < x)%N) as [Hx|Hx]; [|by replace x with 0%N by lia].
  rewrite !(pretty_N_go_step x) by done.
  assert (x `div` 10 < x)%N as Hlt by (by apply N.div_lt).
  rewrite (IH _ Hlt (String _ s)), (IH _ Hlt (String _ "")).
  by rewrite string_app_assoc.
Qed.

Lemma digits_value_app acc s1 s2 :
  digits_value acc (s1 +:+ s2) = digits_value (digits_value acc s1) s2.
Proof. revert acc. induction s1 as [|c s1 IH]; intros acc; [done|]. apply IH. Qed.

Lemma all_chars_app p s1 s2 :
  all_chars p (s1 +:+ s2) = all_chars p s1 && all_chars p s2.
Proof.
  induction s1 as [|c s1 IH]; [done|].
  unfold all_chars in *. simpl. by rewrite IH, andb_assoc.
Qed.

(** The digits of a number are digits, and their value is the number. *)
Lemma pretty_N_go_digits x :
  all_chars is_digit (pretty_N_go x "") = true ∧ digits_value 0 (pretty_N_go x "") = x.
Proof.
  induction (N.lt_wf_0 x) as [x _ IH].
  destruct (decide (0 < x)%N) as [Hx|Hx]; [|by replace x with 0%N by lia].
  rewrite pretty_N_go_step, pretty_N_go_app, all_chars_app, digits_value_app by done.
  destruct (IH (x `div` 10)%N) as [-> ->]; [by apply N.div_lt|].
  destruct (digit_char (x `mod` 10)%N) as [Hd Hv]; [by apply N.mod_lt|].
  unfold all_chars; simpl. rewrite Hd, Hv. split; [done|].
  rewrite (N.div_mod x 10) at 3 by done. lia.
Qed.

Lemma pretty_N_go_nonempty x : (0 < x)%N → nonempty (pretty_N_go x "") = true.
Proof.
  intros Hx. rewrite pretty_N_go_step, pretty_N_go_app by done.
  by destruct (pretty_N_go _ "").
Qed.

Lemma digits_pretty (n : N) :
  digits (pretty n) = true ∧ digits_value 0 (pretty n) = n.
Proof.
  unfold pretty, pretty_N, digits. case_decide as Hn; [by subst|].
  rewrite pretty_N_go_nonempty by lia. apply pretty_N_go_digits.
Qed.

(** Reading back a printed index gives the index. *)
Lemma array_index_pretty (n : N) : array_index (pretty n) = Some n.
Proof.
  unfold array_index. destruct (digits_pretty n) as [-> ->].
  by rewrite bool_decide_eq_true_2.
Qed.

(** The digits in front of a character that is not one are read whole. *)
Lemma leading_digits_app d c s :
  all_chars is_digit d = true → is_digit c = false →
  leading_digits (d +:+ String c s) = d.
Proof.
  unfold all_chars. intros Hd Hc. induction d as [|x d IH]; simpl in *.
  - by rewrite Hc.
  - apply andb_true_iff in Hd as [-> Hd]. by rewrite IH.
Qed.

Lemma leading_digits_pretty (n : N) c s :
  is_digit c = false → leading_digits (pretty n +:+ String c s) = pretty n.
Proof.
  intros Hc. apply leading_digits_app; [|done].
  destruct (digits_pretty n) as [Hd _]. unfold digits in Hd.
  by destruct (nonempty (pretty n)).
Qed.

(** ** Placeholders *)

(** Word characters behind an opening brace extend the key. *)
Lemma scan_key args key n w s :
  all_chars is_word_char w = true →
  all_chars (λ c, negb (bool_decide (c = "}"%char))) w = true →
  scan args (Some key) n (w +:+ s) = scan args (Some (key +:+ w)) n s.
Proof.
  unfold all_chars. revert key.
  induction w as [|c w IH]; intros key Hw Hc; simpl in *.
  - by rewrite string_app_nil_r.
  - apply andb_true_iff in Hw as [Hw1 Hw], Hc as [Hc1 Hc].
    apply negb_true_iff in Hc1. rewrite Hc1, Hw1, IH by done.
    by rewrite string_app_assoc.
Qed.

Lemma digit_word_char c :
  is_digit c = true → is_word_char c = true ∧ negb (bool_decide (c = "}"%char)) = true.
Proof.
  intros Hc. unfold is_word_char. rewrite Hc. split; [done|].
  apply negb_true_iff, bool_decide_eq_false. by intros ->.
Qed.

Lemma digits_word d :
  all_chars is_digit d = true →
  all_chars is_word_char d = true ∧
  all_chars (λ c, negb (bool_decide (c = "}"%char))) d = true.
Proof.
  unfold all_chars. induction d as [|c d IH]; simpl; [done|].
  intros [Hc Hd]%andb_true_iff.
  destruct (digit_word_char c Hc) as [-> ->], (IH Hd) as [-> ->]. done.
Qed.

(** The placeholder [{k}] is replaced by [args[k]], and stays as it is
    when the array has no such element. *)
Lemma scan_placeholder args n (k : N) s :
  scan args None n ("{" +:+ pretty k +:+ "}" +:+ s) =
  default ("{" +:+ pretty k +:+ "}") (nth_arg args k) +:+ scan args None n s.
Proof.
  destruct (digits_pretty k) as [Hd _]. unfold digits in Hd.
  destruct (nonempty (pretty k)) eqn:Hne; [|done].
  destruct (digits_word _ Hd) as [Hw Hc].
  change (scan args None n ("{" +:+ pretty k +:+ "}" +:+ s))
    with (scan args (Some "") n (pretty k +:+ String "}" s)).
  rewrite scan_key by done. change ("" +:+ pretty k) with (pretty k).
  transitivity (replacement args (pretty k) +:+ scan args None n s).
  - by destruct (pretty k).
  - unfold replacement. by rewrite array_index_pretty.
Qed.

(** ** Lines

    The texts [join] puts together with [<br>] between them are the lines
    of what it returns, when none of them has a tag of its own. *)

Lemma all_chars_impl (p q : ascii → bool) s :
  (∀ c, p c = true → q c = true) → all_chars p s = true → all_chars q s = true.
Proof. intros Hpq. unfold all_chars. rewrite !forallb_forall. auto. Qed.

Lemma plain_app s1 s2 : plain (s1 +:+ s2) = plain s1 && plain s2.
Proof. apply all_chars_app. Qed.

Lemma plain_cons c s : plain (String c s) = true ↔ c ≠ "<"%char ∧ plain s = true.
Proof.
  unfold plain, all_chars. simpl.
  by rewrite andb_true_iff, negb_true_iff, bool_decide_eq_false.
Qed.

Lemma split_br_cons c s :
  c ≠ "<"%char →
  split_br (String c s) =
  match split_br s with x :: xs => String c x :: xs | [] => [String c ""] end.
Proof. intros Hc. by destruct c as [[] [] [] [] [] [] [] []]. Qed.

Lemma split_br_plain s : plain s = true → split_br s = [s].
Proof.
  induction s as [|c s IH]; [done|]. intros [Hc Hs]%plain_cons.
  by rewrite split_br_cons, IH.
Qed.

Lemma split_br_app e rest :
  plain e = true → split_br (e +:+ "<br>" +:+ rest) = e :: split_br rest.
Proof.
  induction e as [|c e IH]; [done|]. intros [Hc He]%plain_cons.
  change (String c e +:+ ?s) with (String c (e +:+ s)).
  by rewrite split_br_cons, IH.
Qed.

Lemma split_join l :
  Forall (λ e, plain e = true) l → l ≠ [] → split_br (join "<br>" l) = l.
Proof.
  intros Hl. induction Hl as [|e l He Hl IH]; [done|]. intros _.
  destruct l as [|e' l]; [by apply split_br_plain|].
  change (join "<br>" (e :: e' :: l)) with (e +:+ "<br>" +:+ join "<br>" (e' :: l)).
  by rewrite split_br_app, IH.
Qed.

(** Numerals are plain. *)
Lemma digit_plain c : is_digit c = true → negb (bool_decide (c = "<"%char)) = true.
Proof.
  intros Hc. apply negb_true_iff, bool_decide_eq_false. intros ->. by vm_compute in Hc.
Qed.

Lemma plain_pretty_N (n : N) : plain (pretty n) = true.
Proof.
  destruct (digits_pretty n) as [Hd _]. unfold digits in Hd.
  destruct (nonempty (pretty n)); [|done].
  by apply (all_chars_impl is_digit); [apply digit_plain|].
Qed.

Lemma plain_pretty_nat (n : nat) : plain (pretty n) = true.
Proof. apply plain_pretty_N. Qed.

Lemma plain_pretty_Z (z : Z) : plain (pretty z) = true.
Proof.
  destruct z as [|p|p]; [done|apply (plain_pretty_N (Npos p))|].
  change (pretty (Z.neg p)) with ("-" +:+ pretty (Npos p)).
  by rewrite plain_app, plain_pretty_N.
Qed.

End Format.
