(* ===== verification/Client.v ===== *)
(** * Client: the state of the form in the browser

    What the handlers of [forecast_club.js] read and write through the
    framework: the parent document [frm.doc], the registry [locals] of row
    objects, the flag [frappe.validated], the dialogs and alerts shown, the
    custom buttons of the form, the calls sent to the server, the saves
    requested and the tables the server has accepted.  The closures the
    form hands to the framework (callbacks, a promise continuation, a
    button action) are kept as data and run later, when their event
    arrives (file [Framework]); the class [Script] is what a script gives
    the framework.

    A row object is shared: [frm.doc.items] and [locals[cdt][cdn]] reach
    the same object.  The registry is the store; the child table of the
    document is the list of the names of its rows, and a variable holding
    a row is a reference into the registry. *)

From S2P Require Import Prelude Eff JsValue.

Module Client.

(** ** Data *)

(** A row object: its fields by name; a field that is not there reads as
    [undefined]. *)
Abbreviation row := (gmap string Js.value).

(** The doctype of the child table [items]. *)
Definition child_doctype : string := "Forecast Club Item".

(** The fields of the parent document the form reads.  A text field is
    [None] when it is [undefined] or [null]; a table is [None] when it is
    [undefined]. *)
Record doc : Type := Doc {
  docstatus : Js.value;
  status : option string;
  material_request_items : option (list row);
  items : option (list string);
  forecast_start_date : option string;
  forecast_end_date : option string;
  company : option string;
}.

(** The callbacks of the three server calls. *)
Inductive callback : Type :=
| CreateMaterialRequestsDone
| FetchMaterialRequestItemsDone
| FetchSalesForecastsDone.

(** The continuation of [frm.save().then(...)]. *)
Inductive continuation : Type :=
| AlertItemsFetched.

(** The action behind the custom button. *)
Inductive action : Type :=
| CreateMaterialRequest.

(** A call [frm.call({method, doc, freeze, freeze_message, callback})]. *)
Record request : Type := Request {
  req_method : string;
  req_freeze : bool;
  req_freeze_message : string;
  req_callback : callback;
}.

(** The answer [r] of the server to a call, as the callbacks read it:
    whether [r.exc] and [r.message] are truthy. *)
Record response : Type := Response {
  r_exc : bool;
  r_message : bool;
}.

(** What the user is shown. *)
Inductive ui : Type :=
| Msgprint (title indicator message : string)
| ShowAlert (message indicator : string)
| RefreshField (fieldname : string)
| ReloadDoc.

(** The exception a handler can throw. *)
Inductive exn : Type :=
| TypeError.

Record world : Type := World {
  w_doc : doc;
  w_locals : gmap string (gmap string row);
  w_validated : bool;
  w_ui : list ui;
  w_buttons : list (string * action);
  w_calls : list request;
  w_saves : list continuation;
  w_saved : list (list row);
}.

#[global] Instance callback_eq_dec : EqDecision callback.
Proof. solve_decision. Defined.
#[global] Instance continuation_eq_dec : EqDecision continuation.
Proof. solve_decision. Defined.
#[global] Instance action_eq_dec : EqDecision action.
Proof. solve_decision. Defined.
#[global] Instance request_eq_dec : EqDecision request.
Proof. solve_decision. Defined.
#[global] Instance ui_eq_dec : EqDecision ui.
Proof. solve_decision. Defined.
#[global] Instance exn_eq_dec : EqDecision exn.
Proof. solve_decision. Defined.
#[global] Instance doc_eq_dec : EqDecision doc.
Proof. solve_decision. Defined.
#[global] Instance world_eq_dec : EqDecision world.
Proof. solve_decision. Defined.

(** ** Field updates *)

Definition set_doc (f : doc → doc) (w : world) : world :=
  World (f (w_doc w)) (w_locals w) (w_validated w) (w_ui w) (w_buttons w)
        (w_calls w) (w_saves w) (w_saved w).

Definition set_locals (f : gmap string (gmap string row) → gmap string (gmap string row))
    (w : world) : world :=
  World (w_doc w) (f (w_locals w)) (w_validated w) (w_ui w) (w_buttons w)
        (w_calls w) (w_saves w) (w_saved w).

Definition set_validated (b : bool) (w : world) : world :=
  World (w_doc w) (w_locals w) b (w_ui w) (w_buttons w) (w_calls w) (w_saves w) (w_saved w).

Definition set_ui (f : list ui → list ui) (w : world) : world :=
  World (w_doc w) (w_locals w) (w_validated w) (f (w_ui w)) (w_buttons w)
        (w_calls w) (w_saves w) (w_saved w).

Definition set_buttons (f : list (string * action) → list (string * action))
    (w : world) : world :=
  World (w_doc w) (w_locals w) (w_validated w) (w_ui w) (f (w_buttons w))
        (w_calls w) (w_saves w) (w_saved w).

Definition set_calls (f : list request → list request) (w : world) : world :=
  World (w_doc w) (w_locals w) (w_validated w) (w_ui w) (w_buttons w)
        (f (w_calls w)) (w_saves w) (w_saved w).

Definition set_saves (f : list continuation → list continuation) (w : world) : world :=
  World (w_doc w) (w_locals w) (w_validated w) (w_ui w) (w_buttons w)
        (w_calls w) (f (w_saves w)) (w_saved w).

Definition set_saved (f : list (list row) → list (list row)) (w : world) : world :=
  World (w_doc w) (w_locals w) (w_validated w) (w_ui w) (w_buttons w)
        (w_calls w) (w_saves w) (f (w_saved w)).

(** ** The store of row objects *)

(** The row [locals[cdt][cdn]], if there is one. *)
Definition row_at (w : world) (cdt cdn : string) : option row :=
  w_locals w !! cdt ≫= (.!! cdn).

(** The value of a field of a row object; [undefined] when the row has no
    such field. *)
Definition field (r : row) (f : string) : Js.value :=
  default Js.VUndefined (r !! f).

(** The store after [locals[cdt][cdn][f] = v]. *)
Definition write_field (cdt cdn f : string) (v : Js.value) (w : world) : world :=
  set_locals (alter (alter (insert f v) cdn) cdt) w.

(** The rows of the child table, in table order, each read through the
    store; a name with no row reads as the empty object. *)
Definition rows_of (w : world) (names : list string) : list row :=
  (λ cdn, default ∅ (row_at w child_doctype cdn)) <$> names.

(** ** The handlers' monad and the framework's interface *)

Abbreviation M := (eff world exn).

(** A variable that holds [locals[cdt][cdn]]: a reference to the row, or
    [undefined]. *)
Definition ref : Type := option (string * string).

(** [locals[cdt][cdn]]: reading a property of [locals[cdt]] throws when
    there is no such doctype; a name that is not there gives [undefined]. *)
Definition locals_get (cdt cdn : string) : M ref :=
  w ← get;
  match w_locals w !! cdt with
  | None => throw TypeError
  | Some table =>
      match table !! cdn with
      | None => mret None
      | Some _ => mret (Some (cdt, cdn))
      end
  end.

(** [row[f]]: throws when [row] is [undefined]. *)
Definition row_read (r : ref) (f : string) : M Js.value :=
  match r with
  | None => throw TypeError
  | Some (cdt, cdn) => gets (λ w, field (default ∅ (row_at w cdt cdn)) f)
  end.

(** [row[f] = v]: throws when [row] is [undefined]. *)
Definition row_write (r : ref) (f : string) (v : Js.value) : M unit :=
  match r with
  | None => throw TypeError
  | Some (cdt, cdn) => modify (write_field cdt cdn f v)
  end.

(** [frm.doc] *)
Definition frm_doc : M doc := gets w_doc.

(** [frappe.msgprint({title, indicator, message})] *)
Definition msgprint (title indicator message : string) : M unit :=
  modify (set_ui (.++ [Msgprint title indicator message])).

(** [frappe.show_alert({message, indicator})] *)
Definition show_alert (message indicator : string) : M unit :=
  modify (set_ui (.++ [ShowAlert message indicator])).

(** [frm.refresh_field(fieldname)] *)
Definition refresh_field (fieldname : string) : M unit :=
  modify (set_ui (.++ [RefreshField fieldname])).

(** [frm.reload_doc()] *)
Definition reload_doc : M unit :=
  modify (set_ui (.++ [ReloadDoc])).

(** [frappe.validated = b] *)
Definition assign_validated (b : bool) : M unit :=
  modify (set_validated b).

(** [frm.add_custom_button(label, action)] *)
Definition add_custom_button (label : string) (a : action) : M unit :=
  modify (set_buttons (.++ [(label, a)])).

(** [frm.call({method, doc: frm.doc, freeze, freeze_message, callback})]:
    the request leaves; the callback runs when the answer is in. *)
Definition frm_call (method : string) (freeze : bool) (freeze_message : string)
    (cb : callback) : M unit :=
  modify (set_calls (.++ [Request method freeze freeze_message cb])).

(** [frm.save().then(k)]: the save is requested; [k] runs when it is done. *)
Definition frm_save_then (k : continuation) : M unit :=
  modify (set_saves (.++ [k])).

(** ** What a script registers

    [frappe.ui.form.on(doctype, {...})] gives the framework a handler for
    some events and fields of the form and for some fields of the rows of
    its table; a call, a custom button and a save requested by the script
    carry a closure the framework runs later.  The framework knows a
    script by these five tables and by nothing else. *)
Class Script : Type := {
  on_form : string → option (M unit);
  on_row : string → option (string → string → M unit);
  on_answer : callback → response → M unit;
  on_click : action → M unit;
  on_saved : continuation → M unit;
}.

(** ** Frame relations between an earlier and a later state *)

(** The dialogs and alerts shown are never taken back. *)
Definition ui_grows (w w' : world) : Prop := w_ui w `prefix_of` w_ui w'.

(** The tables the server has accepted are a record no handler writes. *)
Definition saved_kept (w w' : world) : Prop := w_saved w' = w_saved w.

(** The parent document is left as it is. *)
Definition doc_kept (w w' : world) : Prop := w_doc w' = w_doc w.

(** The row objects are left as they are. *)
Definition locals_kept (w w' : world) : Prop := w_locals w' = w_locals w.

(** Rows are neither created nor deleted: the same names under the same
    doctypes. *)
Definition same_rows (w w' : world) : Prop :=
  ∀ cdt cdn, is_Some (row_at w' cdt cdn) ↔ is_Some (row_at w cdt cdn).

(** ** Facts about the store *)

Lemma row_at_write_field_eq w cdt cdn f v r :
  row_at w cdt cdn = Some r →
  row_at (write_field cdt cdn f v w) cdt cdn = Some (<[f:=v]> r).
Proof.
  unfold row_at, write_field; simpl. intros H.
  destruct (w_locals w !! cdt) as [t|] eqn:Ht; simpl in *; [|done].
  rewrite lookup_alter_eq, Ht; simpl. by rewrite lookup_alter_eq, H.
Qed.

Lemma row_at_write_field_ne w cdt cdn cdt' cdn' f v :
  (cdt, cdn) ≠ (cdt', cdn') →
  row_at (write_field cdt cdn f v w) cdt' cdn' = row_at w cdt' cdn'.
Proof.
  unfold row_at, write_field; simpl. intros Hne.
  destruct (decide (cdt = cdt')) as [<-|]; [|by rewrite lookup_alter_ne].
  rewrite lookup_alter_eq. destruct (w_locals w !! cdt) as [t|]; simpl; [|done].
  rewrite lookup_alter_ne; [done|congruence].
Qed.

Lemma row_at_write_field_None w cdt cdn cdt' cdn' f v :
  row_at w cdt' cdn' = None → row_at (write_field cdt cdn f v w) cdt' cdn' = None.
Proof.
  intros H. destruct (decide ((cdt, cdn) = (cdt', cdn'))) as [[= <- <-]|Hne].
  - revert H. unfold row_at, write_field; simpl. rewrite lookup_alter_eq.
    destruct (w_locals w !! cdt) as [t|]; simpl; [|done].
    rewrite lookup_alter_eq. by intros ->.
  - by rewrite row_at_write_field_ne.
Qed.

Lemma field_insert_eq (r : row) f v : field (<[f:=v]> r) f = v.
Proof. unfold field. by rewrite lookup_insert_eq. Qed.

Lemma field_insert_ne (r : row) f g v : f ≠ g → field (<[f:=v]> r) g = field r g.
Proof. intros. unfold field. by rewrite lookup_insert_ne. Qed.

Lemma row_at_write_field_inv w cdt cdn f v r' :
  row_at (write_field cdt cdn f v w) cdt cdn = Some r' →
  ∃ r, row_at w cdt cdn = Some r ∧ r' = <[f:=v]> r.
Proof.
  destruct (row_at w cdt cdn) as [r|] eqn:Hr.
  - rewrite (row_at_write_field_eq _ _ _ _ _ r) by done. intros [= <-]. eauto.
  - by rewrite row_at_write_field_None.
Qed.

(** The rows are read through the store only. *)
Lemma row_at_locals w w' cdt cdn :
  w_locals w' = w_locals w → row_at w' cdt cdn = row_at w cdt cdn.
Proof. unfold row_at. by intros ->. Qed.

(** A write to a row keeps the set of rows. *)
Lemma write_field_same_rows w cdt cdn f v : same_rows w (write_field cdt cdn f v w).
Proof.
  intros cdt' cdn'. destruct (row_at w cdt' cdn') as [r|] eqn:Hr.
  - destruct (decide ((cdt, cdn) = (cdt', cdn'))) as [[= <- <-]|Hne].
    + by erewrite row_at_write_field_eq.
    + by rewrite row_at_write_field_ne, Hr.
  - by rewrite row_at_write_field_None.
Qed.

(** Writes to different fields of a row commute with reads of the others. *)
Lemma field_write_ne w cdt cdn f g v :
  f ≠ g →
  field (default ∅ (row_at (write_field cdt cdn f v w) cdt cdn)) g =
  field (default ∅ (row_at w cdt cdn)) g.
Proof.
  intros Hne. destruct (row_at w cdt cdn) as [r|] eqn:Hr.
  - erewrite row_at_write_field_eq by done. simpl. by rewrite field_insert_ne.
  - by rewrite row_at_write_field_None.
Qed.

Lemma field_write_eq w cdt cdn f v r :
  row_at w cdt cdn = Some r →
  field (default ∅ (row_at (write_field cdt cdn f v w) cdt cdn)) f = v.
Proof.
  intros Hr. erewrite row_at_write_field_eq by done. simpl. apply field_insert_eq.
Qed.

(** ** How the interface runs *)

Lemma locals_get_found w cdt cdn r :
  row_at w cdt cdn = Some r → locals_get cdt cdn w = Ok (Some (cdt, cdn)) w.
Proof.
  unfold row_at, locals_get. rewrite run_bind; simpl.
  destruct (w_locals w !! cdt) as [t|]; simpl; [|done]. by intros ->.
Qed.

Lemma locals_get_no_row w cdt cdn t :
  w_locals w !! cdt = Some t → t !! cdn = None → locals_get cdt cdn w = Ok None w.
Proof. intros Ht Hr. unfold locals_get. rewrite run_bind; simpl. by rewrite Ht, Hr. Qed.

Lemma locals_get_no_doctype w cdt cdn :
  w_locals w !! cdt = None → locals_get cdt cdn w = Throw TypeError w.
Proof. intros Ht. unfold locals_get. rewrite run_bind; simpl. by rewrite Ht. Qed.

(** [locals[cdt][cdn]] never changes the state. *)
Lemma locals_get_final w cdt cdn : final (locals_get cdt cdn w) = w.
Proof.
  unfold locals_get. rewrite run_bind; simpl.
  destruct (w_locals w !! cdt) as [t|]; [|done]. by destruct (t !! cdn).
Qed.

Lemma row_read_run w cdt cdn f :
  row_read (Some (cdt, cdn)) f w = Ok (field (default ∅ (row_at w cdt cdn)) f) w.
Proof. done. Qed.

Lemma row_write_run w cdt cdn f v :
  row_write (Some (cdt, cdn)) f v w = Ok tt (write_field cdt cdn f v w).
Proof. done. Qed.

Lemma row_read_undefined w f : row_read None f w = Throw TypeError w.
Proof. done. Qed.

Lemma frm_doc_run w : frm_doc w = Ok (w_doc w) w.
Proof. done. Qed.

Lemma msgprint_run w t i m :
  msgprint t i m w = Ok tt (set_ui (.++ [Msgprint t i m]) w).
Proof. done. Qed.

Lemma show_alert_run w m i :
  show_alert m i w = Ok tt (set_ui (.++ [ShowAlert m i]) w).
Proof. done. Qed.

Lemma refresh_field_run w f :
  refresh_field f w = Ok tt (set_ui (.++ [RefreshField f]) w).
Proof. done. Qed.

Lemma reload_doc_run w : reload_doc w = Ok tt (set_ui (.++ [ReloadDoc]) w).
Proof. done. Qed.

Lemma assign_validated_run w b : assign_validated b w = Ok tt (set_validated b w).
Proof. done. Qed.

Lemma add_custom_button_run w l a :
  add_custom_button l a w = Ok tt (set_buttons (.++ [(l, a)]) w).
Proof. done. Qed.

Lemma frm_call_run w m f fm cb :
  frm_call m f fm cb w = Ok tt (set_calls (.++ [Request m f fm cb]) w).
Proof. done. Qed.

Lemma frm_save_then_run w k :
  frm_save_then k w = Ok tt (set_saves (.++ [k]) w).
Proof. done. Qed.

Lemma when_true (c : M unit) w : when true c w = c w.
Proof. done. Qed.

Lemma when_false (c : M unit) w : when false c w = Ok tt w.
Proof. done. Qed.

#[global] Instance ui_grows_preorder : PreOrder ui_grows.
Proof. unfold ui_grows. split; [by intros ?|]. intros ??? H1 H2. by etrans. Qed.

#[global] Instance saved_kept_preorder : PreOrder saved_kept.
Proof. unfold saved_kept. split; [done|]. intros ??? H1 H2. congruence. Qed.

#[global] Instance doc_kept_preorder : PreOrder doc_kept.
Proof. unfold doc_kept. split; [done|]. intros ??? H1 H2. congruence. Qed.

#[global] Instance locals_kept_preorder : PreOrder locals_kept.
Proof. unfold locals_kept. split; [done|]. intros ??? H1 H2. congruence. Qed.

#[global] Instance same_rows_preorder : PreOrder same_rows.
Proof.
  unfold same_rows. split; [done|]. intros ??? H1 H2 ??. by rewrite H2, H1.
Qed.

End Client.

(** ** Running a handler symbolically

    [fc_run] holds the equations of the interface; [eff_run] pushes a state
    through the binds of a handler with them, one statement at a time. *)

#[export] Hint Rewrite @run_bind Client.row_read_run Client.row_write_run
  Client.row_read_undefined Client.frm_doc_run Client.msgprint_run
  Client.show_alert_run Client.refresh_field_run Client.reload_doc_run
  Client.assign_validated_run Client.add_custom_button_run Client.frm_call_run
  Client.frm_save_then_run Client.when_true Client.when_false : fc_run.

Ltac eff_run :=
  repeat first
    [ progress autorewrite with fc_run
    | erewrite Client.locals_get_found by eassumption
    | erewrite Client.locals_get_no_row by eassumption
    | rewrite Client.locals_get_no_doctype by assumption
    | progress cbv beta iota zeta ].

(** ** Proving a frame condition of a handler

    [fc_unfold] names the interface functions and the handlers; [frame]
    reduces [guarantees R handler] to the facts [R s (f s)] for the
    updates [f] the handler makes, which the caller's tactic closes. *)

Create HintDb fc_unfold discriminated.

#[export] Hint Unfold Client.locals_get Client.row_read Client.row_write
  Client.frm_doc Client.msgprint Client.show_alert Client.refresh_field
  Client.reload_doc Client.assign_validated Client.add_custom_button
  Client.frm_call Client.frm_save_then : fc_unfold.

Ltac frame_step :=
  lazymatch goal with
  | |- PreOrder _ => apply _
  | |- guarantees _ (_ ≫= _) => apply guarantees_bind; [..|intros ?]
  | |- guarantees _ (mret _) => apply guarantees_ret
  | |- guarantees _ (throw _) => apply guarantees_throw
  | |- guarantees _ get => apply guarantees_get
  | |- guarantees _ (gets _) => apply guarantees_gets
  | |- guarantees _ (when _ _) => apply guarantees_when
  | |- guarantees _ (fold_each _ _ _ _) => apply guarantees_fold_each; [..|intros ???]
  | |- guarantees _ (modify _) => apply guarantees_modify; [..|intros ?]
  | |- guarantees _ (match ?x with _ => _ end) => destruct x
  | |- guarantees _ (let _ := _ in _) => cbv zeta
  end.

Ltac frame tac :=
  repeat (autounfold with fc_unfold; try frame_step); try solve [tac].

#[export] Hint Rewrite Client.field_insert_eq : fc_simpl.
#[export] Hint Rewrite Client.field_insert_ne using done : fc_simpl.
