(* ===== verification/Form.v ===== *)
(** * Form: the handlers of [forecast_club.js]

    One definition per function of the source, with the source's name and
    statements in the source's order.  [ForecastClub] holds what the script
    registers for the parent doctype "Forecast Club" (lines 4-127),
    [ForecastClubItem] what it registers for the child doctype
    "Forecast Club Item" (lines 129-197).  The parameter [frm] of the
    source is the state the monad threads.  A function that shows a text,
    or calls one that does, reads the translations loaded for the
    language of the user (the global [frappe._messages] behind [__]): it
    takes them as the implicit argument [lang]. *)

From S2P Require Import Prelude Eff JsValue Format Client.

Import Client.

(** The truthiness of a text field of the document. *)
Definition text_truthy (t : option string) : bool :=
  match t with
  | Some s => Format.nonempty s
  | None => false
  end.

(** * The child doctype "Forecast Club Item" *)

Module ForecastClubItem.

Definition calculate_totals (cdt cdn : string) : M unit :=
  row ← locals_get cdt cdn;
  w1 ← row_read row "w1_batch";
  w2 ← row_read row "w2_batch";
  w3 ← row_read row "w3_batch";
  w4 ← row_read row "w4_batch";
  row_write row "total_batch_qty"
    (Js.add (Js.add (Js.add (Js.or w1 (Js.VNum 0)) (Js.or w2 (Js.VNum 0)))
                    (Js.or w3 (Js.VNum 0)))
            (Js.or w4 (Js.VNum 0)));;
  total_batch_qty ← row_read row "total_batch_qty";
  batch_size ← row_read row "batch_size";
  row_write row "total_qty" (Js.mul total_batch_qty (Js.or batch_size (Js.VNum 0)));;
  refresh_field "items".

(** The text of the warning of the row-level check. *)
Definition relationship_message {lang : Format.Messages}
    (week_label : string) (week_value : Js.value) : string :=
  Format.translate
    "{0} has a value of {1}, but {2} Batch is 0 or empty. Please enter a batch value when week value is greater than 0."
    [week_label; Js.to_string week_value; week_label].

Definition validate_week_batch_relationship {lang : Format.Messages}
    (cdt cdn week_field batch_field week_label : string) : M unit :=
  row ← locals_get cdt cdn;
  week_raw ← row_read row week_field;
  let week_value := Js.or week_raw (Js.VNum 0) in
  batch_raw ← row_read row batch_field;
  let batch_value := Js.or batch_raw (Js.VNum 0) in
  when (Js.gt week_value (Js.VNum 0) && Js.strict_eq batch_value (Js.VNum 0))
    (msgprint (Format.translate0 "Validation Error") "orange"
       (relationship_message week_label week_value)).

Definition batch_size (cdt cdn : string) : M unit :=
  calculate_totals cdt cdn.

Definition week_1 {lang : Format.Messages} (cdt cdn : string) : M unit :=
  validate_week_batch_relationship cdt cdn "week_1" "w1_batch" "Week 1".

Definition week_2 {lang : Format.Messages} (cdt cdn : string) : M unit :=
  validate_week_batch_relationship cdt cdn "week_2" "w2_batch" "Week 2".

Definition week_3 {lang : Format.Messages} (cdt cdn : string) : M unit :=
  validate_week_batch_relationship cdt cdn "week_3" "w3_batch" "Week 3".

Definition week_4 {lang : Format.Messages} (cdt cdn : string) : M unit :=
  validate_week_batch_relationship cdt cdn "week_4" "w4_batch" "Week 4".

Definition w1_batch {lang : Format.Messages} (cdt cdn : string) : M unit :=
  validate_week_batch_relationship cdt cdn "week_1" "w1_batch" "Week 1";;
  calculate_totals cdt cdn.

Definition w2_batch {lang : Format.Messages} (cdt cdn : string) : M unit :=
  validate_week_batch_relationship cdt cdn "week_2" "w2_batch" "Week 2";;
  calculate_totals cdt cdn.

Definition w3_batch {lang : Format.Messages} (cdt cdn : string) : M unit :=
  validate_week_batch_relationship cdt cdn "week_3" "w3_batch" "Week 3";;
  calculate_totals cdt cdn.

Definition w4_batch {lang : Format.Messages} (cdt cdn : string) : M unit :=
  validate_week_batch_relationship cdt cdn "week_4" "w4_batch" "Week 4";;
  calculate_totals cdt cdn.

(** The table [frappe.ui.form.on("Forecast Club Item", {...})] registers:
    the handler of a field of the child table, if it has one. *)
Definition handlers {lang : Format.Messages} (fieldname : string) :
    option (string → string → M unit) :=
  if decide (fieldname = "batch_size") then Some batch_size
  else if decide (fieldname = "week_1") then Some week_1
  else if decide (fieldname = "week_2") then Some week_2
  else if decide (fieldname = "week_3") then Some week_3
  else if decide (fieldname = "week_4") then Some week_4
  else if decide (fieldname = "w1_batch") then Some w1_batch
  else if decide (fieldname = "w2_batch") then Some w2_batch
  else if decide (fieldname = "w3_batch") then Some w3_batch
  else if decide (fieldname = "w4_batch") then Some w4_batch
  else None.

End ForecastClubItem.

(** * The parent doctype "Forecast Club" *)

Module ForecastClub.

(** An entry of [week_batch_mapping]. *)
Record mapping : Type := Mapping {
  week : string;
  batch : string;
  label : string;
}.

Definition week_batch_mapping : list mapping :=
  [ Mapping "week_1" "w1_batch" "Week 1";
    Mapping "week_2" "w2_batch" "Week 2";
    Mapping "week_3" "w3_batch" "Week 3";
    Mapping "week_4" "w4_batch" "Week 4" ].

(** The text of an error of the validation of the document; [idx] is the
    index of the row in the table, from 0. *)
Definition row_error_message {lang : Format.Messages}
    (idx : nat) (label : string) (week_value : Js.value) : string :=
  Format.translate
    "Row {0}: {1} has value {2}, but {3} Batch is 0 or empty. Batch is required when week value is greater than 0."
    [pretty (idx + 1)%nat; label; Js.to_string week_value; label].

(** The body of the inner loop: one week of one row. *)
Definition check_mapping {lang : Format.Messages} (row : ref) (idx : nat) (errors : list string)
    (mapping : mapping) : M (list string) :=
  week_raw ← row_read row (week mapping);
  let week_value := Js.or week_raw (Js.VNum 0) in
  batch_raw ← row_read row (batch mapping);
  let batch_value := Js.or batch_raw (Js.VNum 0) in
  if Js.strict_eq week_value (Js.VNum 0) || Js.not week_value then
    mret errors
  else if Js.strict_eq batch_value (Js.VNum 0) || Js.not batch_value then
    mret (errors ++ [row_error_message idx (label mapping) week_value])
  else
    mret errors.

(** The body of the outer loop: one row of [frm.doc.items]. *)
Definition check_row {lang : Format.Messages}
    (errors : list string) (cdn : string) (idx : nat) : M (list string) :=
  fold_each (λ errors mapping _, check_mapping (Some (child_doctype, cdn)) idx errors mapping)
    0 errors week_batch_mapping.

Definition validate_week_and_batch_fields {lang : Format.Messages} : M unit :=
  d ← frm_doc;
  match items d with
  | None => throw TypeError
  | Some rows =>
      errors ← fold_each check_row 0 [] rows;
      when (bool_decide (0 < length errors))
        (msgprint (Format.translate0 "Validation Error") "red"
           (Format.join "<br>" errors);;
         assign_validated false)
  end.

Definition fetch_sales_forecasts_if_dates_set {lang : Format.Messages} : M unit :=
  d ← frm_doc;
  when (text_truthy (Client.forecast_start_date d)
        && text_truthy (Client.forecast_end_date d)
        && text_truthy (Client.company d))
    (frm_call "fetch_sales_forecasts" true
       (Format.translate0 "Fetching sales forecasts...") FetchSalesForecastsDone).

(** The callback of the call of [fetch_sales_forecasts_if_dates_set]. *)
Definition fetch_sales_forecasts_callback {lang : Format.Messages} (r : response) : M unit :=
  when (negb (r_exc r))
    (refresh_field "items";;
     show_alert (Format.translate0 "Sales Forecasts fetched successfully") "green").

(** The callback of the call behind the custom button. *)
Definition create_material_requests_callback {lang : Format.Messages} (r : response) : M unit :=
  when (negb (r_exc r) && r_message r)
    (show_alert (Format.translate0 "Material Request created successfully") "green";;
     reload_doc).

(** The function behind the custom button. *)
Definition create_material_request_click {lang : Format.Messages} : M unit :=
  frm_call "create_material_requests" true
    (Format.translate0 "Creating Material Request...") CreateMaterialRequestsDone.

Definition refresh {lang : Format.Messages} : M unit :=
  d ← frm_doc;
  when (Js.strict_eq (docstatus d) (Js.VNum 1)
        && match material_request_items d with
           | Some mri => bool_decide (0 < length mri)
           | None => false
           end
        && bool_decide (status d = Some "Forecast Planned"))
    (add_custom_button (Format.translate0 "Create Material Request") CreateMaterialRequest).

Definition validate {lang : Format.Messages} : M unit :=
  validate_week_and_batch_fields.

(** The continuation of [frm.save()] in the callback below. *)
Definition items_fetched_saved {lang : Format.Messages} : M unit :=
  show_alert (Format.translate0 "Material Request Items fetched successfully") "green".

(** The callback of the call of [get_fetch_material_request_item]. *)
Definition fetch_material_request_items_callback (r : response) : M unit :=
  when (negb (r_exc r))
    (refresh_field "material_request_items";;
     frm_save_then AlertItemsFetched).

Definition get_fetch_material_request_item {lang : Format.Messages} : M unit :=
  frm_call "fetch_material_request_items" true
    (Format.translate0 "Fetching material request items...")
    FetchMaterialRequestItemsDone.

Definition forecast_start_date {lang : Format.Messages} : M unit :=
  fetch_sales_forecasts_if_dates_set.

Definition forecast_end_date {lang : Format.Messages} : M unit :=
  fetch_sales_forecasts_if_dates_set.

Definition company {lang : Format.Messages} : M unit :=
  fetch_sales_forecasts_if_dates_set.

(** The table [frappe.ui.form.on("Forecast Club", {...})] registers: the
    handler of an event or field of the form, if it has one. *)
Definition handlers {lang : Format.Messages} (name : string) : option (M unit) :=
  if decide (name = "refresh") then Some refresh
  else if decide (name = "validate") then Some validate
  else if decide (name = "get_fetch_material_request_item")
       then Some get_fetch_material_request_item
  else if decide (name = "forecast_start_date") then Some forecast_start_date
  else if decide (name = "forecast_end_date") then Some forecast_end_date
  else if decide (name = "company") then Some company
  else None.

(** The closures handed to the framework, run when their event arrives. *)
Definition run_callback {lang : Format.Messages} (cb : callback) (r : response) : M unit :=
  match cb with
  | CreateMaterialRequestsDone => create_material_requests_callback r
  | FetchMaterialRequestItemsDone => fetch_material_request_items_callback r
  | FetchSalesForecastsDone => fetch_sales_forecasts_callback r
  end.

Definition run_continuation {lang : Format.Messages} (k : continuation) : M unit :=
  match k with
  | AlertItemsFetched => items_fetched_saved
  end.

Definition run_action {lang : Format.Messages} (a : action) : M unit :=
  match a with
  | CreateMaterialRequest => create_material_request_click
  end.

End ForecastClub.

(** The script of the form, as the framework sees it, for a user whose
    language has the translations [lang]. *)
Definition forecast_club_in (lang : Format.Messages) : Script := {|
  on_form := ForecastClub.handlers;
  on_row := ForecastClubItem.handlers;
  on_answer := ForecastClub.run_callback;
  on_click := ForecastClub.run_action;
  on_saved := ForecastClub.run_continuation;
|}.

(** The script in the language of the source, with no translation
    loaded. *)
Definition forecast_club : Script :=
  Eval cbv beta delta [forecast_club_in] in forecast_club_in Format.no_messages.

#[export] Existing Instance forecast_club.

#[export] Hint Unfold
  ForecastClubItem.calculate_totals ForecastClubItem.validate_week_batch_relationship
  ForecastClubItem.batch_size
  ForecastClubItem.week_1 ForecastClubItem.week_2 ForecastClubItem.week_3
  ForecastClubItem.week_4 ForecastClubItem.w1_batch ForecastClubItem.w2_batch
  ForecastClubItem.w3_batch ForecastClubItem.w4_batch
  ForecastClub.check_mapping ForecastClub.check_row
  ForecastClub.validate_week_and_batch_fields
  ForecastClub.fetch_sales_forecasts_if_dates_set
  ForecastClub.fetch_sales_forecasts_callback
  ForecastClub.create_material_requests_callback
  ForecastClub.create_material_request_click ForecastClub.refresh
  ForecastClub.validate ForecastClub.items_fetched_saved
  ForecastClub.fetch_material_request_items_callback
  ForecastClub.get_fetch_material_request_item ForecastClub.forecast_start_date
  ForecastClub.forecast_end_date ForecastClub.company
  ForecastClub.run_callback ForecastClub.run_continuation ForecastClub.run_action
  : fc_unfold.
