(* ===== verification/Framework.v ===== *)
(** * Framework: a form driven by events

    A script only registers handlers; the framework calls them.  This
    file models the events of a form session (the form is drawn, a header
    field or a cell of the table is edited, a button is pressed, the
    server answers a call, the document is saved) as a step function on
    the client state, for any script: each step runs the handlers of the
    script the way the framework does.  The custom buttons are cleared
    before [refresh]; a value is stored before its handler runs; a save
    runs [validate] with [frappe.validated] set and goes on only if it is
    still set; an exception of a handler ends the event and keeps what
    the handler had done.

    The class [Blocking] states what the framework needs of a script to
    promise that only valid tables reach the server, and
    [blocking_sessions] proves the promise from it, for every session.

    The events a script sets off itself, the answer to a call it sent
    and a save it requested, form cascades.  The class [Settling] states
    what the framework needs of a script for every cascade to end: its
    callbacks send no call and request a bounded number of saves.  The
    measure [pending] falls with every such event ([due_pending]), so a
    cascade is no longer than the measure ([cascade_length]) and the loop
    [settle] that delivers what is pending needs no more fuel than the
    measure ([settle_enough]). *)

From S2P Require Import Prelude Eff JsValue Client.

Import Client.

Module Framework.

(** ** Events *)

(** What the server sends back with an answer: the parent document and
    the rows of its table, which the framework stores before the callback
    runs. *)
Definition snapshot : Type := doc * gmap string row.

Inductive event : Type :=
| Refresh
| SetHeader (fieldname : string) (v : option string)
| Press (fieldname : string)
| SetCell (cdn fieldname : string) (v : Js.value)
| Click (label : string)
| Answer (n : nat) (r : response) (sync : option snapshot)
| UserSave
| ScriptSave.

(** The document after the user has set a header field. *)
Definition set_header (fieldname : string) (v : option string) (d : doc) : doc :=
  if decide (fieldname = "forecast_start_date") then
    Doc (docstatus d) (status d) (material_request_items d) (items d)
        v (forecast_end_date d) (company d)
  else if decide (fieldname = "forecast_end_date") then
    Doc (docstatus d) (status d) (material_request_items d) (items d)
        (forecast_start_date d) v (company d)
  else if decide (fieldname = "company") then
    Doc (docstatus d) (status d) (material_request_items d) (items d)
        (forecast_start_date d) (forecast_end_date d) v
  else d.

(** The state after the framework has stored what the server sent. *)
Definition store (s : snapshot) (w : world) : world :=
  set_locals (<[child_doctype := s.2]>) (set_doc (λ _, s.1) w).

(** The table of the document as the server receives it on a save. *)
Definition table (w : world) : list row :=
  rows_of w (default [] (items (w_doc w))).

(** The names of the events of a form, which no field bears. *)
Definition form_events : list string := ["refresh"; "validate"].

(** Every table the server has accepted is valid. *)
Definition saved_valid (valid : row → Prop) (w : world) : Prop :=
  Forall (Forall valid) (w_saved w).

(** ** What the framework owes the script

    A call awaiting its answer and a save the script has requested are
    events to come.  [pending k] weighs them, a call [k] units more than
    a save: the callback of a call may request up to [k] saves. *)
Definition pending (k : nat) (w : world) : nat :=
  S k * length (w_calls w) + length (w_saves w).

(** Nothing is awaited. *)
Definition quiescent (w : world) : Prop := w_calls w = [] ∧ w_saves w = [].

#[global] Instance quiescent_dec w : Decision (quiescent w).
Proof. unfold quiescent. apply _. Defined.

(** An event of the framework's own that can happen now: the answer to a
    call that is awaited, a save that was requested. *)
Definition due (e : event) (w : world) : Prop :=
  match e with
  | Answer n _ _ => n < length (w_calls w)
  | ScriptSave => w_saves w ≠ []
  | _ => False
  end.

#[global] Instance due_dec e w : Decision (due e w).
Proof. destruct e; simpl; apply _. Defined.

(** The event delivered next when the answers come in the order of the
    calls and before the saves; [answer] is the server. *)
Definition next_due (answer : request → response * option snapshot) (w : world) :
    option event :=
  match w_calls w, w_saves w with
  | q :: _, _ => Some (Answer 0 (answer q).1 (answer q).2)
  | [], _ :: _ => Some ScriptSave
  | [], [] => None
  end.

(** A handler that asks nothing more of the framework, and one that asks
    at most [k] units more. *)
Definition asks_nothing (k : nat) (w w' : world) : Prop := pending k w' ≤ pending k w.

Definition asks_at_most (k : nat) (w w' : world) : Prop := pending k w' ≤ pending k w + k.

Section framework.
Context {script : Script}.

(** ** The framework *)

(** [frm.script_manager.trigger(name)] on the parent form. *)
Definition trigger (name : string) : M unit :=
  match on_form name with
  | Some handler => handler
  | None => mret tt
  end.

(** [frm.script_manager.trigger(fieldname, cdt, cdn)] on a row. *)
Definition trigger_child (fieldname cdt cdn : string) : M unit :=
  match on_row fieldname with
  | Some handler => handler cdt cdn
  | None => mret tt
  end.

(** A save: [frappe.validated] is set, the handlers of [validate] run,
    and the table goes to the server only if the flag is still set and no
    handler threw; then the continuation of the save runs. *)
Definition save (k : option continuation) (w : world) : world :=
  match trigger "validate" (set_validated true w) with
  | Throw _ w' => w'
  | Ok _ w' =>
      if w_validated w' then
        let w'' := set_saved (.++ [table w']) w' in
        match k with
        | Some k => final (on_saved k w'')
        | None => w''
        end
      else w'
  end.

(** The handler of a field of the parent form runs when the field
    changes or, for a button field, is pressed. *)
Definition trigger_field (fieldname : string) (w : world) : world :=
  if decide (fieldname ∈ form_events) then w else final (trigger fieldname w).

(** One event of the session. *)
Definition step (e : event) (w : world) : world :=
  match e with
  | Refresh => final (trigger "refresh" (set_buttons (λ _, []) w))
  | SetHeader fieldname v =>
      trigger_field fieldname (set_doc (set_header fieldname v) w)
  | Press fieldname => trigger_field fieldname w
  | SetCell cdn fieldname v =>
      match row_at w child_doctype cdn with
      | Some _ =>
          final (trigger_child fieldname child_doctype cdn
                   (write_field child_doctype cdn fieldname v w))
      | None => w
      end
  | Click label =>
      match list_find (λ b, b.1 = label) (w_buttons w) with
      | Some (_, (_, a)) => final (on_click a w)
      | None => w
      end
  | Answer n r sync =>
      match w_calls w !! n with
      | Some q =>
          let w' := set_calls (delete n) w in
          let w'' := match sync with
                     | Some s => if r_exc r then w' else store s w'
                     | None => w'
                     end in
          final (on_answer (req_callback q) r w'')
      | None => w
      end
  | UserSave => save None w
  | ScriptSave =>
      match w_saves w with
      | k :: ks => save (Some k) (set_saves (λ _, ks) w)
      | [] => w
      end
  end.

(** A session: the events in the order they happen. *)
Definition run (es : list event) (w : world) : world :=
  foldl (λ w e, step e w) w es.

(** The states a session reaches from [w0]. *)
Inductive reachable (w0 : world) : world → Prop :=
| reachable_start : reachable w0 w0
| reachable_step w e : reachable w0 w → reachable w0 (step e w).

(** The framework delivers what is due until nothing is, for at most
    [fuel] events. *)
Fixpoint settle (fuel : nat) (answer : request → response * option snapshot)
    (w : world) : world :=
  match fuel with
  | 0 => w
  | S fuel =>
      match next_due answer w with
      | Some e => settle fuel answer (step e w)
      | None => w
      end
  end.

(** A cascade: events of the framework's own, each due when it happens,
    in any order. *)
Inductive cascade : world → list event → world → Prop :=
| cascade_done w : cascade w [] w
| cascade_next w e es w' : due e w → cascade (step e w) es w' → cascade w (e :: es) w'.

(** Whether each event of a list is due when its turn comes. *)
Fixpoint all_due (es : list event) (w : world) : Prop :=
  match es with
  | [] => True
  | e :: es => due e w ∧ all_due es (step e w)
  end.

(** ** What the framework asks of a script

    A script blocks the tables that are not [valid] when its [validate]
    handlers leave [frappe.validated] set on valid tables only, and when
    none of its handlers and closures writes the record of what the
    server has accepted. *)
Class Blocking (valid : row → Prop) : Prop := {
  blocking_validate w a w' :
    trigger "validate" w = Ok a w' → w_validated w' = true → Forall valid (table w');
  blocking_form name : guarantees saved_kept (trigger name);
  blocking_row fieldname cdt cdn : guarantees saved_kept (trigger_child fieldname cdt cdn);
  blocking_answer cb r : guarantees saved_kept (on_answer cb r);
  blocking_click a : guarantees saved_kept (on_click a);
  blocking_saved k : guarantees saved_kept (on_saved k);
}.

(** A script settles when its callbacks send no call and request at most
    [k] saves, and when [validate] and the continuations of a save ask
    nothing more. *)
Class Settling (k : nat) : Prop := {
  settling_answer cb r : guarantees (asks_at_most k) (on_answer cb r);
  settling_validate : guarantees (asks_nothing k) (trigger "validate");
  settling_saved c : guarantees (asks_nothing k) (on_saved c);
}.

(** ** Sessions *)

Lemma run_snoc es e w : run (es ++ [e]) w = step e (run es w).
Proof. unfold run. by rewrite foldl_app. Qed.

Lemma reachable_run w0 w : reachable w0 w ↔ ∃ es, run es w0 = w.
Proof.
  split.
  - induction 1 as [|w e _ (es & <-)]; [by exists []|].
    exists (es ++ [e]). apply run_snoc.
  - intros (es & <-). induction es as [|e es IH] using rev_ind; [constructor|].
    rewrite run_snoc. by constructor.
Qed.

#[global] Instance all_due_dec es w : Decision (all_due es w).
Proof. revert w. induction es as [|e es IH]; intros w; simpl; apply _. Defined.

(** The cascades are the sessions of events that are due. *)
Lemma cascade_run w es w' : cascade w es w' ↔ all_due es w ∧ w' = run es w.
Proof.
  split.
  - induction 1 as [w|w e es w' He _ [IH ->]]; by simpl.
  - intros [Hes ->]. revert w Hes.
    induction es as [|e es IH]; intros w; simpl; [constructor|].
    intros [He Hes]. constructor; [done|by apply IH].
Qed.

(** What every step keeps, every session keeps. *)
Lemma reachable_invariant (P : world → Prop) w0 w :
  (∀ e w, P w → P (step e w)) → reachable w0 w → P w0 → P w.
Proof. intros Hstep Hw H0. induction Hw; auto. Qed.

(** ** A blocking script lets no invalid table through *)

Section blocking.
Context (valid : row → Prop) `{!Blocking valid}.

(** A handler leaves the record of the accepted tables as it found it. *)
Lemma kept_saved_valid {A} (c : M A) w w0 :
  guarantees saved_kept c → w_saved w = w_saved w0 →
  saved_valid valid w0 → saved_valid valid (final (c w)).
Proof. intros Hc E. unfold saved_valid. by rewrite (Hc w), E. Qed.

Lemma save_saved_valid k w : saved_valid valid w → saved_valid valid (save k w).
Proof.
  intros Hw. unfold save.
  pose proof (blocking_form "validate" (set_validated true w)) as Hkept.
  destruct (trigger "validate" _) as [a w'|e w'] eqn:Hrun; simpl in Hkept;
    [|by unfold saved_valid; rewrite Hkept].
  destruct (w_validated w') eqn:Hflag; [|by unfold saved_valid; rewrite Hkept].
  assert (saved_valid valid (set_saved (.++ [table w']) w')) as Hsaved.
  { apply Forall_app. split; [by rewrite Hkept|].
    apply Forall_singleton. eauto using blocking_validate. }
  destruct k as [k|]; [|done].
  by apply (kept_saved_valid _ _ _ (blocking_saved k) eq_refl).
Qed.

Lemma step_saved_valid e w : saved_valid valid w → saved_valid valid (step e w).
Proof.
  intros Hw. destruct e; simpl; unfold trigger_field; repeat case_match;
    try done; try by apply save_saved_valid.
  all: apply (kept_saved_valid _ _ w); [|done..];
    first [apply blocking_form|apply blocking_row|apply blocking_answer|apply blocking_click].
Qed.

(** In every session of a blocking script, every table the server has
    accepted is valid. *)
Lemma blocking_sessions w0 w :
  reachable w0 w → saved_valid valid w0 → saved_valid valid w.
Proof. apply reachable_invariant, step_saved_valid. Qed.

End blocking.

(** ** The events that are due run out *)

#[global] Instance asks_nothing_preorder k : PreOrder (asks_nothing k).
Proof. unfold asks_nothing. split; [by intros ?|]. intros ??? H1 H2. by etrans. Qed.

Section settling.
Context (k : nat) `{!Settling k}.

Lemma save_pending c w : pending k (save c w) ≤ pending k w.
Proof.
  unfold save. pose proof (settling_validate (set_validated true w)) as Hv.
  unfold asks_nothing in Hv.
  destruct (trigger "validate" _) as [a w'|e w']; simpl in Hv; [|done].
  destruct (w_validated w'); [|done].
  destruct c as [c|]; [|done].
  etrans; [apply (settling_saved c)|done].
Qed.

Lemma answer_pending n q r sync w :
  w_calls w !! n = Some q → pending k (step (Answer n r sync) w) < pending k w.
Proof.
  intros Hq. simpl. rewrite Hq.
  set (w' := set_calls (delete n) w).
  assert (pending k w' + S k = pending k w) as <-.
  { unfold pending, w'; simpl. rewrite length_delete by eauto.
    apply lookup_lt_Some in Hq. nia. }
  apply Nat.le_lt_trans with (pending k w' + k); [|lia].
  etrans; [apply (settling_answer (req_callback q) r)|].
  by destruct sync as [s|]; [destruct (r_exc r)|].
Qed.

(** Every event that is due leaves less to come. *)
Lemma due_pending e w : due e w → pending k (step e w) < pending k w.
Proof.
  destruct e as [| | | | |n r sync| |]; simpl; try done.
  - intros [q Hq]%lookup_lt_is_Some. by apply (answer_pending n q).
  - destruct (w_saves w) as [|c cs] eqn:Hs; [done|]. intros _.
    apply Nat.le_lt_trans with (pending k (set_saves (λ _, cs) w)); [apply save_pending|].
    unfold pending; simpl. rewrite Hs; simpl. lia.
Qed.

(** A cascade is no longer than what was pending when it began. *)
Lemma cascade_length w es w' : cascade w es w' → length es + pending k w' ≤ pending k w.
Proof.
  induction 1 as [w|w e es w' He _ IH]; simpl; [done|].
  apply due_pending in He. lia.
Qed.

Lemma next_due_due answer w e : next_due answer w = Some e → due e w.
Proof.
  unfold next_due. destruct (w_calls w) as [|q qs] eqn:Hq.
  - destruct (w_saves w) eqn:Hs; intros [= <-]; simpl. by rewrite Hs.
  - intros [= <-]; simpl. rewrite Hq; simpl. lia.
Qed.

Lemma next_due_None answer w : next_due answer w = None ↔ quiescent w.
Proof.
  unfold next_due, quiescent. destruct (w_calls w), (w_saves w); split; try done.
  all: by intros [? ?].
Qed.

(** [settle] delivers a cascade. *)
Lemma settle_cascade fuel answer w : ∃ es, cascade w es (settle fuel answer w).
Proof.
  revert w. induction fuel as [|fuel IH]; intros w; simpl; [exists []; constructor|].
  destruct (next_due answer w) as [e|] eqn:He; [|exists []; constructor].
  destruct (IH (step e w)) as [es Hes]. exists (e :: es).
  constructor; [by apply (next_due_due answer)|done].
Qed.

(** With as much fuel as is pending, [settle] ends with nothing awaited. *)
Lemma settle_enough fuel answer w :
  pending k w ≤ fuel → quiescent (settle fuel answer w).
Proof.
  revert w. induction fuel as [|fuel IH]; intros w Hw; simpl.
  - unfold pending in Hw. unfold quiescent.
    destruct (w_calls w), (w_saves w); simpl in Hw; by try lia.
  - destruct (next_due answer w) as [e|] eqn:He; [|by apply (next_due_None answer)].
    apply IH. apply (next_due_due answer), due_pending in He. lia.
Qed.

(** A cascade can always go on until nothing is awaited. *)
Lemma cascade_extends w es w' :
  cascade w es w' → ∃ es' w'', cascade w (es ++ es') w'' ∧ quiescent w''.
Proof.
  induction 1 as [w|w e es w' He _ (es' & w'' & Hes & Hq)]; simpl.
  - destruct (settle_cascade (pending k w) (λ _, (Response false false, None)) w)
      as [es Hes].
    exists es, (settle (pending k w) (λ _, (Response false false, None)) w).
    split; [done|]. by apply settle_enough.
  - exists es', w''. split; [by constructor|done].
Qed.

End settling.

End framework.

#[global] Arguments save : simpl never.
#[global] Arguments trigger : simpl never.
#[global] Arguments trigger_child : simpl never.

End Framework.
