(* ===== verification/Totals.v ===== *)
(** * Totals: [calculate_totals] recomputes the two totals of a row

    [calculate_totals] (lines 187-197 of [forecast_club.js]) runs when
    [batch_size] or a batch count of a row changes.  The theorems give its
    whole effect on the state, on every path: what it writes, what it
    leaves alone, when it throws, that it is idempotent on the store, and
    that for bounded inputs the integers it stores are the doubles that
    lines 191 and 194 compute. *)

From Stdlib Require Import SpecFloat.
From S2P Require Import Prelude Eff JsValue Double Format Client Form.

Import Client.

Module Totals.

Import ForecastClubItem.

Local Open Scope Z_scope.

(** ** Specification *)

(** The four batch-count fields, in the order the source adds them. *)
Definition batch_fields : list string :=
  ["w1_batch"; "w2_batch"; "w3_batch"; "w4_batch"].

(** The fields [calculate_totals] reads. *)
Definition inputs : list string := "batch_size" :: batch_fields.

(** The fields [calculate_totals] writes. *)
Definition outputs : list string := ["total_batch_qty"; "total_qty"].

(** The number of batches of a row: the sum of its batch counts, a count
    that is missing, [null], [NaN] or [0] counting for nothing. *)
Definition batch_total (r : row) : Z :=
  foldr (λ f acc, Js.num_or_zero (field r f) + acc) 0 batch_fields.

(** The quantity of a row: its number of batches times its batch size. *)
Definition quantity_total (r : row) : Z :=
  batch_total r * Js.num_or_zero (field r "batch_size").

(** The row with its totals recomputed. *)
Definition with_totals (r : row) : row :=
  <["total_qty" := Js.VNum (quantity_total r)]>
    (<["total_batch_qty" := Js.VNum (batch_total r)]> r).

(** The totals of a row agree with its batch counts and batch size. *)
Definition totals_consistent (r : row) : Prop :=
  field r "total_batch_qty" = Js.VNum (batch_total r) ∧
  field r "total_qty" = Js.VNum (quantity_total r).

#[global] Instance totals_consistent_dec r : Decision (totals_consistent r).
Proof. unfold totals_consistent. apply _. Defined.

(** The state after [calculate_totals] on the row [r] at [cdt], [cdn]. *)
Definition after_totals (cdt cdn : string) (r : row) (w : world) : world :=
  set_ui (.++ [RefreshField "items"])
    (write_field cdt cdn "total_qty" (Js.VNum (quantity_total r))
       (write_field cdt cdn "total_batch_qty" (Js.VNum (batch_total r)) w)).

(** Lines 191 and 194 as the source computes them, in doubles: an operand
    [row.f || 0], the sum of line 191 from left to right, and the product
    of line 194. *)
Definition operand (r : row) (f : string) : spec_float :=
  Double.of_value (Js.or (field r f) (Js.VNum 0)).

Definition total_batch_qty_double (r : row) : spec_float :=
  Double.add
    (Double.add (Double.add (operand r "w1_batch") (operand r "w2_batch"))
                (operand r "w3_batch"))
    (operand r "w4_batch").

Definition total_qty_double (r : row) : spec_float :=
  Double.mul (total_batch_qty_double r) (operand r "batch_size").

(** A row whose batch counts add up to [2^53 + 1]. *)
Definition large_row : row :=
  {[ "w1_batch" := Js.VNum (2 ^ 53); "w2_batch" := Js.VNum 1;
     "batch_size" := Js.VNum 1 ]}.

(** The row and the state of the scenarios of the specification. *)
Definition sample_row : row :=
  {[ "week_1" := Js.VNum 10; "week_2" := Js.VNum 20;
     "w1_batch" := Js.VNum 2; "w2_batch" := Js.VNum 4;
     "batch_size" := Js.VNum 5 ]}.

Definition sample_world : world :=
  World (Doc (Js.VNum 0) None None (Some ["row1"]) None None None)
        {[ child_doctype := {[ "row1" := sample_row ]} ]} true [] [] [] [] [].

(** ** The specification functions *)

Lemma batch_fields_inputs f : f ∈ batch_fields → f ∈ inputs.
Proof. apply list_elem_of_further. Qed.

(** The totals are not among the inputs. *)
Lemma inputs_not_outputs f :
  f ∈ inputs → "total_batch_qty" ≠ f ∧ "total_qty" ≠ f.
Proof.
  unfold inputs, batch_fields. rewrite !elem_of_cons, elem_of_nil.
  intros H; split; intros <-; intuition discriminate.
Qed.

Lemma not_outputs f : f ∉ outputs → "total_batch_qty" ≠ f ∧ "total_qty" ≠ f.
Proof.
  unfold outputs. rewrite !not_elem_of_cons. intros (? & ? & _). done.
Qed.

(** The totals depend on the input fields only. *)
Lemma batch_total_ext (r r' : row) :
  (∀ f, f ∈ batch_fields → field r' f = field r f) → batch_total r' = batch_total r.
Proof.
  intros H. unfold batch_total, batch_fields; simpl.
  rewrite !H; [done|by_compute..].
Qed.

Lemma quantity_total_ext (r r' : row) :
  (∀ f, f ∈ inputs → field r' f = field r f) → quantity_total r' = quantity_total r.
Proof.
  intros H. unfold quantity_total.
  rewrite (batch_total_ext r r'), (H "batch_size");
    [done|by_compute|auto using batch_fields_inputs].
Qed.

(** Writing the totals changes no other field. *)
Lemma with_totals_other r f : f ∉ outputs → field (with_totals r) f = field r f.
Proof.
  intros [??]%not_outputs. unfold with_totals. by rewrite !field_insert_ne.
Qed.

Lemma with_totals_input r f : f ∈ inputs → field (with_totals r) f = field r f.
Proof.
  intros [??]%inputs_not_outputs. unfold with_totals. by rewrite !field_insert_ne.
Qed.

Lemma batch_total_with_totals r : batch_total (with_totals r) = batch_total r.
Proof. apply batch_total_ext; auto using with_totals_input, batch_fields_inputs. Qed.

Lemma quantity_total_with_totals r : quantity_total (with_totals r) = quantity_total r.
Proof. apply quantity_total_ext, with_totals_input. Qed.

Lemma with_totals_consistent r : totals_consistent (with_totals r).
Proof.
  split; rewrite ?batch_total_with_totals, ?quantity_total_with_totals;
    unfold with_totals.
  - by rewrite field_insert_ne, field_insert_eq.
  - by rewrite field_insert_eq.
Qed.

Lemma with_totals_idemp r : with_totals (with_totals r) = with_totals r.
Proof.
  unfold with_totals at 1.
  rewrite batch_total_with_totals, quantity_total_with_totals. unfold with_totals.
  rewrite (insert_insert_ne _ "total_batch_qty" "total_qty") by done.
  by rewrite !insert_insert_eq.
Qed.

(** A write to a field that is neither read nor written by
    [calculate_totals] keeps the totals consistent. *)
Lemma totals_consistent_insert (r : row) f v :
  f ∉ inputs → f ∉ outputs → totals_consistent r → totals_consistent (<[f:=v]> r).
Proof.
  intros Hin [??]%not_outputs [Hb Hq].
  assert (∀ g, g ∈ inputs → field (<[f:=v]> r) g = field r g) as Hext.
  { intros g Hg. apply field_insert_ne. by intros ->. }
  split; rewrite field_insert_ne by done.
  - rewrite Hb. f_equal. symmetry. apply batch_total_ext. auto using batch_fields_inputs.
  - rewrite Hq. f_equal. symmetry. by apply quantity_total_ext.
Qed.

(** The sum the source computes, operator by operator, is the sum of the
    specification. *)
Lemma sum_of_batches r :
  Js.add (Js.add (Js.add (Js.or (field r "w1_batch") (Js.VNum 0))
                         (Js.or (field r "w2_batch") (Js.VNum 0)))
                 (Js.or (field r "w3_batch") (Js.VNum 0)))
         (Js.or (field r "w4_batch") (Js.VNum 0))
  = Js.VNum (batch_total r).
Proof.
  autorewrite with fc_simpl. unfold batch_total, batch_fields; simpl.
  f_equal. lia.
Qed.

(** ** The store after the two writes *)

Lemma row_at_after_totals w cdt cdn r :
  row_at w cdt cdn = Some r →
  row_at (after_totals cdt cdn r w) cdt cdn = Some (with_totals r).
Proof.
  intros Hr. unfold after_totals, with_totals.
  change (row_at (set_ui ?f ?w)) with (row_at w).
  erewrite row_at_write_field_eq; [done|]. by erewrite row_at_write_field_eq.
Qed.

Lemma row_at_after_totals_ne w cdt cdn r cdt' cdn' :
  (cdt, cdn) ≠ (cdt', cdn') →
  row_at (after_totals cdt cdn r w) cdt' cdn' = row_at w cdt' cdn'.
Proof.
  intros Hne. unfold after_totals.
  change (row_at (set_ui ?f ?w)) with (row_at w).
  by rewrite !row_at_write_field_ne.
Qed.

(** ** The two paths of [calculate_totals] *)

Lemma calculate_totals_found w cdt cdn r :
  row_at w cdt cdn = Some r →
  calculate_totals cdt cdn w = Ok tt (after_totals cdt cdn r w).
Proof.
  intros Hr. unfold calculate_totals, after_totals. eff_run.
  rewrite !Hr; simpl. rewrite sum_of_batches.
  erewrite field_write_eq by done.
  rewrite field_write_ne by done. rewrite Hr; simpl.
  by autorewrite with fc_simpl.
Qed.

Lemma calculate_totals_missing w cdt cdn :
  row_at w cdt cdn = None → calculate_totals cdt cdn w = Throw TypeError w.
Proof.
  unfold row_at, calculate_totals.
  destruct (w_locals w !! cdt) as [t|] eqn:Ht; simpl; intros Hr; by eff_run.
Qed.

(** The state [calculate_totals] ends in, on both paths. *)
Lemma calculate_totals_final w cdt cdn :
  final (calculate_totals cdt cdn w) =
  match row_at w cdt cdn with
  | Some r => after_totals cdt cdn r w
  | None => w
  end.
Proof.
  destruct (row_at w cdt cdn) as [r|] eqn:Hr.
  - by rewrite (calculate_totals_found _ _ _ r).
  - by rewrite calculate_totals_missing.
Qed.

(** ** Theorems *)

(** C3. [calculate_totals] on a row that exists returns, sets
    [total_batch_qty] to the sum of the four batch counts and [total_qty]
    to that sum times the batch size (each missing, [null], [NaN] or zero
    field counting as 0), asks for the table [items] to be redrawn and
    changes nothing else; on a row that does not exist it throws a
    [TypeError] and changes nothing. *)
Theorem calculate_totals_spec w cdt cdn :
  calculate_totals cdt cdn w =
  match row_at w cdt cdn with
  | Some r => Ok tt (after_totals cdt cdn r w)
  | None => Throw TypeError w
  end.
Proof.
  destruct (row_at w cdt cdn) as [r|] eqn:Hr;
    auto using calculate_totals_found, calculate_totals_missing.
Qed.

(** After [calculate_totals] the totals of the row agree with its
    batch counts and batch size, whatever the row held before, and the
    fields it read are as they were. *)
Theorem calculate_totals_establishes w cdt cdn r :
  row_at w cdt cdn = Some r →
  ∃ r', row_at (final (calculate_totals cdt cdn w)) cdt cdn = Some r' ∧
        totals_consistent r' ∧
        (∀ f, f ∈ inputs → field r' f = field r f).
Proof.
  intros Hr. exists (with_totals r). rewrite calculate_totals_final, Hr.
  eauto using row_at_after_totals, with_totals_consistent, with_totals_input.
Qed.

Lemma calculate_totals_establishes_witness :
  ∃ r', row_at (final (calculate_totals child_doctype "row1" sample_world))
               child_doctype "row1" = Some r' ∧
        totals_consistent r' ∧
        (∀ f, f ∈ inputs → field r' f = field sample_row f).
Proof. apply (calculate_totals_establishes sample_world). reflexivity. Defined.

(** [calculate_totals] writes the fields [total_batch_qty] and
    [total_qty] of the row it is called on and nothing else in the store:
    every other field of every row reads as before, whether the call
    returns or throws. *)
Theorem calculate_totals_frame w cdt cdn cdt' cdn' f :
  (cdt', cdn') ≠ (cdt, cdn) ∨ f ∉ outputs →
  field (default ∅ (row_at (final (calculate_totals cdt cdn w)) cdt' cdn')) f =
  field (default ∅ (row_at w cdt' cdn')) f.
Proof.
  intros Hf. rewrite calculate_totals_final.
  destruct (row_at w cdt cdn) as [r|] eqn:Hr; [|done].
  destruct (decide ((cdt, cdn) = (cdt', cdn'))) as [[= <- <-]|Hne].
  - destruct Hf as [?|Hf]; [done|].
    rewrite (row_at_after_totals _ _ _ r), Hr by done; simpl.
    by apply with_totals_other.
  - by rewrite row_at_after_totals_ne.
Qed.

Lemma calculate_totals_frame_witness :
  field (default ∅ (row_at (final (calculate_totals child_doctype "row1" sample_world))
                           child_doctype "row1")) "week_1" =
  field (default ∅ (row_at sample_world child_doctype "row1")) "week_1".
Proof. apply calculate_totals_frame. right. by_compute. Defined.

(** C30. [calculate_totals] is idempotent on the store: a second call on a
    row leaves every row as the first call left it. *)
Theorem calculate_totals_idempotent w cdt cdn cdt' cdn' :
  row_at (final ((calculate_totals cdt cdn;; calculate_totals cdt cdn) w)) cdt' cdn' =
  row_at (final (calculate_totals cdt cdn w)) cdt' cdn'.
Proof.
  rewrite run_bind. destruct (row_at w cdt cdn) as [r|] eqn:Hr;
    [|by rewrite calculate_totals_missing].
  rewrite (calculate_totals_found _ _ _ r) by done.
  pose proof (row_at_after_totals _ _ _ _ Hr) as Hr'.
  rewrite (calculate_totals_found _ _ _ _ Hr'); simpl.
  destruct (decide ((cdt, cdn) = (cdt', cdn'))) as [[= <- <-]|Hne].
  - by rewrite (row_at_after_totals _ _ _ _ Hr'), Hr', with_totals_idemp.
  - by rewrite !row_at_after_totals_ne.
Qed.

(** The sum of counts between 0 and [c] lies between 0 and [4 * c]. *)
Lemma batch_total_bounds (r : row) (c : Z) :
  Forall (λ f, 0 ≤ Js.num_or_zero (field r f) ≤ c) batch_fields →
  0 ≤ batch_total r ≤ 4 * c.
Proof.
  unfold batch_fields, batch_total; simpl.
  rewrite !Forall_cons. intros (H1 & H2 & H3 & H4 & _). lia.
Qed.

Lemma operand_num r f : operand r f = Double.of_Z (Js.num_or_zero (field r f)).
Proof. unfold operand. by rewrite Js.or_zero. Qed.

(** In doubles, the sum of line 191 is the sum of the counts when they lie
    between 0 and [c] and [4 * c] is a safe integer. *)
Lemma total_batch_qty_double_exact (r : row) (c : Z) :
  Forall (λ f, 0 ≤ Js.num_or_zero (field r f) ≤ c) batch_fields →
  Js.safe_integer (4 * c) →
  total_batch_qty_double r = Double.of_Z (batch_total r).
Proof.
  unfold batch_fields, batch_total, total_batch_qty_double; simpl.
  rewrite !Forall_cons, !operand_num. intros (H1 & H2 & H3 & H4 & _) Hc%Double.safe_abs.
  rewrite !Double.add_exact by lia. f_equal; lia.
Qed.

(** In doubles, the product of line 194 is the product of the sum and the
    batch size when both and their product are at most safe integers. *)
Lemma total_qty_double_exact (r : row) (c s : Z) :
  Forall (λ f, 0 ≤ Js.num_or_zero (field r f) ≤ c) batch_fields →
  0 ≤ Js.num_or_zero (field r "batch_size") ≤ s →
  Js.safe_integer (4 * c) → Js.safe_integer s → Js.safe_integer (4 * c * s) →
  total_qty_double r = Double.of_Z (quantity_total r).
Proof.
  intros Hb Hs Hc Hs' Hcs. unfold total_qty_double, quantity_total.
  rewrite (total_batch_qty_double_exact r c), operand_num by done.
  apply batch_total_bounds in Hb. apply Double.safe_abs in Hc, Hs', Hcs.
  set (t := batch_total r) in *. set (bs := Js.num_or_zero _) in *.
  assert (0 ≤ t * bs ≤ 4 * c * s) by nia.
  apply Double.mul_exact; lia.
Qed.

(** C18. The totals are those of the doubles of the source: when the four
    batch counts of a row lie between 0 and [c] and its batch size between
    0 and [s], with [4 * c], [s] and [4 * c * s] safe integers, the integers
    [calculate_totals] leaves in [total_batch_qty] and [total_qty] are safe
    integers, and their doubles are the sum of line 191 and the product of
    line 194 computed in IEEE 754 binary64 arithmetic. *)
Theorem calculate_totals_in_doubles (w : world) (cdt cdn : string) (r : row) (c s : Z) :
  row_at w cdt cdn = Some r →
  Forall (λ f, 0 ≤ Js.num_or_zero (field r f) ≤ c) batch_fields →
  0 ≤ Js.num_or_zero (field r "batch_size") ≤ s →
  Js.safe_integer (4 * c) →
  Js.safe_integer s →
  Js.safe_integer (4 * c * s) →
  ∃ r', row_at (final (calculate_totals cdt cdn w)) cdt cdn = Some r' ∧
    Forall (λ f, Double.safe_value (field r' f)) outputs ∧
    Double.of_value (field r' "total_batch_qty") = total_batch_qty_double r ∧
    Double.of_value (field r' "total_qty") = total_qty_double r.
Proof.
  intros Hr Hb Hs Hc Hs' Hcs. exists (with_totals r).
  rewrite (calculate_totals_found _ _ _ r) by done; simpl.
  rewrite row_at_after_totals by done.
  destruct (with_totals_consistent r) as [Ht Hq].
  rewrite batch_total_with_totals in Ht. rewrite quantity_total_with_totals in Hq.
  rewrite (total_qty_double_exact r c s), (total_batch_qty_double_exact r c) by done.
  unfold outputs. rewrite !Forall_cons, Ht, Hq.
  split_and!; [done| | |done..]; unfold Double.safe_value; simpl.
  - apply batch_total_bounds in Hb. unfold Js.safe_integer in *. lia.
  - apply batch_total_bounds in Hb. unfold Js.safe_integer, quantity_total in *.
    set (t := batch_total r) in *. set (bs := Js.num_or_zero _) in *. nia.
Qed.

Lemma calculate_totals_in_doubles_witness :
  ∃ r', row_at (final (calculate_totals child_doctype "row1" sample_world))
               child_doctype "row1" = Some r' ∧
    Forall (λ f, Double.safe_value (field r' f)) outputs ∧
    Double.of_value (field r' "total_batch_qty") = total_batch_qty_double sample_row ∧
    Double.of_value (field r' "total_qty") = total_qty_double sample_row.
Proof.
  apply (calculate_totals_in_doubles sample_world child_doctype "row1" sample_row 4 5);
    by_compute.
Defined.

(** Beyond the safe integers the model and the source part: the counts of
    [large_row] add up to [2^53 + 1], while the double of line 191 holds
    [2^53]. *)
Example totals_rounded_beyond_safe :
  batch_total large_row = 2 ^ 53 + 1 ∧
  Double.to_Z (total_batch_qty_double large_row) = Some (2 ^ 53).
Proof. split; by vm_compute. Qed.

End Totals.
