(* ===== verification/RowCheck.v ===== *)
(** * RowCheck: the warning of [validate_week_batch_relationship]

    [validate_week_batch_relationship] (lines 171-185 of
    [forecast_club.js]) runs when a week quantity or its batch count
    changes in a row.  It warns when the week has a quantity and no batch,
    and never blocks: the theorems give its whole effect, the condition of
    the warning and the text shown. *)

From S2P Require Import Prelude Eff JsValue Format Client Form.

Import Client.

Module RowCheck.

Import ForecastClubItem.

Local Open Scope Z_scope.

(** ** Specification *)

(** The quantity a field of a row stands for. *)
Definition quantity (r : row) (f : string) : Z := Js.num_or_zero (field r f).

(** The rule of the warning: the week has a positive quantity and its
    batch count is zero or missing. *)
Definition warns (r : row) (week_field batch_field : string) : bool :=
  bool_decide (0 < quantity r week_field) && bool_decide (quantity r batch_field = 0).

(** The dialog of the warning. *)
Definition warning (r : row) (week_field week_label : string) : ui :=
  Msgprint "Validation Error" "orange"
    (relationship_message week_label (Js.VNum (quantity r week_field))).

(** The state after the check of the row [r]. *)
Definition after_check (r : row) (week_field batch_field week_label : string)
    (w : world) : world :=
  if warns r week_field batch_field
  then set_ui (.++ [warning r week_field week_label]) w
  else w.

(** The rows of the scenarios of the specification. *)
Definition row_without_batch : row :=
  {[ "week_1" := Js.VNum 10; "batch_size" := Js.VNum 5 ]}.

Definition row_with_batches : row :=
  {[ "week_1" := Js.VNum 10; "week_2" := Js.VNum 20;
     "w1_batch" := Js.VNum 2; "w2_batch" := Js.VNum 4;
     "batch_size" := Js.VNum 5 ]}.

Definition sample_world : world :=
  World (Doc (Js.VNum 0) None None (Some ["a"; "b"]) None None None)
        {[ child_doctype := {[ "a" := row_without_batch; "b" := row_with_batches ]} ]}
        true [] [] [] [] [].

(** ** The two paths *)

(** The condition of the source, operator by operator, is the rule. *)
Lemma condition_warns r week_field batch_field :
  Js.gt (Js.or (field r week_field) (Js.VNum 0)) (Js.VNum 0)
  && Js.strict_eq (Js.or (field r batch_field) (Js.VNum 0)) (Js.VNum 0)
  = warns r week_field batch_field.
Proof. by autorewrite with fc_simpl. Qed.

Lemma check_found w cdt cdn week_field batch_field week_label r :
  row_at w cdt cdn = Some r →
  validate_week_batch_relationship cdt cdn week_field batch_field week_label w
  = Ok tt (after_check r week_field batch_field week_label w).
Proof.
  intros Hr. unfold validate_week_batch_relationship, after_check. eff_run.
  rewrite Hr; simpl. rewrite condition_warns.
  destruct (warns r week_field batch_field); eff_run; [|done].
  by rewrite Js.or_zero.
Qed.

Lemma check_missing w cdt cdn week_field batch_field week_label :
  row_at w cdt cdn = None →
  validate_week_batch_relationship cdt cdn week_field batch_field week_label w
  = Throw TypeError w.
Proof.
  unfold row_at, validate_week_batch_relationship.
  destruct (w_locals w !! cdt) as [t|] eqn:Ht; simpl; intros Hr; by eff_run.
Qed.

Lemma check_final w cdt cdn week_field batch_field week_label :
  final (validate_week_batch_relationship cdt cdn week_field batch_field week_label w) =
  match row_at w cdt cdn with
  | Some r => after_check r week_field batch_field week_label w
  | None => w
  end.
Proof.
  destruct (row_at w cdt cdn) as [r|] eqn:Hr.
  - by erewrite check_found.
  - by rewrite check_missing.
Qed.

(** The check leaves the rows as they are. *)
Lemma after_check_locals r week_field batch_field week_label w :
  w_locals (after_check r week_field batch_field week_label w) = w_locals w.
Proof. unfold after_check. by case_match. Qed.

(** ** Theorems *)

(** C4. [validate_week_batch_relationship] on a row that exists returns;
    it shows one orange dialog when the week quantity is positive and the
    batch count is zero (missing, [null], [NaN] and 0 counting as 0) and
    does nothing otherwise; on a row that does not exist it throws a
    [TypeError]. *)
Theorem validate_week_batch_relationship_spec w cdt cdn week_field batch_field week_label :
  validate_week_batch_relationship cdt cdn week_field batch_field week_label w =
  match row_at w cdt cdn with
  | Some r => Ok tt (after_check r week_field batch_field week_label w)
  | None => Throw TypeError w
  end.
Proof.
  destruct (row_at w cdt cdn) as [r|] eqn:Hr;
    auto using check_found, check_missing.
Qed.

(** The warning does not block: the check leaves the store, the
    document, the flag [frappe.validated], the buttons, the pending calls
    and the pending saves as they are, and only adds to what is shown. *)
Theorem validate_week_batch_relationship_non_blocking
    w cdt cdn week_field batch_field week_label :
  let w' := final (validate_week_batch_relationship cdt cdn week_field batch_field
                     week_label w) in
  set_ui (λ _, w_ui w) w' = w ∧ ui_grows w w'.
Proof.
  simpl. rewrite check_final. unfold after_check, ui_grows.
  destruct (row_at w cdt cdn) as [r|]; [|by destruct w].
  destruct (warns r week_field batch_field); destruct w; simpl;
    split; try done; by apply prefix_app_r.
Qed.

(** The text of the warning names the week twice and prints the
    quantity in decimal, whatever the label is. *)
Theorem relationship_message_text (week_label : string) (q : Z) :
  relationship_message week_label (Js.VNum q) =
  week_label +:+ " has a value of " +:+ pretty q +:+ ", but " +:+ week_label
  +:+ " Batch is 0 or empty. Please enter a batch value when week value is greater than 0.".
Proof. reflexivity. Qed.

(** The check of the first scenario of the specification: the row
    with 10 in week 1 and no batch is warned about week 1, the row with
    batches is not. *)
Theorem scenario_row_warning :
  w_ui (final (week_1 child_doctype "a" sample_world)) =
    [Msgprint "Validation Error" "orange"
       "Week 1 has a value of 10, but Week 1 Batch is 0 or empty. Please enter a batch value when week value is greater than 0."]
  ∧ w_ui (final (week_1 child_doctype "b" sample_world)) = []
  ∧ w_ui (final (week_2 child_doctype "b" sample_world)) = [].
Proof. by vm_compute. Qed.

End RowCheck.
