(* ===== verification/DocCheck.v ===== *)
(** * DocCheck: the blocking validation of the document

    [validate_week_and_batch_fields] (lines 68-106 of [forecast_club.js])
    runs on the [validate] event, before the document is saved.  It walks
    the rows of [frm.doc.items] and the four weeks of each row, collects
    an error for each week that has a quantity and no batch, and when
    there is one shows them all in one red dialog and clears
    [frappe.validated].  The theorems relate the two nested loops to a
    list comprehension, give the whole effect of the function, and derive
    the order, the number and the text of the errors: which texts are
    errors of a table, that the row number of an error reads back from
    its text, that there is one error, a text of its own, for each week
    in violation, and that the message of the dialog splits at its tags
    into the errors again. *)

From Stdlib Require Import Ascii.
From S2P Require Import Prelude Eff JsValue Format Client Form.

Import Client.

Module DocCheck.

Import ForecastClub.


(** ** Specification *)

(** The quantity a field of a row stands for. *)
Definition quantity (r : row) (f : string) : Z := Js.num_or_zero (field r f).

(** The rule of the error: the week has a quantity other than zero and
    its batch count is zero or missing. *)
Definition violates (r : row) (m : mapping) : bool :=
  negb (bool_decide (quantity r (week m) = 0%Z)) && bool_decide (quantity r (batch m) = 0%Z).

(** The error of a week of a row, if it has one. *)
Definition week_error (idx : nat) (r : row) (m : mapping) : list string :=
  if violates r m
  then [row_error_message idx (label m) (Js.VNum (quantity r (week m)))]
  else [].

(** The errors of a row, week after week. *)
Definition row_errors (idx : nat) (r : row) : list string :=
  concat (week_error idx r <$> week_batch_mapping).

(** The errors of a table, row after row. *)
Definition doc_errors (rows : list row) : list string :=
  concat (imap row_errors rows).

#[global] Instance mapping_eq_dec : EqDecision mapping.
Proof. solve_decision. Defined.

(** The weeks of a row that are in error. *)
Definition violations (r : row) : list mapping :=
  filter (λ m, violates r m = true) week_batch_mapping.

(** A row is valid when none of its weeks is in error. *)
Definition row_valid (r : row) : Prop :=
  Forall (λ m, violates r m = false) week_batch_mapping.

#[global] Instance row_valid_dec r : Decision (row_valid r).
Proof. unfold row_valid. apply _. Defined.

(** The dialog of the errors. *)
Definition error_dialog (errors : list string) : ui :=
  Msgprint "Validation Error" "red" (Format.join "<br>" errors).

(** The state after the validation of a table with the given errors. *)
Definition after_validation (errors : list string) (w : world) : world :=
  match errors with
  | [] => w
  | _ => set_validated false (set_ui (.++ [error_dialog errors]) w)
  end.

(** The row an error speaks of, read back from its text: the number
    behind [Row], counted from 0 as the loop counts. *)
Definition error_row (e : string) : option nat :=
  match e with
  | String "R"%char (String "o"%char (String "w"%char (String " "%char s))) =>
      n ← Format.array_index (Format.leading_digits s);
      if decide (n = 0)%N then None else Some (N.to_nat n - 1)
  | _ => None
  end.

(** The rows of the scenarios of the specification. *)
Definition row_week2_without_batch : row :=
  {[ "week_1" := Js.VNum 10; "w1_batch" := Js.VNum 2;
     "week_2" := Js.VNum 20; "batch_size" := Js.VNum 5 ]}.

Definition row_with_batches : row :=
  {[ "week_1" := Js.VNum 10; "week_2" := Js.VNum 20;
     "w1_batch" := Js.VNum 2; "w2_batch" := Js.VNum 4;
     "batch_size" := Js.VNum 5 ]}.

Definition sample_world : world :=
  World (Doc (Js.VNum 0) None None (Some ["a"; "b"]) None None None)
        {[ child_doctype :=
             {[ "a" := row_week2_without_batch; "b" := row_with_batches ]} ]}
        true [] [] [] [] [].

(** A table of three rows, the first and the last with week 2 without
    batch. *)
Definition two_errors_world : world :=
  World (Doc (Js.VNum 0) None None (Some ["a"; "b"; "c"]) None None None)
        {[ child_doctype :=
             {[ "a" := row_week2_without_batch; "b" := row_with_batches;
                "c" := row_week2_without_batch ]} ]}
        true [] [] [] [] [].

(** ** The loops *)

(** The two tests of the source, operator by operator, are the rule. *)
Lemma conditions_violates r m :
  (if Js.strict_eq (Js.or (field r (week m)) (Js.VNum 0)) (Js.VNum 0)
      || Js.not (Js.or (field r (week m)) (Js.VNum 0))
   then false
   else Js.strict_eq (Js.or (field r (batch m)) (Js.VNum 0)) (Js.VNum 0)
        || Js.not (Js.or (field r (batch m)) (Js.VNum 0)))
  = violates r m.
Proof.
  autorewrite with fc_simpl. unfold violates, quantity.
  rewrite !orb_diag. by case_bool_decide.
Qed.

(** The body of the inner loop reads the row and pushes at most one
    error. *)
Lemma check_mapping_run w cdn idx errors m :
  check_mapping (Some (child_doctype, cdn)) idx errors m w =
  Ok (errors ++ week_error idx (default ∅ (row_at w child_doctype cdn)) m) w.
Proof.
  unfold check_mapping, week_error. eff_run.
  set (r := default ∅ (row_at w child_doctype cdn)).
  rewrite <- (conditions_violates r m).
  destruct (Js.strict_eq (Js.or (field r (week m)) _) _ || _); simpl;
    [by rewrite app_nil_r|].
  destruct (Js.strict_eq (Js.or (field r (batch m)) _) _ || _); simpl;
    [|by rewrite app_nil_r].
  unfold quantity. by rewrite <- Js.or_zero.
Qed.

(** The inner loop pushes the errors of the row. *)
Lemma check_row_run w errors cdn idx :
  check_row errors cdn idx w =
  Ok (errors ++ row_errors idx (default ∅ (row_at w child_doctype cdn))) w.
Proof.
  unfold check_row.
  rewrite (fold_each_push _ (λ m _, week_error idx (default ∅ (row_at w child_doctype cdn)) m))
    by (intros; apply check_mapping_run).
  done.
Qed.

(** The outer loop computes the errors of the table. *)
Lemma loops_run w names :
  fold_each check_row 0 [] names w = Ok (doc_errors (rows_of w names)) w.
Proof.
  rewrite (fold_each_push _ (λ cdn i, row_errors i (default ∅ (row_at w child_doctype cdn))))
    by (intros; apply check_row_run).
  unfold doc_errors, rows_of. by rewrite imap_fmap.
Qed.

Lemma validate_with_items w names :
  items (w_doc w) = Some names →
  validate_week_and_batch_fields w =
  Ok tt (after_validation (doc_errors (rows_of w names)) w).
Proof.
  intros Hitems. unfold validate_week_and_batch_fields. eff_run.
  rewrite Hitems. eff_run. rewrite loops_run. eff_run.
  unfold after_validation, error_dialog.
  destruct (doc_errors _) as [|e errors]; [done|].
  rewrite bool_decide_eq_true_2 by (simpl; lia). by eff_run.
Qed.

Lemma validate_without_items w :
  items (w_doc w) = None → validate_week_and_batch_fields w = Throw TypeError w.
Proof. intros Hitems. unfold validate_week_and_batch_fields. eff_run. by rewrite Hitems. Qed.

(** The state the validation ends in, on both paths. *)
Lemma validate_final w :
  final (validate_week_and_batch_fields w) =
  match items (w_doc w) with
  | Some names => after_validation (doc_errors (rows_of w names)) w
  | None => w
  end.
Proof.
  destruct (items (w_doc w)) as [names|] eqn:Hitems.
  - by rewrite (validate_with_items _ names).
  - by rewrite validate_without_items.
Qed.

(** ** The errors of a table *)

Lemma week_error_nil idx r m : week_error idx r m = [] ↔ violates r m = false.
Proof. unfold week_error. by destruct (violates r m). Qed.

Lemma week_error_length idx r m : length (week_error idx r m) ≤ 1.
Proof. unfold week_error. destruct (violates r m); simpl; lia. Qed.

Lemma row_errors_nil idx r : row_errors idx r = [] ↔ row_valid r.
Proof.
  unfold row_errors, row_valid. rewrite concat_nil_Forall, Forall_fmap.
  apply Forall_iff. intros m. apply week_error_nil.
Qed.

Lemma row_errors_length idx r : length (row_errors idx r) ≤ 4.
Proof.
  unfold row_errors.
  etrans; [apply (length_concat_le 1)|by rewrite length_fmap].
  apply Forall_fmap, Forall_true. intros m. apply week_error_length.
Qed.

Lemma doc_errors_nil rows : doc_errors rows = [] ↔ Forall row_valid rows.
Proof.
  unfold doc_errors. rewrite concat_nil_Forall, Forall_imap, Forall_lookup.
  by setoid_rewrite row_errors_nil.
Qed.

Lemma doc_errors_length rows : length (doc_errors rows) ≤ 4 * length rows.
Proof.
  unfold doc_errors. etrans; [apply (length_concat_le 4)|by rewrite length_imap].
  apply Forall_imap. intros i r _. apply row_errors_length.
Qed.

(** An error is in the list exactly when it is the error of a week in
    violation of a row of the table. *)
Lemma elem_of_week_error e idx r m :
  e ∈ week_error idx r m ↔
  violates r m = true ∧ e = row_error_message idx (label m) (Js.VNum (quantity r (week m))).
Proof.
  unfold week_error. destruct (violates r m).
  - rewrite list_elem_of_singleton. by split; [|intros [_ ->]].
  - rewrite elem_of_nil. by split; [|intros [? _]].
Qed.

Lemma elem_of_row_errors e idx r :
  e ∈ row_errors idx r ↔
  ∃ m, m ∈ week_batch_mapping ∧ violates r m = true ∧
       e = row_error_message idx (label m) (Js.VNum (quantity r (week m))).
Proof.
  unfold row_errors. rewrite elem_of_concat.
  setoid_rewrite list_elem_of_fmap. split.
  - intros (l & He & m & -> & Hm). exists m. by apply elem_of_week_error in He.
  - intros (m & Hm & He). eexists. split; [by apply elem_of_week_error|eauto].
Qed.

Lemma elem_of_doc_errors e rows :
  e ∈ doc_errors rows ↔
  ∃ idx r m, rows !! idx = Some r ∧ m ∈ week_batch_mapping ∧ violates r m = true ∧
       e = row_error_message idx (label m) (Js.VNum (quantity r (week m))).
Proof.
  unfold doc_errors. rewrite elem_of_concat. split.
  - intros (l & He & (idx & Hl)%list_elem_of_lookup_1).
    rewrite list_lookup_imap in Hl.
    destruct (rows !! idx) as [r|] eqn:Hr; simplify_eq/=.
    apply elem_of_row_errors in He as (m & ? & ? & ?). by exists idx, r, m.
  - intros (idx & r & m & Hr & Hm & Hv & ->). exists (row_errors idx r). split.
    + apply elem_of_row_errors. eauto.
    + apply (list_elem_of_lookup_2 _ idx). by rewrite list_lookup_imap, Hr.
Qed.

(** ** The text of an error *)

(** The text names the row by its position counted from 1 and the week
    twice, and prints the quantity as JavaScript converts it. *)
Lemma row_error_message_text idx label v :
  row_error_message idx label v =
  "Row " +:+ pretty (idx + 1)%nat +:+ ": " +:+ label +:+ " has value " +:+ Js.to_string v
  +:+ ", but " +:+ label
  +:+ " Batch is 0 or empty. Batch is required when week value is greater than 0.".
Proof. reflexivity. Qed.

Lemma error_row_message idx label v :
  error_row (row_error_message idx label v) = Some idx.
Proof.
  rewrite row_error_message_text.
  change (error_row ("Row " +:+ pretty (idx + 1)%nat +:+ ": " +:+ ?rest))
    with (Format.array_index (Format.leading_digits
            (pretty (N.of_nat (idx + 1)) +:+ String ":"%char (" " +:+ rest))) ≫=
          (λ n, if decide (n = 0)%N then None else Some (N.to_nat n - 1))).
  rewrite Format.leading_digits_pretty, Format.array_index_pretty by done.
  simpl. case_decide; [lia|]. f_equal. lia.
Qed.

(** Every error of a table names, by its number, a row that is not
    valid. *)
Lemma error_row_invalid e rows :
  e ∈ doc_errors rows →
  ∃ idx r, error_row e = Some idx ∧ rows !! idx = Some r ∧ ¬ row_valid r.
Proof.
  intros (idx & r & m & Hr & Hm & Hv & ->)%elem_of_doc_errors.
  exists idx, r. split_and!; [apply error_row_message|done|].
  intros Hvalid. eapply Forall_forall in Hvalid; [|done]. congruence.
Qed.

(** ** One error for each week in violation *)

Lemma row_errors_filter idx r :
  row_errors idx r =
  (λ m, row_error_message idx (label m) (Js.VNum (quantity r (week m)))) <$> violations r.
Proof. apply (concat_fmap_if (violates r)). Qed.

(** The text of an error tells the week, among labels of one length. *)
Lemma row_error_message_label idx l l' v v' :
  String.length l = String.length l' →
  row_error_message idx l v = row_error_message idx l' v' → l = l'.
Proof.
  intros Hlen. rewrite !row_error_message_text.
  intros H%string_app_inv_head%string_app_inv_head%string_app_inv_head.
  by apply string_app_inv_length in H as [-> _].
Qed.

Lemma mapping_label_inj m m' :
  m ∈ week_batch_mapping → m' ∈ week_batch_mapping →
  String.length (label m) = String.length (label m') ∧ (label m = label m' → m = m').
Proof.
  unfold week_batch_mapping. rewrite !elem_of_cons, !elem_of_nil.
  intros Hm Hm'. destruct_or!; by subst.
Qed.

Lemma NoDup_row_errors idx r : NoDup (row_errors idx r).
Proof.
  rewrite row_errors_filter. apply NoDup_fmap_2_strong.
  - intros m m' [_ Hm]%list_elem_of_filter [_ Hm']%list_elem_of_filter H.
    destruct (mapping_label_inj m m' Hm Hm') as [Hlen Hinj].
    by apply Hinj, (row_error_message_label idx _ _ _ _ Hlen H).
  - apply NoDup_filter. by_compute.
Qed.

Lemma NoDup_doc_errors rows : NoDup (doc_errors rows).
Proof.
  apply (NoDup_concat_imap error_row _ _ 0); [apply NoDup_row_errors|].
  intros i r e (m & _ & _ & ->)%elem_of_row_errors. apply error_row_message.
Qed.

Lemma doc_errors_count rows :
  length (doc_errors rows) = sum_list (length ∘ violations <$> rows).
Proof.
  apply length_concat_imap. intros idx r. by rewrite row_errors_filter, length_fmap.
Qed.

(** ** The lines of the dialog *)

Lemma plain_to_string v : Format.plain (Js.to_string v) = true.
Proof. destruct v; try done. apply Format.plain_pretty_Z. Qed.

Lemma plain_row_error_message idx label v :
  Format.plain label = true → Format.plain (row_error_message idx label v) = true.
Proof.
  intros Hl. rewrite row_error_message_text, !Format.plain_app.
  by rewrite Format.plain_pretty_nat, plain_to_string, Hl.
Qed.

Lemma plain_doc_errors rows : Forall (λ e, Format.plain e = true) (doc_errors rows).
Proof.
  apply Forall_forall. intros e (idx & r & m & _ & Hm & _ & ->)%elem_of_doc_errors.
  apply plain_row_error_message. revert m Hm. apply Forall_forall. by_compute.
Qed.

(** The errors joined by [<br>] split at the tags into the errors again,
    because no error text has a tag of its own, whatever the numbers in
    it. *)
Lemma doc_errors_split rows :
  doc_errors rows ≠ [] →
  Format.split_br (Format.join "<br>" (doc_errors rows)) = doc_errors rows.
Proof. apply Format.split_join, plain_doc_errors. Qed.

(** ** Theorems *)

(** C9. The two nested loops of [validate_week_and_batch_fields] compute
    the list comprehension [doc_errors]: the errors of the rows in table
    order and, within a row, of the weeks 1 to 4 in this order; they read
    the rows through the store and leave the state as it is. *)
Theorem loops_compute_doc_errors w names :
  fold_each check_row 0 [] names w = Ok (doc_errors (rows_of w names)) w.
Proof. apply loops_run. Qed.

(** C1. [validate_week_and_batch_fields] on a document with a table
    returns; when a week of a row has a quantity other than 0 and a batch
    count of 0 it shows all the errors in one red dialog, joined by line
    breaks, and clears [frappe.validated]; otherwise it changes nothing;
    on a document whose table is [undefined] it throws a [TypeError]. *)
Theorem validate_week_and_batch_fields_spec w :
  validate_week_and_batch_fields w =
  match items (w_doc w) with
  | Some names => Ok tt (after_validation (doc_errors (rows_of w names)) w)
  | None => Throw TypeError w
  end.
Proof.
  destruct (items (w_doc w)) as [names|] eqn:Hitems;
    auto using validate_with_items, validate_without_items.
Qed.

(** C10. The validation blocks exactly the invalid documents: after it,
    [frappe.validated] is still set if and only if it was set before and
    every row of the table is valid. *)
Theorem validate_blocks_iff w names :
  items (w_doc w) = Some names →
  w_validated (final (validate_week_and_batch_fields w)) = true ↔
  w_validated w = true ∧ Forall row_valid (rows_of w names).
Proof.
  intros Hitems. rewrite (validate_with_items _ names) by done; simpl.
  rewrite <- doc_errors_nil.
  unfold after_validation. destruct (doc_errors _); simpl; intuition done.
Qed.

Lemma validate_blocks_iff_witness :
  w_validated (final (validate_week_and_batch_fields sample_world)) = true ↔
  w_validated sample_world = true ∧ Forall row_valid (rows_of sample_world ["a"; "b"]).
Proof. apply validate_blocks_iff. reflexivity. Defined.

(** The errors of a table are exactly the errors of the weeks in
    violation of its rows: each is [row_error_message] at the index of a
    row, the label of a week of the mapping and the quantity of this
    week, and each such week has its error. *)
Theorem doc_errors_exact e rows :
  e ∈ doc_errors rows ↔
  ∃ idx r m, rows !! idx = Some r ∧ m ∈ week_batch_mapping ∧ violates r m = true ∧
       e = row_error_message idx (label m) (Js.VNum (quantity r (week m))).
Proof. apply elem_of_doc_errors. Qed.

(** The row number printed in an error reads back as the index of
    the row: whatever the label and the value, the decimal numeral behind
    [Row] in [row_error_message idx label v] parses to [idx + 1]. *)
Theorem error_row_roundtrip idx label v :
  error_row (row_error_message idx label v) = Some idx.
Proof. apply error_row_message. Qed.

(** C32. One error for each week in violation, and no more: the errors
    of a table are pairwise different texts, and there are as many as
    there are pairs of a row and a week of it that has a quantity and no
    batch. *)
Theorem one_error_per_violation rows :
  NoDup (doc_errors rows) ∧
  length (doc_errors rows) = sum_list (length ∘ violations <$> rows).
Proof. split; [apply NoDup_doc_errors|apply doc_errors_count]. Qed.

(** C33. The dialog shows each error on a line of its own: when a row of
    the table is not valid, [validate_week_and_batch_fields] shows one red
    dialog more, titled [Validation Error], and its message splits at the
    tags [<br>] into the errors of the table, in order, none lost, merged
    or cut. *)
Theorem dialog_lines_are_the_errors w names :
  items (w_doc w) = Some names →
  ¬ Forall row_valid (rows_of w names) →
  ∃ m, w_ui (final (validate_week_and_batch_fields w)) =
         w_ui w ++ [Msgprint "Validation Error" "red" m] ∧
       Format.split_br m = doc_errors (rows_of w names).
Proof.
  intros Hitems Hinvalid. rewrite (validate_with_items _ names) by done.
  rewrite <- doc_errors_nil in Hinvalid. pose proof (doc_errors_split _ Hinvalid).
  unfold after_validation, error_dialog.
  destruct (doc_errors _); [done|]. by eexists.
Qed.

Lemma dialog_lines_are_the_errors_witness :
  ∃ m, w_ui (final (validate_week_and_batch_fields two_errors_world)) =
         w_ui two_errors_world ++ [Msgprint "Validation Error" "red" m] ∧
       Format.split_br m = doc_errors (rows_of two_errors_world ["a"; "b"; "c"]).
Proof. apply dialog_lines_are_the_errors; by_compute. Defined.

(** Every error the validation collects names a row of the table
    that is not valid. *)
Theorem errors_name_invalid_rows rows :
  Forall (λ e, ∃ idx r, error_row e = Some idx ∧ rows !! idx = Some r ∧ ¬ row_valid r)
    (doc_errors rows).
Proof. apply Forall_forall. intros e. apply error_row_invalid. Qed.

(** The third scenario of the specification: of two rows, the first
    with week 2 without batch and the second valid, the validation reports
    exactly one error, for row 1 and week 2, and blocks the save. *)
Theorem scenario_one_error :
  validate sample_world =
  Ok tt (set_validated false (set_ui (.++ [Msgprint "Validation Error" "red"
    "Row 1: Week 2 has value 20, but Week 2 Batch is 0 or empty. Batch is required when week value is greater than 0."])
    sample_world)).
Proof. by vm_compute. Qed.

End DocCheck.
