(* ===== verification/Agreement.v ===== *)
(** * Agreement: the warning at edit time and the error at save time

    The script states the rule "a week with a quantity needs a batch"
    twice: as a warning when a cell changes ([RowCheck]) and as an error
    when the document is validated ([DocCheck]).  The two tests are
    written differently ([week_value > 0] against
    [week_value === 0 || !week_value]).  This file relates them: they
    agree on every quantity that is not negative, the error covers the
    warning, on a negative quantity the document is blocked for a week
    the user was never warned about, and a negative batch count satisfies
    both, although the comments of lines 89 and 176 ask for a batch
    greater than 0. *)

From S2P Require Import Prelude Eff JsValue Format Client Form RowCheck DocCheck.

Import Client.

Module Agreement.

Import ForecastClub.

Local Open Scope Z_scope.

(** The warning rule of the handlers of week [m]. *)
Definition warned (r : row) (m : mapping) : bool :=
  RowCheck.warns r (week m) (batch m).

(** A row none of whose week quantities is negative. *)
Definition weeks_non_negative (r : row) : Prop :=
  Forall (λ m, 0 ≤ DocCheck.quantity r (week m)) week_batch_mapping.

#[global] Instance weeks_non_negative_dec r : Decision (weeks_non_negative r).
Proof. unfold weeks_non_negative. apply _. Defined.

(** A row with a negative quantity in week 1 and no batch. *)
Definition negative_row : row := {[ "week_1" := Js.VNum (-5) ]}.

Definition week1 : mapping := Mapping "week_1" "w1_batch" "Week 1".

(** A document whose table is that row. *)
Definition negative_world : world :=
  World (Doc (Js.VNum 0) None None (Some ["n"]) None None None)
        {[ child_doctype := {[ "n" := negative_row ]} ]} true [] [] [] [] [].

(** A row with a quantity in week 1 and a negative batch count, and a
    document whose table is that row. *)
Definition negative_batch_row : row :=
  {[ "week_1" := Js.VNum 5; "w1_batch" := Js.VNum (-1) ]}.

Definition negative_batch_world : world :=
  World (Doc (Js.VNum 0) None None (Some ["n"]) None None None)
        {[ child_doctype := {[ "n" := negative_batch_row ]} ]} true [] [] [] [] [].

(** Every week of the row that has a quantity has a negative batch
    count. *)
Definition batches_negative (r : row) : Prop :=
  Forall (λ m, DocCheck.quantity r (week m) ≠ 0 → DocCheck.quantity r (batch m) < 0)
    week_batch_mapping.

#[global] Instance batches_negative_dec r : Decision (batches_negative r).
Proof. unfold batches_negative. apply _. Defined.

#[global] Instance mapping_eq_dec : EqDecision mapping.
Proof. solve_decision. Defined.

(** The two rules, side by side. *)
Lemma rules r m :
  warned r m = bool_decide (0 < DocCheck.quantity r (week m))
               && bool_decide (DocCheck.quantity r (batch m) = 0) ∧
  DocCheck.violates r m = negb (bool_decide (DocCheck.quantity r (week m) = 0))
                          && bool_decide (DocCheck.quantity r (batch m) = 0).
Proof. done. Qed.

(** On a negative quantity without batch the rules differ. *)
Lemma negative_rules r m :
  DocCheck.quantity r (week m) < 0 → DocCheck.quantity r (batch m) = 0 →
  DocCheck.violates r m = true ∧ warned r m = false.
Proof.
  intros Hq Hb. destruct (rules r m) as [-> ->].
  rewrite (bool_decide_eq_true_2 _ Hb), !andb_true_r. split.
  - apply negb_true_iff, bool_decide_eq_false_2. lia.
  - apply bool_decide_eq_false_2. lia.
Qed.

(** On a week whose quantity is not negative, the error of the
    validation and the warning of the row handler are raised by the same
    rows. *)
Theorem checks_agree_non_negative r m :
  0 ≤ DocCheck.quantity r (week m) → DocCheck.violates r m = warned r m.
Proof.
  intros Hq. destruct (rules r m) as [-> ->]. f_equal.
  repeat case_bool_decide; simpl; lia.
Qed.

Lemma checks_agree_non_negative_witness :
  0 ≤ DocCheck.quantity DocCheck.row_week2_without_batch (week week1) ∧
  DocCheck.violates DocCheck.row_week2_without_batch week1 =
  warned DocCheck.row_week2_without_batch week1.
Proof. split; [by_compute|]. apply checks_agree_non_negative. by_compute. Defined.

(** Whatever the quantities, a week the row handler warns about is a
    week the validation rejects: no document passes the validation with a
    warning still standing. *)
Theorem warned_is_rejected r m : warned r m = true → DocCheck.violates r m = true.
Proof.
  destruct (rules r m) as [-> ->]. intros [Hq Hb]%andb_true_iff.
  rewrite Hb, andb_true_r. apply bool_decide_eq_true_1 in Hq.
  apply negb_true_iff, bool_decide_eq_false_2. lia.
Qed.

Lemma warned_is_rejected_witness :
  warned RowCheck.row_without_batch week1 = true ∧
  DocCheck.violates RowCheck.row_without_batch week1 = true.
Proof. split; [reflexivity|]. apply warned_is_rejected. reflexivity. Defined.

(** With negative batch counts a row is valid. *)
Lemma batches_negative_valid r : batches_negative r → DocCheck.row_valid r.
Proof.
  intros Hr. eapply Forall_impl; [exact Hr|].
  intros m Hm; simpl in Hm. destruct (rules r m) as [_ ->].
  repeat case_bool_decide; simpl; try done; lia.
Qed.

(** C12. The two tests differ on negative quantities: when a week of a
    row of the table holds a negative quantity and no batch, the
    validation blocks the save, with a message that speaks of a value
    greater than 0, and the handler of that week and batch shows no
    warning and changes nothing. *)
Theorem negative_week_blocked_not_warned w names cdn r m :
  items (w_doc w) = Some names → cdn ∈ names →
  row_at w child_doctype cdn = Some r → m ∈ week_batch_mapping →
  DocCheck.quantity r (week m) < 0 → DocCheck.quantity r (batch m) = 0 →
  w_validated (final (validate_week_and_batch_fields w)) = false ∧
  final (ForecastClubItem.validate_week_batch_relationship child_doctype cdn
           (week m) (batch m) (label m) w) = w.
Proof.
  intros Hitems Hcdn Hr Hm Hq Hb. destruct (negative_rules r m Hq Hb) as [Hv Hw].
  split.
  - rewrite DocCheck.validate_final, Hitems.
    destruct (DocCheck.doc_errors _) as [|e errors] eqn:Herr; [|done].
    apply DocCheck.doc_errors_nil in Herr.
    assert (DocCheck.row_valid r) as Hvalid.
    { apply (proj1 (Forall_forall _ _) Herr), list_elem_of_fmap.
      exists cdn. by rewrite Hr. }
    apply (proj1 (Forall_forall _ _) Hvalid) in Hm. congruence.
  - rewrite RowCheck.check_final, Hr. unfold RowCheck.after_check.
    fold (warned r m). by rewrite Hw.
Qed.

Lemma negative_week_blocked_not_warned_witness :
  w_validated (final (validate_week_and_batch_fields negative_world)) = false ∧
  final (ForecastClubItem.week_1 child_doctype "n" negative_world) = negative_world.
Proof.
  apply (negative_week_blocked_not_warned negative_world ["n"] "n" negative_row week1);
    by_compute.
Defined.

(** C13. A negative batch count passes both tests: on a table in which
    every week with a quantity has a negative batch count, the validation
    shows nothing and leaves [frappe.validated] set, and the handler of a
    week and its batch of a row of the table shows no warning, although
    the comments of the source (lines 89 and 176) say that the batch
    must be greater than 0. *)
Theorem negative_batch_accepted w names cdn r m :
  items (w_doc w) = Some names →
  Forall batches_negative (rows_of w names) →
  cdn ∈ names → row_at w child_doctype cdn = Some r → m ∈ week_batch_mapping →
  validate_week_and_batch_fields w = Ok tt w ∧
  final (ForecastClubItem.validate_week_batch_relationship child_doctype cdn
           (week m) (batch m) (label m) w) = w.
Proof.
  intros Hitems Hrows Hcdn Hr Hm. split.
  - rewrite (DocCheck.validate_with_items _ names) by done.
    by rewrite (proj2 (DocCheck.doc_errors_nil _))
      by (eapply Forall_impl; [done|apply batches_negative_valid]).
  - assert (batches_negative r) as Hneg.
    { apply (proj1 (Forall_forall _ _) Hrows), list_elem_of_fmap.
      exists cdn. by rewrite Hr. }
    pose proof (proj1 (Forall_forall _ _) Hneg m Hm) as Hq; simpl in Hq.
    rewrite RowCheck.check_final, Hr. unfold RowCheck.after_check.
    fold (warned r m). destruct (rules r m) as [-> _].
    repeat case_bool_decide; simpl; try done; lia.
Qed.

Lemma negative_batch_accepted_witness :
  validate_week_and_batch_fields negative_batch_world = Ok tt negative_batch_world ∧
  final (ForecastClubItem.week_1 child_doctype "n" negative_batch_world) =
  negative_batch_world.
Proof.
  apply (negative_batch_accepted negative_batch_world ["n"] "n" negative_batch_row week1);
    by_compute.
Defined.

End Agreement.
