(* ===== verification/Requests.v ===== *)
(** * Requests: the handlers of the parent form that talk to the server

    [refresh], [get_fetch_material_request_item], the three header
    handlers and [fetch_sales_forecasts_if_dates_set], with the callbacks
    of their calls (lines 4-66 and 108-127 of [forecast_club.js]).  The
    theorems say when the custom button is offered, when a call leaves,
    what a callback does with an answer, and that none of these handlers
    throws or touches the rows. *)

From S2P Require Import Prelude Eff JsValue Format Client Form.

Import Client.

Module Requests.

Import ForecastClub.

(** ** Specification *)

(** The condition under which [refresh] offers the button: the document
    is submitted, it has material-request items, and it is planned. *)
Definition offers_button (d : doc) : Prop :=
  docstatus d = Js.VNum 1 ∧
  (∃ mri, material_request_items d = Some mri ∧ mri ≠ []) ∧
  status d = Some "Forecast Planned".

(** The button of the form. *)
Definition the_button : string * action :=
  ("Create Material Request", CreateMaterialRequest).

(** The condition under which the forecasts are fetched: the two dates
    and the company are set. *)
Definition header_set (d : doc) : Prop :=
  (∃ s, Client.forecast_start_date d = Some s ∧ s ≠ "") ∧
  (∃ s, Client.forecast_end_date d = Some s ∧ s ≠ "") ∧
  (∃ s, Client.company d = Some s ∧ s ≠ "").

(** The three calls of the form. *)
Definition create_request : request :=
  Request "create_material_requests" true "Creating Material Request..."
          CreateMaterialRequestsDone.

Definition fetch_items_request : request :=
  Request "fetch_material_request_items" true "Fetching material request items..."
          FetchMaterialRequestItemsDone.

Definition fetch_forecasts_request : request :=
  Request "fetch_sales_forecasts" true "Fetching sales forecasts..."
          FetchSalesForecastsDone.

(** A request the form can have sent: its method and its callback go
    together. *)
Definition known_request (q : request) : Prop :=
  q = create_request ∨ q = fetch_items_request ∨ q = fetch_forecasts_request.

#[global] Instance known_request_dec q : Decision (known_request q).
Proof. unfold known_request. apply _. Defined.

(** A submitted, planned document with one material-request item, and a
    draft. *)
Definition planned_doc : doc :=
  Doc (Js.VNum 1) (Some "Forecast Planned") (Some [∅]) (Some [])
      (Some "2026-01-01") (Some "2026-01-28") (Some "ACME").

Definition draft_doc : doc :=
  Doc (Js.VNum 0) None None (Some []) (Some "2026-01-01") None (Some "ACME").

Definition world_of (d : doc) : world := World d ∅ true [] [] [] [] [].

(** ** The tests of the source as propositions *)

Lemma text_truthy_spec t : text_truthy t = true ↔ ∃ s, t = Some s ∧ s ≠ "".
Proof.
  destruct t as [[|c s]|]; simpl; split; try done; try by intros (? & ? & ?).
  - intros (? & [= <-] & ?). done.
  - eauto.
Qed.

Lemma nonempty_table {A} (t : option (list A)) :
  match t with
  | Some l => bool_decide (0 < length l)
  | None => false
  end = true ↔ ∃ l, t = Some l ∧ l ≠ [].
Proof.
  destruct t as [[|x l]|]; split; intros H.
  - apply bool_decide_eq_true in H. simpl in H. lia.
  - by destruct H as (? & [= <-] & ?).
  - by exists (x :: l).
  - apply bool_decide_eq_true. simpl. lia.
  - done.
  - by destruct H as (? & ? & ?).
Qed.

Lemma refresh_condition d :
  Js.strict_eq (docstatus d) (Js.VNum 1)
  && match material_request_items d with
     | Some mri => bool_decide (0 < length mri)
     | None => false
     end
  && bool_decide (status d = Some "Forecast Planned") = true ↔ offers_button d.
Proof.
  unfold offers_button.
  rewrite !andb_true_iff, Js.strict_eq_spec, bool_decide_eq_true, nonempty_table.
  intuition congruence.
Qed.

Lemma header_condition d :
  text_truthy (Client.forecast_start_date d)
  && text_truthy (Client.forecast_end_date d)
  && text_truthy (Client.company d) = true ↔ header_set d.
Proof. unfold header_set. rewrite !andb_true_iff, !text_truthy_spec. tauto. Qed.

#[global] Instance offers_button_dec d : Decision (offers_button d).
Proof. refine (cast_if (decide (_ = true))); by rewrite <- refresh_condition. Defined.

#[global] Instance header_set_dec d : Decision (header_set d).
Proof. refine (cast_if (decide (_ = true))); by rewrite <- header_condition. Defined.

(** ** How the handlers run *)

Lemma refresh_run w :
  refresh w = Ok tt (if decide (offers_button (w_doc w))
                     then set_buttons (.++ [the_button]) w else w).
Proof.
  unfold refresh. eff_run.
  destruct (decide (offers_button (w_doc w))) as [H|H];
    [apply refresh_condition in H|apply (not_iff_compat (refresh_condition _)) in H].
  - rewrite H. by eff_run.
  - apply not_true_is_false in H. rewrite H. by eff_run.
Qed.

Lemma fetch_if_set_run w :
  fetch_sales_forecasts_if_dates_set w =
  Ok tt (if decide (header_set (w_doc w))
         then set_calls (.++ [fetch_forecasts_request]) w else w).
Proof.
  unfold fetch_sales_forecasts_if_dates_set. eff_run.
  destruct (decide (header_set (w_doc w))) as [H|H];
    [apply header_condition in H|apply (not_iff_compat (header_condition _)) in H].
  - rewrite H. by eff_run.
  - apply not_true_is_false in H. rewrite H. by eff_run.
Qed.

Lemma run_callback_run cb r w :
  run_callback cb r w =
  Ok tt
    (if r_exc r then w else
     match cb with
     | CreateMaterialRequestsDone =>
         if r_message r
         then set_ui (.++ [ShowAlert "Material Request created successfully" "green";
                           ReloadDoc]) w
         else w
     | FetchMaterialRequestItemsDone =>
         set_saves (.++ [AlertItemsFetched])
           (set_ui (.++ [RefreshField "material_request_items"]) w)
     | FetchSalesForecastsDone =>
         set_ui (.++ [RefreshField "items";
                      ShowAlert "Sales Forecasts fetched successfully" "green"]) w
     end).
Proof.
  destruct cb, r as [[] []]; simpl;
    unfold create_material_requests_callback, fetch_material_request_items_callback,
      fetch_sales_forecasts_callback; simpl; eff_run; try done;
    destruct w; unfold set_ui; simpl; by rewrite <- app_assoc.
Qed.

(** The handler registered under a name other than [validate] returns,
    with the store, the document and the flag as they were. *)
Lemma parent_handler_run name h w :
  handlers name = Some h → name ≠ "validate" →
  ∃ w', h w = Ok tt w' ∧ w_locals w' = w_locals w ∧ w_doc w' = w_doc w
        ∧ w_validated w' = w_validated w.
Proof.
  unfold handlers. intros Hh Hname. repeat case_decide; simplify_eq;
    unfold forecast_start_date, forecast_end_date, company;
    rewrite ?refresh_run, ?fetch_if_set_run;
    try case_decide; eexists; (split; [reflexivity|done]).
Qed.

(** ** Theorems *)

(** C35. [refresh] offers the button "Create Material Request" exactly
    when the document is submitted ([docstatus] 1), has at least one
    material-request item and has the status "Forecast Planned"; it does
    nothing else and never throws. *)
Theorem refresh_spec w :
  refresh w = Ok tt (if decide (offers_button (w_doc w))
                     then set_buttons (.++ [the_button]) w else w).
Proof. apply refresh_run. Qed.

(** C36. [fetch_sales_forecasts_if_dates_set], the handler of a change of
    either date or of the company, sends the call [fetch_sales_forecasts]
    exactly when the two dates and the company are all set, and nothing
    leaves otherwise. *)
Theorem fetch_sales_forecasts_if_dates_set_spec w :
  fetch_sales_forecasts_if_dates_set w =
  Ok tt (if decide (header_set (w_doc w))
         then set_calls (.++ [fetch_forecasts_request]) w else w).
Proof. apply fetch_if_set_run. Qed.

(** C37. The callbacks act on a successful answer only: after a failed
    call ([r.exc] set) none of the three callbacks changes anything; after
    a successful one the first shows its alert and reloads the document
    when the server returned a message, the second redraws the
    material-request items and requests a save, the third redraws the
    table and shows its alert. *)
Theorem run_callback_spec cb r w :
  run_callback cb r w =
  Ok tt
    (if r_exc r then w else
     match cb with
     | CreateMaterialRequestsDone =>
         if r_message r
         then set_ui (.++ [ShowAlert "Material Request created successfully" "green";
                           ReloadDoc]) w
         else w
     | FetchMaterialRequestItemsDone =>
         set_saves (.++ [AlertItemsFetched])
           (set_ui (.++ [RefreshField "material_request_items"]) w)
     | FetchSalesForecastsDone =>
         set_ui (.++ [RefreshField "items";
                      ShowAlert "Sales Forecasts fetched successfully" "green"]) w
     end).
Proof. apply run_callback_run. Qed.

(** The handlers the script registers for the parent form, other
    than [validate], never throw and never touch the rows, the document
    or [frappe.validated]: whatever the state, they return with these as
    they were. *)
Theorem parent_handlers_safe name h w :
  handlers name = Some h → name ≠ "validate" →
  ∃ w', h w = Ok tt w' ∧ w_locals w' = w_locals w ∧ w_doc w' = w_doc w
        ∧ w_validated w' = w_validated w.
Proof. apply parent_handler_run. Qed.

Lemma parent_handlers_safe_witness :
  ∃ w', refresh (world_of planned_doc) = Ok tt w'
        ∧ w_locals w' = w_locals (world_of planned_doc)
        ∧ w_doc w' = w_doc (world_of planned_doc)
        ∧ w_validated w' = w_validated (world_of planned_doc).
Proof. by apply (parent_handlers_safe "refresh"). Defined.

End Requests.
