(* ===== verification/Lifecycle.v ===== *)
(** * Lifecycle: the sessions of the Forecast Club form

    [Framework] runs any script; this file runs the script of [Form].  It
    proves that the script is blocking in the sense of [Framework] (its
    [validate] handler leaves [frappe.validated] set on valid tables
    only), which gives the safety of every session, and the invariants
    that are particular to this form: the totals of the rows follow the
    edits, the button is offered at most once, every pending call is one
    of the three calls of the form. *)

From S2P Require Import Prelude Eff JsValue Format Client Form Framework.
From S2P Require Import Totals RowCheck DocCheck Requests.

Import Client.
Import Framework.

Module Lifecycle.

(** ** The save *)

(** The state a save of a valid table ends in. *)
Definition saved_state (k : option continuation) (w : world) : world :=
  let w' := set_saved (.++ [table w]) (set_validated true w) in
  match k with
  | Some AlertItemsFetched =>
      set_ui (.++ [ShowAlert "Material Request Items fetched successfully" "green"]) w'
  | None => w'
  end.

(** ** Invariants *)

(** Every table the server has accepted is valid. *)
Definition saved_valid (w : world) : Prop :=
  Framework.saved_valid DocCheck.row_valid w.

(** The form has no custom button but its own, once. *)
Definition buttons_ok (w : world) : Prop :=
  w_buttons w = [] ∨ w_buttons w = [Requests.the_button].

(** Every call awaiting its answer is one of the three of the form. *)
Definition calls_known (w : world) : Prop :=
  Forall Requests.known_request (w_calls w).

(** The totals of every row of the table agree with its batches. *)
Definition totals_ok (w : world) : Prop :=
  ∀ cdn r, row_at w child_doctype cdn = Some r → Totals.totals_consistent r.

(** The totals of every row but one agree with its batches. *)
Definition totals_but (cdn : string) (w : world) : Prop :=
  ∀ cdn' r, cdn' ≠ cdn → row_at w child_doctype cdn' = Some r → Totals.totals_consistent r.

(** The row a handler of the child table is called on exists. *)
Definition has_row (cdt cdn : string) (w : world) : Prop := is_Some (row_at w cdt cdn).

(** The fields of a row whose edits the script handles. *)
Definition quantity_fields : list string :=
  ["batch_size"; "week_1"; "week_2"; "week_3"; "week_4";
   "w1_batch"; "w2_batch"; "w3_batch"; "w4_batch"].

(** An event that cannot break the totals from outside: an edit of a
    cell goes to any field but the two totals, and the rows the server
    sends have consistent totals. *)
Definition keeps_totals (e : event) : Prop :=
  match e with
  | SetCell _ fieldname _ => fieldname ∉ Totals.outputs
  | Answer _ _ (Some s) => map_Forall (λ _ r, Totals.totals_consistent r) s.2
  | _ => True
  end.

(** The calls sent are never taken back, and what is added is known. *)
Definition calls_grow (w w' : world) : Prop :=
  ∃ qs, w_calls w' = w_calls w ++ qs ∧ Forall Requests.known_request qs.

(** What every handler of the script leaves alone, whether it returns or
    throws: the accepted tables and the document are kept, rows are
    neither created nor deleted, what is shown and the calls sent only
    grow. *)
Definition handler_frame (w w' : world) : Prop :=
  saved_kept w w' ∧ doc_kept w w' ∧ same_rows w w' ∧
  ui_grows w w' ∧ calls_grow w w'.

(** What the handlers other than [refresh] leave alone. *)
Definition buttons_kept (w w' : world) : Prop := w_buttons w' = w_buttons w.

(** A state of the session of the scenarios: two rows, the first with a
    week without batch. *)
Definition start : world :=
  World (Doc (Js.VNum 0) None None (Some ["a"; "b"]) None None None)
        {[ child_doctype :=
             {[ "a" := {[ "week_1" := Js.VNum 10; "w1_batch" := Js.VNum 2;
                          "week_2" := Js.VNum 20; "batch_size" := Js.VNum 5;
                          "total_batch_qty" := Js.VNum 2; "total_qty" := Js.VNum 10 ]};
                "b" := {[ "week_1" := Js.VNum 10; "w1_batch" := Js.VNum 2;
                          "batch_size" := Js.VNum 5;
                          "total_batch_qty" := Js.VNum 2; "total_qty" := Js.VNum 10 ]} ]} ]}
        true [] [] [] [] [].

(** The session of the scenarios: a save that is blocked, the batch
    count entered, a save that goes through. *)
Definition session : list event :=
  [UserSave; SetCell "a" "w2_batch" (Js.VNum 4); UserSave].

(** ** The handlers the script registers *)

Lemma child_handlers_domain f :
  is_Some (ForecastClubItem.handlers f) ↔ f ∈ quantity_fields.
Proof.
  unfold ForecastClubItem.handlers, quantity_fields.
  rewrite !elem_of_cons, elem_of_nil.
  repeat case_decide; subst; split; intros Hf; eauto 10;
    first [by destruct Hf|intuition congruence].
Qed.

(** On a row that exists the two functions of the child table return,
    and the row is still there. *)
Lemma check_returns cdt cdn week_field batch_field week_label :
  ensures (has_row cdt cdn)
    (ForecastClubItem.validate_week_batch_relationship cdt cdn week_field batch_field
       week_label)
    (λ _, has_row cdt cdn).
Proof.
  intros w [r Hr]. eexists tt, _. split; [by apply RowCheck.check_found|].
  unfold has_row. rewrite (row_at_locals w) by apply RowCheck.after_check_locals. eauto.
Qed.

Lemma totals_returns cdt cdn :
  ensures (has_row cdt cdn) (ForecastClubItem.calculate_totals cdt cdn)
    (λ _, has_row cdt cdn).
Proof.
  intros w [r Hr]. eexists tt, _. split; [by apply Totals.calculate_totals_found|].
  unfold has_row. erewrite Totals.row_at_after_totals; eauto.
Qed.

Lemma child_handler_returns f h cdt cdn :
  ForecastClubItem.handlers f = Some h →
  ensures (has_row cdt cdn) (h cdt cdn) (λ _, has_row cdt cdn).
Proof.
  unfold ForecastClubItem.handlers. intros Hh. repeat case_decide; simplify_eq;
    first [ apply check_returns | apply totals_returns
          | eapply ensures_bind; [apply check_returns|intros []; apply totals_returns] ].
Qed.

Lemma child_handler_missing f h cdt cdn w :
  ForecastClubItem.handlers f = Some h → row_at w cdt cdn = None →
  h cdt cdn w = Throw TypeError w.
Proof.
  unfold ForecastClubItem.handlers. intros Hh Hr. repeat case_decide; simplify_eq;
    unfold ForecastClubItem.batch_size, ForecastClubItem.week_1, ForecastClubItem.week_2,
      ForecastClubItem.week_3, ForecastClubItem.week_4, ForecastClubItem.w1_batch,
      ForecastClubItem.w2_batch, ForecastClubItem.w3_batch, ForecastClubItem.w4_batch;
    rewrite ?run_bind, ?RowCheck.check_missing, ?Totals.calculate_totals_missing; done.
Qed.

(** ** Frame conditions of the handlers *)

#[global] Instance calls_grow_preorder : PreOrder calls_grow.
Proof.
  split.
  - intros w. exists []. by rewrite app_nil_r.
  - intros w1 w2 w3 (qs & E1 & H1) (qs' & E2 & H2). exists (qs ++ qs').
    rewrite E2, E1, app_assoc. split; [done|by apply Forall_app].
Qed.

#[global] Instance handler_frame_preorder : PreOrder handler_frame.
Proof.
  split.
  - intros w. by split_and!.
  - intros w1 w2 w3 (S1 & D1 & R1 & U1 & C1) (S2 & D2 & R2 & U2 & C2).
    split_and!; [congruence|congruence|by etrans..].
Qed.

#[global] Instance buttons_kept_preorder : PreOrder buttons_kept.
Proof. unfold buttons_kept. split; [done|]. intros ??? H1 H2. congruence. Qed.

(** The updates the handlers make are within the frame. *)
Ltac frame_fact :=
  unfold handler_frame, buttons_kept, locals_kept;
  split_and?; unfold calls_grow, ui_grows; simpl; try done;
  first [ by apply prefix_app_r
        | apply write_field_same_rows
        | by exists []; rewrite app_nil_r
        | eexists; split; [reflexivity|]; repeat constructor; by_compute ].

Lemma trigger_frame name : guarantees handler_frame (trigger name).
Proof.
  unfold trigger; cbn [on_form forecast_club]; unfold ForecastClub.handlers.
  repeat case_decide; frame frame_fact.
Qed.

Lemma trigger_child_frame fieldname cdt cdn :
  guarantees handler_frame (trigger_child fieldname cdt cdn).
Proof.
  unfold trigger_child; cbn [on_row forecast_club]; unfold ForecastClubItem.handlers.
  repeat case_decide; frame frame_fact.
Qed.

Lemma run_callback_frame cb r : guarantees handler_frame (ForecastClub.run_callback cb r).
Proof. destruct cb; cbn [on_answer forecast_club]; frame frame_fact. Qed.

Lemma run_action_frame a : guarantees handler_frame (ForecastClub.run_action a).
Proof. destruct a; cbn [on_click forecast_club]; frame frame_fact. Qed.

Lemma run_continuation_frame k :
  guarantees handler_frame (ForecastClub.run_continuation k).
Proof. destruct k; cbn [on_saved forecast_club]; frame frame_fact. Qed.

(** Only [refresh] adds a button. *)
Lemma trigger_buttons name : name ≠ "refresh" → guarantees buttons_kept (trigger name).
Proof.
  intros Hname. unfold trigger; cbn [on_form forecast_club]; unfold ForecastClub.handlers.
  repeat case_decide; try done; frame frame_fact.
Qed.

Lemma trigger_child_buttons fieldname cdt cdn :
  guarantees buttons_kept (trigger_child fieldname cdt cdn).
Proof.
  unfold trigger_child; cbn [on_row forecast_club]; unfold ForecastClubItem.handlers.
  repeat case_decide; frame frame_fact.
Qed.

Lemma run_callback_buttons cb r : guarantees buttons_kept (ForecastClub.run_callback cb r).
Proof. destruct cb; cbn [on_answer forecast_club]; frame frame_fact. Qed.

Lemma run_action_buttons a : guarantees buttons_kept (ForecastClub.run_action a).
Proof. destruct a; cbn [on_click forecast_club]; frame frame_fact. Qed.

Lemma run_continuation_buttons k : guarantees buttons_kept (ForecastClub.run_continuation k).
Proof. destruct k; cbn [on_saved forecast_club]; frame frame_fact. Qed.

(** Only the handlers of the batches and of the batch size write rows. *)
Lemma trigger_rows name : guarantees locals_kept (trigger name).
Proof.
  unfold trigger; cbn [on_form forecast_club]; unfold ForecastClub.handlers.
  repeat case_decide; frame frame_fact.
Qed.

Lemma run_callback_rows cb r : guarantees locals_kept (ForecastClub.run_callback cb r).
Proof. destruct cb; cbn [on_answer forecast_club]; frame frame_fact. Qed.

Lemma run_action_rows a : guarantees locals_kept (ForecastClub.run_action a).
Proof. destruct a; cbn [on_click forecast_club]; frame frame_fact. Qed.

Lemma run_continuation_rows k : guarantees locals_kept (ForecastClub.run_continuation k).
Proof. destruct k; cbn [on_saved forecast_club]; frame frame_fact. Qed.

(** ** The save *)

Lemma save_run k w :
  save k w =
  match items (w_doc w) with
  | None => set_validated true w
  | Some names =>
      match DocCheck.doc_errors (rows_of w names) with
      | [] => saved_state k w
      | errors => DocCheck.after_validation errors (set_validated true w)
      end
  end.
Proof.
  unfold save, trigger; cbn [on_form on_saved forecast_club].
  unfold ForecastClub.handlers; simpl.
  unfold ForecastClub.validate.
  destruct (items (w_doc w)) as [names|] eqn:Hitems.
  - rewrite (DocCheck.validate_with_items _ names) by done.
    change (rows_of (set_validated true w) names) with (rows_of w names).
    destruct (DocCheck.doc_errors _) as [|e errors]; simpl; [|done].
    unfold saved_state, table; simpl. rewrite Hitems; simpl. by destruct k as [[]|].
  - by rewrite DocCheck.validate_without_items.
Qed.

(** ** The script is blocking *)

(** When [validate] returns with [frappe.validated] set, every row of
    the table is valid. *)
Lemma validate_blocks w a w' :
  trigger "validate" w = Ok a w' → w_validated w' = true →
  Forall DocCheck.row_valid (table w').
Proof.
  change (trigger "validate") with ForecastClub.validate_week_and_batch_fields.
  destruct (items (w_doc w)) as [names|] eqn:Hitems;
    [|by rewrite DocCheck.validate_without_items].
  rewrite (DocCheck.validate_with_items _ names) by done.
  destruct (DocCheck.doc_errors _) as [|e errors] eqn:Herr; simpl;
    intros [= <- <-]; [|done].
  intros _. unfold table. rewrite Hitems. by apply DocCheck.doc_errors_nil.
Qed.

#[global] Instance forecast_club_blocking : Blocking DocCheck.row_valid.
Proof.
  split; [apply validate_blocks|..]; intros; intros s;
    [ apply trigger_frame | apply trigger_child_frame | apply run_callback_frame
    | apply run_action_frame | apply run_continuation_frame ].
Qed.

(** ** What a step keeps *)

Section frame.
Context {A : Type} (c : M A) (w : world) (Hc : guarantees handler_frame c).

Lemma frame_saved : w_saved (final (c w)) = w_saved w.
Proof. apply Hc. Qed.

Lemma frame_doc : w_doc (final (c w)) = w_doc w.
Proof. apply Hc. Qed.

Lemma frame_rows : same_rows w (final (c w)).
Proof. apply Hc. Qed.

Lemma frame_ui : ui_grows w (final (c w)).
Proof. apply Hc. Qed.

Lemma frame_ui_from w0 : w_ui w = w_ui w0 → ui_grows w0 (final (c w)).
Proof. intros E. unfold ui_grows. rewrite <- E. apply Hc. Qed.

Lemma frame_calls : calls_known w → calls_known (final (c w)).
Proof.
  destruct (Hc w) as (_ & _ & _ & _ & qs & E & Hqs). unfold calls_known.
  rewrite E. intros. by apply Forall_app.
Qed.

End frame.

#[local] Hint Resolve trigger_frame trigger_child_frame run_callback_frame
  run_action_frame run_continuation_frame : fc.

(** A step is an update of the state by the framework followed, or not,
    by a handler or by a save: [step_cases] opens the definition of a
    step so far. *)
Ltac step_cases e :=
  destruct e; simpl; unfold trigger_field; repeat case_match; simpl.

Lemma step_ui_grows e w : ui_grows w (step e w).
Proof.
  step_cases e; try done; try (apply frame_ui_from; by auto with fc);
    try (by unfold ui_grows).
  all: rewrite save_run; simpl; repeat case_match; unfold saved_state, ui_grows;
    simpl; try done; repeat case_match; simpl; try done; by apply prefix_app_r.
Qed.

Lemma step_calls_known e w : calls_known w → calls_known (step e w).
Proof.
  intros Hw. step_cases e; try done; try (apply frame_calls; by auto with fc).
  all: try (apply frame_calls; [by auto with fc|]; by apply Forall_delete).
  all: rewrite save_run; simpl; repeat case_match; unfold saved_state; simpl;
    try done; by repeat case_match.
Qed.

Lemma kept_buttons {A} (c : M A) w w0 :
  guarantees buttons_kept c → w_buttons w = w_buttons w0 →
  buttons_ok w0 → buttons_ok (final (c w)).
Proof. intros Hc E. unfold buttons_ok. by rewrite (Hc w), E. Qed.

Lemma refresh_buttons w :
  w_buttons (step Refresh w) =
  if decide (Requests.offers_button (w_doc w)) then [Requests.the_button] else [].
Proof.
  simpl. change (trigger "refresh") with ForecastClub.refresh.
  rewrite Requests.refresh_run; simpl. by case_decide.
Qed.

Lemma not_form_event name : name ∉ form_events → name ≠ "refresh".
Proof. intros H ->. apply H. by_compute. Qed.

#[local] Hint Resolve trigger_buttons trigger_child_buttons run_callback_buttons
  run_action_buttons run_continuation_buttons not_form_event : fc.

Lemma save_buttons k w : w_buttons (save k w) = w_buttons w.
Proof.
  rewrite save_run. repeat case_match; unfold saved_state; simpl; try done;
    by repeat case_match.
Qed.

Lemma step_buttons_ok e w : buttons_ok w → buttons_ok (step e w).
Proof.
  intros Hw. destruct e;
    try (simpl; unfold trigger_field; repeat case_match; simpl; try done;
         apply (kept_buttons _ _ w); by auto with fc).
  - unfold buttons_ok. rewrite refresh_buttons. case_decide; auto.
  - unfold buttons_ok. simpl. by rewrite save_buttons.
  - simpl. destruct (w_saves w); [done|]. unfold buttons_ok. by rewrite save_buttons.
Qed.

(** ** The totals of the rows *)

Lemma totals_ok_locals w w' : w_locals w' = w_locals w → totals_ok w → totals_ok w'.
Proof. unfold totals_ok, row_at. by intros ->. Qed.

Lemma totals_ok_but cdn w : totals_ok w → totals_but cdn w.
Proof. intros Hw cdn' r _. apply Hw. Qed.

Lemma totals_but_write cdn f v w :
  totals_but cdn w → totals_but cdn (write_field child_doctype cdn f v w).
Proof.
  intros Hw cdn' r Hne. rewrite row_at_write_field_ne by congruence. by apply Hw.
Qed.

Lemma totals_ok_write_other cdn f v w :
  f ∉ Totals.inputs → f ∉ Totals.outputs →
  totals_ok w → totals_ok (write_field child_doctype cdn f v w).
Proof.
  intros Hin Hout Hw cdn' r'. destruct (decide (cdn' = cdn)) as [->|Hne].
  - intros (r & Hr & ->)%row_at_write_field_inv.
    apply Totals.totals_consistent_insert; eauto.
  - rewrite row_at_write_field_ne by congruence. apply Hw.
Qed.

Lemma after_totals_ok cdn r w :
  row_at w child_doctype cdn = Some r → totals_but cdn w →
  totals_ok (Totals.after_totals child_doctype cdn r w).
Proof.
  intros Hr Hw cdn' r'. destruct (decide (cdn' = cdn)) as [->|Hne].
  - rewrite (Totals.row_at_after_totals _ _ _ r) by done. intros [= <-].
    apply Totals.with_totals_consistent.
  - rewrite Totals.row_at_after_totals_ne by congruence. by apply Hw.
Qed.

(** The handlers of the batch counts: the warning, then the totals. *)
Lemma check_then_totals_final w cdt cdn week_field batch_field week_label :
  final ((ForecastClubItem.validate_week_batch_relationship cdt cdn week_field
            batch_field week_label;; ForecastClubItem.calculate_totals cdt cdn) w) =
  match row_at w cdt cdn with
  | Some r =>
      Totals.after_totals cdt cdn r
        (RowCheck.after_check r week_field batch_field week_label w)
  | None => w
  end.
Proof.
  rewrite run_bind. destruct (row_at w cdt cdn) as [r|] eqn:Hr.
  - rewrite (RowCheck.check_found _ _ _ _ _ _ r) by done.
    rewrite Totals.calculate_totals_final.
    replace (row_at (RowCheck.after_check _ _ _ _ _) cdt cdn) with (Some r); [done|].
    unfold RowCheck.after_check. by case_match.
  - by rewrite RowCheck.check_missing.
Qed.

Lemma totals_but_locals cdn w w' :
  w_locals w' = w_locals w → totals_but cdn w → totals_but cdn w'.
Proof. unfold totals_but, row_at. by intros ->. Qed.

(** The state after the handler of a field of a row, by the kind of the
    field. *)
Lemma checked_totals_ok cdn r week_field batch_field week_label w :
  row_at w child_doctype cdn = Some r → totals_but cdn w →
  totals_ok (final ((ForecastClubItem.validate_week_batch_relationship child_doctype cdn
                       week_field batch_field week_label;;
                     ForecastClubItem.calculate_totals child_doctype cdn) w)).
Proof.
  intros Hr Hw. rewrite check_then_totals_final, Hr.
  apply after_totals_ok.
  - by rewrite (row_at_locals w) by apply RowCheck.after_check_locals.
  - eapply totals_but_locals; [apply RowCheck.after_check_locals|done].
Qed.

Lemma check_totals_ok cdn week_field batch_field week_label w :
  totals_ok w →
  totals_ok (final (ForecastClubItem.validate_week_batch_relationship child_doctype cdn
                      week_field batch_field week_label w)).
Proof.
  intros Hw. rewrite RowCheck.check_final. case_match; [|done].
  eapply totals_ok_locals; [apply RowCheck.after_check_locals|done].
Qed.

Lemma cell_totals_ok cdn f v w r :
  f ∉ Totals.outputs → row_at w child_doctype cdn = Some r → totals_ok w →
  totals_ok (final (trigger_child f child_doctype cdn
                      (write_field child_doctype cdn f v w))).
Proof.
  intros Hout Hr Hw.
  pose proof (row_at_write_field_eq _ _ _ f v _ Hr) as Hr1.
  pose proof (totals_but_write cdn f v w (totals_ok_but _ _ Hw)) as Hw1.
  unfold trigger_child; cbn [on_row forecast_club]; unfold ForecastClubItem.handlers.
  repeat case_decide; subst;
    unfold ForecastClubItem.batch_size, ForecastClubItem.week_1, ForecastClubItem.week_2,
      ForecastClubItem.week_3, ForecastClubItem.week_4, ForecastClubItem.w1_batch,
      ForecastClubItem.w2_batch, ForecastClubItem.w3_batch, ForecastClubItem.w4_batch;
    eauto using checked_totals_ok.
  - rewrite Totals.calculate_totals_final, Hr1. by apply after_totals_ok.
  - apply check_totals_ok, totals_ok_write_other; [by_compute|done..].
  - apply check_totals_ok, totals_ok_write_other; [by_compute|done..].
  - apply check_totals_ok, totals_ok_write_other; [by_compute|done..].
  - apply check_totals_ok, totals_ok_write_other; [by_compute|done..].
  - apply totals_ok_write_other; [|done..].
    unfold Totals.inputs, Totals.batch_fields. rewrite !not_elem_of_cons.
    split_and!; try done. apply not_elem_of_nil.
Qed.

Lemma kept_rows {A} (c : M A) w w0 :
  guarantees locals_kept c → w_locals w = w_locals w0 →
  totals_ok w0 → totals_ok (final (c w)).
Proof.
  intros Hc E Hw. apply (totals_ok_locals w0); [|done]. by rewrite (Hc w).
Qed.

#[local] Hint Resolve trigger_rows run_callback_rows run_action_rows
  run_continuation_rows : fc.

Lemma save_locals k w : w_locals (save k w) = w_locals w.
Proof.
  rewrite save_run. repeat case_match; unfold saved_state; simpl; try done;
    by repeat case_match.
Qed.

Lemma store_totals_ok s w :
  map_Forall (λ _ r, Totals.totals_consistent r) s.2 → totals_ok (store s w).
Proof.
  intros Hs cdn r. unfold row_at, store; simpl. rewrite lookup_insert_eq; simpl.
  apply Hs.
Qed.

Lemma step_totals_ok e w : keeps_totals e → totals_ok w → totals_ok (step e w).
Proof.
  intros He Hw. destruct e; simpl in *;
    try (unfold trigger_field; repeat case_match; simpl; try done;
         apply (kept_rows _ _ w); by auto with fc).
  - case_match; eauto using cell_totals_ok.
  - repeat case_match; try done; subst;
      try (apply (kept_rows _ _ w); by auto with fc).
    eapply kept_rows; [by auto with fc|reflexivity|by apply store_totals_ok].
  - apply (totals_ok_locals w); [apply save_locals|done].
  - case_match; [done|]. apply (totals_ok_locals w); [by rewrite save_locals|done].
Qed.

(** ** Sessions *)

(** Nothing the form has shown is taken back: what a state shows is a
    prefix of what every later state of the session shows. *)
Lemma reachable_ui_grows w0 w : reachable w0 w → ui_grows w0 w.
Proof.
  induction 1 as [|w e _ IH]; [done|]. etrans; [done|apply step_ui_grows].
Qed.

Lemma totals_ok_table w :
  totals_ok w ↔
  map_Forall (λ _ r, Totals.totals_consistent r) (default ∅ (w_locals w !! child_doctype)).
Proof.
  unfold totals_ok, row_at, map_Forall.
  destruct (w_locals w !! child_doctype) as [t|]; simpl; [done|].
  split; intros H cdn r; [by rewrite lookup_empty|done].
Qed.

#[global] Instance totals_ok_dec w : Decision (totals_ok w).
Proof.
  refine (cast_if (decide (map_Forall (λ _ r, Totals.totals_consistent r)
                             (default ∅ (w_locals w !! child_doctype)))));
    by rewrite totals_ok_table.
Defined.

Lemma saved_state_saved k w : w_saved (saved_state k w) = w_saved w ++ [table w].
Proof. unfold saved_state. by destruct k as [[]|]. Qed.

Lemma input_edit_row cdn f w r :
  f ∈ Totals.inputs → row_at w child_doctype cdn = Some r →
  row_at (final (trigger_child f child_doctype cdn w)) child_doctype cdn
  = Some (Totals.with_totals r).
Proof.
  intros Hf Hr. unfold Totals.inputs, Totals.batch_fields in Hf.
  rewrite !elem_of_cons, elem_of_nil in Hf.
  unfold trigger_child; cbn [on_row forecast_club]; unfold ForecastClubItem.handlers.
  repeat case_decide; subst;
    try (exfalso; intuition discriminate);
    unfold ForecastClubItem.batch_size, ForecastClubItem.w1_batch,
      ForecastClubItem.w2_batch, ForecastClubItem.w3_batch, ForecastClubItem.w4_batch;
    rewrite ?check_then_totals_final, ?Totals.calculate_totals_final, Hr;
    apply Totals.row_at_after_totals; try done;
    by rewrite (row_at_locals w) by apply RowCheck.after_check_locals.
Qed.

(** The totals are kept along a session. *)
Lemma run_totals_ok es w :
  Forall keeps_totals es → totals_ok w → totals_ok (run es w).
Proof.
  intros Hes. revert w. induction Hes as [|e es He _ IH]; intros w Hw; [done|].
  simpl. by apply IH, step_totals_ok.
Qed.

(** ** Theorems *)

(** C2. No session saves an invalid table: whatever the events and their
    order, every table a save has sent to the server is one in which no
    week of any row has a quantity without a batch count.  The blocking
    validation cannot be bypassed by an edit, a button, an answer of the
    server or a save requested by the script.  (The calls of the script
    pass the document to the server as it stands; they are requests, not
    saves.) *)
Theorem session_saved_valid w0 w :
  reachable w0 w → saved_valid w0 → saved_valid w.
Proof. apply (blocking_sessions DocCheck.row_valid). Qed.

Lemma session_saved_valid_witness : saved_valid (run session start).
Proof.
  apply (session_saved_valid start); [|by constructor].
  apply reachable_run. by exists session.
Defined.

(** C11. The totals follow the edits: in a session in which no event
    writes a total from outside (the user edits any field but the two
    totals, the server sends rows with consistent totals), the totals of
    every row agree with its batch counts and batch size after every
    event. *)
Theorem session_totals_ok es w :
  Forall keeps_totals es → totals_ok w → totals_ok (run es w).
Proof. apply run_totals_ok. Qed.

Lemma session_totals_ok_witness : totals_ok (run session start).
Proof. apply session_totals_ok; [|by_compute]. repeat constructor. by_compute. Defined.

(** C31. A save, by the user or requested by the script: on a document
    without table the validation throws and nothing is saved; when a row
    is invalid the errors are shown, [frappe.validated] is cleared and
    nothing is saved; otherwise the table goes to the server and the
    continuation of the script, if there is one, shows its alert. *)
Theorem save_spec k w :
  save k w =
  match items (w_doc w) with
  | None => set_validated true w
  | Some names =>
      match DocCheck.doc_errors (rows_of w names) with
      | [] => saved_state k w
      | errors => DocCheck.after_validation errors (set_validated true w)
      end
  end.
Proof. apply save_run. Qed.

(** A save goes through exactly when the document has a table and
    every row of it is valid: the validation blocks every invalid table
    and no valid one. *)
Theorem save_accepts_iff w :
  w_saved (step UserSave w) = w_saved w ++ [table w] ↔
  ∃ names, items (w_doc w) = Some names ∧ Forall DocCheck.row_valid (rows_of w names).
Proof.
  simpl. rewrite save_run. destruct (items (w_doc w)) as [names|] eqn:Hitems.
  - destruct (DocCheck.doc_errors _) as [|e errors] eqn:Herr.
    + rewrite saved_state_saved. apply DocCheck.doc_errors_nil in Herr. naive_solver.
    + split; [intros H%(f_equal length); rewrite length_app in H; simpl in H; lia|].
      intros (? & [= <-] & H%DocCheck.doc_errors_nil). congruence.
  - split; [intros H%(f_equal length); rewrite length_app in H; simpl in H; lia|].
    by intros (? & ? & _).
Qed.

(** An edit of a batch count or of the batch size of a row
    recomputes its totals: after the event the row holds the new value and
    the totals computed from it, whatever its totals were before. *)
Theorem input_edit_recomputes cdn f v w r :
  f ∈ Totals.inputs → row_at w child_doctype cdn = Some r →
  row_at (step (SetCell cdn f v) w) child_doctype cdn
  = Some (Totals.with_totals (<[f:=v]> r)).
Proof.
  intros Hf Hr. simpl. rewrite Hr.
  by apply input_edit_row, row_at_write_field_eq.
Qed.

Lemma input_edit_recomputes_witness :
  row_at (step (SetCell "a" "w2_batch" (Js.VNum 4)) start) child_doctype "a"
  = Some (Totals.with_totals
            (<["w2_batch" := Js.VNum 4]> (default ∅ (row_at start child_doctype "a")))).
Proof. apply input_edit_recomputes; by_compute. Defined.

(** C34. The handlers of the child table never fail on a row of the
    table: whichever field was edited, on a row that exists its handler
    returns and the row is still there; on a row that does not exist it
    throws a [TypeError] before it has changed anything. *)
Theorem child_handlers_return f h cdt cdn w :
  ForecastClubItem.handlers f = Some h →
  match row_at w cdt cdn with
  | Some _ => ∃ w', h cdt cdn w = Ok tt w' ∧ has_row cdt cdn w'
  | None => h cdt cdn w = Throw TypeError w
  end.
Proof.
  intros Hh. destruct (row_at w cdt cdn) as [r|] eqn:Hr;
    [|by apply (child_handler_missing f)].
  destruct (child_handler_returns f h cdt cdn Hh w) as ([] & w' & ? & ?); [by exists r|].
  eauto.
Qed.

Lemma child_handlers_return_witness :
  ∃ w', ForecastClubItem.w2_batch child_doctype "a" start = Ok tt w'
        ∧ has_row child_doctype "a" w'.
Proof. by apply (child_handlers_return "w2_batch" _ child_doctype "a" start). Defined.

(** The form never shows its button twice: in every state of a
    session that starts with at most the button, the custom buttons are
    none or the one button of the form. *)
Theorem session_buttons_ok w0 w : reachable w0 w → buttons_ok w0 → buttons_ok w.
Proof. apply reachable_invariant, step_buttons_ok. Qed.

Lemma session_buttons_ok_witness :
  buttons_ok (run [Refresh; Click "Create Material Request"; Refresh]
                (Requests.world_of Requests.planned_doc)).
Proof.
  apply (session_buttons_ok (Requests.world_of Requests.planned_doc)); [|by left].
  apply reachable_run. by eexists.
Defined.

(** Every call that awaits its answer is one of the three calls of
    the form, with the callback that belongs to its method: an answer
    never runs a callback on the result of another method. *)
Theorem session_calls_known w0 w : reachable w0 w → calls_known w0 → calls_known w.
Proof. apply reachable_invariant, step_calls_known. Qed.

Lemma session_calls_known_witness :
  calls_known (run [Refresh; Click "Create Material Request";
                    Press "get_fetch_material_request_item"]
                 (Requests.world_of Requests.planned_doc)).
Proof.
  apply (session_calls_known (Requests.world_of Requests.planned_doc)); [|by constructor].
  apply reachable_run. by eexists.
Defined.

(** The session of the scenarios: the first save is blocked with the
    error of row 1 and week 2 and saves nothing; once the batch count of
    week 2 is entered the totals of the row are 6 batches and 30 units,
    and the second save sends the table, once, with the batch count
    entered. *)
Theorem scenario_session :
  w_saved (run [UserSave] start) = [] ∧
  w_ui (run [UserSave] start) =
    [Msgprint "Validation Error" "red"
       "Row 1: Week 2 has value 20, but Week 2 Batch is 0 or empty. Batch is required when week value is greater than 0."] ∧
  (λ r, (field r "total_batch_qty", field r "total_qty"))
    <$> row_at (run session start) child_doctype "a" = Some (Js.VNum 6, Js.VNum 30) ∧
  map (map (λ r, field r "w2_batch")) (w_saved (run session start))
    = [[Js.VNum 4; Js.VUndefined]] ∧
  w_validated (run session start) = true.
Proof. vm_compute. by split_and!. Qed.

End Lifecycle.
