(* ===== verification/Table.v ===== *)
(** * Table: the rows of the document are objects of the store

    The model keeps the row objects in the store [locals] and the table
    [frm.doc.items] as the list of their names, so that a row reached
    through the table and the same row reached through [locals[cdt][cdn]]
    are one object.  This file states the well-formedness of that
    representation, every name of the table has its object, and the
    lemmas the refinement of [Simulation.v] needs: every event of a
    session keeps it, and in such states the table the validation walks is
    the list of the row objects themselves, so that the empty object that
    stands in for a missing row is never read.  The invariant belongs to
    the encoding of the store, not to the script: no primitive of
    [Client.v] removes a row. *)

From S2P Require Import Prelude Eff JsValue Format Client Form Framework.
From S2P Require Import Totals RowCheck DocCheck Requests Lifecycle.

Import Client.
Import Framework.

Module Table.

(** The names of the rows of the table of the document. *)
Definition names (w : world) : list string := default [] (items (w_doc w)).

(** Every row of the table is an object of the store. *)
Definition wf (w : world) : Prop :=
  Forall (λ cdn, is_Some (row_at w child_doctype cdn)) (names w).

#[global] Instance wf_dec w : Decision (wf w).
Proof. unfold wf. apply _. Defined.

(** What the server sends is well formed in the same sense. *)
Definition snapshot_wf (s : snapshot) : Prop :=
  Forall (λ cdn, is_Some (s.2 !! cdn)) (default [] (items s.1)).

#[global] Instance snapshot_wf_dec s : Decision (snapshot_wf s).
Proof. unfold snapshot_wf. apply _. Defined.

(** An event whose data is well formed. *)
Definition event_wf (e : event) : Prop :=
  match e with
  | Answer _ _ (Some s) => snapshot_wf s
  | _ => True
  end.

#[global] Instance event_wf_dec e : Decision (event_wf e).
Proof. destruct e as [| | | | |? ? [?|]| |]; simpl; apply _. Defined.

(** ** What keeps a state well formed *)

(** The document and the set of rows decide well-formedness. *)
Lemma wf_kept w w' : doc_kept w w' → same_rows w w' → wf w → wf w'.
Proof.
  unfold wf, names. intros -> Hrows Hw. eapply Forall_impl; [done|].
  intros cdn ?. by apply Hrows.
Qed.

Lemma wf_fields w w' : w_doc w' = w_doc w → w_locals w' = w_locals w → wf w → wf w'.
Proof.
  intros Hd Hl. apply wf_kept; [done|]. intros cdt cdn.
  by rewrite (row_at_locals w).
Qed.

Lemma wf_handler {A} (c : M A) w :
  guarantees Lifecycle.handler_frame c → wf w → wf (final (c w)).
Proof. intros Hc. destruct (Hc w) as (_ & Hd & Hr & _). by apply wf_kept. Qed.

Lemma items_set_header f v d : items (set_header f v d) = items d.
Proof. unfold set_header. by repeat case_decide. Qed.

Lemma wf_set_header f v w : wf w → wf (set_doc (set_header f v) w).
Proof. unfold wf, names; simpl. by rewrite items_set_header. Qed.

Lemma wf_write_field cdt cdn f v w : wf w → wf (write_field cdt cdn f v w).
Proof. apply wf_kept; [done|apply write_field_same_rows]. Qed.

Lemma wf_store s w : snapshot_wf s → wf (store s w).
Proof.
  unfold wf, names, snapshot_wf, row_at, store; simpl.
  intros Hs. eapply Forall_impl; [done|]. intros cdn. by rewrite lookup_insert_eq.
Qed.

Lemma save_doc k w : w_doc (save k w) = w_doc w.
Proof.
  rewrite Lifecycle.save_run. repeat case_match; unfold Lifecycle.saved_state; simpl;
    try done; by repeat case_match.
Qed.

Lemma wf_save k w : wf w → wf (save k w).
Proof. apply wf_fields; [apply save_doc|apply Lifecycle.save_locals]. Qed.

#[local] Hint Resolve Lifecycle.trigger_frame Lifecycle.trigger_child_frame
  Lifecycle.run_callback_frame Lifecycle.run_action_frame
  Lifecycle.run_continuation_frame : fc.

Lemma step_wf e w : event_wf e → wf w → wf (step e w).
Proof.
  intros He Hw. destruct e; simpl in *; unfold trigger_field; repeat case_match;
    try done; try (by apply wf_save).
  all: try (apply wf_handler; [by auto with fc|]).
  all: first [done|by apply wf_set_header|by apply wf_store|by apply wf_write_field].
Qed.

Lemma session_wf es w : Forall event_wf es → wf w → wf (run es w).
Proof.
  intros Hes. revert w. induction Hes as [|e es He _ IH]; intros w Hw; [done|].
  simpl. by apply IH, step_wf.
Qed.

(** In a well-formed state the table the server receives is the list of
    the row objects themselves. *)
Lemma wf_table w :
  wf w ↔ Forall2 (λ cdn r, row_at w child_doctype cdn = Some r) (names w) (table w).
Proof.
  unfold wf, table, rows_of, names. rewrite Forall2_fmap_r. split.
  - intros Hw. apply Forall_Forall2_diag. eapply Forall_impl; [done|].
    intros cdn [r Hr]; simpl. by rewrite Hr.
  - intros Hw. apply Forall_forall. intros cdn Hcdn.
    apply list_elem_of_lookup_1 in Hcdn as [i Hi].
    by eapply Forall2_lookup_lr in Hw as ->.
Qed.

End Table.
