(* ===== verification/Cascade.v ===== *)
(** * Cascade: what the script sets off comes to an end

    A handler of the form can send a call, whose callback runs when the
    answer arrives, and the callback of [fetch_material_request_items]
    requests a save, whose continuation runs when the save is done.  The
    events the script sets off in this way are the cascades of
    [Framework].  This file shows that the script settles: no callback
    sends a call, a callback requests at most one save, and the
    validation and the continuation request nothing.  So the measure
    [pending 1], twice the calls awaited plus the saves requested, falls
    with every event that is due: every cascade ends, in whatever order
    the answers and the saves come, and it can always be run to the end.
    On the button that fetches the items this gives the whole story of
    the press: the call, the refresh, the save with its validation, the
    alert.  The two other calls of the form, of the button "Create
    Material Request" and of the header, are followed to their end in
    the same way. *)

From S2P Require Import Prelude Eff JsValue Format Client Form Framework.
From S2P Require Import DocCheck Requests Lifecycle.

Import Client.
Import Framework.

Module Cascade.

(** A server that answers every call with success and sends no
    document back. *)
Definition succeeds : request → response * option snapshot :=
  λ _, (Response false true, None).

(** The state after the button field [get_fetch_material_request_item]
    was pressed. *)
Definition fetch_pressed (w : world) : world :=
  step (Press "get_fetch_material_request_item") w.

(** The state the press ends in when the table is valid: the field is
    redrawn, the table is saved, the alert is shown. *)
Definition fetched (w : world) : world :=
  set_saved (.++ [table w])
    (set_validated true
       (set_ui (.++ [RefreshField "material_request_items";
                     ShowAlert "Material Request Items fetched successfully" "green"]) w)).

(** The state the press ends in when the table has errors: the field is
    redrawn and the errors are shown. *)
Definition fetch_blocked (errors : list string) (w : world) : world :=
  DocCheck.after_validation errors
    (set_validated true (set_ui (.++ [RefreshField "material_request_items"]) w)).

(** The state after the form was drawn and the button "Create Material
    Request" was clicked, and the state the click ends in: the alert is
    shown and the document is reloaded. *)
Definition create_clicked (w : world) : world :=
  run [Refresh; Click "Create Material Request"] w.

Definition created (w : world) : world :=
  set_ui (.++ [ShowAlert "Material Request created successfully" "green"; ReloadDoc])
    (set_buttons (λ _, [Requests.the_button]) w).

(** The state after the user has set the company, and the state this
    ends in when the dates were set: the table is redrawn and the alert
    is shown. *)
Definition company_set (c : string) (w : world) : world :=
  step (SetHeader "company" (Some c)) w.

Definition forecasts_fetched (c : string) (w : world) : world :=
  set_ui (.++ [RefreshField "items"; ShowAlert "Sales Forecasts fetched successfully" "green"])
    (set_doc (set_header "company" (Some c)) w).

(** A form with a valid table and nothing awaited. *)
Definition valid_world : world :=
  World (Doc (Js.VNum 0) None None (Some ["b"]) None None None)
        {[ child_doctype := {[ "b" := DocCheck.row_with_batches ]} ]}
        true [] [] [] [] [].

(** ** The script settles *)

Ltac queue_fact :=
  unfold asks_nothing, asks_at_most, pending; simpl; rewrite ?length_app; simpl; lia.

#[global] Instance forecast_club_settling : Settling 1.
Proof.
  split.
  - intros cb r w. cbn [on_answer forecast_club]. rewrite Requests.run_callback_run.
    destruct cb, (r_exc r), (r_message r); queue_fact.
  - unfold trigger; cbn [on_form forecast_club]; unfold ForecastClub.handlers; simpl.
    frame queue_fact.
  - intros []; cbn [on_saved forecast_club]; frame queue_fact.
Qed.

(** ** One call *)

Lemma call_pending q w : quiescent w → pending 1 (set_calls (.++ [q]) w) = 2.
Proof. intros [Hc Hs]. unfold pending; simpl. by rewrite Hc, Hs. Qed.

(** One call on a form on which nothing else is pending: the answer
    runs the callback on the state the handler left. *)
Lemma call_answered fuel q answer w :
  quiescent w → (answer q).2 = None →
  settle (S fuel) answer (set_calls (.++ [q]) w) =
  settle fuel answer (final (on_answer (req_callback q) (answer q).1 w)).
Proof.
  intros [Hc Hs] Hsync. destruct w as [d l v u b c s sv]; simpl in *; subst c s.
  unfold next_due at 1, set_calls at 1; simpl. by rewrite Hsync.
Qed.

Lemma settle_quiescent_id fuel answer w : quiescent w → settle fuel answer w = w.
Proof.
  intros Hq. destruct fuel as [|fuel]; [done|]; simpl.
  by apply (next_due_None answer) in Hq as ->.
Qed.

(** ** The button and the header *)

Lemma refresh_step w :
  step Refresh w =
  set_buttons (λ _, if decide (Requests.offers_button (w_doc w))
                    then [Requests.the_button] else []) w.
Proof.
  simpl. unfold trigger; cbn [on_form forecast_club]; unfold ForecastClub.handlers; simpl.
  rewrite Requests.refresh_run. simpl. by case_decide.
Qed.

Lemma create_clicked_calls w :
  Requests.offers_button (w_doc w) →
  create_clicked w =
  set_calls (.++ [Requests.create_request]) (set_buttons (λ _, [Requests.the_button]) w).
Proof.
  intros Hd. unfold create_clicked.
  change (run [Refresh; ?e] w) with (step e (step Refresh w)).
  rewrite refresh_step. rewrite decide_True by done. reflexivity.
Qed.

Lemma company_set_calls c w :
  Requests.header_set (set_header "company" (Some c) (w_doc w)) →
  company_set c w =
  set_calls (.++ [Requests.fetch_forecasts_request])
    (set_doc (set_header "company" (Some c)) w).
Proof.
  intros Hd. unfold company_set. simpl. unfold trigger_field.
  rewrite decide_False by by_compute.
  unfold trigger; cbn [on_form forecast_club]; unfold ForecastClub.handlers; simpl.
  unfold ForecastClub.company. rewrite Requests.fetch_if_set_run. simpl.
  by rewrite decide_True.
Qed.

(** ** The press of the fetch button *)

Lemma press_fetch w :
  fetch_pressed w = set_calls (.++ [Requests.fetch_items_request]) w.
Proof. reflexivity. Qed.

Lemma fetch_pending w : quiescent w → pending 1 (fetch_pressed w) = 2.
Proof. intros [Hc Hs]. rewrite press_fetch. unfold pending; simpl. by rewrite Hc, Hs. Qed.

(** The answer and the save, one after the other. *)
Lemma fetch_settles w names :
  quiescent w → items (w_doc w) = Some names →
  settle 2 succeeds (fetch_pressed w) =
  match DocCheck.doc_errors (rows_of w names) with
  | [] => fetched w
  | errors => fetch_blocked errors w
  end.
Proof.
  intros [Hc Hs] Hitems. rewrite press_fetch.
  destruct w as [d l v u b c s sv]; simpl in *; subst c s.
  unfold next_due at 1, set_calls at 1; simpl.
  rewrite Lifecycle.save_run; simpl. rewrite Hitems.
  change (rows_of _ names) with (rows_of (World d l v u b [] [] sv) names).
  destruct (DocCheck.doc_errors _) as [|e errors]; [|done].
  unfold Lifecycle.saved_state, fetched, table; simpl.
  rewrite Hitems. unfold set_saved, set_ui, set_validated; simpl.
  by rewrite <- app_assoc.
Qed.

(** ** Theorems *)

(** C15. Every cascade of the form ends: a sequence of events that are
    due, answers of the server to calls that are awaited and saves the
    script has requested, in any order, is at most as long as twice the
    calls plus the saves that were pending when it began. *)
Theorem cascade_terminates w es w' :
  cascade w es w' → length es + pending 1 w' ≤ pending 1 w.
Proof. apply (cascade_length 1). Qed.

Lemma cascade_terminates_witness :
  length [Answer 0 (Response false true) None; ScriptSave]
  + pending 1 (run [Answer 0 (Response false true) None; ScriptSave]
                 (fetch_pressed valid_world))
  ≤ pending 1 (fetch_pressed valid_world).
Proof. apply cascade_terminates, cascade_run. split; [by_compute|done]. Defined.

(** The framework delivers what is due in as many events as are
    pending: run with the fuel [pending 1 w], [settle] ends in a state in
    which no call is awaited and no save is requested, whatever the
    server answers. *)
Theorem settle_quiescent answer w : quiescent (settle (pending 1 w) answer w).
Proof. by apply (settle_enough 1). Qed.

(** Whatever has happened of a cascade, it can go on to its end:
    after any sequence of events that were due there is a continuation
    after which nothing is awaited.  No call and no save of the script
    is left unserved for good. *)
Theorem cascade_settles w es w' :
  cascade w es w' → ∃ es' w'', cascade w (es ++ es') w'' ∧ quiescent w''.
Proof. apply (cascade_extends 1). Qed.

Lemma cascade_settles_witness :
  ∃ es' w'', cascade (fetch_pressed valid_world)
               ([Answer 0 (Response false true) None] ++ es') w''
             ∧ quiescent w''.
Proof.
  apply (cascade_settles _ _ (step (Answer 0 (Response false true) None)
                                (fetch_pressed valid_world))).
  apply cascade_run. split; [by_compute|done].
Defined.

(** C16. A press of the button that fetches the items of a form with a
    valid table, once the server has answered with success, ends with
    the field redrawn, the table saved and the alert "Material Request
    Items fetched successfully" shown, and with nothing awaited: the two
    events that are pending after the press are all it takes. *)
Theorem fetch_completes w names :
  quiescent w → items (w_doc w) = Some names → Forall DocCheck.row_valid (table w) →
  settle (pending 1 (fetch_pressed w)) succeeds (fetch_pressed w) = fetched w.
Proof.
  intros Hq Hitems Hvalid. rewrite fetch_pending, (fetch_settles w names) by done.
  unfold table in Hvalid. rewrite Hitems in Hvalid; simpl in Hvalid.
  by apply DocCheck.doc_errors_nil in Hvalid as ->.
Qed.

Lemma fetch_completes_witness :
  settle (pending 1 (fetch_pressed valid_world)) succeeds (fetch_pressed valid_world)
  = fetched valid_world.
Proof. apply (fetch_completes valid_world ["b"]); [done|done|by_compute]. Defined.

(** C38. The button "Create Material Request" to its end: on a form whose
    document is submitted, planned and has material-request items, with
    nothing pending, a click on the button, once the server has answered
    with success and a message and without a document, ends with the
    alert shown and the reload of the document asked for, and with
    nothing awaited. *)
Theorem create_completes w :
  quiescent w → Requests.offers_button (w_doc w) →
  settle (pending 1 (create_clicked w)) succeeds (create_clicked w) = created w.
Proof.
  intros Hq Hd. rewrite create_clicked_calls by done.
  rewrite call_pending, call_answered by done.
  rewrite settle_quiescent_id; cbn [on_answer forecast_club];
    by rewrite Requests.run_callback_run.
Qed.

Lemma create_completes_witness :
  settle (pending 1 (create_clicked (Requests.world_of Requests.planned_doc))) succeeds
    (create_clicked (Requests.world_of Requests.planned_doc))
  = created (Requests.world_of Requests.planned_doc).
Proof. apply create_completes; [done|]. split_and!; [done|by eexists|done]. Defined.

(** C39. The company to its end: when the user sets the company of a form
    whose two dates are set, with nothing pending, the forecasts are
    fetched, and once the server has answered with success and without a
    document the table is redrawn and the alert is shown, with nothing
    awaited. *)
Theorem forecasts_complete c w :
  quiescent w → Requests.header_set (set_header "company" (Some c) (w_doc w)) →
  settle (pending 1 (company_set c w)) succeeds (company_set c w) = forecasts_fetched c w.
Proof.
  intros Hq Hd. rewrite company_set_calls by done.
  rewrite call_pending, call_answered by done.
  rewrite settle_quiescent_id; cbn [on_answer forecast_club];
    by rewrite Requests.run_callback_run.
Qed.

Lemma forecasts_complete_witness :
  settle (pending 1 (company_set "ACME" (Requests.world_of Requests.planned_doc))) succeeds
    (company_set "ACME" (Requests.world_of Requests.planned_doc))
  = forecasts_fetched "ACME" (Requests.world_of Requests.planned_doc).
Proof. apply forecasts_complete; [done|]. split_and!; by eexists. Defined.

End Cascade.
