(* ===== verification/Freeze.v ===== *)
(** * Freeze: one call at a time

    Every call of the script passes [freeze: true] (lines 15, 39 and 114
    of [forecast_club.js]): the framework covers the page until the
    answer has come, and the user can neither edit a field nor press a
    button nor save in the meantime.  This file gives the option its
    meaning, as the events that are [enabled] in a state, and shows what
    the script gets from it.  The class [Freezing] states what the
    framework needs of a script: a handler of the user sends at most one
    call and freezes the page with it, and the handlers the framework
    runs on its own ([refresh], [validate], the callbacks, the
    continuation of a save) send none.  For such a script at most one
    call is awaited at any time of any session ([single_flight]), and
    while it is awaited nothing but its answer changes the document, the
    rows or the calls: the callback runs on the document the call was
    sent with.  Without the option two calls can be awaited at once, as
    in [Order.two_calls]; the session that leads there is not one the
    frozen page allows. *)

From S2P Require Import Prelude Eff JsValue Format Client Form Framework.
From S2P Require Import DocCheck Requests Lifecycle Table Cascade.

Import Client.
Import Framework.

Module Freeze.

(** ** The option [freeze] *)

(** A call sent with [freeze: true]. *)
Definition freezes (q : request) : Prop := req_freeze q = true.

(** The page is covered: a call that freezes it is awaited. *)
Definition frozen (w : world) : Prop := Exists freezes (w_calls w).

(** The events that come from the user, who needs the page. *)
Definition user_event (e : event) : bool :=
  match e with
  | SetHeader _ _ | Press _ | SetCell _ _ _ | Click _ | UserSave => true
  | Refresh | Answer _ _ _ | ScriptSave => false
  end.

(** An event that can happen in a state: an event of the user when the
    page is not covered, a redraw of the form at any time, an answer or a
    save of the script when it is due. *)
Definition enabled (e : event) (w : world) : Prop :=
  if user_event e then ¬ frozen w
  else match e with Refresh => True | _ => due e w end.

(** A handler that sends no call, and one that sends at most one call,
    which freezes the page. *)
Definition sends_none (w w' : world) : Prop := w_calls w' = w_calls w.

Definition sends_one (w w' : world) : Prop :=
  w_calls w' = w_calls w ∨ ∃ q, freezes q ∧ w_calls w' = w_calls w ++ [q].

(** At most one call is awaited, and it freezes the page. *)
Definition single_flight (w : world) : Prop :=
  length (w_calls w) ≤ 1 ∧ Forall freezes (w_calls w).

(** The events of a press of the fetch button to its end, and a press of
    a second button while the first call is awaited. *)
Definition fetch_session : list event :=
  [Press "get_fetch_material_request_item"; Refresh;
   Answer 0 (Response false true) None; SetHeader "company" (Some "ACME"); ScriptSave].

Definition two_presses : list event :=
  [Press "company"; Press "get_fetch_material_request_item"].

#[global] Instance freezes_dec q : Decision (freezes q).
Proof. unfold freezes. apply _. Defined.

#[global] Instance frozen_dec w : Decision (frozen w).
Proof. unfold frozen. apply _. Defined.

#[global] Instance enabled_dec e w : Decision (enabled e w).
Proof. unfold enabled. destruct e; simpl; apply _. Defined.

#[global] Instance single_flight_dec w : Decision (single_flight w).
Proof. unfold single_flight. apply _. Defined.

#[global] Instance sends_none_preorder : PreOrder sends_none.
Proof. unfold sends_none. split; [done|]. intros ??? H1 H2. congruence. Qed.

Section freezing.
Context {script : Script}.

(** A session the framework allows: each event is enabled when its turn
    comes. *)
Fixpoint possible (es : list event) (w : world) : Prop :=
  match es with
  | [] => True
  | e :: es => enabled e w ∧ possible es (step e w)
  end.

#[global] Instance possible_dec es w : Decision (possible es w).
Proof. revert w. induction es as [|e es IH]; intros w; simpl; apply _. Defined.

(** ** What the framework asks of a script *)

Class Freezing : Prop := {
  freezing_form name : name ∉ form_events → guarantees sends_one (trigger name);
  freezing_refresh : guarantees sends_none (trigger "refresh");
  freezing_validate : guarantees sends_none (trigger "validate");
  freezing_row fieldname cdt cdn : guarantees sends_one (trigger_child fieldname cdt cdn);
  freezing_click a : guarantees sends_one (on_click a);
  freezing_answer cb r : guarantees sends_none (on_answer cb r);
  freezing_saved k : guarantees sends_none (on_saved k);
}.

Context `{!Freezing}.

(** ** One call at a time *)

Lemma thawed_calls w : single_flight w → ¬ frozen w → w_calls w = [].
Proof.
  intros [_ Hf] Hn. destruct (w_calls w) as [|q qs] eqn:E; [done|].
  destruct Hn. unfold frozen. rewrite E. left. by inversion Hf.
Qed.

Lemma frozen_call w : single_flight w → frozen w → ∃ q, w_calls w = [q].
Proof.
  intros [Hl _] Hf. unfold frozen in Hf.
  destruct (w_calls w) as [|q [|q' qs]]; simpl in *; [by inversion Hf|by exists q|lia].
Qed.

Lemma sends_one_flight {A} (c : M A) w :
  guarantees sends_one c → w_calls w = [] → single_flight (final (c w)).
Proof.
  intros Hc Hw. unfold single_flight.
  destruct (Hc w) as [->|(q & Hq & ->)]; rewrite Hw; simpl; [by split; [lia|]|].
  split; [lia|by constructor].
Qed.

Lemma sends_none_flight {A} (c : M A) w :
  guarantees sends_none c → single_flight w → single_flight (final (c w)).
Proof. intros Hc Hw. unfold single_flight. by rewrite (Hc w). Qed.

Lemma single_flight_calls w w' : w_calls w' = w_calls w → single_flight w → single_flight w'.
Proof. unfold single_flight. by intros ->. Qed.

Lemma single_flight_delete n w : single_flight w → single_flight (set_calls (delete n) w).
Proof.
  intros [Hl Hf]. split; simpl; [|by apply Forall_delete].
  pose proof (sublist_length _ _ (sublist_delete (w_calls w) n)). lia.
Qed.

Lemma save_sends_none k w : w_calls (save k w) = w_calls w.
Proof.
  unfold save. pose proof (freezing_validate (set_validated true w)) as Hv.
  destruct (trigger "validate" _) as [a w'|e w']; simpl in Hv; [|done].
  destruct (w_validated w'); [|done].
  destruct k as [k|]; [|done]. by rewrite (freezing_saved k _).
Qed.

Lemma trigger_field_flight fieldname w :
  single_flight w → w_calls w = [] → single_flight (trigger_field fieldname w).
Proof.
  intros Hw Hc. unfold trigger_field. case_decide; [done|].
  by apply sends_one_flight; [apply freezing_form|].
Qed.

Lemma answer_flight n r sync w : single_flight w → single_flight (step (Answer n r sync) w).
Proof.
  intros Hw. simpl. destruct (w_calls w !! n) as [q|]; [|done].
  apply sends_none_flight; [apply freezing_answer|].
  eapply single_flight_calls; [|by apply (single_flight_delete n)].
  by destruct sync as [s|], (r_exc r).
Qed.

Lemma step_single_flight e w : enabled e w → single_flight w → single_flight (step e w).
Proof.
  intros He Hw.
  destruct e as [|f v|f|cdn f v|label|n r sync| |]; unfold enabled in He; simpl in He;
    try (pose proof (thawed_calls w Hw He) as Hc).
  - apply sends_none_flight; [apply freezing_refresh|done].
  - apply trigger_field_flight; [by eapply single_flight_calls|done].
  - by apply trigger_field_flight.
  - simpl. case_match; [|done]. by apply sends_one_flight; [apply freezing_row|].
  - simpl. repeat case_match; try done. by apply sends_one_flight; [apply freezing_click|].
  - by apply answer_flight.
  - eapply single_flight_calls; [apply save_sends_none|done].
  - simpl. case_match; [done|]. eapply single_flight_calls; [apply save_sends_none|done].
Qed.

Lemma possible_single_flight es w :
  possible es w → single_flight w → single_flight (run es w).
Proof.
  revert w. induction es as [|e es IH]; intros w; [done|]. intros [He Hes] Hw.
  apply (IH (step e w)); [done|by apply step_single_flight].
Qed.

(** While the page is covered the only events are the redraw, the save
    of the script and the answer to the one call. *)
Lemma frozen_events e w :
  single_flight w → frozen w → enabled e w →
  e = Refresh ∨ e = ScriptSave ∨ ∃ r sync, e = Answer 0 r sync.
Proof.
  intros Hw Hf He. destruct (frozen_call w Hw Hf) as [q Hq].
  destruct e as [|f v|f|cdn f v|label|n r sync| |]; unfold enabled in He; simpl in He;
    try done; auto.
  rewrite Hq in He. simpl in He. right; right. exists r, sync. f_equal. lia.
Qed.

End freezing.

(** ** The script freezes the page with every call *)

Ltac calls_fact := unfold sends_none; simpl; done.

#[global] Instance forecast_club_freezing : Freezing.
Proof.
  split.
  - intros name Hname w.
    unfold trigger; cbn [on_form forecast_club]; unfold ForecastClub.handlers.
    repeat case_decide; subst; try (destruct Hname; by_compute);
      unfold ForecastClub.forecast_start_date, ForecastClub.forecast_end_date,
        ForecastClub.company;
      rewrite ?Requests.fetch_if_set_run; simpl;
      try case_decide; try (by left); by right; eexists; split; [|reflexivity].
  - unfold trigger; cbn [on_form forecast_club]; unfold ForecastClub.handlers; simpl.
    frame calls_fact.
  - unfold trigger; cbn [on_form forecast_club]; unfold ForecastClub.handlers; simpl.
    frame calls_fact.
  - intros f cdt cdn w. left. revert w.
    change (guarantees sends_none (trigger_child f cdt cdn)).
    unfold trigger_child; cbn [on_row forecast_club]; unfold ForecastClubItem.handlers.
    repeat case_decide; frame calls_fact.
  - intros [] w. right. by eexists; split; [|reflexivity].
  - intros cb r. destruct cb; cbn [on_answer forecast_club]; frame calls_fact.
  - intros []. cbn [on_saved forecast_club]; frame calls_fact.
Qed.

(** The redraw and the save of the script leave the document, the rows
    and the calls as they are. *)
Lemma refresh_keeps w :
  w_doc (step Refresh w) = w_doc w ∧ w_locals (step Refresh w) = w_locals w ∧
  w_calls (step Refresh w) = w_calls w.
Proof.
  simpl. split_and!.
  - apply (Lifecycle.frame_doc _ (set_buttons (λ _, []) w)), Lifecycle.trigger_frame.
  - apply (Lifecycle.trigger_rows "refresh" (set_buttons (λ _, []) w)).
  - apply (freezing_refresh (set_buttons (λ _, []) w)).
Qed.

Lemma script_save_keeps w :
  w_doc (step ScriptSave w) = w_doc w ∧ w_locals (step ScriptSave w) = w_locals w ∧
  w_calls (step ScriptSave w) = w_calls w.
Proof.
  simpl. destruct (w_saves w) as [|k ks]; [done|].
  by rewrite Table.save_doc, Lifecycle.save_locals, save_sends_none.
Qed.

Lemma frozen_stable e w :
  single_flight w → frozen w → enabled e w →
  (∃ r sync, e = Answer 0 r sync) ∨
  (w_doc (step e w) = w_doc w ∧ w_locals (step e w) = w_locals w ∧
   w_calls (step e w) = w_calls w).
Proof.
  intros Hw Hf He. destruct (frozen_events e w Hw Hf He) as [->|[->|?]]; [| |by left].
  - right. apply refresh_keeps.
  - right. apply script_save_keeps.
Qed.

(** ** Theorems *)

(** C22. One call at a time: in every session the framework allows, in
    which the user acts only while no call that freezes the page is
    awaited, the form awaits at most one call, and that call freezes the
    page.  Every call of the script passes [freeze: true], and no
    callback, no validation and no continuation of a save sends a call. *)
Theorem session_single_flight es w :
  possible es w → single_flight w → single_flight (run es w).
Proof. apply possible_single_flight. Qed.

Lemma session_single_flight_witness :
  single_flight (run fetch_session Cascade.valid_world).
Proof. apply session_single_flight; by_compute. Defined.

(** C25. The callback runs on the document the call was sent with: while
    a call is awaited, every event that can happen but the answer to
    that call leaves the document, the row objects and the calls as they
    are. *)
Theorem frozen_document_stable e w :
  single_flight w → frozen w → enabled e w →
  (∃ r sync, e = Answer 0 r sync) ∨
  (w_doc (step e w) = w_doc w ∧ w_locals (step e w) = w_locals w ∧
   w_calls (step e w) = w_calls w).
Proof. apply frozen_stable. Qed.

Lemma frozen_document_stable_witness :
  (∃ r sync, Refresh = Answer 0 r sync) ∨
  (w_doc (step Refresh (Cascade.fetch_pressed Cascade.valid_world))
   = w_doc (Cascade.fetch_pressed Cascade.valid_world) ∧
   w_locals (step Refresh (Cascade.fetch_pressed Cascade.valid_world))
   = w_locals (Cascade.fetch_pressed Cascade.valid_world) ∧
   w_calls (step Refresh (Cascade.fetch_pressed Cascade.valid_world))
   = w_calls (Cascade.fetch_pressed Cascade.valid_world)).
Proof. apply frozen_document_stable; by_compute. Defined.

(** The frozen page is what keeps the calls apart: the two presses that
    lead to two calls awaited at once are not a session the framework
    allows, and they break the invariant. *)
Theorem two_presses_impossible :
  ¬ possible two_presses (Requests.world_of Requests.planned_doc) ∧
  ¬ single_flight (run two_presses (Requests.world_of Requests.planned_doc)).
Proof. split; by_compute. Qed.

End Freeze.
