(* ===== verification/Order.v ===== *)
(** * Order: the answers of the server in any order

    The server answers the calls of the form in an order the script does
    not control.  This file shows that the order does not matter.  The
    script writes the log of what is shown and never reads it: every
    handler, and so every event, takes states that agree on all but this
    log to states that agree on all but this log ([respects], by the
    structure of the handlers).  With [Permutation] for the logs this
    gives an equivalence of states of which the events are morphisms, and
    the answers to two calls that are awaited commute up to it: whichever
    answer comes first, the document, the rows, the calls still awaited,
    the saves requested and the tables saved are the same, and the same
    dialogs and alerts are shown, in another order. *)

From S2P Require Import Prelude Eff JsValue Format Client Form Framework.
From S2P Require Import DocCheck Requests Lifecycle.

Import Client.
Import Framework.

Module Order.

(** Two states agree on everything but what was shown, and their logs
    are related by [U]. *)
Definition same_up_to (U : relation (list ui)) (w w' : world) : Prop :=
  w_doc w = w_doc w' ∧ w_locals w = w_locals w' ∧ w_validated w = w_validated w' ∧
  U (w_ui w) (w_ui w') ∧ w_buttons w = w_buttons w' ∧ w_calls w = w_calls w' ∧
  w_saves w = w_saves w' ∧ w_saved w = w_saved w'.

(** The same state but for the order of what was shown. *)
Definition same_but_order : relation world := same_up_to (≡ₚ).

(** The same state but for what was shown. *)
Definition same_but_shown : relation world := same_up_to (λ _ _, True).

(** What the callback of a call shows and requests on an answer. *)
Definition shown (cb : callback) (r : response) : list ui :=
  if r_exc r then [] else
  match cb with
  | CreateMaterialRequestsDone =>
      if r_message r
      then [ShowAlert "Material Request created successfully" "green"; ReloadDoc]
      else []
  | FetchMaterialRequestItemsDone => [RefreshField "material_request_items"]
  | FetchSalesForecastsDone =>
      [RefreshField "items"; ShowAlert "Sales Forecasts fetched successfully" "green"]
  end.

Definition requested (cb : callback) (r : response) : list continuation :=
  if r_exc r then [] else
  match cb with
  | FetchMaterialRequestItemsDone => [AlertItemsFetched]
  | _ => []
  end.

(** The state after the answer [r] to the call [q] at position [n]. *)
Definition answered (n : nat) (q : request) (r : response) (w : world) : world :=
  set_saves (.++ requested (req_callback q) r)
    (set_ui (.++ shown (req_callback q) r) (set_calls (delete n) w)).

(** A form on which two calls are awaited: the forecasts and the items. *)
Definition two_calls : world :=
  run [Press "company"; Press "get_fetch_material_request_item"]
    (Requests.world_of Requests.planned_doc).

(** ** Lists *)

Lemma delete_delete_lt {A} (l : list A) i j :
  i < j → delete i (delete j l) = delete (j - 1) (delete i l).
Proof.
  revert i j. induction l as [|x l IH]; intros [|i] [|j] Hij; simpl; try done; try lia.
  - by rewrite Nat.sub_0_r.
  - destruct j as [|j]; [lia|]. simpl. f_equal.
    rewrite IH by lia. simpl. by rewrite Nat.sub_0_r.
Qed.

(** ** The script never reads what was shown *)

Section write_only.
Context (U : relation (list ui)) `{!Equivalence U}.
Context (Happ : ∀ x l l', U l l' → U (l ++ x) (l' ++ x)).

#[local] Instance same_up_to_equivalence : Equivalence (same_up_to U).
Proof.
  unfold same_up_to. split.
  - by intros w.
  - intros w w' H. destruct_and!. by split_and!.
  - intros w1 w2 w3 H1 H2. destruct_and!. split_and!; by etrans.
Qed.

(** The updates of the interface keep the relation. *)
Ltac order_fact :=
  intros; unfold same_up_to in *; destruct_and?; simpl in *; split_and?;
  first [ done | congruence | by apply Happ | by f_equal ].

Lemma same_rows_at w w' cdt cdn : same_up_to U w w' → row_at w cdt cdn = row_at w' cdt cdn.
Proof. intros (_ & Hl & _). unfold row_at. by rewrite Hl. Qed.

Lemma same_table w w' : same_up_to U w w' → table w = table w'.
Proof.
  intros H. unfold table, rows_of. destruct H as (-> & Hl & _).
  apply list_fmap_ext. intros _ cdn _. unfold row_at. by rewrite Hl.
Qed.

Lemma locals_get_respects cdt cdn : respects (same_up_to U) (locals_get cdt cdn).
Proof.
  intros w w' H. unfold locals_get. rewrite !run_bind; simpl.
  destruct H as (Hd & Hl & Hrest). rewrite <- Hl.
  destruct (w_locals w !! cdt) as [t|]; [destruct (t !! cdn)|]; by constructor.
Qed.

(** [respect] proves that a handler respects the relation, by the
    structure of the handler. *)
Ltac respect_step :=
  lazymatch goal with
  | |- respects _ (get ≫= _) => apply locals_get_respects
  | |- respects _ (_ ≫= _) => apply respects_bind; [|intros ?]
  | |- respects _ (mret _) => apply respects_ret
  | |- respects _ (throw _) => apply respects_throw
  | |- respects _ (gets _) => apply respects_gets
  | |- respects _ (when _ _) => apply respects_when
  | |- respects _ (fold_each _ _ _ _) => apply respects_fold_each; intros ???
  | |- respects _ (modify _) => apply respects_modify; intros ???
  | |- respects _ (match ?x with _ => _ end) => destruct x
  | |- respects _ (let _ := _ in _) => cbv zeta
  end.

Ltac respect :=
  repeat (autounfold with fc_unfold; try respect_step);
  try solve [order_fact | intros; erewrite same_rows_at by eassumption; done].

Lemma trigger_respects name : respects (same_up_to U) (trigger name).
Proof.
  unfold trigger; cbn [on_form forecast_club]; unfold ForecastClub.handlers.
  repeat case_decide; respect.
Qed.

Lemma trigger_child_respects f cdt cdn : respects (same_up_to U) (trigger_child f cdt cdn).
Proof.
  unfold trigger_child; cbn [on_row forecast_club]; unfold ForecastClubItem.handlers.
  repeat case_decide; respect.
Qed.

Lemma on_answer_respects cb r : respects (same_up_to U) (ForecastClub.run_callback cb r).
Proof. destruct cb; cbn [on_answer forecast_club]; respect. Qed.

Lemma on_click_respects a : respects (same_up_to U) (ForecastClub.run_action a).
Proof. destruct a; cbn [on_click forecast_club]; respect. Qed.

Lemma on_saved_respects k : respects (same_up_to U) (ForecastClub.run_continuation k).
Proof. destruct k; cbn [on_saved forecast_club]; respect. Qed.

Lemma save_order k w w' : same_up_to U w w' → same_up_to U (save k w) (save k w').
Proof.
  intros H. unfold save.
  destruct (trigger_respects "validate" (set_validated true w) (set_validated true w'))
    as [a t t' Ht|e t t' Ht]; [by order_fact| |done].
  assert (w_validated t = w_validated t') as <- by apply Ht.
  destruct (w_validated t); [|done].
  assert (same_up_to U (set_saved (.++ [table t]) t) (set_saved (.++ [table t']) t')).
  { rewrite <- (same_table t t') by done. by order_fact. }
  destruct k as [k|]; [|done]. by apply respects_final; [apply on_saved_respects|].
Qed.

(** Every event is a morphism of the relation. *)
Lemma step_order e w w' : same_up_to U w w' → same_up_to U (step e w) (step e w').
Proof.
  intros H. pose proof H as (Hd & Hl & Hv & Hu & Hb & Hc & Hs & Hsv).
  destruct e; simpl; unfold trigger_field;
    rewrite <- ?(same_rows_at w w') by done; rewrite <- ?Hb, <- ?Hc, <- ?Hs;
    repeat case_match; try done; try (by apply save_order; order_fact);
    try (by order_fact).
  all: apply respects_final;
    [first [apply trigger_respects|apply trigger_child_respects|apply on_answer_respects
           |apply on_click_respects]|by order_fact].
Qed.

Lemma run_order es w w' : same_up_to U w w' → same_up_to U (run es w) (run es w').
Proof.
  revert w w'. induction es as [|e es IH]; intros w w' H; simpl; [done|].
  by apply IH, step_order.
Qed.

End write_only.

(** ** The two instances *)

#[global] Instance anything_equivalence : Equivalence (λ _ _ : list ui, True).
Proof. by split. Qed.

#[global] Instance same_but_order_equivalence : Equivalence same_but_order.
Proof. apply same_up_to_equivalence, _. Qed.

#[global] Instance same_but_shown_equivalence : Equivalence same_but_shown.
Proof. apply same_up_to_equivalence, _. Qed.

#[global] Instance step_proper e : Proper (same_but_order ==> same_but_order) (step e).
Proof.
  intros w w'. apply step_order. intros x l l' Hl. by apply Permutation_app_tail.
Qed.

#[global] Instance run_proper es : Proper (same_but_order ==> same_but_order) (run es).
Proof.
  induction es as [|e es IH]; intros w w' H; simpl; [done|]. apply IH. by rewrite H.
Qed.

(** ** Two answers *)

Lemma answer_step n q r w :
  w_calls w !! n = Some q → step (Answer n r None) w = answered n q r w.
Proof.
  intros Hq. simpl. rewrite Hq. cbn [on_answer forecast_club].
  rewrite Requests.run_callback_run. unfold answered, shown, requested.
  destruct w, (req_callback q), (r_exc r), (r_message r); simpl;
    unfold set_saves, set_ui; simpl; by rewrite ?app_nil_r.
Qed.

Lemma requested_commute cb cb' r r' (s : list continuation) :
  (s ++ requested cb r) ++ requested cb' r' = (s ++ requested cb' r') ++ requested cb r.
Proof.
  unfold requested. destruct (r_exc r), (r_exc r'), cb, cb'; by rewrite ?app_nil_r.
Qed.

Lemma answers_commute i j qi qj ri rj w :
  i < j → w_calls w !! i = Some qi → w_calls w !! j = Some qj →
  same_but_order (step (Answer i ri None) (step (Answer j rj None) w))
                 (step (Answer (j - 1) rj None) (step (Answer i ri None) w)).
Proof.
  intros Hij Hi Hj.
  rewrite (answer_step j qj), (answer_step i qi ri w) by done.
  rewrite (answer_step i qi), (answer_step (j - 1) qj).
  - unfold same_but_order, same_up_to, answered; simpl. split_and!; try done.
    + rewrite <- !app_assoc. apply Permutation_app_head, Permutation_app_comm.
    + by apply delete_delete_lt.
    + apply requested_commute.
  - simpl. rewrite list_lookup_delete_ge by lia. rewrite <- Hj. f_equal. lia.
  - simpl. by rewrite list_lookup_delete_lt.
Qed.

Lemma run_app es1 es2 w : run (es1 ++ es2) w = run es2 (run es1 w).
Proof. unfold run. by rewrite foldl_app. Qed.

(** ** Theorems *)

(** The order of two answers does not matter: in a session in which
    the answers to two calls that are awaited arrive one after the other,
    the other order of the two leads, after the same events that follow,
    to a state with the same document, rows, flag, buttons, calls, saves
    requested and tables saved, which shows the same dialogs and alerts
    in another order. *)
Theorem answer_order es1 es2 i j qi qj ri rj w :
  i < j → w_calls (run es1 w) !! i = Some qi → w_calls (run es1 w) !! j = Some qj →
  same_but_order
    (run (es1 ++ [Answer j rj None; Answer i ri None] ++ es2) w)
    (run (es1 ++ [Answer i ri None; Answer (j - 1) rj None] ++ es2) w).
Proof.
  intros Hij Hi Hj. rewrite !run_app.
  do 2 change (run [?a; ?b] ?x) with (step b (step a x)).
  by rewrite (answers_commute i j qi qj).
Qed.

Lemma answer_order_witness :
  same_but_order
    (run ([] ++ [Answer 1 (Response false true) None; Answer 0 (Response false true) None]
             ++ [ScriptSave]) two_calls)
    (run ([] ++ [Answer 0 (Response false true) None;
                 Answer (1 - 1) (Response false true) None] ++ [ScriptSave]) two_calls).
Proof.
  apply (answer_order [] [ScriptSave] 0 1 Requests.fetch_forecasts_request
           Requests.fetch_items_request); [lia|done..].
Defined.

End Order.
