(* ===== verification/Confluence.v ===== *)
(** * Confluence: every order of delivery ends in the same state

    When several things are pending, answers of the server to calls that
    are awaited and saves the script has requested, the framework
    delivers them in an order the script does not control.  This file
    shows that the order does not matter to what the session ends in.
    The deliveries are a rewriting relation on the states taken up to the
    order of the log of what was shown (a state without its log, and the
    log as a multiset).  Two deliveries that are possible in one state
    can each be followed by the other, and then agree ([delivery_local],
    from [Order.answers_commute] for two answers and from
    [answer_save_commute] for an answer and a save); every delivery
    lowers the measure [pending 1] of [Cascade]; so by Newman's lemma the
    relation is confluent, and a state in which nothing is pending is a
    normal form of it.  Hence all complete orders of delivery end in the
    same state up to the order of the log, and the loop [settle], which
    delivers the answers first and in the order of the calls, computes
    that state.

    The server is a function of the call and sends no document with its
    answer: an answer that replaces the document does not commute with a
    save, which sends the table of the document. *)

From stdpp Require Import relations gmultiset.
From S2P Require Import Prelude Eff JsValue Format Client Form Framework.
From S2P Require Import DocCheck Requests Lifecycle Cascade Freeze Order.

Import Client.
Import Framework.

Module Confluence.

Import Order.

(** ** States up to the order of what was shown *)

#[global] Instance response_eq_dec : EqDecision response.
Proof. solve_decision. Defined.

#[global] Instance ui_countable : Countable ui.
Proof.
  refine (inj_countable'
    (λ u, match u with
          | Msgprint t i m => inl (t, i, m)
          | ShowAlert m i => inr (inl (m, i))
          | RefreshField f => inr (inr (inl f))
          | ReloadDoc => inr (inr (inr ()))
          end)
    (λ x, match x with
          | inl (t, i, m) => Msgprint t i m
          | inr (inl (m, i)) => ShowAlert m i
          | inr (inr (inl f)) => RefreshField f
          | inr (inr (inr _)) => ReloadDoc
          end) _); by intros [].
Qed.

(** A state up to the order of what was shown. *)
Definition core : Type := world * gmultiset ui.

(** The state [w] up to the order of its log. *)
Definition abs (w : world) : core :=
  (set_ui (λ _, []) w, list_to_set_disj (w_ui w)).

(** The events the framework delivers when the server answers the call
    [q] by [answer q] and sends no document: the answer to a call that is
    awaited, a save that was requested. *)
Definition delivery (answer : request → response) (w : world) (e : event) : Prop :=
  match e with
  | Answer n r None => answer <$> w_calls w !! n = Some r
  | ScriptSave => w_saves w ≠ []
  | _ => False
  end.

(** One delivery, on states up to the order of the log. *)
Inductive delivers (answer : request → response) : relation core :=
| delivers_step w e : delivery answer w e → delivers answer (abs w) (abs (step e w)).

(** Whether each event of a list is a delivery when its turn comes. *)
Fixpoint deliveries (answer : request → response) (es : list event) (w : world) : Prop :=
  match es with
  | [] => True
  | e :: es => delivery answer w e ∧ deliveries answer es (step e w)
  end.

#[global] Instance delivery_dec answer w e : Decision (delivery answer w e).
Proof. destruct e as [| | | | |n r [s|]| |]; simpl; apply _. Defined.

#[global] Instance deliveries_dec answer es w : Decision (deliveries answer es w).
Proof. revert w. induction es as [|e es IH]; intros w; simpl; apply _. Defined.

(** A server that answers every call with success. *)
Definition all_succeed : request → response := λ _, Response false true.

(** A session after which a call and a save are pending: the items are
    fetched and, before the save the callback requested is made, the
    user sets the company, which fetches the forecasts. *)
Definition to_call_and_save : list event :=
  [Press "get_fetch_material_request_item"; Answer 0 (Response false true) None;
   Press "company"].

Definition call_and_save : world :=
  run to_call_and_save (Requests.world_of Requests.planned_doc).

(** The two orders in which the framework can deliver them. *)
Definition answer_first : list event := [Answer 0 (Response false true) None; ScriptSave].

Definition save_first : list event := [ScriptSave; Answer 0 (Response false true) None].

(** A document the server could send with the answer: a table of one
    row. *)
Definition one_row : snapshot :=
  (Doc (Js.VNum 1) (Some "Forecast Planned") (Some [∅]) (Some ["c"])
       (Some "2026-01-01") (Some "2026-01-28") (Some "ACME"),
   {[ "c" := DocCheck.row_with_batches ]}).

(** ** The log as a multiset *)

Lemma list_to_set_disj_inj (l l' : list ui) :
  list_to_set_disj l =@{gmultiset ui} list_to_set_disj l' → l ≡ₚ l'.
Proof.
  revert l'. induction l as [|x l IH]; intros l' H.
  - destruct l' as [|y l']; [done|]. multiset_solver.
  - assert (x ∈ l') as (l'' & Hl')%elem_of_Permutation.
    { apply elem_of_list_to_set_disj. rewrite <- H. multiset_solver. }
    rewrite Hl'. constructor. apply IH.
    rewrite Hl' in H. simpl in H. multiset_solver.
Qed.

Lemma abs_eq w w' : abs w = abs w' ↔ same_but_order w w'.
Proof.
  unfold abs, same_but_order, same_up_to. split.
  - intros [= ? ? ? ? ? ? ? Hu]. split_and!; try done. by apply list_to_set_disj_inj.
  - intros (Hd & Hl & Hv & Hu & Hb & Hc & Hs & Hsv). f_equal.
    + destruct w, w'; simpl in *. by subst.
    + by rewrite Hu.
Qed.

(** ** Deliveries *)

Lemma delivery_answer answer w n q :
  w_calls w !! n = Some q → delivery answer w (Answer n (answer q) None).
Proof. intros Hq. simpl. by rewrite Hq. Qed.

Lemma delivery_inv answer w e :
  delivery answer w e →
  (∃ n q, w_calls w !! n = Some q ∧ e = Answer n (answer q) None) ∨
  (e = ScriptSave ∧ w_saves w ≠ []).
Proof.
  destruct e as [| | | | |n r [s|]| |]; simpl; try done; [|by right].
  intros (q & Hq & ->)%fmap_Some. left. by exists n, q.
Qed.

#[global] Instance delivery_proper answer :
  Proper (same_but_order ==> eq ==> iff) (delivery answer).
Proof.
  intros w w' (_ & _ & _ & _ & _ & Hc & Hs & _) e _ <-.
  unfold delivery. by rewrite Hc, Hs.
Qed.

Lemma delivery_due answer w e : delivery answer w e → due e w.
Proof.
  intros [(n & q & Hq & ->)|[-> Hs]]%delivery_inv; simpl; [by eapply lookup_lt_Some|done].
Qed.

Lemma save_calls k w : w_calls (save k w) = w_calls w.
Proof.
  rewrite Lifecycle.save_run. repeat case_match; unfold Lifecycle.saved_state; simpl;
    try done; by repeat case_match.
Qed.

Lemma answer_save_commute n q r k ks w :
  w_calls w !! n = Some q → w_saves w = k :: ks →
  same_but_order (step ScriptSave (step (Answer n r None) w))
                 (step (Answer n r None) (step ScriptSave w)).
Proof.
  intros Hq Hs. rewrite (answer_step n q) by done.
  assert (step ScriptSave w = save (Some k) (set_saves (λ _, ks) w)) as -> by (simpl; by rewrite Hs).
  rewrite (answer_step n q) by (by rewrite save_calls).
  unfold answered at 1. simpl. rewrite Hs. simpl.
  rewrite !Lifecycle.save_run. simpl.
  change (rows_of (set_saves _ (answered n q r w))) with (rows_of w).
  change (rows_of (set_saves _ w)) with (rows_of w).
  destruct (items (w_doc w)) as [names|] eqn:Hitems; [destruct (DocCheck.doc_errors _)|];
    destruct k; unfold same_but_order, same_up_to, answered, Lifecycle.saved_state, table;
    simpl; rewrite ?Hitems; split_and!; try done;
    rewrite <- ?app_assoc; by apply Permutation_app_head, Permutation_app_comm.
Qed.

(** ** Newman's lemma *)

Section confluence.
Context (answer : request → response).

Lemma answered_calls n q r w : w_calls (answered n q r w) = delete n (w_calls w).
Proof. done. Qed.

Lemma answer_then n n' q q' w :
  n < n' → w_calls w !! n = Some q → w_calls w !! n' = Some q' →
  delivery answer (step (Answer n (answer q) None) w) (Answer (n' - 1) (answer q') None) ∧
  delivery answer (step (Answer n' (answer q') None) w) (Answer n (answer q) None).
Proof.
  intros Hlt Hq Hq'. rewrite !(answer_step _ _ _ w) by done.
  split; apply delivery_answer; rewrite answered_calls.
  - rewrite list_lookup_delete_ge by lia. rewrite <- Hq'. f_equal. lia.
  - by rewrite list_lookup_delete_lt.
Qed.

(** Two different deliveries from one state can each be followed by the other. *)
Lemma delivery_local w e1 e2 :
  delivery answer w e1 → delivery answer w e2 →
  e1 = e2 ∨ ∃ e1' e2',
    delivery answer (step e1 w) e2' ∧ delivery answer (step e2 w) e1' ∧
    same_but_order (step e2' (step e1 w)) (step e1' (step e2 w)).
Proof.
  intros [(n & q & Hq & ->)|[-> Hs]]%delivery_inv
         [(n' & q' & Hq' & ->)|[-> Hs']]%delivery_inv; [| | |by left].
  - destruct (Nat.lt_total n n') as [Hlt|[<-|Hlt]]; [|left; congruence|]; right.
    + destruct (answer_then n n' q q' w) as [? ?]; [done..|].
      eexists _, _. split_and!; [done..|]. symmetry. by apply (answers_commute n n' q q').
    + destruct (answer_then n' n q' q w) as [? ?]; [done..|].
      eexists _, _. split_and!; [done..|]. by apply (answers_commute n' n q' q).
  - right. destruct (w_saves w) as [|k ks] eqn:Hks; [done|].
    exists (Answer n (answer q) None), ScriptSave. split_and!.
    + rewrite (answer_step n q) by done. simpl. by rewrite Hks.
    + apply delivery_answer. simpl. by rewrite Hks, save_calls.
    + by apply (answer_save_commute n q _ k ks).
  - right. destruct (w_saves w) as [|k ks] eqn:Hks; [done|].
    exists ScriptSave, (Answer n' (answer q') None). split_and!.
    + apply delivery_answer. simpl. by rewrite Hks, save_calls.
    + rewrite (answer_step n' q') by done. simpl. by rewrite Hks.
    + symmetry. by apply (answer_save_commute n' q' _ k ks).
Qed.

Lemma delivers_inv a y :
  delivers answer a y → ∃ w e, a = abs w ∧ y = abs (step e w) ∧ delivery answer w e.
Proof. intros [w e He]. by exists w, e. Qed.

Lemma delivers_local : locally_confluent (delivers answer).
Proof.
  intros a y1 y2 H1 (w' & e2 & Hw & -> & H2')%delivers_inv.
  destruct H1 as [w e1 H1]. symmetry in Hw.
  apply abs_eq in Hw. rewrite Hw in H2'.
  assert (abs (step e2 w') = abs (step e2 w)) as -> by (apply abs_eq; by rewrite Hw).
  destruct (delivery_local w e1 e2 H1 H2') as [<-|(e1' & e2' & Hd2 & Hd1 & Heq)].
  - by exists (abs (step e1 w)).
  - exists (abs (step e2' (step e1 w))). split; [by apply rtc_once; constructor|].
    apply abs_eq in Heq as ->. by apply rtc_once; constructor.
Qed.

Lemma delivers_sn a : sn (delivers answer) a.
Proof.
  apply (wf_projected (<) (λ a : core, pending 1 a.1)); [|apply lt_wf].
  intros x y [w e He]. apply (due_pending 1 e w), (delivery_due answer), He.
Qed.

Lemma delivers_confluent : confluent (delivers answer).
Proof. apply locally_confluent_confluent; [apply delivers_sn|apply delivers_local]. Qed.

Lemma deliveries_rtc es w :
  deliveries answer es w → rtc (delivers answer) (abs w) (abs (run es w)).
Proof.
  revert w. induction es as [|e es IH]; intros w; simpl; [done|].
  intros [He Hes]. eapply rtc_l; [by constructor|by apply IH].
Qed.

Lemma quiescent_nf w : quiescent w → nf (delivers answer) (abs w).
Proof.
  intros [Hc Hs] [y (w' & e & Hw & _ & He)%delivers_inv].
  apply abs_eq in Hw as (_ & _ & _ & _ & _ & Hc' & Hs' & _).
  apply delivery_inv in He as [(n & q & Hq & _)|[_ Hne]]; [|congruence].
  by rewrite <- Hc', Hc in Hq.
Qed.

Lemma deliveries_agree es1 es2 w :
  deliveries answer es1 w → quiescent (run es1 w) →
  deliveries answer es2 w → quiescent (run es2 w) →
  same_but_order (run es1 w) (run es2 w).
Proof.
  intros H1 Hq1 H2 Hq2. apply abs_eq.
  apply (confluent_rtc_nf (R:=delivers answer) (abs w));
    auto using delivers_confluent, deliveries_rtc, quiescent_nf.
Qed.

(** The loop [settle] delivers in one of the orders. *)
Lemma settle_deliveries fuel w :
  ∃ es, deliveries answer es w ∧ settle fuel (λ q, (answer q, None)) w = run es w.
Proof.
  revert w. induction fuel as [|fuel IH]; intros w; simpl; [by exists []|].
  unfold next_due. destruct (w_calls w) as [|q qs] eqn:Hq.
  - destruct (w_saves w) as [|k ks] eqn:Hs; [by exists []|].
    destruct (IH (step ScriptSave w)) as (es & Hes & ->). exists (ScriptSave :: es).
    split; [|done]. split; [|done]. simpl. by rewrite Hs.
  - destruct (IH (step (Answer 0 (answer q) None) w)) as (es & Hes & Hrun).
    exists (Answer 0 (answer q) None :: es). split; [|exact Hrun]. split; [|done].
    apply delivery_answer. by rewrite Hq.
Qed.

Lemma deliveries_settle es w :
  deliveries answer es w → quiescent (run es w) →
  same_but_order (run es w) (settle (pending 1 w) (λ q, (answer q, None)) w).
Proof.
  intros Hes Hq.
  destruct (settle_deliveries (pending 1 w) w) as (es' & Hes' & Hrun).
  rewrite Hrun. apply deliveries_agree; [done..|].
  rewrite <- Hrun. by apply (settle_enough 1).
Qed.

End confluence.

(** ** Theorems *)

(** C20. The order in which the framework delivers what is pending does
    not matter: two sequences of deliveries from the same state, answers
    of the server to calls that are awaited and saves the script has
    requested, in any order, after each of which nothing is pending, end
    in states with the same document, rows, flag, buttons and tables
    saved, which show the same dialogs and alerts in another order. *)
Theorem deliveries_confluent answer es1 es2 w :
  deliveries answer es1 w → quiescent (run es1 w) →
  deliveries answer es2 w → quiescent (run es2 w) →
  same_but_order (run es1 w) (run es2 w).
Proof. apply deliveries_agree. Qed.

Lemma deliveries_confluent_witness :
  same_but_order (run answer_first call_and_save) (run save_first call_and_save).
Proof. apply (deliveries_confluent all_succeed); by_compute. Defined.

(** C24. The loop [settle] computes what every order of delivery ends in:
    a sequence of deliveries after which nothing is pending ends in the
    state [settle] returns with the fuel [pending 1 w], up to the order
    of what was shown. *)
Theorem settle_any_order answer es w :
  deliveries answer es w → quiescent (run es w) →
  same_but_order (run es w) (settle (pending 1 w) (λ q, (answer q, None)) w).
Proof. apply deliveries_settle. Qed.

Lemma settle_any_order_witness :
  same_but_order (run save_first call_and_save)
    (settle (pending 1 call_and_save) (λ q, (all_succeed q, None)) call_and_save).
Proof. apply (settle_any_order all_succeed); by_compute. Defined.

(** The state of the examples is one the frozen page allows, and the
    deliveries commute in states it does not allow as well: with the two
    calls of [Order.two_calls] awaited at once, the answers in the order
    of the calls and the second answer first end in the same state. *)
Theorem call_and_save_possible :
  Freeze.possible to_call_and_save (Requests.world_of Requests.planned_doc).
Proof. by_compute. Qed.

Theorem two_calls_confluent :
  same_but_order
    (run [Answer 0 (Response false true) None; Answer 0 (Response false true) None;
          ScriptSave] two_calls)
    (run [Answer 1 (Response false true) None; ScriptSave;
          Answer 0 (Response false true) None] two_calls).
Proof. apply (deliveries_agree all_succeed); by_compute. Qed.

(** The restriction to answers without a document is needed: when the
    answer to the call brings a new table, the save sends the new table
    if the answer comes first and the old one if the save comes first. *)
Theorem document_order_matters :
  ¬ same_but_order
      (run [Answer 0 (Response false true) (Some one_row); ScriptSave] call_and_save)
      (run [ScriptSave; Answer 0 (Response false true) (Some one_row)] call_and_save).
Proof.
  intros (_ & _ & _ & _ & _ & _ & _ & Hsaved).
  apply (f_equal (fmap (M:=list) length)) in Hsaved. vm_compute in Hsaved. discriminate.
Qed.

End Confluence.
