(* ===== verification/Engine.v ===== *)
(** * Engine: the batch consistency engine the handlers implement

    The specification of the repository describes the logic of the form
    as one component without the framework: a forecast line with four
    week quantities, four batch counts, a batch size and two derived
    totals, and three operations on it, [checkRowConsistency],
    [recomputeTotals] and [validateDocument].  This file states that
    contract as pure functions on a record of integers and proves that
    the handlers of [Form] implement it: a row object of the client is
    abstracted to a line by reading each field as a number, and each
    handler does on the row what the operation does on the line.  Where
    the code does more than the contract (a sentence of advice in the
    warning, an error for a negative quantity) the theorems say exactly
    what. *)

From S2P Require Import Prelude Eff JsValue Format Client Form Framework.
From S2P Require Import Totals RowCheck DocCheck Lifecycle.

Import Client.

Module Engine.

Local Open Scope Z_scope.

(** ** The data model *)

Inductive week_index : Type := W1 | W2 | W3 | W4.

Definition weeks : list week_index := [W1; W2; W3; W4].

(** One value for each of the four weeks. *)
Record per_week (A : Type) : Type := PerWeek {
  first : A;
  second : A;
  third : A;
  fourth : A;
}.

Arguments PerWeek {A} _ _ _ _.
Arguments first {A} _.
Arguments second {A} _.
Arguments third {A} _.
Arguments fourth {A} _.

Definition at_week {A} (p : per_week A) (i : week_index) : A :=
  match i with
  | W1 => first p
  | W2 => second p
  | W3 => third p
  | W4 => fourth p
  end.

Definition tabulate {A} (f : week_index → A) : per_week A :=
  PerWeek (f W1) (f W2) (f W3) (f W4).

Record ForecastLine : Type := Line {
  weekQuantity : per_week Z;
  batchCount : per_week Z;
  batchSize : Z;
  totalBatchQty : Z;
  totalQty : Z;
}.

Inductive Severity : Type := warning | error.

Record Diagnostic : Type := Diag {
  severity : Severity;
  message : string;
}.

(** The quantities of a line are not negative. *)
Definition well_formed (line : ForecastLine) : Prop :=
  Forall (λ i, 0 ≤ at_week (weekQuantity line) i ∧ 0 ≤ at_week (batchCount line) i) weeks
  ∧ 0 ≤ batchSize line.

(** The domain rule: a week with a quantity has a batch. *)
Definition consistent (line : ForecastLine) : Prop :=
  Forall (λ i, 0 < at_week (weekQuantity line) i → 0 < at_week (batchCount line) i) weeks.

(** ** The operations *)

Definition week_label (i : week_index) : string :=
  match i with
  | W1 => "Week 1"
  | W2 => "Week 2"
  | W3 => "Week 3"
  | W4 => "Week 4"
  end.

(** Week [i] of the line has a quantity and no batch. *)
Definition lacks_batch (line : ForecastLine) (i : week_index) : bool :=
  bool_decide (0 < at_week (weekQuantity line) i)
  && bool_decide (at_week (batchCount line) i = 0).

Definition checkRowConsistency (line : ForecastLine) (weekIndex : week_index)
    : option Diagnostic :=
  if lacks_batch line weekIndex then
    Some (Diag warning
            (week_label weekIndex +:+ " has a value of "
             +:+ pretty (at_week (weekQuantity line) weekIndex) +:+ ", but "
             +:+ week_label weekIndex +:+ " Batch is 0 or empty."))
  else None.

Definition sum (p : per_week Z) : Z := first p + second p + third p + fourth p.

Definition recomputeTotals (line : ForecastLine) : ForecastLine :=
  Line (weekQuantity line) (batchCount line) (batchSize line)
       (sum (batchCount line)) (sum (batchCount line) * batchSize line).

(** The error of week [i] of the line at index [idx], from 0, of the
    document. *)
Definition week_diagnostic (idx : nat) (line : ForecastLine) (i : week_index)
    : list Diagnostic :=
  if lacks_batch line i then
    [Diag error
       ("Row " +:+ pretty (idx + 1)%nat +:+ ": " +:+ week_label i +:+ " has value "
        +:+ pretty (at_week (weekQuantity line) i) +:+ ", but " +:+ week_label i
        +:+ " Batch is 0 or empty. Batch is required when week value is greater than 0.")]
  else [].

Definition line_diagnostics (idx : nat) (line : ForecastLine) : list Diagnostic :=
  concat (week_diagnostic idx line <$> weeks).

Definition validateDocument (document : list ForecastLine) : list Diagnostic :=
  concat (imap line_diagnostics document).

(** ** The link with the client *)

Definition week_field (i : week_index) : string :=
  match i with
  | W1 => "week_1"
  | W2 => "week_2"
  | W3 => "week_3"
  | W4 => "week_4"
  end.

Definition batch_field (i : week_index) : string :=
  match i with
  | W1 => "w1_batch"
  | W2 => "w2_batch"
  | W3 => "w3_batch"
  | W4 => "w4_batch"
  end.

(** The entry of [week_batch_mapping] of a week. *)
Definition mapping_of (i : week_index) : ForecastClub.mapping :=
  ForecastClub.Mapping (week_field i) (batch_field i) (week_label i).

(** The line a row object stands for: each field read as a number,
    what is missing, [null] or [NaN] as 0. *)
Definition line_of (r : row) : ForecastLine :=
  Line (tabulate (λ i, Js.num_or_zero (field r (week_field i))))
       (tabulate (λ i, Js.num_or_zero (field r (batch_field i))))
       (Js.num_or_zero (field r "batch_size"))
       (Js.num_or_zero (field r "total_batch_qty"))
       (Js.num_or_zero (field r "total_qty")).

(** The sentence the warning of the code adds to the diagnostic. *)
Definition advice : string :=
  " Please enter a batch value when week value is greater than 0.".

(** The state after the warning of a diagnostic, if there is one. *)
Definition warn (d : option Diagnostic) (w : world) : world :=
  match d with
  | Some d => set_ui (.++ [Msgprint "Validation Error" "orange" (message d +:+ advice)]) w
  | None => w
  end.

(** The handler the contract asks for on a change of a field. *)
Definition on_week_change (i : week_index) (cdt cdn : string) : M unit :=
  ForecastClubItem.validate_week_batch_relationship cdt cdn (week_field i)
    (batch_field i) (week_label i).

Definition on_batch_change (i : week_index) (cdt cdn : string) : M unit :=
  on_week_change i cdt cdn;; ForecastClubItem.calculate_totals cdt cdn.

(** ** Facts of the contract *)

#[global] Instance week_index_eq_dec : EqDecision week_index.
Proof. solve_decision. Defined.

#[global] Instance severity_eq_dec : EqDecision Severity.
Proof. solve_decision. Defined.

#[global] Instance diagnostic_eq_dec : EqDecision Diagnostic.
Proof. solve_decision. Defined.

#[global] Instance per_week_eq_dec `{EqDecision A} : EqDecision (per_week A).
Proof. solve_decision. Defined.

#[global] Instance line_eq_dec : EqDecision ForecastLine.
Proof. solve_decision. Defined.

#[global] Instance well_formed_dec line : Decision (well_formed line).
Proof. unfold well_formed. apply _. Defined.

#[global] Instance consistent_dec line : Decision (consistent line).
Proof. unfold consistent. apply _. Defined.

Lemma elem_of_weeks i : i ∈ weeks.
Proof. destruct i; by_compute. Qed.

(** A line without diagnostics is consistent, and a consistent line whose
    quantities are not negative has none. *)
Lemma week_diagnostic_nil idx line i :
  0 ≤ at_week (batchCount line) i →
  week_diagnostic idx line i = [] ↔
  (0 < at_week (weekQuantity line) i → 0 < at_week (batchCount line) i).
Proof.
  intros Hb. unfold week_diagnostic, lacks_batch.
  repeat case_bool_decide; simpl; split; intros Hd; first [done|lia|exfalso; lia].
Qed.

Lemma line_diagnostics_nil idx line :
  well_formed line → line_diagnostics idx line = [] ↔ consistent line.
Proof.
  intros [Hwf _]. unfold line_diagnostics, consistent.
  rewrite concat_nil_Forall, Forall_fmap, !Forall_forall. rewrite Forall_forall in Hwf.
  split; intros H i Hi; destruct (Hwf i Hi) as [_ Hb];
    apply (week_diagnostic_nil idx line i Hb), (H i Hi).
Qed.

Lemma mapping_of_weeks : mapping_of <$> weeks = ForecastClub.week_batch_mapping.
Proof. reflexivity. Qed.

Lemma week_quantity_of r i :
  at_week (weekQuantity (line_of r)) i = DocCheck.quantity r (week_field i).
Proof. by destruct i. Qed.

Lemma batch_count_of r i :
  at_week (batchCount (line_of r)) i = DocCheck.quantity r (batch_field i).
Proof. by destruct i. Qed.

Lemma sum_of r : sum (batchCount (line_of r)) = Totals.batch_total r.
Proof. unfold sum, Totals.batch_total; simpl. lia. Qed.

(** The contract's rule is the rule of the warning. *)
Lemma lacks_batch_warns r i :
  lacks_batch (line_of r) i = RowCheck.warns r (week_field i) (batch_field i).
Proof. unfold lacks_batch. by rewrite week_quantity_of, batch_count_of. Qed.

(** The contract's rule implies the rule of the error, and is the rule
    of the error where the quantity is not negative. *)
Lemma lacks_batch_violates r i :
  lacks_batch (line_of r) i = true → DocCheck.violates r (mapping_of i) = true.
Proof.
  unfold lacks_batch, DocCheck.violates. rewrite week_quantity_of, batch_count_of; simpl.
  intros [Hq%bool_decide_eq_true_1 ->]%andb_true_iff. rewrite andb_true_r.
  apply negb_true_iff, bool_decide_eq_false_2. lia.
Qed.

Lemma violates_lacks_batch r i :
  0 ≤ at_week (weekQuantity (line_of r)) i →
  DocCheck.violates r (mapping_of i) = lacks_batch (line_of r) i.
Proof.
  unfold lacks_batch, DocCheck.violates. rewrite week_quantity_of, batch_count_of; simpl.
  intros Hq. f_equal. repeat case_bool_decide; simpl; lia.
Qed.

(** The error of the code for a week the contract rejects is the
    diagnostic of the contract. *)
Lemma week_diagnostic_error idx r i :
  lacks_batch (line_of r) i = true →
  week_diagnostic idx (line_of r) i
  = Diag error <$> DocCheck.week_error idx r (mapping_of i).
Proof.
  intros H. unfold week_diagnostic, DocCheck.week_error.
  rewrite H, (lacks_batch_violates _ _ H), week_quantity_of. reflexivity.
Qed.

Lemma week_diagnostic_complete idx r i :
  week_diagnostic idx (line_of r) i
  `sublist_of` Diag error <$> DocCheck.week_error idx r (mapping_of i).
Proof.
  destruct (lacks_batch (line_of r) i) eqn:H.
  - by rewrite week_diagnostic_error.
  - unfold week_diagnostic. rewrite H. apply sublist_nil_l.
Qed.

Lemma week_diagnostic_refines idx r i :
  0 ≤ at_week (weekQuantity (line_of r)) i →
  week_diagnostic idx (line_of r) i
  = Diag error <$> DocCheck.week_error idx r (mapping_of i).
Proof.
  intros Hq. destruct (lacks_batch (line_of r) i) eqn:H;
    [by apply week_diagnostic_error|].
  unfold week_diagnostic, DocCheck.week_error.
  by rewrite (violates_lacks_batch _ _ Hq), H.
Qed.

(** The errors of a row of the code, as diagnostics, week by week. *)
Lemma row_errors_weeks idx r :
  Diag error <$> DocCheck.row_errors idx r
  = concat ((λ i, Diag error <$> DocCheck.week_error idx r (mapping_of i)) <$> weeks).
Proof.
  unfold DocCheck.row_errors. rewrite fmap_concat, <- mapping_of_weeks.
  by rewrite <- !list_fmap_compose.
Qed.

Lemma line_diagnostics_complete idx r :
  line_diagnostics idx (line_of r) `sublist_of` Diag error <$> DocCheck.row_errors idx r.
Proof.
  rewrite row_errors_weeks. apply sublist_concat, Forall2_fmap_2, Forall_Forall2_diag.
  apply Forall_true. intros i. apply week_diagnostic_complete.
Qed.

Lemma line_diagnostics_refines idx r :
  well_formed (line_of r) →
  line_diagnostics idx (line_of r) = Diag error <$> DocCheck.row_errors idx r.
Proof.
  intros (Hq & _). rewrite row_errors_weeks. unfold line_diagnostics. f_equal.
  apply list_fmap_ext. intros _ i _. apply week_diagnostic_refines.
  by apply (proj1 (Forall_forall _ _) Hq), elem_of_weeks.
Qed.

Lemma document_complete rows :
  validateDocument (line_of <$> rows) `sublist_of` Diag error <$> DocCheck.doc_errors rows.
Proof.
  unfold validateDocument, DocCheck.doc_errors.
  rewrite fmap_concat, imap_fmap, fmap_imap.
  apply sublist_concat, Forall2_imap_same. intros i r _. apply line_diagnostics_complete.
Qed.

Lemma document_refines rows :
  Forall (λ r, well_formed (line_of r)) rows →
  validateDocument (line_of <$> rows) = Diag error <$> DocCheck.doc_errors rows.
Proof.
  intros Hrows. unfold validateDocument, DocCheck.doc_errors.
  rewrite fmap_concat, imap_fmap, fmap_imap. f_equal.
  apply imap_ext. intros i r Hr. simpl. apply line_diagnostics_refines.
  by apply (Forall_lookup_1 _ _ _ _ Hrows Hr).
Qed.

(** The row after [calculate_totals] stands for the line with its totals
    recomputed. *)
Lemma line_of_with_totals r : line_of (Totals.with_totals r) = recomputeTotals (line_of r).
Proof.
  unfold line_of at 1, recomputeTotals, tabulate.
  rewrite !Totals.with_totals_other by by_compute.
  rewrite sum_of. unfold Totals.with_totals.
  rewrite field_insert_eq, field_insert_ne, field_insert_eq by done. done.
Qed.

(** The dialog of the code shows the diagnostic of the contract and the
    advice. *)
Lemma after_check_warn r i w :
  RowCheck.after_check r (week_field i) (batch_field i) (week_label i) w
  = warn (checkRowConsistency (line_of r) i) w.
Proof.
  unfold RowCheck.after_check, checkRowConsistency. rewrite <- lacks_batch_warns.
  destruct (lacks_batch (line_of r) i); [|done].
  unfold warn, RowCheck.warning, message. rewrite week_quantity_of.
  unfold advice. rewrite !string_app_assoc. by destruct i.
Qed.

(** The handler of a week quantity: the warning of the contract. *)
Lemma week_change_run w cdt cdn r i :
  row_at w cdt cdn = Some r →
  on_week_change i cdt cdn w = Ok tt (warn (checkRowConsistency (line_of r) i) w).
Proof.
  intros Hr. unfold on_week_change.
  by rewrite (RowCheck.check_found _ _ _ _ _ _ r), after_check_warn.
Qed.

(** The handlers the script registers for the fields of a week. *)
Lemma dispatch i :
  ForecastClubItem.handlers (week_field i) = Some (on_week_change i) ∧
  ForecastClubItem.handlers (batch_field i) = Some (on_batch_change i) ∧
  ForecastClubItem.handlers "batch_size" = Some ForecastClubItem.calculate_totals.
Proof. by destruct i. Qed.

(** The handler of a batch count: the warning of the contract, then the
    totals. *)
Lemma batch_change_run w cdt cdn r i :
  row_at w cdt cdn = Some r →
  on_batch_change i cdt cdn w
  = Ok tt (Totals.after_totals cdt cdn r (warn (checkRowConsistency (line_of r) i) w)).
Proof.
  intros Hr. unfold on_batch_change. rewrite run_bind, (week_change_run _ _ _ r) by done.
  apply Totals.calculate_totals_found.
  rewrite (row_at_locals w); [done|]. by destruct (checkRowConsistency _ _).
Qed.

(** A table without errors has no diagnostics. *)
Lemma valid_table_meets_contract (t : list row) :
  Forall DocCheck.row_valid t → validateDocument (line_of <$> t) = [].
Proof.
  intros Ht%DocCheck.doc_errors_nil. apply sublist_nil_r.
  by rewrite <- (fmap_nil (Diag error)), <- Ht at 1; apply document_complete.
Qed.

(** ** Theorems *)

(** C6. [validate_week_and_batch_fields] implements [validateDocument]:
    on a table whose quantities are not negative, the errors it collects
    are the diagnostics of the contract for the lines the rows stand for,
    the same messages in the same order, row after row and week after
    week. *)
Theorem validate_document_refines rows :
  Forall (λ r, well_formed (line_of r)) rows →
  validateDocument (line_of <$> rows) = Diag error <$> DocCheck.doc_errors rows.
Proof. apply document_refines. Qed.

Lemma validate_document_refines_witness :
  validateDocument (line_of <$> rows_of DocCheck.sample_world ["a"; "b"])
  = Diag error <$> DocCheck.doc_errors (rows_of DocCheck.sample_world ["a"; "b"]).
Proof. apply validate_document_refines. by_compute. Defined.

(** C7. [calculate_totals] implements [recomputeTotals]: the row it
    leaves stands for the line of the row it found with the two totals
    recomputed, whatever the totals were. *)
Theorem calculate_totals_refines w cdt cdn r :
  row_at w cdt cdn = Some r →
  line_of <$> row_at (final (ForecastClubItem.calculate_totals cdt cdn w)) cdt cdn
  = Some (recomputeTotals (line_of r)).
Proof.
  intros Hr. rewrite Totals.calculate_totals_final, Hr.
  rewrite (Totals.row_at_after_totals _ _ _ r) by done; simpl.
  by rewrite line_of_with_totals.
Qed.

Lemma calculate_totals_refines_witness :
  line_of <$> row_at (final (ForecastClubItem.calculate_totals child_doctype "row1"
                               Totals.sample_world)) child_doctype "row1"
  = Some (recomputeTotals (line_of Totals.sample_row)).
Proof. by apply calculate_totals_refines. Defined.

(** C8. The handler of a week quantity implements [checkRowConsistency]:
    on a row that exists it returns, and it shows a dialog exactly when
    the contract gives a diagnostic for the line and the week, with the
    message of the diagnostic followed by a sentence of advice; it
    changes nothing else. *)
Theorem row_check_refines w cdt cdn r i :
  row_at w cdt cdn = Some r →
  on_week_change i cdt cdn w = Ok tt (warn (checkRowConsistency (line_of r) i) w).
Proof. apply week_change_run. Qed.

Lemma row_check_refines_witness :
  on_week_change W1 child_doctype "a" RowCheck.sample_world
  = Ok tt (warn (checkRowConsistency (line_of RowCheck.row_without_batch) W1)
             RowCheck.sample_world).
Proof. by apply row_check_refines. Defined.

(** The handler of a batch count implements the two operations
    the contract asks for on such a change, in its order: on a row that
    exists it returns, it shows the warning of [checkRowConsistency] for
    the line and the week if there is one and then redraws the table,
    and the row it leaves stands for the line with the totals of
    [recomputeTotals]. *)
Theorem batch_change_refines w cdt cdn r i :
  row_at w cdt cdn = Some r →
  ∃ w', on_batch_change i cdt cdn w = Ok tt w' ∧
        line_of <$> row_at w' cdt cdn = Some (recomputeTotals (line_of r)) ∧
        w_ui w' = w_ui (warn (checkRowConsistency (line_of r) i) w) ++ [RefreshField "items"].
Proof.
  intros Hr. eexists. split; [by apply batch_change_run|]. split; [|done].
  rewrite (Totals.row_at_after_totals _ _ _ r), <- line_of_with_totals; [done|].
  rewrite (row_at_locals w); [done|]. by destruct (checkRowConsistency _ _).
Qed.

Lemma batch_change_refines_witness :
  ∃ w', on_batch_change W2 child_doctype "a" DocCheck.sample_world = Ok tt w' ∧
        line_of <$> row_at w' child_doctype "a"
        = Some (recomputeTotals (line_of DocCheck.row_week2_without_batch)) ∧
        w_ui w' = w_ui (warn (checkRowConsistency
                               (line_of DocCheck.row_week2_without_batch) W2)
                          DocCheck.sample_world) ++ [RefreshField "items"].
Proof. by apply batch_change_refines. Defined.

(** C27. Whatever the rows hold, every diagnostic the contract requires
    is among the errors [validate_week_and_batch_fields] collects, in the
    same order: the code rejects every document the contract rejects. *)
Theorem validate_document_complete rows :
  validateDocument (line_of <$> rows) `sublist_of` Diag error <$> DocCheck.doc_errors rows.
Proof. apply document_complete. Qed.

(** C28. The contract of [validateDocument] is kept by every session: a
    table a save has sent to the server has no diagnostic. *)
Theorem saved_tables_meet_spec w0 w :
  Framework.reachable w0 w → Lifecycle.saved_valid w0 →
  Forall (λ t, validateDocument (line_of <$> t) = []) (w_saved w).
Proof.
  intros Hw H0. eapply Forall_impl; [|apply valid_table_meets_contract].
  by apply (Framework.blocking_sessions DocCheck.row_valid w0).
Qed.

Lemma saved_tables_meet_spec_witness :
  Forall (λ t, validateDocument (line_of <$> t) = [])
    (w_saved (Framework.run Lifecycle.session Lifecycle.start)).
Proof.
  apply (saved_tables_meet_spec Lifecycle.start); [|by constructor].
  apply Framework.reachable_run. by eexists.
Defined.

(** C29. The validation accepts exactly the rows that satisfy the domain
    rule: for a row whose quantities are not negative, no week is in error
    if and only if every week of its line with a quantity has a batch. *)
Theorem row_valid_iff_consistent r :
  well_formed (line_of r) → DocCheck.row_valid r ↔ consistent (line_of r).
Proof.
  intros Hwf. rewrite <- (DocCheck.row_errors_nil 0), <- (line_diagnostics_nil 0) by done.
  rewrite line_diagnostics_refines by done.
  split; [by intros ->|]. by intros ?%fmap_nil_inv.
Qed.

Lemma row_valid_iff_consistent_witness :
  DocCheck.row_valid DocCheck.row_with_batches
  ↔ consistent (line_of DocCheck.row_with_batches).
Proof. apply row_valid_iff_consistent. by_compute. Defined.

(** The script wires the events the contract names: a change of the
    quantity of week [i] runs the check of that week and nothing else, a
    change of its batch count runs the check and then recomputes the
    totals, a change of the batch size recomputes the totals. *)
Theorem child_dispatch i :
  ForecastClubItem.handlers (week_field i) = Some (on_week_change i) ∧
  ForecastClubItem.handlers (batch_field i) = Some (on_batch_change i) ∧
  ForecastClubItem.handlers "batch_size" = Some ForecastClubItem.calculate_totals.
Proof. apply dispatch. Qed.

End Engine.
