(* ===== verification/Host.v ===== *)
(** * Host: the form implements the host of the specification

    The specification describes a host that owns a document of forecast
    lines and calls the engine on four triggers: a week quantity, a batch
    count or the batch size of a line changes, or the document is
    submitted.  This file writes that host down as a machine on lines of
    integers ([host_step]: the change is made, [checkRowConsistency]
    gives its warning, [recomputeTotals] follows where the specification
    asks for it, [validateDocument] decides a submission), and proves
    that the form run by the framework is a refinement of it: the event
    of a change, taken from a state whose table is well typed and whose
    quantities are not negative, leads to a state that stands for the
    state of the host after the change, shows the diagnostics of the
    host, and is again such a state.  By induction every session of edits
    and saves of the form is a run of the host. *)

From S2P Require Import Prelude Eff JsValue Format Client Form Framework.
From S2P Require Import Totals RowCheck DocCheck Agreement Lifecycle Table Engine.

Import Client.
Import Framework.
Import Engine.

Module Host.

Local Open Scope Z_scope.

(** ** The host of the specification *)

(** A value of a week replaced. *)
Definition update {A} (i : week_index) (x : A) (p : per_week A) : per_week A :=
  tabulate (λ j, if decide (j = i) then x else at_week p j).

Definition set_week (i : week_index) (q : Z) (line : ForecastLine) : ForecastLine :=
  Line (update i q (weekQuantity line)) (batchCount line) (batchSize line)
       (totalBatchQty line) (totalQty line).

Definition set_batch (i : week_index) (b : Z) (line : ForecastLine) : ForecastLine :=
  Line (weekQuantity line) (update i b (batchCount line)) (batchSize line)
       (totalBatchQty line) (totalQty line).

Definition set_size (s : Z) (line : ForecastLine) : ForecastLine :=
  Line (weekQuantity line) (batchCount line) s (totalBatchQty line) (totalQty line).

(** The document of the host and the documents it has submitted. *)
Record host : Type := Host {
  lines : list ForecastLine;
  submitted : list (list ForecastLine);
}.

(** The triggers; [idx] is the index of the line, from 0. *)
Inductive change : Type :=
| WeekChanged (idx : nat) (i : week_index) (q : Z)
| BatchChanged (idx : nat) (i : week_index) (b : Z)
| SizeChanged (idx : nat) (s : Z)
| Submit.

(** A change of a line: the new value [f], the diagnostic of [check] on
    the line that has it, then [after]. *)
Definition edit (idx : nat) (f : ForecastLine → ForecastLine)
    (check : ForecastLine → option Diagnostic) (after : ForecastLine → ForecastLine)
    (h : host) : host * list Diagnostic :=
  match lines h !! idx with
  | Some line =>
      (Host (<[idx := after (f line)]> (lines h)) (submitted h), option_list (check (f line)))
  | None => (h, [])
  end.

Definition host_step (c : change) (h : host) : host * list Diagnostic :=
  match c with
  | WeekChanged idx i q => edit idx (set_week i q) (λ l, checkRowConsistency l i) id h
  | BatchChanged idx i b =>
      edit idx (set_batch i b) (λ l, checkRowConsistency l i) recomputeTotals h
  | SizeChanged idx s => edit idx (set_size s) (λ _, None) recomputeTotals h
  | Submit =>
      match validateDocument (lines h) with
      | [] => (Host (lines h) (submitted h ++ [lines h]), [])
      | ds => (h, ds)
      end
  end.

(** The host after a sequence of changes. *)
Definition host_run (cs : list change) (h : host) : host :=
  foldl (λ h c, (host_step c h).1) h cs.

(** ** The form as a host *)

(** The state of the host a state of the form stands for. *)
Definition abs (w : world) : host :=
  Host (line_of <$> table w) (map (map line_of) (w_saved w)).

(** The cell a change writes: the index of its row, its field, its
    value. *)
Definition cell (c : change) : option (nat * string * Z) :=
  match c with
  | WeekChanged idx i q => Some (idx, week_field i, q)
  | BatchChanged idx i b => Some (idx, batch_field i, b)
  | SizeChanged idx s => Some (idx, "batch_size", s)
  | Submit => None
  end.

(** The event of the form for a change; none when the table has no row
    at the index. *)
Definition concrete (names : list string) (c : change) : option event :=
  match cell c with
  | Some (idx, f, v) => (λ cdn, SetCell cdn f (Js.VNum v)) <$> names !! idx
  | None => Some UserSave
  end.

(** The dialog of a warning. *)
Definition dialog (d : Diagnostic) : ui :=
  Msgprint "Validation Error" "orange" (message d +:+ advice).

(** Whether the handler of the change recomputes the totals, and the
    diagnostic it shows. *)
Definition recomputes (c : change) : bool :=
  match c with
  | WeekChanged _ _ _ | Submit => false
  | BatchChanged _ _ _ | SizeChanged _ _ => true
  end.

Definition checks (c : change) (line : ForecastLine) : option Diagnostic :=
  match c with
  | WeekChanged _ i _ | BatchChanged _ i _ => checkRowConsistency line i
  | SizeChanged _ _ | Submit => None
  end.

(** The state the handler of a cell ends in, on the row [r] it finds. *)
Definition cell_state (c : change) (cdn : string) (r : row) (w : world) : world :=
  let w' := warn (checks c (line_of r)) w in
  if recomputes c then Totals.after_totals child_doctype cdn r w' else w'.

(** What the form shows for the diagnostics of a change. *)
Definition render (c : change) (ds : list Diagnostic) : list ui :=
  match c with
  | Submit =>
      match ds with
      | [] => []
      | _ => [DocCheck.error_dialog (message <$> ds)]
      end
  | _ => (dialog <$> ds) ++ (if recomputes c then [RefreshField "items"] else [])
  end.

(** The line with the value of the change. *)
Definition changed (c : change) (line : ForecastLine) : ForecastLine :=
  match c with
  | WeekChanged _ i q => set_week i q line
  | BatchChanged _ i b => set_batch i b line
  | SizeChanged _ s => set_size s line
  | Submit => line
  end.

(** The form after a change, and after a sequence of changes. *)
Definition form_step (c : change) (w : world) : world :=
  match concrete (Table.names w) c with
  | Some e => step e w
  | None => w
  end.

Definition form_run (cs : list change) (w : world) : world :=
  foldl (λ w c, form_step c w) w cs.

(** The values a user enters are not negative. *)
Definition change_ok (c : change) : Prop :=
  match cell c with
  | Some (_, _, v) => 0 ≤ v
  | None => True
  end.

(** The states of the refinement: the table is well typed, no row is in
    it twice, and the quantities of its lines are not negative. *)
Definition good (w : world) : Prop :=
  Table.wf w ∧ NoDup (Table.names w) ∧ is_Some (items (w_doc w)) ∧
  Forall (λ r, well_formed (line_of r)) (table w).

(** The changes of the scenario of [Lifecycle]: a submission that is
    rejected, the batch count entered, a submission that is accepted. *)
Definition scenario : list change := [Submit; BatchChanged 0 W2 4; Submit].

#[global] Instance host_eq_dec : EqDecision host.
Proof. solve_decision. Defined.

#[global] Instance change_ok_dec c : Decision (change_ok c).
Proof. unfold change_ok. destruct (cell c) as [[[? ?] ?]|]; apply _. Defined.

#[global] Instance good_dec w : Decision (good w).
Proof. unfold good. apply _. Defined.

(** ** Lines of edited rows *)

Lemma line_of_set_week r i v :
  line_of (<[week_field i := v]> r) = set_week i (Js.num_or_zero v) (line_of r).
Proof.
  destruct i; unfold line_of, set_week, update, tabulate; simpl;
    rewrite ?field_insert_eq, ?field_insert_ne by done; done.
Qed.

Lemma line_of_set_batch r i v :
  line_of (<[batch_field i := v]> r) = set_batch i (Js.num_or_zero v) (line_of r).
Proof.
  destruct i; unfold line_of, set_batch, update, tabulate; simpl;
    rewrite ?field_insert_eq, ?field_insert_ne by done; done.
Qed.

Lemma line_of_set_size r v :
  line_of (<["batch_size" := v]> r) = set_size (Js.num_or_zero v) (line_of r).
Proof.
  unfold line_of, set_size, tabulate; simpl.
  by rewrite ?field_insert_eq, ?field_insert_ne.
Qed.

(** ** The table after an edit of a row *)

Lemma table_lookup w idx cdn r :
  Table.names w !! idx = Some cdn → row_at w child_doctype cdn = Some r →
  table w !! idx = Some r.
Proof.
  intros Hidx Hr. unfold table, rows_of. fold (Table.names w).
  by rewrite list_lookup_fmap, Hidx; simpl; rewrite Hr.
Qed.

Lemma table_edit w w' idx cdn r' :
  w_doc w' = w_doc w → Table.names w !! idx = Some cdn → NoDup (Table.names w) →
  row_at w' child_doctype cdn = Some r' →
  (∀ cdn', cdn' ≠ cdn → row_at w' child_doctype cdn' = row_at w child_doctype cdn') →
  table w' = <[idx := r']> (table w).
Proof.
  intros Hdoc Hidx Hnodup Hr' Hother. unfold table, rows_of. rewrite Hdoc.
  fold (Table.names w). apply list_eq. intros j.
  destruct (decide (j = idx)) as [->|Hne].
  - rewrite list_lookup_insert_eq by (rewrite length_fmap; by eapply lookup_lt_Some).
    by rewrite list_lookup_fmap, Hidx; simpl; rewrite Hr'.
  - rewrite list_lookup_insert_ne by done. rewrite !list_lookup_fmap.
    destruct (Table.names w !! j) as [cdn'|] eqn:Hj; simpl; [|done].
    rewrite Hother; [done|]. intros ->. apply Hne. by eapply NoDup_lookup.
Qed.

Lemma abs_edit w w' idx cdn r' :
  w_doc w' = w_doc w → w_saved w' = w_saved w →
  Table.names w !! idx = Some cdn → NoDup (Table.names w) →
  row_at w' child_doctype cdn = Some r' →
  (∀ cdn', cdn' ≠ cdn → row_at w' child_doctype cdn' = row_at w child_doctype cdn') →
  abs w' = Host (<[idx := line_of r']> (lines (abs w))) (submitted (abs w)).
Proof.
  intros Hdoc Hsaved Hidx Hnodup Hr' Hother. unfold abs; simpl.
  by rewrite (table_edit w w' idx cdn r'), list_fmap_insert, Hsaved.
Qed.

(** ** The state after the event of a cell *)

Lemma cell_handler c idx f v cdn r w :
  cell c = Some (idx, f, v) → row_at w child_doctype cdn = Some r →
  trigger_child f child_doctype cdn w = Ok tt (cell_state c cdn r w).
Proof.
  intros Hc Hr. unfold trigger_child; cbn [on_row forecast_club].
  destruct c as [? i ?|? i ?|? ?|]; simplify_eq/=.
  - destruct (dispatch i) as (-> & _). by apply week_change_run.
  - destruct (dispatch i) as (_ & -> & _). by apply batch_change_run.
  - by apply Totals.calculate_totals_found.
Qed.

Lemma cell_step c idx f v jv cdn r w :
  cell c = Some (idx, f, v) → row_at w child_doctype cdn = Some r →
  step (SetCell cdn f jv) w
  = cell_state c cdn (<[f := jv]> r) (write_field child_doctype cdn f jv w).
Proof.
  intros Hc Hr. simpl. rewrite Hr.
  by rewrite (cell_handler c idx f v cdn (<[f := jv]> r))
    by eauto using row_at_write_field_eq.
Qed.

Lemma warn_locals d w : w_locals (warn d w) = w_locals w.
Proof. by destruct d. Qed.

Lemma warn_ui d w : w_ui (warn d w) = w_ui w ++ (dialog <$> option_list d).
Proof. destruct d; simpl; [done|by rewrite app_nil_r]. Qed.

Lemma cell_state_doc c cdn r w : w_doc (cell_state c cdn r w) = w_doc w.
Proof. unfold cell_state. by destruct (recomputes c), (checks c _). Qed.

Lemma cell_state_saved c cdn r w : w_saved (cell_state c cdn r w) = w_saved w.
Proof. unfold cell_state. by destruct (recomputes c), (checks c _). Qed.

Lemma cell_state_row c cdn r w :
  row_at w child_doctype cdn = Some r →
  row_at (cell_state c cdn r w) child_doctype cdn
  = Some (if recomputes c then Totals.with_totals r else r).
Proof.
  intros Hr. unfold cell_state. destruct (recomputes c).
  - apply Totals.row_at_after_totals. by rewrite (row_at_locals w) by apply warn_locals.
  - by rewrite (row_at_locals w) by apply warn_locals.
Qed.

Lemma cell_state_other c cdn r w cdn' :
  cdn' ≠ cdn →
  row_at (cell_state c cdn r w) child_doctype cdn' = row_at w child_doctype cdn'.
Proof.
  intros Hne. unfold cell_state. destruct (recomputes c).
  - rewrite Totals.row_at_after_totals_ne by congruence.
    by rewrite (row_at_locals w) by apply warn_locals.
  - by rewrite (row_at_locals w) by apply warn_locals.
Qed.

Lemma cell_state_ui c cdn r w :
  w_ui (cell_state c cdn r w)
  = w_ui w ++ (dialog <$> option_list (checks c (line_of r)))
    ++ (if recomputes c then [RefreshField "items"] else []).
Proof.
  unfold cell_state. destruct (recomputes c); simpl; rewrite warn_ui.
  - by rewrite <- app_assoc.
  - by rewrite app_nil_r.
Qed.

(** ** One change *)

Lemma host_step_cell c idx f v h :
  cell c = Some (idx, f, v) →
  host_step c h =
  match lines h !! idx with
  | Some line =>
      (Host (<[idx := (if recomputes c then recomputeTotals else id) (changed c line)]>
               (lines h)) (submitted h),
       option_list (checks c (changed c line)))
  | None => (h, [])
  end.
Proof. intros Hc. destruct c; simplify_eq/=; done. Qed.

Lemma line_of_changed c idx f v jv r :
  cell c = Some (idx, f, v) → Js.num_or_zero jv = v →
  line_of (<[f := jv]> r) = changed c (line_of r).
Proof.
  intros Hc <-. destruct c; simplify_eq/=;
    auto using line_of_set_week, line_of_set_batch, line_of_set_size.
Qed.

Lemma line_of_recomputed (b : bool) r :
  line_of (if b then Totals.with_totals r else r)
  = (if b then recomputeTotals else id) (line_of r).
Proof. destruct b; [apply line_of_with_totals|done]. Qed.

Section cell.
Context (c : change) (idx : nat) (f : string) (v : Z) (jv : Js.value).
Context (cdn : string) (r : row) (w : world).
Context (Hc : cell c = Some (idx, f, v)) (Hv : Js.num_or_zero jv = v).
Context (Hidx : Table.names w !! idx = Some cdn).
Context (Hr : row_at w child_doctype cdn = Some r).

Let w' := step (SetCell cdn f (jv)) w.
Let r' := if recomputes c then Totals.with_totals (<[f := jv]> r)
          else <[f := jv]> r.

Lemma cell_doc : w_doc w' = w_doc w.
Proof. unfold w'. rewrite (cell_step c idx f v jv cdn r) by done. by rewrite cell_state_doc. Qed.

Lemma cell_table : NoDup (Table.names w) → table w' = <[idx := r']> (table w).
Proof.
  intros Hnodup. apply (table_edit w w' idx cdn); try done; [apply cell_doc|..];
    unfold w'; rewrite (cell_step c idx f v jv cdn r) by done.
  - apply cell_state_row. by apply row_at_write_field_eq.
  - intros cdn' Hne. rewrite cell_state_other by done.
    apply row_at_write_field_ne. congruence.
Qed.

Lemma cell_abs :
  NoDup (Table.names w) →
  abs w' = (host_step c (abs w)).1 ∧
  w_ui w' = w_ui w ++ render c (host_step c (abs w)).2.
Proof.
  intros Hnodup. rewrite (host_step_cell c idx f v) by done. simpl.
  rewrite list_lookup_fmap, (table_lookup w idx cdn r) by done. simpl. split.
  - unfold abs. rewrite cell_table by done. unfold r'.
    rewrite list_fmap_insert, line_of_recomputed, (line_of_changed c idx f v) by done.
    f_equal. unfold w'. rewrite (cell_step c idx f v jv cdn r) by done.
    by rewrite cell_state_saved.
  - unfold w'. rewrite (cell_step c idx f v jv cdn r), cell_state_ui by done.
    rewrite (line_of_changed c idx f v) by done. by destruct c.
Qed.

End cell.

Lemma submit_abs w :
  is_Some (items (w_doc w)) → Forall (λ r, well_formed (line_of r)) (table w) →
  abs (step UserSave w) = (host_step Submit (abs w)).1 ∧
  w_ui (step UserSave w) = w_ui w ++ render Submit (host_step Submit (abs w)).2.
Proof.
  intros [names Hitems] Hwf. simpl. rewrite Lifecycle.save_run, Hitems.
  rewrite document_refines by done. unfold table in *. rewrite Hitems; simpl.
  destruct (DocCheck.doc_errors (rows_of w names)) as [|e errors]; simpl.
  - unfold abs, table; simpl. rewrite Hitems, map_app, app_nil_r. done.
  - unfold abs, table; simpl. rewrite Hitems. split; [done|].
    by rewrite <- list_fmap_compose, list_fmap_id.
Qed.

Lemma save_table k w : table (save k w) = table w.
Proof.
  unfold table, rows_of, row_at. by rewrite Table.save_doc, Lifecycle.save_locals.
Qed.

(** ** The invariant *)

Lemma well_formed_changed c line :
  change_ok c → well_formed line → well_formed (changed c line).
Proof.
  unfold change_ok, well_formed, weeks. rewrite !Forall_cons, !Forall_nil.
  destruct c as [? [] ?|? [] ?|? ?|], line as [[] [] ? ? ?]; simpl; intuition lia.
Qed.

Lemma well_formed_recomputed (b : bool) line :
  well_formed line → well_formed ((if b then recomputeTotals else id) line).
Proof. by destruct b. Qed.

Lemma concrete_cell c names e :
  concrete names c = Some e →
  c = Submit ∧ e = UserSave ∨
  ∃ idx f v cdn, cell c = Some (idx, f, v) ∧ names !! idx = Some cdn
                 ∧ e = SetCell cdn f (Js.VNum v).
Proof.
  unfold concrete. destruct c; simpl; intros He; simplify_eq; [..|by left];
    apply fmap_Some in He as (cdn & Hcdn & ->); right; by eexists _, _, _, _.
Qed.

Lemma good_row w idx cdn :
  good w → Table.names w !! idx = Some cdn → is_Some (row_at w child_doctype cdn).
Proof. intros (Hwf & _) Hidx. by apply (Forall_lookup_1 _ _ _ _ Hwf Hidx). Qed.

Lemma good_step c e w :
  good w → change_ok c → concrete (Table.names w) c = Some e → good (step e w).
Proof.
  intros Hw Hc [[-> ->]|(idx & f & v & cdn & Hcell & Hidx & ->)]%concrete_cell.
  - destruct Hw as (Hwf & Hnodup & Hitems & Hlines). unfold good, Table.names in *.
    change (step UserSave w) with (save None w).
    rewrite save_table, Table.save_doc.
    split_and!; try done. by apply Table.wf_save.
  - destruct (good_row w idx cdn Hw Hidx) as [r Hr].
    destruct Hw as (Hwf & Hnodup & Hitems & Hlines). unfold good, Table.names in *.
    rewrite (cell_table c idx f v (Js.VNum v) cdn r),
      (cell_doc c idx f v (Js.VNum v) cdn r) by done.
    split_and!; try done; [by apply (Table.step_wf (SetCell cdn f (Js.VNum v)))|].
    apply Forall_insert; [done|].
    rewrite line_of_recomputed, (line_of_changed c idx f v) by done.
    apply well_formed_recomputed, well_formed_changed; [done|].
    apply (Forall_lookup_1 _ _ _ _ Hlines (table_lookup w idx cdn r Hidx Hr)).
Qed.

(** ** The refinement *)

Lemma step_abs c e w :
  good w → concrete (Table.names w) c = Some e →
  abs (step e w) = (host_step c (abs w)).1 ∧
  w_ui (step e w) = w_ui w ++ render c (host_step c (abs w)).2.
Proof.
  intros Hw [[-> ->]|(idx & f & v & cdn & Hcell & Hidx & ->)]%concrete_cell.
  - destruct Hw as (_ & _ & ? & ?). by apply submit_abs.
  - destruct (good_row w idx cdn Hw Hidx) as [r Hr].
    apply (cell_abs c idx f v (Js.VNum v) cdn r); [done..|apply Hw].
Qed.

Lemma stutter_abs c w :
  concrete (Table.names w) c = None → (host_step c (abs w)).1 = abs w.
Proof.
  unfold concrete. destruct (cell c) as [[[idx f] v]|] eqn:Hc; [|done].
  intros Hidx%fmap_None. rewrite (host_step_cell c idx f v) by done. simpl.
  rewrite list_lookup_fmap. unfold table, rows_of. fold (Table.names w).
  by rewrite list_lookup_fmap, Hidx.
Qed.

Lemma form_step_abs c w :
  good w → change_ok c →
  abs (form_step c w) = (host_step c (abs w)).1 ∧ good (form_step c w).
Proof.
  intros Hw Hc. unfold form_step.
  destruct (concrete (Table.names w) c) as [e|] eqn:He.
  - split; [by apply step_abs|by apply (good_step c)].
  - by rewrite stutter_abs.
Qed.

Lemma form_run_abs cs w :
  good w → Forall change_ok cs →
  abs (form_run cs w) = host_run cs (abs w) ∧ good (form_run cs w).
Proof.
  intros Hw Hcs. revert w Hw. induction Hcs as [|c cs Hc _ IH]; intros w Hw; [done|].
  simpl. destruct (form_step_abs c w Hw Hc) as [<- Hw']. by apply IH.
Qed.

(** ** Theorems *)

(** C14. The form refines the host of the specification, change by
    change: from a state whose table is well typed, without a row twice
    and without negative quantities, the event of a change (an edit of a
    week quantity, of a batch count or of the batch size of the row at an
    index, or a save) leads to a state that stands for the state of the
    host after that change, and what the form shows in addition is the
    rendering of the diagnostics the host returns. *)
Theorem change_refines c e w :
  good w → concrete (Table.names w) c = Some e →
  abs (step e w) = (host_step c (abs w)).1 ∧
  w_ui (step e w) = w_ui w ++ render c (host_step c (abs w)).2.
Proof. apply step_abs. Qed.

Lemma change_refines_witness :
  abs (step (SetCell "a" "w2_batch" (Js.VNum 4)) Lifecycle.start)
  = (host_step (BatchChanged 0 W2 4) (abs Lifecycle.start)).1 ∧
  w_ui (step (SetCell "a" "w2_batch" (Js.VNum 4)) Lifecycle.start)
  = w_ui Lifecycle.start
    ++ render (BatchChanged 0 W2 4) (host_step (BatchChanged 0 W2 4) (abs Lifecycle.start)).2.
Proof. apply change_refines; [by_compute|done]. Defined.

(** Every session of edits and saves of the form is a run of the
    host: from a state as above and for changes whose values are not
    negative, the state the form reaches stands for the state the host
    reaches by the same changes, with the same lines and the same
    submitted documents. *)
Theorem session_refines cs w :
  good w → Forall change_ok cs → abs (form_run cs w) = host_run cs (abs w).
Proof. intros Hw Hcs. by apply form_run_abs. Qed.

Lemma session_refines_witness :
  abs (form_run scenario Lifecycle.start) = host_run scenario (abs Lifecycle.start).
Proof. apply session_refines; by_compute. Defined.

(** The states of the refinement are kept by every change: after
    any sequence of changes with values that are not negative the table
    is still well typed, has no row twice and has no negative quantity. *)
Theorem session_good cs w : good w → Forall change_ok cs → good (form_run cs w).
Proof. intros Hw Hcs. by apply form_run_abs. Qed.

Lemma session_good_witness : good (form_run scenario Lifecycle.start).
Proof. apply session_good; by_compute. Defined.

(** The refinement stops at negative quantities: on the table
    with a week quantity of -5 and no batch, the host of the
    specification accepts the submission and the form rejects it, so the
    state of the form after the save does not stand for the state of the
    host. *)
Theorem negative_submission_differs :
  Table.wf Agreement.negative_world ∧
  abs (step UserSave Agreement.negative_world)
  ≠ (host_step Submit (abs Agreement.negative_world)).1.
Proof. split; by_compute. Qed.

End Host.
