(* ===== verification/Simulation.v ===== *)
(** * Simulation: every session of the form is a run of the host

    [Host] shows that the form follows the host of the specification
    change by change.  This file shows the converse for the whole form:
    whatever happens in a session, the form is drawn, a header field is
    set, a button is pressed or clicked, the server answers, with a
    document or without, the script or the user saves, a cell of any row
    and any field is edited with any value, the state of the form stands
    for the state of the host after what the events stand for.
    [abstract] reads it off the state in which the event happens: an edit
    of a week quantity, of a batch count or of the batch size of a row of
    the table is the change of that line on which the host calls the
    engine, with the number the value stands for; a save is a
    submission; a document that comes with the answer to a call replaces
    the lines, as the editor around the host does; every other event is
    nothing to the host, and leaves the lines and the submitted
    documents as they are.  The theorem is an induction on the session
    with the invariant [Host.good]; the values entered and sent are not
    negative and the totals are not written from outside.  The same
    induction gives what the user sees: the dialogs of a session are the
    dialogs of the diagnostics the engine returns to the host, no more
    and no fewer. *)

From S2P Require Import Prelude Eff JsValue Format Client Form Framework.
From S2P Require Import Totals RowCheck DocCheck Agreement Requests Lifecycle Table Engine Host.

Import Client.
Import Framework.
Import Engine.

Module Simulation.

Import Host.

Local Open Scope Z_scope.

(** ** From events to changes *)

(** The change an edit of the field [f] of the line [idx] is. *)
Definition field_change (idx : nat) (f : string) (v : Z) : option change :=
  if decide (f = "batch_size") then Some (SizeChanged idx v)
  else match list_find (λ i, week_field i = f) weeks with
       | Some (_, i) => Some (WeekChanged idx i v)
       | None =>
           match list_find (λ i, batch_field i = f) weeks with
           | Some (_, i) => Some (BatchChanged idx i v)
           | None => None
           end
       end.

(** The change on which the host calls the engine for an event of the
    form, in the state in which the event happens. *)
Definition change_of (w : world) (e : event) : option change :=
  match e with
  | SetCell cdn f v =>
      match list_find (λ n, n = cdn) (Table.names w), row_at w child_doctype cdn with
      | Some (idx, _), Some _ => field_change idx f (Js.num_or_zero v)
      | _, _ => None
      end
  | UserSave => Some Submit
  | ScriptSave => match w_saves w with [] => None | _ => Some Submit end
  | _ => None
  end.

(** The events of the form alone: the values entered are not negative,
    the totals are not written from outside, the server sends no
    document. *)
Definition local_ok (e : event) : Prop :=
  match e with
  | SetCell _ f v => (f ∉ Totals.outputs) ∧ (0 ≤ Js.num_or_zero v)
  | Answer _ _ (Some _) => False
  | _ => True
  end.

(** What happens to the document of the host: the host calls the engine
    on a change, or the surrounding editor replaces the lines. *)
Inductive action : Type :=
| Engine (c : change)
| Reload (ls : list ForecastLine).

Definition act (a : action) (h : host) : host * list Diagnostic :=
  match a with
  | Engine c => host_step c h
  | Reload ls => (Host ls (submitted h), [])
  end.

Definition acts (l : list action) (h : host) : host :=
  foldl (λ h a, (act a h).1) h l.

(** The table of a document the server sends, read through its rows. *)
Definition snapshot_table (s : snapshot) : list row :=
  (λ cdn, default ∅ (s.2 !! cdn)) <$> default [] (items s.1).

(** A document the server may send: it has a table, with its rows and no
    others, no row twice, and no negative quantity. *)
Definition snapshot_ok (s : snapshot) : Prop :=
  Table.snapshot_wf s ∧ NoDup (default [] (items s.1)) ∧ is_Some (items s.1) ∧
  Forall (λ r, well_formed (line_of r)) (snapshot_table s) ∧
  map_Forall (λ cdn _, cdn ∈ default [] (items s.1)) s.2.

(** What an event of the form is to the host, in the state in which it
    happens: a document that comes with the answer to a call replaces
    the lines, unless the call failed. *)
Definition abstract (w : world) (e : event) : option action :=
  match e with
  | Answer n r (Some s) =>
      match w_calls w !! n with
      | Some _ => if r_exc r then None else Some (Reload (line_of <$> snapshot_table s))
      | None => None
      end
  | _ => Engine <$> change_of w e
  end.

(** The events of the simulation. *)
Definition event_ok (e : event) : Prop :=
  match e with
  | Answer _ _ (Some s) => snapshot_ok s
  | _ => local_ok e
  end.

(** What happens to the host in a session. *)
Fixpoint trace (es : list event) (w : world) : list action :=
  match es with
  | [] => []
  | e :: es => option_list (abstract w e) ++ trace es (step e w)
  end.

(** ** What the user is shown *)

(** The dialogs among what was shown. *)
Definition is_dialog (u : ui) : bool :=
  match u with
  | Msgprint _ _ _ => true
  | _ => false
  end.

Definition dialogs (w : world) : list ui := filter is_dialog (w_ui w).

(** The dialogs of the diagnostics of a change: one orange dialog for
    each warning, one red dialog for the errors of a submission. *)
Definition dialogs_of (c : change) (ds : list Diagnostic) : list ui :=
  match c with
  | Submit =>
      match ds with
      | [] => []
      | _ => [DocCheck.error_dialog (message <$> ds)]
      end
  | _ => dialog <$> ds
  end.

Definition shown (a : action) (ds : list Diagnostic) : list ui :=
  match a with
  | Engine c => dialogs_of c ds
  | Reload _ => []
  end.

(** The dialogs of the diagnostics of a run of the host. *)
Fixpoint host_dialogs (l : list action) (h : host) : list ui :=
  match l with
  | [] => []
  | a :: l => shown a (act a h).2 ++ host_dialogs l (act a h).1
  end.

(** The store holds no row object but those of the table. *)
Definition tight (w : world) : Prop :=
  map_Forall (λ cdn _, cdn ∈ Table.names w) (default ∅ (w_locals w !! child_doctype)).

(** A handler that shows no dialog. *)
Definition no_dialog (w w' : world) : Prop := dialogs w' = dialogs w.

(** A document of the server with one row, whose week 1 has no batch. *)
Definition fetched_forecast : snapshot :=
  (Doc (Js.VNum 0) None None (Some ["f"]) (Some "2026-01-01") (Some "2026-01-28")
       (Some "ACME"),
   {[ "f" := {[ "week_1" := Js.VNum 10; "batch_size" := Js.VNum 5 ]} ]}).

(** A session with every kind of event: the form is drawn, a batch count
    is entered, the items are fetched and the save the callback requests
    is made, a field of another script is cleared, a week is cleared,
    the user saves; then the dates and the company are set, the server
    answers with the forecasts, the batch count of the new row is
    entered and the user saves again. *)
Definition full_session : list event :=
  [Refresh; SetCell "a" "w2_batch" (Js.VNum 4);
   Press "get_fetch_material_request_item"; Answer 0 (Response false true) None;
   ScriptSave; SetCell "b" "note" Js.VNull; SetCell "b" "week_3" Js.VNaN; UserSave;
   SetHeader "forecast_start_date" (Some "2026-01-01");
   SetHeader "forecast_end_date" (Some "2026-01-28"); SetHeader "company" (Some "ACME");
   Answer 0 (Response false true) (Some fetched_forecast);
   UserSave; SetCell "f" "w1_batch" (Js.VNum 2); UserSave].

#[global] Instance tight_dec w : Decision (tight w).
Proof. unfold tight. apply _. Defined.

#[global] Instance local_ok_dec e : Decision (local_ok e).
Proof. destruct e as [| | | | |? ? [?|]| |]; simpl; apply _. Defined.

#[global] Instance snapshot_ok_dec s : Decision (snapshot_ok s).
Proof. unfold snapshot_ok. apply _. Defined.

#[global] Instance event_ok_dec e : Decision (event_ok e).
Proof. destruct e as [| | | | |? ? [?|]| |]; simpl; apply _. Defined.

(** ** Fields *)

Lemma field_change_cell idx f v c :
  field_change idx f v = Some c → cell c = Some (idx, f, v).
Proof.
  unfold field_change. simpl. repeat case_decide; intros [= <-]; by subst.
Qed.

Lemma field_change_ok idx f v c : field_change idx f v = Some c → 0 ≤ v → change_ok c.
Proof. intros Hc%field_change_cell Hv. unfold change_ok. by rewrite Hc. Qed.

(** ** States that stand for the same host *)

Lemma abs_fields w w' :
  w_locals w' = w_locals w → items (w_doc w') = items (w_doc w) →
  w_saved w' = w_saved w → abs w' = abs w.
Proof.
  intros Hl Hi Hs. unfold abs, table, rows_of. rewrite Hi, Hs. do 2 f_equal.
  apply list_fmap_ext. intros _ cdn _. by rewrite (row_at_locals w).
Qed.

Lemma handler_abs {A} (c : M A) w :
  guarantees Lifecycle.handler_frame c → guarantees locals_kept c →
  abs (final (c w)) = abs w.
Proof.
  intros Hf Hl. apply abs_fields; [apply Hl| |by apply Lifecycle.frame_saved].
  by rewrite Lifecycle.frame_doc.
Qed.

(** The lines of the rows decide the host. *)
Lemma abs_lines w w' :
  w_doc w' = w_doc w → w_saved w' = w_saved w →
  (∀ cdn, cdn ∈ Table.names w →
     line_of <$> row_at w' child_doctype cdn = line_of <$> row_at w child_doctype cdn) →
  Table.wf w → abs w' = abs w.
Proof.
  intros Hd Hs Hrows Hwf. unfold abs, table, rows_of. rewrite Hd, Hs. f_equal.
  rewrite <- !list_fmap_compose. apply list_fmap_ext. intros i cdn Hi. simpl.
  assert (cdn ∈ Table.names w) as Hcdn by by eapply list_elem_of_lookup_2.
  specialize (Hrows cdn Hcdn).
  destruct (Forall_lookup_1 _ _ _ _ Hwf Hi) as [r Hr]. rewrite Hr in Hrows |- *.
  destruct (row_at w' child_doctype cdn); simpl in *; congruence.
Qed.

(** ** The edit of a cell *)

Lemma handlers_None idx f v :
  field_change idx f v = None → ForecastClubItem.handlers f = None.
Proof.
  unfold field_change, ForecastClubItem.handlers. simpl. by repeat case_decide.
Qed.

Lemma line_of_other_field idx f v r jv :
  field_change idx f v = None → f ∉ Totals.outputs → line_of (<[f := jv]> r) = line_of r.
Proof.
  unfold field_change, Totals.outputs. simpl. rewrite !not_elem_of_cons.
  repeat case_decide; try done. intros _ (? & ? & _).
  unfold line_of, tabulate; simpl. by rewrite !field_insert_ne by done.
Qed.

Lemma other_step idx v cdn f jv r w :
  field_change idx f v = None → row_at w child_doctype cdn = Some r →
  step (SetCell cdn f jv) w = write_field child_doctype cdn f jv w.
Proof.
  intros Hf%handlers_None Hr. simpl. rewrite Hr.
  unfold trigger_child; cbn [on_row forecast_club]. by rewrite Hf.
Qed.

(** An edit of a cell of a row leaves the document, the tables saved
    and the other rows as they are. *)
Lemma set_cell_frame cdn f jv r w :
  row_at w child_doctype cdn = Some r →
  w_doc (step (SetCell cdn f jv) w) = w_doc w ∧
  w_saved (step (SetCell cdn f jv) w) = w_saved w ∧
  ∀ cdn', cdn' ≠ cdn →
    row_at (step (SetCell cdn f jv) w) child_doctype cdn' = row_at w child_doctype cdn'.
Proof.
  intros Hr. destruct (field_change 0 f (Js.num_or_zero jv)) as [c|] eqn:Hf.
  - apply field_change_cell in Hf. rewrite (cell_step c 0 f _ jv cdn r) by done.
    rewrite cell_state_doc, cell_state_saved. split_and!; [done..|].
    intros cdn' Hne. rewrite cell_state_other by done.
    apply row_at_write_field_ne. congruence.
  - rewrite (other_step _ _ cdn f jv r w Hf) by done. split_and!; [done..|].
    intros cdn' Hne. apply row_at_write_field_ne. congruence.
Qed.

Lemma set_cell_quiet cdn f jv w :
  local_ok (SetCell cdn f jv) → change_of w (SetCell cdn f jv) = None → Table.wf w →
  abs (step (SetCell cdn f jv) w) = abs w.
Proof.
  intros [Hf Hv] Ha Hwf. simpl in Ha.
  destruct (row_at w child_doctype cdn) as [r|] eqn:Hr; [|by simpl; rewrite Hr].
  destruct (set_cell_frame cdn f jv r w Hr) as (Hd & Hs & Hother).
  apply abs_lines; [done..| |done]. intros cdn' Hcdn'.
  destruct (decide (cdn' = cdn)) as [->|Hne]; [|by rewrite Hother].
  destruct (list_find _ _) as [[idx ?]|] eqn:Hfind;
    [|by apply list_find_None, Forall_forall with (x:=cdn) in Hfind].
  rewrite (other_step _ _ cdn f jv r w Ha), (row_at_write_field_eq _ _ _ _ _ r), Hr by done.
  simpl. by rewrite (line_of_other_field idx f (Js.num_or_zero jv)).
Qed.

(** ** The events that are no change of the host *)

#[local] Hint Resolve Lifecycle.trigger_frame Lifecycle.run_callback_frame
  Lifecycle.run_action_frame Lifecycle.trigger_rows Lifecycle.run_callback_rows
  Lifecycle.run_action_rows : fc.

Lemma trigger_field_abs f w : abs (trigger_field f w) = abs w.
Proof. unfold trigger_field. case_decide; [done|]. apply handler_abs; auto with fc. Qed.

Lemma quiet_abs e w :
  local_ok e → change_of w e = None → Table.wf w → abs (step e w) = abs w.
Proof.
  intros He Ha Hwf.
  destruct e as [|f v|f|cdn f v|label|n r [s|]| |]; try done.
  - simpl. by rewrite handler_abs by auto with fc.
  - simpl. rewrite trigger_field_abs. apply abs_fields; [done| |done].
    apply Table.items_set_header.
  - apply trigger_field_abs.
  - by apply set_cell_quiet.
  - simpl. repeat case_match; try done. apply handler_abs; auto with fc.
  - simpl. case_match; [|done]. rewrite handler_abs by auto with fc. done.
  - simpl in *. by destruct (w_saves w).
Qed.

(** ** The events that are a change *)

Lemma save_abs k w :
  is_Some (items (w_doc w)) → Forall (λ r, well_formed (line_of r)) (table w) →
  abs (save k w) = (host_step Submit (abs w)).1.
Proof.
  intros [names Hitems] Hwf. unfold abs at 1. rewrite save_table.
  rewrite Lifecycle.save_run, Hitems. simpl.
  rewrite document_refines by done. unfold table in *. rewrite Hitems in *; simpl in *.
  destruct (DocCheck.doc_errors (rows_of w names)) as [|e errors]; simpl.
  - rewrite Lifecycle.saved_state_saved. unfold abs, table. rewrite Hitems; simpl.
    by rewrite map_app.
  - unfold abs, table. by rewrite Hitems.
Qed.

Lemma change_abs e c w :
  local_ok e → change_of w e = Some c → good w →
  abs (step e w) = (host_step c (abs w)).1 ∧ change_ok c.
Proof.
  intros He Ha (Hwf & Hnodup & Hitems & Hlines).
  destruct e as [|f v|f|cdn f jv|label|n r [s|]| |]; try done; simpl in Ha.
  - destruct (list_find _ _) as [[idx ?]|] eqn:Hfind; [|done].
    apply list_find_Some in Hfind as (Hidx & -> & _).
    destruct (row_at w child_doctype cdn) as [r|] eqn:Hr; [|done].
    destruct He as [_ Hv]. split; [|by eapply field_change_ok].
    apply field_change_cell in Ha.
    by apply (cell_abs c idx f (Js.num_or_zero jv) jv cdn r w).
  - simplify_eq. split; [by apply save_abs|done].
  - destruct (w_saves w) as [|k ks] eqn:Hs; simplify_eq. split; [|done].
    simpl. rewrite Hs. by apply (save_abs (Some k) (set_saves (λ _, ks) w)).
Qed.

(** ** The invariant *)

Lemma step_items e w : local_ok e → items (w_doc (step e w)) = items (w_doc w).
Proof.
  intros He. destruct e as [|f v|f|cdn f jv|label|n r [s|]| |]; try done; simpl;
    unfold trigger_field; repeat case_match; try done;
    rewrite ?Table.save_doc, ?Lifecycle.frame_doc by auto using Lifecycle.trigger_child_frame with fc;
    try done; apply Table.items_set_header.
Qed.

Lemma host_step_well_formed c h :
  change_ok c → Forall well_formed (lines h) → Forall well_formed (lines (host_step c h).1).
Proof.
  intros Hc Hh. destruct (cell c) as [[[idx f] v]|] eqn:Hcell.
  - rewrite (host_step_cell c idx f v) by done.
    destruct (lines h !! idx) as [line|] eqn:Hline; [|done]. simpl.
    apply Forall_insert; [done|].
    apply well_formed_recomputed, well_formed_changed; [done|].
    by apply (Forall_lookup_1 _ _ _ _ Hh Hline).
  - destruct c; simplify_eq/=. by destruct (validateDocument _).
Qed.

Lemma good_lines w : good w → Forall well_formed (lines (abs w)).
Proof. intros (_ & _ & _ & H). unfold abs; simpl. by apply Forall_fmap. Qed.

Lemma local_abs e w :
  good w → local_ok e →
  abs (step e w) = from_option (λ c, (host_step c (abs w)).1) (abs w) (change_of w e)
  ∧ good (step e w).
Proof.
  intros Hw He.
  assert (abs (step e w) = from_option (λ c, (host_step c (abs w)).1) (abs w) (change_of w e)
          ∧ Forall well_formed (lines (abs (step e w)))) as [Habs Hlines].
  { destruct (change_of w e) as [c|] eqn:Ha; cbn [from_option].
    - destruct (change_abs e c w He Ha Hw) as [-> Hc].
      split; [done|]. by apply host_step_well_formed, good_lines.
    - rewrite quiet_abs by (done || apply Hw). split; [done|by apply good_lines]. }
  split; [done|]. destruct Hw as (Hwf & Hnodup & Hitems & _).
  unfold good, Table.names. rewrite step_items by done. split_and!; try done.
  - apply Table.step_wf; [|done]. by destruct e as [| | | | |? ? [?|]| |]; simpl in *.
  - unfold abs in Hlines; simpl in Hlines. exact (proj1 (Forall_fmap _ _ _) Hlines).
Qed.

(** ** A document from the server *)

Lemma table_store s w : table (store s w) = snapshot_table s.
Proof.
  unfold table, rows_of, snapshot_table, row_at, store; simpl.
  apply list_fmap_ext. intros _ cdn _. by rewrite lookup_insert_eq.
Qed.

Lemma store_good s w : snapshot_ok s → good (store s w) ∧ tight (store s w).
Proof.
  intros (Hwf & Hnodup & Hitems & Hlines & Htight). unfold good, tight, Table.names.
  rewrite table_store. split_and!; try done; [by apply Table.wf_store|].
  simpl. by rewrite lookup_insert_eq.
Qed.

Lemma abs_store s w :
  abs (store s w) = (act (Reload (line_of <$> snapshot_table s)) (abs w)).1.
Proof. unfold abs. by rewrite table_store. Qed.

Lemma good_fields w w' :
  w_locals w' = w_locals w → w_doc w' = w_doc w → good w → good w'.
Proof.
  intros Hl Hd (Hwf & Hnodup & Hitems & Hlines).
  assert (table w' = table w) as Ht.
  { unfold table, rows_of. rewrite Hd. apply list_fmap_ext. intros _ cdn _.
    by rewrite (row_at_locals w). }
  unfold good, Table.names. rewrite Hd, Ht. split_and!; try done.
  by apply (Table.wf_fields w).
Qed.

Lemma tight_fields w w' :
  w_locals w' = w_locals w → w_doc w' = w_doc w → tight w → tight w'.
Proof. unfold tight, Table.names. by intros -> ->. Qed.

Section handler.
Context {A : Type} (c : M A) (w : world).
Context (Hframe : guarantees Lifecycle.handler_frame c) (Hrows : guarantees locals_kept c).

Lemma handler_good : good w → good (final (c w)).
Proof. apply good_fields; [apply Hrows|by apply Lifecycle.frame_doc]. Qed.

Lemma handler_tight : tight w → tight (final (c w)).
Proof. apply tight_fields; [apply Hrows|by apply Lifecycle.frame_doc]. Qed.

End handler.

Lemma reload_step n r s q w :
  w_calls w !! n = Some q →
  step (Answer n r (Some s)) w =
  final (ForecastClub.run_callback (req_callback q) r
           (if r_exc r then set_calls (delete n) w else store s (set_calls (delete n) w))).
Proof. intros Hq. simpl. by rewrite Hq. Qed.

Lemma reload_abs n r s w :
  good w → snapshot_ok s →
  abs (step (Answer n r (Some s)) w)
  = from_option (λ a, (act a (abs w)).1) (abs w) (abstract w (Answer n r (Some s)))
  ∧ good (step (Answer n r (Some s)) w).
Proof.
  intros Hw Hs. cbn [abstract].
  destruct (w_calls w !! n) as [q|] eqn:Hq; [|by simpl; rewrite Hq].
  rewrite (reload_step n r s q) by done. rewrite handler_abs by auto with fc.
  destruct (r_exc r); cbn [from_option].
  - split; [done|]. by apply handler_good; auto with fc.
  - rewrite abs_store. split; [done|]. apply handler_good; auto with fc.
    by apply store_good.
Qed.

(** ** Sessions *)

Lemma event_abs e w :
  good w → event_ok e →
  abs (step e w) = from_option (λ a, (act a (abs w)).1) (abs w) (abstract w e)
  ∧ good (step e w).
Proof.
  intros Hw He. destruct e as [| | | | |n r [s|]| |]; try (by apply reload_abs).
  all: destruct (local_abs _ w Hw He) as [-> ?]; split; [|done].
  all: unfold abstract; by destruct (change_of w _).
Qed.

Lemma run_abs es w :
  good w → Forall event_ok es →
  abs (run es w) = acts (trace es w) (abs w) ∧ good (run es w).
Proof.
  intros Hw Hes. revert w Hw. induction Hes as [|e es He _ IH]; intros w Hw; [done|].
  destruct (event_abs e w Hw He) as [Habs Hw'].
  change (run (e :: es) w) with (run es (step e w)). cbn [trace].
  unfold acts. rewrite foldl_app. fold (acts (trace es (step e w))).
  destruct (IH _ Hw') as [-> ?]. split; [|done]. rewrite Habs.
  by destruct (abstract w e).
Qed.

(** ** The dialogs of a session *)

#[global] Instance no_dialog_preorder : PreOrder no_dialog.
Proof. unfold no_dialog. split; [done|]. intros ??? H1 H2. congruence. Qed.

Lemma tight_row w cdn : tight w → is_Some (row_at w child_doctype cdn) → cdn ∈ Table.names w.
Proof.
  unfold tight, row_at. intros Ht [r Hr].
  destruct (w_locals w !! child_doctype) as [t|]; simplify_eq/=. by apply (Ht cdn r).
Qed.

Lemma dialogs_app w l : dialogs (set_ui (.++ l) w) = dialogs w ++ filter is_dialog l.
Proof. unfold dialogs; simpl. apply filter_app. Qed.

Ltac dialog_fact := unfold no_dialog, dialogs; simpl; rewrite ?filter_app; simpl;
  by rewrite ?app_nil_r.

Lemma trigger_no_dialog name : name ≠ "validate" → guarantees no_dialog (trigger name).
Proof.
  intros Hname. unfold trigger; cbn [on_form forecast_club]; unfold ForecastClub.handlers.
  repeat case_decide; try done; frame dialog_fact.
Qed.

Lemma on_answer_no_dialog cb r : guarantees no_dialog (ForecastClub.run_callback cb r).
Proof. destruct cb; cbn [on_answer forecast_club]; frame dialog_fact. Qed.

Lemma on_click_no_dialog a : guarantees no_dialog (ForecastClub.run_action a).
Proof. destruct a; cbn [on_click forecast_club]; frame dialog_fact. Qed.

Lemma render_dialogs c ds : filter is_dialog (render c ds) = dialogs_of c ds.
Proof.
  assert (filter is_dialog (dialog <$> ds) = dialog <$> ds) as Hds.
  { induction ds as [|d ds IH]; [done|]. rewrite fmap_cons, filter_cons. simpl.
    by rewrite IH. }
  destruct c; simpl; rewrite ?filter_app, ?Hds; simpl; rewrite ?app_nil_r; try done.
  by destruct ds.
Qed.

Lemma trigger_field_dialogs f w : dialogs (trigger_field f w) = dialogs w.
Proof.
  unfold trigger_field. case_decide as Hf; [done|]. apply trigger_no_dialog.
  intros ->. apply Hf. by_compute.
Qed.

Lemma save_dialogs k w :
  is_Some (items (w_doc w)) → Forall (λ r, well_formed (line_of r)) (table w) →
  dialogs (save k w) = dialogs w ++ dialogs_of Submit (host_step Submit (abs w)).2.
Proof.
  intros [names Hitems] Hwf. rewrite Lifecycle.save_run, Hitems. simpl.
  rewrite document_refines by done. unfold table in *. rewrite Hitems in *; simpl in *.
  destruct (DocCheck.doc_errors (rows_of w names)) as [|e errors]; simpl.
  - destruct k as [[]|]; dialog_fact.
  - unfold dialogs; simpl. rewrite filter_app; simpl.
    by rewrite <- list_fmap_compose, list_fmap_id.
Qed.

Lemma quiet_dialogs e w :
  local_ok e → change_of w e = None → tight w → dialogs (step e w) = dialogs w.
Proof.
  intros He Ha Ht.
  destruct e as [|f v|f|cdn f jv|label|n r [s|]| |]; try done.
  - simpl. by rewrite trigger_no_dialog.
  - simpl. by rewrite trigger_field_dialogs.
  - apply trigger_field_dialogs.
  - simpl in Ha. destruct (row_at w child_doctype cdn) as [r|] eqn:Hr;
      [|by simpl; rewrite Hr].
    destruct (list_find _ _) as [[idx ?]|] eqn:Hfind.
    + by rewrite (other_step _ _ cdn f jv r w Ha).
    + apply list_find_None, Forall_forall with (x:=cdn) in Hfind; [done|].
      apply tight_row; [done|]. by rewrite Hr.
  - simpl. repeat case_match; try done. apply on_click_no_dialog.
  - simpl. case_match; [|done]. by rewrite on_answer_no_dialog.
  - simpl in *. by destruct (w_saves w).
Qed.

Lemma change_dialogs e c w :
  local_ok e → change_of w e = Some c → good w →
  dialogs (step e w) = dialogs w ++ dialogs_of c (host_step c (abs w)).2.
Proof.
  intros He Ha (Hwf & Hnodup & Hitems & Hlines).
  destruct e as [|f v|f|cdn f jv|label|n r [s|]| |]; try done; simpl in Ha.
  - destruct (list_find _ _) as [[idx ?]|] eqn:Hfind; [|done].
    apply list_find_Some in Hfind as (Hidx & -> & _).
    destruct (row_at w child_doctype cdn) as [r|] eqn:Hr; [|done].
    apply field_change_cell in Ha.
    destruct (cell_abs c idx f (Js.num_or_zero jv) jv cdn r w) as [_ Hui]; [done..|].
    unfold dialogs. by rewrite Hui, filter_app, render_dialogs.
  - simplify_eq. by apply save_dialogs.
  - destruct (w_saves w) as [|k ks] eqn:Hs; simplify_eq.
    simpl. rewrite Hs. by apply (save_dialogs (Some k) (set_saves (λ _, ks) w)).
Qed.

Lemma same_rows_locals w w' : w_locals w' = w_locals w → same_rows w w'.
Proof. intros Hl cdt cdn. by rewrite (row_at_locals w). Qed.

Lemma handler_same_rows {A} (c : M A) w w0 :
  guarantees Lifecycle.handler_frame c → same_rows w0 w → same_rows w0 (final (c w)).
Proof. intros Hc Hw. etrans; [done|]. by apply Lifecycle.frame_rows. Qed.

Lemma step_same_rows e w : local_ok e → same_rows w (step e w).
Proof.
  intros He. destruct e as [|f v|f|cdn f jv|label|n r [s|]| |]; try done; simpl;
    unfold trigger_field; repeat case_match; try done;
    try (apply handler_same_rows;
      [auto using Lifecycle.trigger_frame, Lifecycle.trigger_child_frame,
         Lifecycle.run_callback_frame, Lifecycle.run_action_frame|]);
    try done; try apply write_field_same_rows.
  all: apply same_rows_locals; by rewrite Lifecycle.save_locals.
Qed.

Lemma tight_spec w :
  tight w ↔ ∀ cdn, is_Some (row_at w child_doctype cdn) → cdn ∈ Table.names w.
Proof.
  split; [intros Ht cdn; by apply tight_row|].
  intros H cdn r Hr. apply H. unfold row_at.
  destruct (w_locals w !! child_doctype) as [t|]; simpl in *;
    [by rewrite Hr|by rewrite lookup_empty in Hr].
Qed.

Lemma local_tight e w : local_ok e → tight w → tight (step e w).
Proof.
  rewrite !tight_spec. intros He Ht cdn Hcdn. unfold Table.names.
  rewrite step_items by done. apply Ht. by apply (step_same_rows e w He).
Qed.

Lemma reload_shown n r s w :
  snapshot_ok s → tight w →
  dialogs (step (Answer n r (Some s)) w) = dialogs w ∧ tight (step (Answer n r (Some s)) w).
Proof.
  intros Hs Ht. destruct (w_calls w !! n) as [q|] eqn:Hq; [|by simpl; rewrite Hq].
  rewrite (reload_step n r s q) by done. rewrite on_answer_no_dialog. split.
  - by destruct (r_exc r).
  - apply handler_tight; auto with fc. destruct (r_exc r); [done|by apply store_good].
Qed.

Lemma event_shown e w :
  good w → tight w → event_ok e →
  dialogs (step e w)
  = dialogs w ++ from_option (λ a, shown a (act a (abs w)).2) [] (abstract w e)
  ∧ tight (step e w).
Proof.
  intros Hw Ht He. destruct e as [| | | | |n r [s|]| |].
  6: { destruct (reload_shown n r s w He Ht) as [-> ?]. split; [|done].
       cbn [abstract]. destruct (w_calls w !! n), (r_exc r); by rewrite app_nil_r. }
  all: split; [|by apply local_tight].
  all: unfold abstract; destruct (change_of w _) as [c|] eqn:Ha; cbn [fmap option_fmap option_map from_option shown].
  all: first [by apply change_dialogs | by rewrite quiet_dialogs, app_nil_r].
Qed.

Lemma run_dialogs es w :
  good w → tight w → Forall event_ok es →
  dialogs (run es w) = dialogs w ++ host_dialogs (trace es w) (abs w).
Proof.
  intros Hw Ht Hes. revert w Hw Ht.
  induction Hes as [|e es He _ IH]; intros w Hw Ht; [by rewrite app_nil_r|].
  destruct (event_abs e w Hw He) as [Habs Hw'].
  destruct (event_shown e w Hw Ht He) as [Hshown Ht'].
  change (run (e :: es) w) with (run es (step e w)). cbn [trace].
  rewrite IH, Habs, Hshown by done.
  destruct (abstract w e) as [a|]; simpl; by rewrite <- ?app_assoc, ?app_nil_r.
Qed.

(** Reading the change off the event of a change gives the change. *)
Lemma abstract_concrete c e w :
  good w → concrete (Table.names w) c = Some e → change_of w e = Some c.
Proof.
  intros Hw [[-> ->]|(idx & f & v & cdn & Hcell & Hidx & ->)]%concrete_cell; [done|].
  destruct (good_row w idx cdn Hw Hidx) as [r Hr]. simpl. rewrite Hr.
  destruct Hw as (_ & Hnodup & _).
  assert (list_find (λ n, n = cdn) (Table.names w) = Some (idx, cdn)) as ->.
  { apply list_find_Some. split_and!; [done..|]. intros j y Hj Hlt ->.
    pose proof (NoDup_lookup _ _ _ _ Hnodup Hj Hidx). lia. }
  destruct c as [? [] ?|? [] ?|? ?|]; by simplify_eq/=.
Qed.

(** ** Theorems *)

(** C5. Every session of the form is a run of the host of the
    specification: from a state whose table is well typed, without a row
    twice and without negative quantities, after any sequence of events
    (the form is drawn, a header field is set, a button is pressed or
    clicked, the server answers, with a document of such a table or with
    none, the script or the user saves, any cell is edited with a value
    that is not negative, the totals apart), the state of the form
    stands for the state the host reaches by what the events stand for:
    the engine is called on the changes of the lines and on the
    submissions, and the lines are replaced when the server sends
    them.  The lines and the submitted documents are the same. *)
Theorem form_refines_host es w :
  good w → Forall event_ok es → abs (run es w) = acts (trace es w) (abs w).
Proof. intros Hw Hes. by apply run_abs. Qed.

Lemma form_refines_host_witness :
  abs (run full_session Lifecycle.start)
  = acts (trace full_session Lifecycle.start) (abs Lifecycle.start).
Proof. apply form_refines_host; by_compute. Defined.

(** C23. What the form shows is what the host is told: in every session
    as above, from a state whose store holds the rows of the table and no
    others, the dialogs the form has shown at the end are those it had
    shown at the start followed by the dialogs of the diagnostics the
    engine returns to the host along its run, one orange dialog for each
    warning of [checkRowConsistency] and one red dialog for the errors
    of each rejected submission, in this order and with no other dialog
    between them. *)
Theorem session_dialogs es w :
  good w → tight w → Forall event_ok es →
  dialogs (run es w) = dialogs w ++ host_dialogs (trace es w) (abs w).
Proof. apply run_dialogs. Qed.

Lemma session_dialogs_witness :
  dialogs (run (UserSave :: full_session) Lifecycle.start)
  = dialogs Lifecycle.start
    ++ host_dialogs (trace (UserSave :: full_session) Lifecycle.start) (abs Lifecycle.start).
Proof. apply session_dialogs; by_compute. Defined.

(** The changes of the session with every kind of event: the batch
    count of week 2 of the first line, the submission by the script, the
    week quantity of the second line cleared, the submission by the
    user. *)
Theorem full_session_trace :
  trace full_session Lifecycle.start
  = [Engine (BatchChanged 0 W2 4); Engine Submit; Engine (WeekChanged 1 W3 0);
     Engine Submit; Reload (line_of <$> snapshot_table fetched_forecast);
     Engine Submit; Engine (BatchChanged 0 W1 2); Engine Submit].
Proof. by vm_compute. Qed.

(** The two directions meet: the change read off the event of a change
    is that change. *)
Theorem abstract_inverts_concrete c e w :
  good w → concrete (Table.names w) c = Some e → abstract w e = Some (Engine c).
Proof.
  intros Hw Hc. pose proof (abstract_concrete c e w Hw Hc) as Ha.
  destruct e as [| | | | |n r [s|]| |]; try done; unfold abstract; by rewrite Ha.
Qed.

End Simulation.
