(* ===== verification/Abstraction.v ===== *)
(** * Abstraction: rows that stand for the same line

    The contract of [Engine] speaks of lines of integers; the script
    reads row objects whose fields may be missing, [null] or [NaN], and
    which may carry fields the contract does not know.  Two rows are the
    same to the contract when they stand for the same line.  This file
    gives the setoid: the reference definitions of the validation, of
    the rule of the warning and of the totals are morphisms of this
    equivalence, so rewriting a row by an equivalent one under them is
    sound.  It also shows that every line of the contract is the line of
    a row, so that what is proved of all rows holds of all lines. *)

From S2P Require Import Prelude Eff JsValue Format Client Form Framework.
From S2P Require Import Totals RowCheck DocCheck Lifecycle Engine.

Import Client.
Import Engine.

Module Abstraction.

Local Open Scope Z_scope.

(** Two rows stand for the same line. *)
Definition same_line : relation row := λ r r', line_of r = line_of r'.

(** The row of a line: every field of the contract holds its number. *)
Definition row_of (line : ForecastLine) : row :=
  {[ "week_1" := Js.VNum (first (weekQuantity line));
     "week_2" := Js.VNum (second (weekQuantity line));
     "week_3" := Js.VNum (third (weekQuantity line));
     "week_4" := Js.VNum (fourth (weekQuantity line));
     "w1_batch" := Js.VNum (first (batchCount line));
     "w2_batch" := Js.VNum (second (batchCount line));
     "w3_batch" := Js.VNum (third (batchCount line));
     "w4_batch" := Js.VNum (fourth (batchCount line));
     "batch_size" := Js.VNum (batchSize line);
     "total_batch_qty" := Js.VNum (totalBatchQty line);
     "total_qty" := Js.VNum (totalQty line) ]}.

(** A row as the grid leaves it when a cell was cleared or never filled,
    and a row of numbers with a field of another script. *)
Definition row_with_nulls : row :=
  {[ "week_1" := Js.VNum 10; "w1_batch" := Js.VNull; "week_2" := Js.VNaN ]}.

Definition row_with_zeros : row :=
  {[ "week_1" := Js.VNum 10; "w1_batch" := Js.VNum 0; "note" := Js.VNum 7 ]}.

(** ** The equivalence *)

#[global] Instance same_line_equivalence : Equivalence same_line.
Proof.
  unfold same_line. split; [by intros ?|by intros ???|]. intros ??? H1 H2. congruence.
Qed.

#[global] Instance same_line_dec r r' : Decision (same_line r r').
Proof. unfold same_line. apply _. Defined.

#[global] Instance line_of_proper : Proper (same_line ==> eq) line_of.
Proof. by intros r r' H. Qed.

(** ** Every line is the line of a row *)

Lemma line_of_row_of line : line_of (row_of line) = line.
Proof. by destruct line as [[] [] ? ? ?]. Qed.

(** The row of the line of a row is a normal form of the row. *)
Lemma row_of_line_of r : same_line (row_of (line_of r)) r.
Proof. apply line_of_row_of. Qed.

(** ** The script respects the equivalence *)

Lemma week_error_same_line idx r r' i :
  same_line r r' →
  DocCheck.week_error idx r (mapping_of i) = DocCheck.week_error idx r' (mapping_of i).
Proof.
  intros Hr. unfold DocCheck.week_error, DocCheck.violates; simpl.
  rewrite <- !week_quantity_of, <- !batch_count_of. by rewrite Hr.
Qed.

#[global] Instance row_errors_proper idx :
  Proper (same_line ==> eq) (DocCheck.row_errors idx).
Proof.
  intros r r' Hr. unfold DocCheck.row_errors. rewrite <- mapping_of_weeks.
  rewrite <- (list_fmap_compose mapping_of (DocCheck.week_error idx r)),
    <- (list_fmap_compose mapping_of (DocCheck.week_error idx r')).
  apply (f_equal (@concat string)), list_fmap_ext. intros _ i _.
  by apply week_error_same_line.
Qed.

#[global] Instance row_valid_proper : Proper (same_line ==> iff) DocCheck.row_valid.
Proof. intros r r' Hr. rewrite <- !(DocCheck.row_errors_nil 0). by rewrite Hr. Qed.

#[global] Instance doc_errors_proper :
  Proper (Forall2 same_line ==> eq) DocCheck.doc_errors.
Proof.
  intros rows rows' H. unfold DocCheck.doc_errors. apply (f_equal (@concat string)).
  apply (imap_Forall2_ext same_line); [|done]. intros i r r' Hr.
  by apply row_errors_proper.
Qed.

Lemma warns_same_line i r r' :
  same_line r r' →
  RowCheck.warns r (week_field i) (batch_field i)
  = RowCheck.warns r' (week_field i) (batch_field i).
Proof. intros Hr. rewrite <- !lacks_batch_warns. by rewrite Hr. Qed.

#[global] Instance batch_total_proper : Proper (same_line ==> eq) Totals.batch_total.
Proof. intros r r' Hr. rewrite <- !sum_of. by rewrite Hr. Qed.

#[global] Instance quantity_total_proper : Proper (same_line ==> eq) Totals.quantity_total.
Proof.
  intros r r' Hr. unfold Totals.quantity_total. rewrite <- !sum_of.
  change (Js.num_or_zero (field r "batch_size")) with (batchSize (line_of r)).
  change (Js.num_or_zero (field r' "batch_size")) with (batchSize (line_of r')).
  by rewrite Hr.
Qed.

#[global] Instance with_totals_proper :
  Proper (same_line ==> same_line) Totals.with_totals.
Proof.
  intros r r' Hr. unfold same_line. rewrite !line_of_with_totals. by rewrite Hr.
Qed.

(** ** Theorems *)

(** Every line of the contract is the line of a row: writing the
    eleven numbers of a line into the fields of a row and reading the row
    back with [line_of] gives the line. *)
Theorem line_roundtrip line : line_of (row_of line) = line.
Proof. apply line_of_row_of. Qed.

(** [calculate_totals] respects the lines: the totals it computes
    for two rows that stand for the same line are the same numbers, and
    the rows it leaves stand for the same line again. *)
Theorem totals_respect_lines r r' :
  same_line r r' →
  Totals.batch_total r = Totals.batch_total r' ∧
  Totals.quantity_total r = Totals.quantity_total r' ∧
  same_line (Totals.with_totals r) (Totals.with_totals r').
Proof. intros Hr. by rewrite Hr. Qed.

Lemma totals_respect_lines_witness :
  Totals.batch_total row_with_nulls = Totals.batch_total row_with_zeros ∧
  Totals.quantity_total row_with_nulls = Totals.quantity_total row_with_zeros ∧
  same_line (Totals.with_totals row_with_nulls) (Totals.with_totals row_with_zeros).
Proof. apply totals_respect_lines. by_compute. Defined.

End Abstraction.
