(* ===== verification/Language.v ===== *)
(** * Language: the form in the language of the user

    Every text the script shows goes through [__], which looks it up in
    the translations loaded for the language of the user.  The other
    files study the script with no translation loaded; this file studies
    it under any dictionary [L].  Two states are the same but for their
    texts when they agree once every text is erased ([erase]): the
    titles and messages of the dialogs and alerts, the messages shown
    while a call is awaited, the labels of the buttons.  Handler by
    handler ([relates], by the structure of the handlers) and event by
    event, the script in the language [L] and the script in the language
    of the source go the same way: they return or throw together, and
    they keep the states the same but for their texts.  So the script
    is [Blocking] and [Settling] in every language, a session in any
    language has a session in the language of the source with the same
    document, rows, calls and saved tables ([source]), and conversely
    ([target]); and what was proved of all sessions in the language of
    the source, of a property of states that cannot tell texts apart,
    holds in every language: the saved tables are valid, the totals
    follow the edits, one call is awaited at a time, the form refines
    the host of the specification and shows as many dialogs as the
    engine returns diagnostics.  What the texts say is not kept: the
    row number of an error reads back from its text under the
    translations that name the row first.  The dictionaries of this
    file are examples for the witnesses. *)

From Stdlib Require Import Ascii.
From S2P Require Import Prelude Eff JsValue Format Client Form Framework.
From S2P Require Import DocCheck Requests Lifecycle Table Cascade Freeze Host Simulation.

Import Client.
Import Framework.

Module Language.

(** ** States without their texts *)

Definition erase_ui (u : ui) : ui :=
  match u with
  | Msgprint _ indicator _ => Msgprint "" indicator ""
  | ShowAlert _ indicator => ShowAlert "" indicator
  | RefreshField fieldname => RefreshField fieldname
  | ReloadDoc => ReloadDoc
  end.

Definition erase_button (b : string * action) : string * action := ("", b.2).

Definition erase_request (q : request) : request :=
  Request (req_method q) (req_freeze q) "" (req_callback q).

Definition erase (w : world) : world :=
  World (w_doc w) (w_locals w) (w_validated w) (erase_ui <$> w_ui w)
        (erase_button <$> w_buttons w) (erase_request <$> w_calls w)
        (w_saves w) (w_saved w).

(** The same state but for the texts. *)
Definition same_but_texts (w w' : world) : Prop := erase w = erase w'.

#[global] Instance same_but_texts_dec w w' : Decision (same_but_texts w w').
Proof. unfold same_but_texts. apply _. Defined.

(** Two lists of texts of the same length: the errors of a validation in
    two languages. *)
Definition as_many (l l' : list string) : Prop := length l = length l'.

Section language.
Context (L : gmap string string).

(** The button of the form in this language. *)
Definition button_in : string * action :=
  (Format.translate0 (lang:=L) "Create Material Request", CreateMaterialRequest).

(** A state of the form in the language of the source and a state of the
    form in the language [L] that are the same but for their texts, the
    buttons of each being the button of the form in its language. *)
Definition localized (w w' : world) : Prop :=
  same_but_texts w w' ∧
  Forall (.= Requests.the_button) (w_buttons w) ∧
  Forall (.= button_in) (w_buttons w').

(** An event of the form in the language of the source and an event of
    the form in the language [L] that are the same event: a click on the
    button of the one is a click on the button of the other. *)
Definition same_event (e e' : event) : Prop :=
  match e, e' with
  | Click label, Click label' => label = Requests.the_button.1 ↔ label' = button_in.1
  | _, _ => e = e'
  end.

(** The event of the form in the language [L] that does what [e] does
    in the language of the source. *)
Definition target (e : event) : event :=
  match e with
  | Click label =>
      Click (if decide (label = Requests.the_button.1) then button_in.1
             else if decide (button_in.1 = "") then "x" else "")
  | e => e
  end.

(** The event of the form in the language of the source that does what
    [e] does in the language [L]: a click on a label is a click on the
    label of the same button, or on a label that no button bears. *)
Definition source (e : event) : event :=
  match e with
  | Click label =>
      Click (if decide (label = button_in.1) then Requests.the_button.1 else "")
  | e => e
  end.

End language.

(** What the proofs below ask of a relation between a state of the form
    in the language of the source and a state of the form in the language
    [L]: related states are the same but for their texts, and the
    updates of the client keep them related. *)
Class Texts (L : gmap string string) (R : relation world) : Prop := {
  texts_same w w' : R w w' → same_but_texts w w';
  texts_write cdt cdn f v w w' :
    R w w' → R (write_field cdt cdn f v w) (write_field cdt cdn f v w');
  texts_doc f w w' : R w w' → R (set_doc f w) (set_doc f w');
  texts_validated b w w' : R w w' → R (set_validated b w) (set_validated b w');
  texts_saves f w w' : R w w' → R (set_saves f w) (set_saves f w');
  texts_saved rows w w' :
    R w w' → R (set_saved (.++ [rows]) w) (set_saved (.++ [rows]) w');
  texts_store s w w' : R w w' → R (store s w) (store s w');
  texts_answered n w w' : R w w' → R (set_calls (delete n) w) (set_calls (delete n) w');
  texts_no_buttons w w' : R w w' → R (set_buttons (λ _, []) w) (set_buttons (λ _, []) w');
  texts_ui u u' w w' :
    erase_ui u = erase_ui u' → R w w' → R (set_ui (.++ [u]) w) (set_ui (.++ [u']) w');
  texts_call q q' w w' :
    erase_request q = erase_request q' → R w w' →
    R (set_calls (.++ [q]) w) (set_calls (.++ [q']) w');
  texts_button w w' :
    R w w' →
    R (set_buttons (.++ [Requests.the_button]) w) (set_buttons (.++ [button_in L]) w');
}.

(** The text of the error of a row in the source, the key of its
    translation. *)
Definition row_error_text : string :=
  "Row {0}: {1} has value {2}, but {3} Batch is 0 or empty. Batch is required when week value is greater than 0.".

(** An example of a dictionary: it translates the label of the button, a
    title and a message. *)
Definition german : gmap string string :=
  {[ "Create Material Request" := "Materialanfrage erstellen";
     "Validation Error" := "Validierungsfehler";
     "Creating Material Request..." := "Materialanfrage wird erstellt..." ]}.

(** The texts the script passes to [__], in the order of the source. *)
Definition script_texts : list string :=
  [ "Create Material Request"; "Creating Material Request...";
    "Material Request created successfully"; "Fetching material request items...";
    "Material Request Items fetched successfully"; row_error_text;
    "Validation Error"; "Fetching sales forecasts..."; "Sales Forecasts fetched successfully";
    "{0} has a value of {1}, but {2} Batch is 0 or empty. Please enter a batch value when week value is greater than 0." ].

(** Two dictionaries that give the texts of the script the same
    translations. *)
Definition agree (L L' : gmap string string) : Prop :=
  Forall (λ txt, Format.message (lang:=L) txt = Format.message (lang:=L') txt) script_texts.

#[global] Instance agree_dec L L' : Decision (agree L L').
Proof. unfold agree. apply _. Defined.

(** The German dictionary with the translation of a text of another
    form. *)
Definition german_and_more : gmap string string :=
  <["Forecast Planned" := "Prognose geplant"]> german.

(** A translation of the error of a row that names the row first: it
    begins with the text [p], which has no placeholder, the number of
    the row, and a character that ends the number. *)
Definition names_row_first (L : gmap string string) (p : string) : Prop :=
  ∃ c q, Format.message (lang:=L) row_error_text = p +:+ "{0}" +:+ String c q ∧
         Format.brace_free p = true ∧ Format.is_digit c = false ∧ c ≠ "{"%char.

(** The row an error speaks of, read back from its text: the number
    behind [p], counted from 0 as the loop counts. *)
Definition row_behind (p e : string) : option nat :=
  s ← Format.strip_prefix p e;
  n ← Format.array_index (Format.leading_digits s);
  if decide (n = 0)%N then None else Some (N.to_nat n - 1).

(** A dictionary with a translation of the error of a row. *)
Definition german_rows : gmap string string :=
  <[row_error_text := "Zeile {0}: {1} hat den Wert {2}, aber {3} Batch ist 0 oder leer."]> german.

(** A planned document with two rows that have a quantity and no batch
    count in week 1, and a session on it in German. *)
Definition two_bad_rows : world :=
  World (Doc (Js.VNum 1) (Some "Forecast Planned") (Some [∅]) (Some ["a"; "b"])
             None None None)
        {[ child_doctype := {[ "a" := {[ "week_1" := Js.VNum 5 ]};
                               "b" := {[ "week_1" := Js.VNum 5 ]} ]} ]}
        true [] [] [] [] [].

Definition german_session : list event :=
  [Refresh; Click "Materialanfrage erstellen"; Answer 0 (Response false true) None;
   SetCell "a" "w1_batch" (Js.VNum 1); UserSave;
   SetCell "b" "w1_batch" (Js.VNum 2); UserSave].

(** ** What the relation keeps *)

Lemma same_but_texts_spec w w' :
  same_but_texts w w' ↔
  w_doc w = w_doc w' ∧ w_locals w = w_locals w' ∧ w_validated w = w_validated w' ∧
  erase_ui <$> w_ui w = erase_ui <$> w_ui w' ∧
  erase_button <$> w_buttons w = erase_button <$> w_buttons w' ∧
  erase_request <$> w_calls w = erase_request <$> w_calls w' ∧
  w_saves w = w_saves w' ∧ w_saved w = w_saved w'.
Proof.
  unfold same_but_texts, erase. split; [intros [=]; by split_and!|].
  intros (-> & -> & -> & -> & -> & -> & -> & ->). done.
Qed.

#[global] Instance same_but_texts_equivalence : Equivalence same_but_texts.
Proof.
  unfold same_but_texts. split; [by intros w|by intros w w'|].
  intros w1 w2 w3 H1 H2. by etrans.
Qed.

#[global] Instance w_doc_texts : Proper (same_but_texts ==> (=)) w_doc.
Proof. intros w w' H. by apply same_but_texts_spec in H as (? & _). Qed.

#[global] Instance w_locals_texts : Proper (same_but_texts ==> (=)) w_locals.
Proof. intros w w' H. by apply same_but_texts_spec in H as (_ & ? & _). Qed.

#[global] Instance w_validated_texts : Proper (same_but_texts ==> (=)) w_validated.
Proof. intros w w' H. by apply same_but_texts_spec in H as (_ & _ & ? & _). Qed.

#[global] Instance w_saves_texts : Proper (same_but_texts ==> (=)) w_saves.
Proof. intros w w' H. by apply same_but_texts_spec in H as (_ & _ & _ & _ & _ & _ & ? & _). Qed.

#[global] Instance w_saved_texts : Proper (same_but_texts ==> (=)) w_saved.
Proof. intros w w' H. by apply same_but_texts_spec in H as (_ & _ & _ & _ & _ & _ & _ & ?). Qed.

#[global] Instance row_at_texts : Proper (same_but_texts ==> (=) ==> (=) ==> (=)) row_at.
Proof. intros w w' H ? cdt -> ? cdn ->. unfold row_at. by rewrite H. Qed.

#[global] Instance table_texts : Proper (same_but_texts ==> (=)) table.
Proof.
  intros w w' H. unfold table, rows_of. rewrite H.
  apply list_fmap_ext. intros _ cdn _. by rewrite H.
Qed.

Lemma same_calls w w' : same_but_texts w w' → length (w_calls w) = length (w_calls w').
Proof.
  intros (_ & _ & _ & _ & _ & Hc & _)%same_but_texts_spec.
  apply (f_equal length) in Hc. by rewrite !length_fmap in Hc.
Qed.

(** ** The texts of the script *)

(** The script reads the translations of its own texts and of no
    other. *)
Lemma script_agree L L' : agree L L' → forecast_club_in L = forecast_club_in L'.
Proof.
  unfold agree, script_texts, row_error_text. rewrite !Forall_cons. intros H. destruct_and!.
  unfold forecast_club_in, ForecastClub.handlers, ForecastClubItem.handlers,
    ForecastClub.run_callback, ForecastClub.run_action, ForecastClub.run_continuation.
  autounfold with fc_unfold.
  unfold ForecastClub.row_error_message, ForecastClubItem.relationship_message,
    Format.translate, Format.translate0.
  repeat match goal with
         | H : Format.message _ = Format.message _ |- _ => rewrite H; clear H
         end.
  reflexivity.
Qed.

Lemma agree_untranslated L :
  Forall (λ txt, L !! txt = None) script_texts → agree L Format.no_messages.
Proof.
  intros H. eapply Forall_impl; [done|]. intros txt Htxt.
  by rewrite !Format.message_untranslated.
Qed.

(** The text of an error under a translation that names the row
    first. *)
Lemma row_error_message_in L p c q idx label v :
  Format.message (lang:=L) row_error_text = p +:+ "{0}" +:+ String c q →
  Format.brace_free p = true → c ≠ "{"%char →
  ForecastClub.row_error_message (lang:=L) idx label v =
  p +:+ pretty (N.of_nat (idx + 1)) +:+
  String c (Format.scan [pretty (idx + 1)%nat; label; Js.to_string v; label] None 0 q).
Proof.
  intros HL Hp Hc. unfold ForecastClub.row_error_message, Format.translate, Format.format.
  cbn [Format.nonempty]. fold row_error_text. rewrite HL.
  rewrite Format.scan_prefix by done.
  rewrite (Format.scan_placeholder _ 0 0 (String c q)). f_equal. f_equal.
  simpl. by rewrite bool_decide_eq_false_2.
Qed.

Lemma row_behind_message L p idx label v :
  names_row_first L p →
  row_behind p (ForecastClub.row_error_message (lang:=L) idx label v) = Some idx.
Proof.
  intros (c & q & HL & Hp & Hd & Hc). rewrite (row_error_message_in L p c q) by done.
  unfold row_behind. rewrite Format.strip_prefix_app. simpl.
  rewrite Format.leading_digits_pretty, Format.array_index_pretty by done.
  simpl. case_decide; [lia|]. f_equal. lia.
Qed.

(** ** The handlers go the same way *)

Section relating.
Context (L : gmap string string) (R : relation world) `{!Texts L R}.

Lemma locals_get_relates cdt cdn : relates eq R (locals_get cdt cdn) (locals_get cdt cdn).
Proof.
  intros w w' H. unfold locals_get. rewrite !run_bind; simpl.
  rewrite <- (w_locals_texts w w') by by apply (texts_same (R:=R)).
  destruct (w_locals w !! cdt) as [t|]; [destruct (t !! cdn)|]; by constructor.
Qed.

(** [relate] follows the two handlers through their common structure,
    down to the updates of the state. *)
Ltac relate_update :=
  intros ??;
  first [ apply texts_write | by apply texts_ui | by apply texts_call
        | apply texts_validated | apply texts_saves | apply texts_button ].

Ltac relate :=
  autounfold with fc_unfold;
  lazymatch goal with
  | |- relates _ _ (get ≫= _) (get ≫= _) => apply locals_get_relates
  | |- relates _ _ (_ ≫= _) (_ ≫= _) =>
      apply (relates_bind _ eq); [relate|intros ?? <-; relate]
  | |- relates _ _ (gets _) (gets _) =>
      apply relates_gets;
      let H := fresh in intros ? ? H; apply (texts_same (R:=R)) in H; by rewrite H
  | |- relates _ _ (modify _) (modify _) => apply relates_modify; relate_update
  | |- relates _ _ (mret _) (mret _) => apply relates_ret; try done
  | |- relates _ _ (throw _) (throw _) => apply relates_throw
  | |- relates _ _ (when _ _) (when _ _) => apply relates_when; relate
  | |- relates _ _ (match ?x with _ => _ end) (match ?x with _ => _ end) =>
      destruct x; relate
  | |- relates _ _ (let _ := _ in _) _ => cbv zeta; relate
  end.

Lemma child_relates f :
  option_Forall2 (λ h h', ∀ cdt cdn, relates eq R (h cdt cdn) (h' cdt cdn))
    (ForecastClubItem.handlers f) (ForecastClubItem.handlers (lang:=L) f).
Proof.
  unfold ForecastClubItem.handlers.
  repeat case_decide; constructor; intros; relate.
Qed.

Lemma check_mapping_relates r idx errors errors' m :
  as_many errors errors' →
  relates as_many R (ForecastClub.check_mapping r idx errors m)
    (ForecastClub.check_mapping (lang:=L) r idx errors' m).
Proof.
  intros Herr. relate. unfold as_many in *. rewrite !length_app. simpl. lia.
Qed.

Lemma validate_relates :
  relates eq R ForecastClub.validate (ForecastClub.validate (lang:=L)).
Proof.
  unfold ForecastClub.validate, ForecastClub.validate_week_and_batch_fields.
  apply (relates_bind _ eq); [relate|intros d ? <-].
  destruct (items d) as [rows|]; [|relate].
  apply (relates_bind _ as_many).
  - apply relates_fold_each; [|done]. intros acc acc' cdn idx Hacc.
    apply relates_fold_each; [|done]. intros. by apply check_mapping_relates.
  - intros errors errors' ->. relate.
Qed.

Lemma form_relates name :
  option_Forall2 (relates eq R)
    (ForecastClub.handlers name) (ForecastClub.handlers (lang:=L) name).
Proof.
  unfold ForecastClub.handlers.
  repeat case_decide; constructor; try apply validate_relates; relate.
Qed.

Lemma callback_relates cb r :
  relates eq R (ForecastClub.run_callback cb r) (ForecastClub.run_callback (lang:=L) cb r).
Proof. destruct cb; relate. Qed.

Lemma action_relates a :
  relates eq R (ForecastClub.run_action a) (ForecastClub.run_action (lang:=L) a).
Proof. destruct a; relate. Qed.

Lemma continuation_relates k :
  relates eq R (ForecastClub.run_continuation k)
    (ForecastClub.run_continuation (lang:=L) k).
Proof. destruct k; relate. Qed.

(** ** The events go the same way *)

Lemma trigger_relates name :
  relates eq R (trigger name) (trigger (script:=forecast_club_in L) name).
Proof.
  unfold trigger; cbn [on_form forecast_club forecast_club_in].
  destruct (form_relates name) as [h h' H|]; [exact H|by apply relates_ret].
Qed.

Lemma trigger_child_relates f cdt cdn :
  relates eq R (trigger_child f cdt cdn) (trigger_child (script:=forecast_club_in L) f cdt cdn).
Proof.
  unfold trigger_child; cbn [on_row forecast_club forecast_club_in].
  destruct (child_relates f) as [h h' H|]; [apply H|by apply relates_ret].
Qed.

Lemma save_related k w w' : R w w' → R (save k w) (save (script:=forecast_club_in L) k w').
Proof.
  intros H. unfold save.
  destruct (trigger_relates "validate" _ _ (texts_validated true w w' H))
    as [[] [] t t' _ Ht|e t t' Ht]; [|done].
  pose proof (texts_same t t' Ht) as Hsame.
  rewrite <- (table_texts t t' Hsame), <- (w_validated_texts t t' Hsame).
  destruct (w_validated t); [|done]. apply (texts_saved (table t)) in Ht.
  destruct k as [k|]; [|done]. by apply (relates_final _ eq); [apply continuation_relates|].
Qed.

Lemma trigger_field_related f w w' :
  R w w' → R (trigger_field f w) (trigger_field (script:=forecast_club_in L) f w').
Proof.
  intros H. unfold trigger_field. case_decide; [done|].
  by apply (relates_final _ eq); [apply trigger_relates|].
Qed.

Lemma answer_related n r sync w w' :
  R w w' → R (step (Answer n r sync) w) (step (script:=forecast_club_in L) (Answer n r sync) w').
Proof.
  intros H. cbn [step].
  pose proof (texts_same w w' H) as (_ & _ & _ & _ & _ & Hc & _)%same_but_texts_spec.
  apply (f_equal (.!! n)) in Hc. rewrite !list_lookup_fmap in Hc.
  destruct (w_calls w !! n) as [q|], (w_calls w' !! n) as [q'|]; try done.
  injection Hc as [= _ _ <-]. apply (relates_final _ eq); [apply callback_relates|].
  apply (texts_answered n) in H. destruct sync as [s|]; [|done].
  destruct (r_exc r); [done|]. by apply texts_store.
Qed.

(** An event that is no click. *)
Lemma event_related e w w' :
  (∀ label, e ≠ Click label) → R w w' → R (step e w) (step (script:=forecast_club_in L) e w').
Proof.
  intros He H. pose proof (texts_same w w' H) as Hsame.
  destruct e; try (by apply answer_related); cbn [step].
  - apply (relates_final _ eq); [apply trigger_relates|by apply texts_no_buttons].
  - by apply trigger_field_related, texts_doc.
  - by apply trigger_field_related.
  - rewrite <- Hsame. destruct (row_at w child_doctype cdn); [|done].
    apply (relates_final _ eq); [apply trigger_child_relates|by apply texts_write].
  - by destruct (He label).
  - by apply save_related.
  - rewrite <- Hsame. destruct (w_saves w) as [|k ks]; [done|].
    by apply save_related, texts_saves.
Qed.

End relating.

(** ** Two relations that the updates keep *)

#[global] Instance same_but_texts_texts L : Texts L same_but_texts.
Proof.
  split; intros; try done;
    repeat match goal with H : same_but_texts _ _ |- _ =>
      apply same_but_texts_spec in H end;
    apply same_but_texts_spec; destruct_and?; unfold write_field, store; simpl;
    rewrite ?fmap_app, ?list_fmap_delete; simpl; split_and?; try done;
    try change (erase_button (button_in L)) with (erase_button Requests.the_button);
    congruence.
Qed.

Lemma localized_same L w w' : localized L w w' → same_but_texts w w'.
Proof. by intros (? & _). Qed.

#[global] Instance localized_texts L : Texts L (localized L).
Proof.
  split; [apply localized_same|..]; intros;
    match goal with H : localized _ _ _ |- _ => destruct H as (Hw & Hs & Ht) end;
    (split;
      [ first [ by apply (texts_write (L:=L)) | by apply (texts_doc (L:=L))
              | by apply (texts_validated (L:=L)) | by apply (texts_saves (L:=L))
              | by apply (texts_saved (L:=L)) | by apply (texts_store (L:=L))
              | by apply (texts_answered (L:=L)) | by apply (texts_no_buttons (L:=L))
              | by apply (texts_ui (L:=L)) | by apply (texts_call (L:=L))
              | by apply (texts_button (L:=L)) ]
      | simpl; rewrite ?Forall_app, ?Forall_singleton; by repeat split ]).
Qed.

(** ** What holds in the language of the source holds in every language *)

Lemma guarantees_in {A} (F : relation world) (c c' : Client.M A) :
  Proper (same_but_texts ==> same_but_texts ==> iff) F →
  relates eq same_but_texts c c' → guarantees F c → guarantees F c'.
Proof.
  intros HF Hc Hg w. apply (HF w w (reflexivity _) (final (c w)) (final (c' w))); [|apply Hg].
  by apply (relates_final _ eq).
Qed.

#[global] Instance saved_kept_texts :
  Proper (same_but_texts ==> same_but_texts ==> iff) saved_kept.
Proof. intros w1 w1' H1 w2 w2' H2. unfold saved_kept. by rewrite H1, H2. Qed.

#[global] Instance pending_texts k : Proper (same_but_texts ==> (=)) (pending k).
Proof.
  intros w w' H. unfold pending. rewrite (w_saves_texts w w' H).
  by rewrite (same_calls w w' H).
Qed.

#[global] Instance asks_nothing_texts k :
  Proper (same_but_texts ==> same_but_texts ==> iff) (asks_nothing k).
Proof. intros w1 w1' H1 w2 w2' H2. unfold asks_nothing. by rewrite H1, H2. Qed.

#[global] Instance asks_at_most_texts k :
  Proper (same_but_texts ==> same_but_texts ==> iff) (asks_at_most k).
Proof. intros w1 w1' H1 w2 w2' H2. unfold asks_at_most. by rewrite H1, H2. Qed.

Section every_language.
Context (L : gmap string string).

(** [carry] carries a frame condition of a handler from the language
    of the source to the language [L]: the two handlers are related by
    [rel], and [source] proves the condition in the language of the
    source. *)
Ltac carry rel source := eapply guarantees_in; [apply _|apply rel, _|source].

#[global] Instance blocking_in : Blocking (script:=forecast_club_in L) DocCheck.row_valid.
Proof.
  split.
  - intros w a w' Hrun Hv.
    pose proof (trigger_relates L same_but_texts "validate" w w (reflexivity _)) as Hsim.
    rewrite Hrun in Hsim. inversion Hsim as [a0 ? t ? _ Ht Hsource|]; subst.
    rewrite <- (table_texts t w' Ht). apply (blocking_validate w a0); [done|].
    by rewrite (w_validated_texts t w' Ht).
  - intros name. carry trigger_relates ltac:(apply blocking_form).
  - intros f cdt cdn. carry trigger_child_relates ltac:(apply blocking_row).
  - intros cb r. carry callback_relates ltac:(apply (blocking_answer (script:=forecast_club))).
  - intros a. carry action_relates ltac:(apply (blocking_click (script:=forecast_club))).
  - intros k. carry continuation_relates ltac:(apply (blocking_saved (script:=forecast_club))).
Qed.

#[global] Instance settling_in : Settling (script:=forecast_club_in L) 1.
Proof.
  split.
  - intros cb r. carry callback_relates ltac:(apply (settling_answer (script:=forecast_club))).
  - carry trigger_relates ltac:(apply settling_validate).
  - intros k. carry continuation_relates ltac:(apply (settling_saved (script:=forecast_club))).
Qed.

(** ** A click on the button *)

(** A click finds the button of the form or nothing. *)
Lemma find_button (b : string * action) label bs :
  Forall (.= b) bs →
  list_find (λ b, b.1 = label) bs =
  if decide (label = b.1) then (λ b, (0, b)) <$> head bs else None.
Proof.
  intros Hbs. induction Hbs as [|b' bs' -> _ IH]; [by case_decide|].
  cbn [list_find head fmap option_fmap option_map]. rewrite IH.
  by repeat case_decide; simplify_eq.
Qed.

Lemma same_buttons w w' :
  same_but_texts w w' → length (w_buttons w) = length (w_buttons w').
Proof.
  intros (_ & _ & _ & _ & Hb & _)%same_but_texts_spec.
  apply (f_equal length) in Hb. by rewrite !length_fmap in Hb.
Qed.

Lemma click_localized label label' w w' :
  localized L w w' → (label = Requests.the_button.1 ↔ label' = (button_in L).1) →
  localized L (step (Click label) w) (step (script:=forecast_club_in L) (Click label') w').
Proof.
  intros H Hl. pose proof H as (Hb%same_buttons & Hs & Ht). cbn [step].
  rewrite (find_button _ _ _ Hs), (find_button _ _ _ Ht).
  destruct (w_buttons w) as [|b bs], (w_buttons w') as [|b' bs']; try done;
    repeat case_decide; try done; try tauto.
  apply Forall_cons_1 in Hs as [-> _]. apply Forall_cons_1 in Ht as [-> _].
  cbn [head fmap option_fmap option_map].
  by apply (relates_final _ eq); [apply action_relates, _|].
Qed.

Lemma step_localized e e' w w' :
  same_event L e e' → localized L w w' →
  localized L (step e w) (step (script:=forecast_club_in L) e' w').
Proof.
  intros He H. destruct e, e'; try done; try (by apply click_localized);
    simpl in He; simplify_eq; by apply event_related; [apply _|..].
Qed.

Lemma run_localized es es' w w' :
  Forall2 (same_event L) es es' → localized L w w' →
  localized L (run es w) (run (script:=forecast_club_in L) es' w').
Proof.
  intros Hes. revert w w'.
  induction Hes as [|e e' es es' He _ IH]; intros w w' H; [done|].
  simpl. by apply IH, step_localized.
Qed.

Lemma source_same e : same_event L (source L e) e.
Proof. destruct e; simpl; try done. by case_decide. Qed.

Lemma target_same e : same_event L e (target L e).
Proof.
  destruct e; simpl; try done. case_decide; [done|]. split; [done|].
  case_decide; congruence.
Qed.

Lemma localized_start w : w_buttons w = [] → localized L w w.
Proof. intros Hb. unfold localized. by rewrite Hb. Qed.

End every_language.

(** ** What holds of the sessions in the language of the source

    A property of states that cannot tell texts apart and that holds at
    the end of every session in the language of the source holds at the
    end of every session in any language. *)

Section transfer.
Context (L : gmap string string).

Lemma run_in_source es w w' :
  localized L w w' →
  same_but_texts (run (source L <$> es) w) (run (script:=forecast_club_in L) es w').
Proof.
  intros H. apply (localized_same L), run_localized; [|done].
  apply Forall2_fmap_l, Forall_Forall2_diag, Forall_forall. intros e _. apply source_same.
Qed.

Lemma run_in_language es w w' :
  localized L w w' →
  same_but_texts (run es w) (run (script:=forecast_club_in L) (target L <$> es) w').
Proof.
  intros H. apply (localized_same L), run_localized; [|done].
  apply Forall2_fmap_r, Forall_Forall2_diag, Forall_forall. intros e _. apply target_same.
Qed.

Lemma source_Forall (P : event → Prop) es :
  (∀ e, P (source L e) ↔ P e) → Forall P es → Forall P (source L <$> es).
Proof.
  intros HP Hes. apply Forall_fmap. eapply Forall_impl; [done|]. intros e. apply HP.
Qed.

Lemma source_event_ok e : Simulation.event_ok (source L e) ↔ Simulation.event_ok e.
Proof. by destruct e. Qed.

Lemma source_keeps_totals e : Lifecycle.keeps_totals (source L e) ↔ Lifecycle.keeps_totals e.
Proof. by destruct e. Qed.

Lemma source_event_wf e : Table.event_wf (source L e) ↔ Table.event_wf e.
Proof. by destruct e. Qed.

End transfer.

#[global] Instance abs_texts : Proper (same_but_texts ==> (=)) Host.abs.
Proof. intros w w' H. unfold Host.abs. by rewrite (table_texts w w' H), (w_saved_texts w w' H). Qed.

#[global] Instance totals_ok_texts : Proper (same_but_texts ==> iff) Lifecycle.totals_ok.
Proof.
  intros w w' H. unfold Lifecycle.totals_ok.
  by setoid_rewrite (λ cdn, row_at_texts w w' H _ _ eq_refl cdn cdn eq_refl).
Qed.

Lemma erase_dialogs us :
  length (filter (λ u, Simulation.is_dialog u) (erase_ui <$> us)) =
  length (filter (λ u, Simulation.is_dialog u) us).
Proof.
  induction us as [|u us IH]; [done|]. rewrite fmap_cons, !filter_cons.
  destruct u; simpl; by rewrite IH.
Qed.

#[global] Instance dialogs_texts :
  Proper (same_but_texts ==> (=)) (λ w, length (Simulation.dialogs w)).
Proof.
  intros w w' (_ & _ & _ & Hui & _)%same_but_texts_spec. unfold Simulation.dialogs.
  by rewrite <- (erase_dialogs (w_ui w)), Hui, erase_dialogs.
Qed.

#[global] Instance wf_texts : Proper (same_but_texts ==> iff) Table.wf.
Proof.
  intros w w' H. unfold Table.wf, Table.names. rewrite (w_doc_texts w w' H).
  by setoid_rewrite (λ cdn, row_at_texts w w' H _ _ eq_refl cdn cdn eq_refl).
Qed.

#[global] Instance frozen_texts : Proper (same_but_texts ==> iff) Freeze.frozen.
Proof.
  intros w w' (_ & _ & _ & _ & _ & Hc & _)%same_but_texts_spec. unfold Freeze.frozen.
  by rewrite <- (Exists_fmap erase_request Freeze.freezes (w_calls w)), Hc, Exists_fmap.
Qed.

#[global] Instance single_flight_texts : Proper (same_but_texts ==> iff) Freeze.single_flight.
Proof.
  intros w w' H. unfold Freeze.single_flight. rewrite (same_calls w w' H).
  apply same_but_texts_spec in H as (_ & _ & _ & _ & _ & Hc & _).
  by rewrite <- (Forall_fmap erase_request Freeze.freezes (w_calls w)), Hc, Forall_fmap.
Qed.

#[global] Instance due_texts e : Proper (same_but_texts ==> iff) (due e).
Proof.
  intros w w' H. destruct e; simpl; try done.
  - by rewrite (same_calls w w' H).
  - by rewrite (w_saves_texts w w' H).
Qed.

Lemma enabled_in_source L e w w' :
  same_but_texts w w' → Freeze.enabled e w' → Freeze.enabled (source L e) w.
Proof.
  intros H. unfold Freeze.enabled.
  replace (Freeze.user_event (source L e)) with (Freeze.user_event e) by by destruct e.
  destruct (Freeze.user_event e); [by rewrite H|].
  destruct e; cbn [source]; try done; intros ?; by apply (due_texts _ w w' H).
Qed.

Lemma possible_in_source L es w w' :
  localized L w w' → Freeze.possible (script:=forecast_club_in L) es w' →
  Freeze.possible (source L <$> es) w.
Proof.
  revert w w'. induction es as [|e es IH]; intros w w' H; [done|]. intros [He Hes].
  split; [by apply (enabled_in_source L e w w'), He; apply (localized_same L)|].
  apply (IH _ (step (script:=forecast_club_in L) e w')); [|done].
  by apply step_localized; [apply source_same|].
Qed.

(** ** Theorems *)

(** The session in German: the button and the title of the dialog are
    in German, the error of row 2, which has no translation, is in the
    language of the source; the first save is rejected, the second is
    accepted. *)
Example german_session_shown :
  let w := run (script:=forecast_club_in german) german_session two_bad_rows in
  w_buttons w = [("Materialanfrage erstellen", CreateMaterialRequest)] ∧
  w_ui w =
    [ShowAlert "Material Request created successfully" "green"; ReloadDoc;
     RefreshField "items";
     Msgprint "Validierungsfehler" "red"
       "Row 2: Week 1 has value 5, but Week 1 Batch is 0 or empty. Batch is required when week value is greater than 0.";
     RefreshField "items"] ∧
  length (w_saved w) = 1.
Proof. cbv zeta. split_and!; by vm_compute. Qed.

(** C17. The form behaves the same in every language: whatever the
    translations loaded, a session of the form in the language of the
    user and the session of the same events of the form in the language
    of the source, a click on the button of the one being a click on the
    button of the other, end in states that are the same but for their
    texts: the same document, rows, flag, calls awaited (method, freeze
    and callback), saves requested and tables saved, and as many dialogs,
    alerts and buttons of the same kinds in the same order. *)
Theorem sessions_same_but_texts (L : gmap string string) es es' w w' :
  Forall2 (same_event L) es es' → localized L w w' →
  localized L (run es w) (run (script:=forecast_club_in L) es' w').
Proof. apply run_localized. Qed.

Lemma sessions_same_but_texts_witness :
  localized german (run (source german <$> german_session) two_bad_rows)
    (run (script:=forecast_club_in german) german_session two_bad_rows).
Proof.
  apply sessions_same_but_texts; [|by apply localized_start].
  apply Forall2_fmap_l, Forall_Forall2_diag, Forall_forall. intros e _. apply source_same.
Defined.

(** C19. No session saves an invalid table, in any language: whatever the
    translations loaded, and whatever the events and their order, every
    table a save of the form has sent to the server is one in which no
    week of any row has a quantity without a batch count. *)
Theorem saved_valid_in_every_language (L : gmap string string) w0 w :
  reachable (script:=forecast_club_in L) w0 w →
  Lifecycle.saved_valid w0 → Lifecycle.saved_valid w.
Proof. apply (blocking_sessions (script:=forecast_club_in L) DocCheck.row_valid). Qed.

Lemma saved_valid_in_every_language_witness :
  Lifecycle.saved_valid (run (script:=forecast_club_in german) german_session two_bad_rows).
Proof.
  apply (saved_valid_in_every_language german two_bad_rows); [|by constructor].
  apply reachable_run. by exists german_session.
Defined.

(** Every cascade of the form ends, in any language: a sequence of
    events that are due is at most as long as twice the calls plus the
    saves that were pending when it began. *)
Theorem cascade_terminates_in_every_language (L : gmap string string) w es w' :
  cascade (script:=forecast_club_in L) w es w' → length es + pending 1 w' ≤ pending 1 w.
Proof. apply (cascade_length (script:=forecast_club_in L) 1). Qed.

Lemma cascade_terminates_in_every_language_witness :
  length [Answer 0 (Response false true) None]
  + pending 1 (run (script:=forecast_club_in german) (take 3 german_session) two_bad_rows)
  ≤ pending 1 (run (script:=forecast_club_in german) (take 2 german_session) two_bad_rows).
Proof.
  apply (cascade_terminates_in_every_language german), cascade_run.
  split; [by_compute|done].
Defined.

(** The form refines the host of the specification in every language:
    the lines and the submitted documents at the end of a session in any
    language are those of the run of the host by the changes the events
    stand for. *)
Theorem refines_host_in_every_language (L : gmap string string) es w w' :
  localized L w w' → Host.good w → Forall Simulation.event_ok es →
  Host.abs (run (script:=forecast_club_in L) es w') =
  Simulation.acts (Simulation.trace (source L <$> es) w) (Host.abs w).
Proof.
  intros H Hw Hes. rewrite <- (run_in_source L es w w' H).
  apply Simulation.run_abs; [done|]. apply source_Forall; [apply source_event_ok|done].
Qed.

(** The totals follow the edits in every language. *)
Theorem totals_ok_in_every_language (L : gmap string string) es w w' :
  localized L w w' → Forall Lifecycle.keeps_totals es → Lifecycle.totals_ok w →
  Lifecycle.totals_ok (run (script:=forecast_club_in L) es w').
Proof.
  intros H Hes Hw. rewrite <- (run_in_source L es w w' H).
  apply Lifecycle.run_totals_ok; [|done].
  apply source_Forall; [apply source_keeps_totals|done].
Qed.

(** One call at a time in every language: in a session the frozen page
    allows the form awaits at most one call, and that call freezes the
    page. *)
Theorem single_flight_in_every_language (L : gmap string string) es w w' :
  localized L w w' → Freeze.possible (script:=forecast_club_in L) es w' →
  Freeze.single_flight w' → Freeze.single_flight (run (script:=forecast_club_in L) es w').
Proof.
  intros H Hes Hw. rewrite <- (run_in_source L es w w' H).
  apply Freeze.possible_single_flight; [by apply (possible_in_source L es w w')|].
  by rewrite (localized_same L w w' H).
Qed.

(** As many dialogs as diagnostics, in every language: the form shows
    one dialog for each warning and each rejected submission of the run
    of the host. *)
Theorem dialogs_in_every_language (L : gmap string string) es w w' :
  localized L w w' → Host.good w → Simulation.tight w → Forall Simulation.event_ok es →
  length (Simulation.dialogs (run (script:=forecast_club_in L) es w')) =
  length (Simulation.dialogs w')
  + length (Simulation.host_dialogs (Simulation.trace (source L <$> es) w) (Host.abs w)).
Proof.
  intros H Hw Ht Hes.
  rewrite <- (dialogs_texts _ _ (run_in_source L es w w' H)).
  rewrite <- (dialogs_texts w w' (localized_same L w w' H)).
  rewrite Simulation.run_dialogs, length_app; [done..|].
  apply source_Forall; [apply source_event_ok|done].
Qed.

(** C26. The script depends on the translations loaded through the ten
    texts it passes to [__] and through nothing else: under two
    dictionaries that give these texts the same translations every
    session of the form ends in the same state, texts included. *)
Theorem depends_on_its_texts (L L' : gmap string string) es w :
  agree L L' →
  run (script:=forecast_club_in L) es w = run (script:=forecast_club_in L') es w.
Proof. intros H. by rewrite (script_agree L L' H). Qed.

Lemma depends_on_its_texts_witness :
  run (script:=forecast_club_in german) german_session two_bad_rows =
  run (script:=forecast_club_in german_and_more) german_session two_bad_rows.
Proof. apply depends_on_its_texts. by_compute. Defined.

(** A dictionary that has none of the texts of the script leaves the
    form in the language of the source. *)
Theorem untranslated_is_source (L : gmap string string) :
  Forall (λ txt, L !! txt = None) script_texts → forecast_club_in L = forecast_club.
Proof. intros H. apply (script_agree L Format.no_messages), agree_untranslated, H. Qed.

(** C21. The row number of an error reads back in every language that
    names the row first: when the translation of the text of the error
    begins with a text without placeholder, then [{0}], then a character
    that is neither a digit nor a brace, the numeral behind that text in
    the error of [validate_week_and_batch_fields] is the index of the
    row plus one, whatever the rest of the translation, the label and
    the quantity.  The text of the source, which begins with [Row {0}:],
    is such a translation of itself. *)
Theorem row_reads_back_in (L : gmap string string) p idx label week_value :
  names_row_first L p →
  row_behind p (ForecastClub.row_error_message (lang:=L) idx label week_value) = Some idx.
Proof. apply row_behind_message. Qed.

Lemma row_reads_back_in_witness :
  row_behind "Zeile " (ForecastClub.row_error_message (lang:=german_rows) 41 "Week 3" (Js.VNum 7))
  = Some 41.
Proof.
  apply row_reads_back_in. exists ":"%char, " {1} hat den Wert {2}, aber {3} Batch ist 0 oder leer.".
  by split_and!.
Defined.

(** In the language of the source the number is behind [Row]. *)
Example row_reads_back_in_source idx label week_value :
  row_behind "Row " (ForecastClub.row_error_message idx label week_value) = Some idx.
Proof.
  apply (row_behind_message Format.no_messages).
  eexists ":"%char, _. by split_and!.
Qed.

End Language.
